(* ===== verification/_CoqProject ===== *)
-Q . S2P
Prelude.v
PyStr.v
Regex.v
RegexParse.v
PyRe.v
World.v
LintState.v
Cleanse.v
Expr.v
FileInfo.v
IncludeState.v
FunctionState.v
FileChecks.v
LineChecks.v
Nesting.v
Spacing.v
Braces.v
CheckMacros.v
Style.v
Includes.v
Language.v
WhatYouUse.v
Driver.v
CommandLine.v
Reports.v
Returns.v
