(* ===== verification/Prelude.v ===== *)
(** * cpplint: a verification development

    The program verified here is src/cpplint.py, the style checker of the
    repository: it reads C++ files, strips comments and strings, walks over the
    lines with some sixty checks, and prints and counts what it finds.  (The C++
    sources of the repository, its build files and the vendored GoogleTest are
    not part of this development.)

    ** How the program works, and where each part is modelled

    [main] parses the command line, calls [ProcessFile] on each file and exits
    with status 1 when something was counted.  [ProcessFile] reads a file,
    splits it into lines and hands them to [ProcessFileData], which checks the
    whole file, cleanses the lines and calls [ProcessLine] on each of them; that
    updates the three states a file is checked with (includes, function length,
    nesting) and runs the line checks.  Every check reports to the handler
    [error] it is given; [main]'s handler is [Error], which drops suppressed
    and filtered reports, prints the others and counts them.

    - Prelude: characters, strings, exceptions, results, Python's indexing and
      slicing.  PyStr: the methods of [str].
    - Regex, RegexParse, PyRe: Python's [re].  Every pattern of the program is
      written as in the source and compiled by the parser of RegexParse when
      the file is checked; Regex has the backtracking matcher, a declarative
      meaning of patterns and the proof that they agree, and static analyses
      (what a match needs, how much it consumes, where a group begins, which
      texts a group can have) that the later files use to reason about searches.
    - World: the module globals of the program as the record [world], the
      programs [M] that read and change it, write to stderr and raise, with
      [wp], [preserves] (a program keeps an invariant, however it ends) and
      [returns] (a program raises nothing).
    - LintState: [_ERROR_CATEGORIES], [ParseNolintSuppressions],
      [class _CppLintState] and its wrappers, [_ShouldPrintError], [Error], the
      cache of compiled patterns; [Reporter] and [Returning] are the interfaces
      a check's handler offers to the theorems about the checks.
    - Cleanse: [IsCppString], [CleanseRawStrings], [RemoveMultiLineComments],
      [CleanseComments], [class CleansedLines] (the record [cleansed_lines]).
    - Expr: [CloseExpression], [ReverseCloseExpression], the searches for
      matching angle brackets, [_GetTextInside].
    - FileInfo: the class [Env] of what the program asks of its surroundings,
      os.path, [class FileInfo], [_DropCommonSuffixes], [_IsTestFilename],
      [FilesBelongToSameModule].
    - IncludeState, FunctionState, Nesting: [class _IncludeState],
      [class _FunctionState], [class _NestingState] with [_BlockInfo] and its
      subclasses and [_PreprocessorInfo]; an object is a record, its subclass
      an inductive type, a method a function from the state to the next one.
    - FileChecks: copyright, header guard, bad characters, the last newline.
      LineChecks, Spacing, Braces, CheckMacros, Style, Includes, Language,
      WhatYouUse: the checks of lines, each with all its branches and messages.
    - Driver: [ProcessLine], [ProcessFileData], [ProcessFile],
      [ParseArguments] with getopt, [main].  CommandLine: that a command line
      which spells out every setting is read back.
    - Reports: that every check keeps what its handler keeps, and what a whole
      run writes, counts and exits with.  Returns: that every check returns.

    ** What the theorems show

    - The whole run ([main_exit_status]): what is written to stderr is, for each
      file in order, that it is skipped or ignored, or the reports made on it
      and that it is done, then the counts and their total; every report was
      allowed by the filters and the verbosity, the total is their number, and
      the exit status is 1 if and only if there is one.
      Files that cannot be read or have another extension are left alone; a
      verbosity that is no number is a raised ValueError; every setting spelled
      out on the command line is read back as it was.
    - No failure ([ProcessFileData_returns], [main_only_exits]): whatever the
      files hold, every check of every line returns, and [main] ends with its
      exit status and nothing else.  The conditions are those the code needs: a
      verbosity of 0 or more, a root flag that is a pattern, and no ".svn" in the
      root directory of the file system; for the first and the last, other
      theorems show how the code fails without them.
    - Reports: a NOLINT comment suppresses its category, or all, on its line and
      an unknown one is reported; the last filter that applies decides; what is
      printed is what is counted, by category and in sum; a filter without sign
      is refused, and the pattern cache changes no result.
    - Cleansing: the lines keep their numbers; the lines of a multi-line comment
      are blanked out; a line comment is cut, a plain line is untouched.
    - Brackets: the closing bracket found is the matching one, across lines; the
      search backward undoes the search forward; the angle bracket searches end;
      [_GetTextInside] returns a well-nested text.
    - Nesting: at each #else the stack is the one before the #if, at the #endif
      the one after the first branch; [Update] always returns.
    - File names: the repository's directory is found and removed; the two cases
      where the code goes wrong are theorems.
    - Includes, functions, macros, files: a canonical order of includes is
      accepted; the lines of a function's body are counted up to its closing
      brace, long functions are reported from the documented threshold on (and
      again at later closing braces, a flaw of the code); a
      suggested CHECK macro tests the same condition; CheckCheck always returns;
      a good header guard is accepted; a missing last newline is reported; the
      headers a file includes are never asked for.

    ** Parameters and fuel

    What lies outside the program is a field of [Env] (current directory, file
    system, Unicode tables, iteration order of dictionaries), with the laws of
    [EnvLaws], which state what Python documents; [small_env] is an instance.
    The error handler of a check is an argument, as in the source.  Python's
    loops are structural where they run over a list.  The others have fuel, and
    running out of it is the exception [OutOfFuel]: the matcher's repetitions
    (the length of what is left: a round that consumes nothing is the last,
    shown enough by [m_complete]); [remove_comments_loop] (one more than the
    number of lines); the angle bracket searches ([angle_fuel], the characters
    and lines ahead); [parse_check] and the two loops of [Update] (one more than
    the length of the line); [svn_root] and [vcs_root] (one more than the length
    of the path, enough for the second, and for the first unless the root of the
    file system holds ".svn").  The theorems named above show that these never
    run out.

    ** What is not modelled

    The encoding of stderr, the text of exceptions raised by Python itself
    (other than the program's own messages), and the interpreter's limits.  The
    searches the regular expression engine may give up on for time are not
    limited here.  A root flag outside the part of the pattern language that
    RegexParse reads counts as malformed.  Of the spacing, brace and language
    checks it is shown what they keep and that they return; which lines each of
    them complains about is stated by the definitions only. *)
From Stdlib Require Export Ascii ZArith NArith Lia.
From stdpp Require Export base tactics option list numbers gmap strings pretty.

#[export] Set Default Goal Selector "!".
#[export] Set Warnings "-clear-no-such-hyp".

(** ** Characters and strings

    A Python (unicode) string is the list of its code points. *)

Abbreviation str := (list N).

(** [u "..."] is the Python literal ['...'].  A Rocq literal here never holds
    a double quote: [u] reads a backquote as one (the program's text contains
    no backquote). *)
Definition u (s : string) : str :=
  (λ a, let n := Ascii.N_of_ascii a in if (n =? 96)%N then 34%N else n)
    <$> String.list_ascii_of_string s.
Arguments u _%_string.

(** [ch "c"] is the code point of a one-character literal. *)
Definition ch (a : Ascii.ascii) : N := Ascii.N_of_ascii a.
Arguments ch _%_char.

(** The characters the literals cannot spell. *)
Definition c_dquote : N := 34.
Definition c_tab : N := 9.
Definition c_nl : N := 10.
Definition c_cr : N := 13.
Definition nl : str := [c_nl].

(** ** Exceptions and results *)

(** The Python exceptions the modelled code can raise; [OutOfFuel] is not one:
    it stands for a loop still running when its fuel ends. *)
Inductive exn : Type :=
| IndexError | KeyError | AttributeError | TypeError | AssertionError
| ReError | OutOfFuel
| ValueError (msg : str)
| SystemExit (code : Z) (msg : option str).

Inductive res (A : Type) : Type :=
| Ok (a : A)
| Raise (e : exn).
Arguments Ok {A} a.
Arguments Raise {A} e.

#[export] Instance exn_eq_dec : EqDecision exn.
Proof. solve_decision. Defined.
#[export] Instance res_eq_dec {A} `{EqDecision A} : EqDecision (res A).
Proof. solve_decision. Defined.

#[export] Instance res_ret : MRet res := λ A a, Ok a.
#[export] Instance res_bind : MBind res := λ A B f m,
  match m with Ok a => f a | Raise e => Raise e end.
#[export] Instance res_fmap : FMap res := λ A B f m,
  match m with Ok a => Ok (f a) | Raise e => Raise e end.

(** An option as a result: what the code does with a missing value. *)
Definition or_raise {A} (e : exn) (o : option A) : res A :=
  match o with Some a => Ok a | None => Raise e end.

Definition is_ok {A} (r : res A) : Prop := ∃ a, r = Ok a.

Lemma res_bind_Ok {A B} (m : res A) (f : A → res B) b :
  m ≫= f = Ok b ↔ ∃ a, m = Ok a ∧ f a = Ok b.
Proof.
  destruct m as [a|e]; simpl; split.
  - intros H. exists a. done.
  - intros (a' & [= <-] & H). exact H.
  - intros H. discriminate H.
  - intros (a' & H & _). discriminate H.
Qed.

Lemma or_raise_Ok {A} e (o : option A) a : or_raise e o = Ok a ↔ o = Some a.
Proof. destruct o; simpl; naive_solver. Qed.

Lemma is_ok_Ok {A} (a : A) : is_ok (Ok a).
Proof. by exists a. Qed.

Lemma is_ok_or_raise {A} e (o : option A) : is_Some o → is_ok (or_raise e o).
Proof. intros [a ->]. by exists a. Qed.

(** Folds that may raise, as a Python [for] loop does. *)
Fixpoint foldl_res {A B} (f : A → B → res A) (a : A) (l : list B) : res A :=
  match l with
  | [] => Ok a
  | b :: l' => f a b ≫= λ a', foldl_res f a' l'
  end.

(** ** Indexing and slicing as Python does it *)

(** [l[i]]: a negative index counts from the end. *)
Definition py_nth {A} (l : list A) (i : Z) : res A :=
  let j := if (i <? 0)%Z then (i + Z.of_nat (length l))%Z else i in
  if (j <? 0)%Z then Raise IndexError
  else or_raise IndexError (l !! Z.to_nat j).

(** A slice bound, clamped into [0..len]. *)
Definition py_bound (n : nat) (i : Z) : nat :=
  let j := if (i <? 0)%Z then (i + Z.of_nat n)%Z else i in
  Z.to_nat (Z.min (Z.max j 0) (Z.of_nat n)).

(** [l[a:b]], [l[a:]] and [l[:b]]. *)
Definition py_slice {A} (l : list A) (a b : Z) : list A :=
  let lo := py_bound (length l) a in
  let hi := py_bound (length l) b in
  take (hi - lo) (drop lo l).
Definition py_from {A} (l : list A) (a : Z) : list A :=
  drop (py_bound (length l) a) l.
Definition py_to {A} (l : list A) (b : Z) : list A :=
  take (py_bound (length l) b) l.

Lemma py_nth_nat {A} (l : list A) (i : nat) :
  py_nth l (Z.of_nat i) = or_raise IndexError (l !! i).
Proof.
  unfold py_nth. destruct (Z.ltb_spec (Z.of_nat i) 0); [lia|].
  destruct (Z.ltb_spec (Z.of_nat i) 0); [lia|]. by rewrite Nat2Z.id.
Qed.

Lemma py_nth_Ok {A} (l : list A) (i : Z) :
  (0 <= i < Z.of_nat (length l))%Z →
  ∃ x, py_nth l i = Ok x ∧ l !! Z.to_nat i = Some x.
Proof.
  intros Hi. destruct (lookup_lt_is_Some_2 l (Z.to_nat i)) as [x Hx]; [lia|].
  exists x. split; [|done]. rewrite <- (Z2Nat.id i) at 1 by lia.
  by rewrite py_nth_nat, Hx.
Qed.

Lemma py_bound_nat n (i : nat) : py_bound n (Z.of_nat i) = Nat.min i n.
Proof. unfold py_bound. destruct (Z.ltb_spec (Z.of_nat i) 0); lia. Qed.

Lemma py_from_nat {A} (l : list A) (i : nat) : py_from l (Z.of_nat i) = drop i l.
Proof.
  unfold py_from. rewrite py_bound_nat.
  destruct (Nat.le_ge_cases i (length l)) as [H|H].
  - by rewrite Nat.min_l.
  - rewrite Nat.min_r by done. by rewrite !drop_ge.
Qed.

Lemma py_to_nat {A} (l : list A) (i : nat) : py_to l (Z.of_nat i) = take i l.
Proof.
  unfold py_to. rewrite py_bound_nat.
  destruct (Nat.le_ge_cases i (length l)) as [H|H].
  - by rewrite Nat.min_l.
  - rewrite Nat.min_r by done. by rewrite !take_ge.
Qed.

(** ** Tactics *)

(** Case on the boolean tests of the goal, turning each into its proposition. *)
Ltac bool_cases :=
  repeat match goal with
  | |- context [Z.eqb ?a ?b] => destruct (Z.eqb_spec a b)
  | |- context [Z.ltb ?a ?b] => destruct (Z.ltb_spec a b)
  | |- context [Z.leb ?a ?b] => destruct (Z.leb_spec a b)
  | |- context [N.eqb ?a ?b] => destruct (N.eqb_spec a b)
  | |- context [Nat.eqb ?a ?b] => destruct (Nat.eqb_spec a b)
  end.

(** Take a successful chain of binds apart. *)
Ltac inv_res :=
  repeat match goal with
  | H : (_ ≫= _) = Ok _ |- _ =>
      apply res_bind_Ok in H; destruct H as (? & ? & H)
  | H : or_raise _ _ = Ok _ |- _ => apply or_raise_Ok in H
  | H : Ok _ = Ok _ |- _ => injection H as H
  | H : mret _ = Ok _ |- _ => injection H as H
  | H : Raise _ = Ok _ |- _ => discriminate H
  end.
