(* ===== verification/PyStr.v ===== *)
(** * Python string methods

    The methods of [str] and [unicode] the program calls, on lists of code
    points, with the lemmas that say what they compute: [find] returns the
    first occurrence, [replace] and [count] scan left to right without
    overlap, [strip] removes exactly the blank ends. *)
From S2P Require Import Prelude.

(** ** Character classes *)

Definition in_range (lo hi c : N) : bool := (lo <=? c)%N && (c <=? hi)%N.

Definition is_digit (c : N) : bool := in_range 48 57 c.
Definition is_upper (c : N) : bool := in_range 65 90 c.
Definition is_lower (c : N) : bool := in_range 97 122 c.
Definition is_alpha (c : N) : bool := is_upper c || is_lower c.
Definition is_alnum (c : N) : bool := is_digit c || is_alpha c.
Definition to_lower (c : N) : N := if is_upper c then (c + 32)%N else c.
Definition to_upper (c : N) : N := if is_lower c then (c - 32)%N else c.

(** White space of byte strings, of [string.whitespace] and of [\s]. *)
Definition is_space (c : N) : bool := in_range 9 13 c || (c =? 32)%N.

(** White space of unicode strings ([unicode.isspace], [strip], [split]). *)
Definition is_uspace (c : N) : bool :=
  is_space c || in_range 28 31 c || existsb (N.eqb c)
    [133; 160; 5760; 6158; 8232; 8233; 8239; 8287; 12288]%N
  || in_range 8192 8202 c.

(** ** Equality and containment tests *)

Definition str_eqb (s t : str) : bool := bool_decide (s = t).
Definition str_in (s : str) (l : list str) : bool := bool_decide (s ∈ l).
Definition char_in (c : N) (s : str) : bool := existsb (N.eqb c) s.

Fixpoint starts_with (p s : str) : bool :=
  match p, s with
  | [], _ => true
  | c :: p', d :: s' => (c =? d)%N && starts_with p' s'
  | _ :: _, [] => false
  end.

(** [s.startswith(p)] and [s.endswith(p)]. *)
Definition startswith (s p : str) : bool := starts_with p s.
Definition endswith (s p : str) : bool := starts_with (rev p) (rev s).

Lemma starts_with_spec p s : starts_with p s = true ↔ ∃ r, s = p ++ r.
Proof.
  revert s. induction p as [|c p IH]; intros s; simpl; [split; [by exists s|done]|].
  destruct s as [|d s]; simpl.
  - split; [done|]. intros [r Hr]. discriminate Hr.
  - rewrite andb_true_iff, N.eqb_eq, IH. split.
    + intros [-> [r ->]]. by exists r.
    + intros [r [= -> ->]]. split; [done|]. by exists r.
Qed.

Lemma starts_with_app p r : starts_with p (p ++ r) = true.
Proof. apply starts_with_spec. eauto. Qed.

Lemma startswith_spec s p : startswith s p = true ↔ ∃ r, s = p ++ r.
Proof. apply starts_with_spec. Qed.

Lemma endswith_spec s p : endswith s p = true ↔ ∃ r, s = r ++ p.
Proof.
  unfold endswith. rewrite starts_with_spec. split; intros [r Hr].
  - exists (rev r). rewrite <- (rev_involutive s), Hr, rev_app_distr.
    by rewrite rev_involutive.
  - exists (rev r). by rewrite Hr, rev_app_distr.
Qed.

Lemma str_eqb_eq s t : str_eqb s t = true ↔ s = t.
Proof. apply bool_decide_eq_true. Qed.

Lemma char_in_spec c s : char_in c s = true ↔ c ∈ s.
Proof.
  unfold char_in. rewrite existsb_exists. split.
  - intros (x & Hx & ->%N.eqb_eq). by apply list_elem_of_In.
  - intros H. exists c. split; [by apply list_elem_of_In|]. apply N.eqb_refl.
Qed.

(** ** Searching *)

(** Position of the first occurrence. *)
Fixpoint find_at (sub s : str) : option nat :=
  if starts_with sub s then Some 0
  else match s with [] => None | _ :: t => S <$> find_at sub t end.

(** Position of the last occurrence. *)
Fixpoint rfind_at (sub s : str) : option nat :=
  match match s with [] => None | _ :: t => S <$> rfind_at sub t end with
  | Some i => Some i
  | None => if starts_with sub s then Some 0 else None
  end.

Definition pos_or_m1 (o : option nat) : Z :=
  match o with Some i => Z.of_nat i | None => (-1)%Z end.

(** [s.find(sub)], [s.find(sub, start)], [s.rfind(sub)]. *)
Definition find (s sub : str) : Z := pos_or_m1 (find_at sub s).
Definition find_from (s sub : str) (start : Z) : Z :=
  let j := if (start <? 0)%Z then Z.max 0 (start + Z.of_nat (length s)) else start in
  if (Z.of_nat (length s) <? j)%Z then (-1)%Z
  else pos_or_m1 ((λ i, Z.to_nat j + i) <$> find_at sub (drop (Z.to_nat j) s)).
Definition rfind (s sub : str) : Z := pos_or_m1 (rfind_at sub s).

(** [sub in s]. *)
Definition contains (s sub : str) : bool :=
  match find_at sub s with Some _ => true | None => false end.

(** The scan behind [count] and [replace]: [skip] characters of the occurrence
    just met are still to be passed over. *)
Fixpoint count_go (sub : str) (skip : nat) (s : str) : nat :=
  match s with
  | [] => 0
  | _ :: t =>
      match skip with
      | S k => count_go sub k t
      | 0 => if starts_with sub s then S (count_go sub (length sub - 1) t)
             else count_go sub 0 t
      end
  end.

Fixpoint replace_go (old new : str) (skip : nat) (s : str) : str :=
  match s with
  | [] => []
  | c :: t =>
      match skip with
      | S k => replace_go old new k t
      | 0 => if starts_with old s then new ++ replace_go old new (length old - 1) t
             else c :: replace_go old new 0 t
      end
  end.

(** [s.count(sub)], [s.count(sub, 0, stop)] and [s.replace(old, new)], for the
    non-empty [sub] and [old] the program uses. *)
Definition count (s sub : str) : Z := Z.of_nat (count_go sub 0 s).
Definition count_to (s sub : str) (stop : Z) : Z := count (py_to s stop) sub.
Definition replace (s old new : str) : str := replace_go old new 0 s.

(** ** Stripping *)

Fixpoint drop_while (f : N → bool) (s : str) : str :=
  match s with
  | [] => []
  | c :: t => if f c then drop_while f t else s
  end.
Definition lstrip_by (f : N → bool) (s : str) : str := drop_while f s.
Definition rstrip_by (f : N → bool) (s : str) : str := rev (drop_while f (rev s)).
Definition strip_by (f : N → bool) (s : str) : str := rstrip_by f (lstrip_by f s).

(** On unicode strings, and [b...] on byte strings. *)
Definition strip : str → str := strip_by is_uspace.
Definition lstrip : str → str := lstrip_by is_uspace.
Definition rstrip : str → str := rstrip_by is_uspace.
Definition bstrip : str → str := strip_by is_space.

(** [s.isspace()]: non-empty and all white space. *)
Definition isspace (s : str) : bool :=
  match s with [] => false | _ => forallb is_uspace s end.

(** ** Splitting and joining *)

(** [s.split(sep)] for a non-empty separator: every piece is kept. *)
Fixpoint split_go (sep : str) (skip : nat) (acc s : str) : list str :=
  match s with
  | [] => [rev acc]
  | c :: t =>
      match skip with
      | S k => split_go sep k acc t
      | 0 => if starts_with sep s
             then rev acc :: split_go sep (length sep - 1) [] t
             else split_go sep 0 (c :: acc) t
      end
  end.
Definition split (s sep : str) : list str := split_go sep 0 [] s.

(** [s.split()]: the maximal runs of non-blank characters. *)
Fixpoint words_go (acc s : str) : list str :=
  match s with
  | [] => match acc with [] => [] | _ => [rev acc] end
  | c :: t =>
      if is_uspace c
      then match acc with [] => words_go [] t | _ => rev acc :: words_go [] t end
      else words_go (c :: acc) t
  end.
Definition split_ws (s : str) : list str := words_go [] s.

(** [sep.join(l)]. *)
Fixpoint join (sep : str) (l : list str) : str :=
  match l with
  | [] => []
  | [s] => s
  | s :: l' => s ++ sep ++ join sep l'
  end.

Definition lower (s : str) : str := to_lower <$> s.
Definition upper (s : str) : str := to_upper <$> s.

(** Decimal representation, as [str(n)] and ['%d' % n]. *)
Definition fmt_d (z : Z) : str := u (pretty z).

(** ** What the scans compute *)

(** [sub] occurs in [s] at position [i]. *)
Definition occurs_at (sub s : str) (i : nat) : Prop :=
  ∃ a b, s = a ++ sub ++ b ∧ length a = i.

Lemma occurs_at_cons sub c s i : occurs_at sub (c :: s) (S i) ↔ occurs_at sub s i.
Proof.
  split.
  - intros ([|x a] & b & Heq & Hl); simplify_eq/=. by exists a, b.
  - intros (a & b & -> & <-). by exists (c :: a), b.
Qed.

Lemma occurs_at_0 sub s : occurs_at sub s 0 ↔ starts_with sub s = true.
Proof.
  rewrite starts_with_spec. split.
  - intros ([|x a] & b & Heq & Hl); [|discriminate]. by exists b.
  - intros [r ->]. by exists [], r.
Qed.

Lemma find_at_Some sub s i :
  find_at sub s = Some i ↔ occurs_at sub s i ∧ ∀ j, j < i → ¬ occurs_at sub s j.
Proof.
  revert i. induction s as [|c t IH]; intros i; simpl.
  - destruct (starts_with sub []) eqn:E.
    + pose proof (proj2 (occurs_at_0 sub []) E). split.
      * intros [= <-]. split; [done|lia].
      * intros [_ Hmin]. destruct i; [done|]. exfalso. apply (Hmin 0); [lia|done].
    + split; [done|]. intros [(a & b & Heq & <-) _].
      destruct a, sub; simplify_eq/=.
  - destruct (starts_with sub (c :: t)) eqn:E.
    + pose proof (proj2 (occurs_at_0 sub (c :: t)) E). split.
      * intros [= <-]. split; [done|lia].
      * intros [_ Hmin]. destruct i; [done|]. exfalso. apply (Hmin 0); [lia|done].
    + assert (H0 : ¬ occurs_at sub (c :: t) 0) by (rewrite occurs_at_0, E; done).
      destruct i as [|i].
      * split; [by destruct (find_at sub t)|]. by intros [? _].
      * transitivity (find_at sub t = Some i).
        { destruct (find_at sub t); simpl; split; congruence. }
        rewrite IH, occurs_at_cons. split; intros [H1 H2]; (split; [done|]); intros j Hj.
        -- destruct j; [done|]. rewrite occurs_at_cons. apply H2. lia.
        -- rewrite <- (occurs_at_cons sub c). apply H2. lia.
Qed.

Lemma find_at_None sub s : find_at sub s = None ↔ ∀ i, ¬ occurs_at sub s i.
Proof.
  split.
  - induction s as [|c t IH]; simpl.
    + destruct (starts_with sub []) eqn:E; [done|]. intros _ i (a & b & Heq & _).
      destruct a, sub; simplify_eq/=.
    + destruct (starts_with sub (c :: t)) eqn:E; [done|].
      intros H%fmap_None [|i].
      * by rewrite occurs_at_0, E.
      * rewrite occurs_at_cons. by apply IH.
  - intros H. destruct (find_at sub s) as [i|] eqn:E; [|done].
    apply find_at_Some in E as [E _]. by destruct (H i).
Qed.

Lemma occurs_at_drop sub s i : i ≤ length s →
  occurs_at sub s i ↔ starts_with sub (drop i s) = true.
Proof.
  intros Hi. rewrite starts_with_spec. split.
  - intros (a & b & -> & <-). exists b. by rewrite drop_app_length.
  - intros [r Hr]. exists (take i s), r. rewrite <- Hr, take_drop, length_take. split; [done|lia].
Qed.

Lemma contains_spec s sub : contains s sub = true ↔ ∃ a b, s = a ++ sub ++ b.
Proof.
  unfold contains. destruct (find_at sub s) as [i|] eqn:E.
  - apply find_at_Some in E as [(a & b & -> & _) _]. naive_solver.
  - split; [done|]. intros (a & b & ->).
    apply find_at_None with (i := length a) in E. destruct E. by exists a, b.
Qed.

Lemma find_nonneg s sub : (0 <= find s sub)%Z ↔ contains s sub = true.
Proof. unfold find, contains, pos_or_m1. destruct (find_at sub s); split; try done; intros; lia. Qed.

Lemma find_at_bound sub s i : find_at sub s = Some i → i + length sub ≤ length s.
Proof.
  intros [(a & b & -> & <-) _]%find_at_Some. rewrite !length_app.
  rewrite Nat.add_assoc. apply Nat.le_add_r.
Qed.

(** A string without the separator is its own split; joining undoes splitting. *)
Lemma split_go_nonempty sep k acc s : split_go sep k acc s ≠ [].
Proof.
  revert k acc. induction s as [|c t IH]; intros [|k] acc; simpl; try done.
  by destruct (starts_with sep (c :: t)).
Qed.

Lemma join_cons sep s l : l ≠ [] → join sep (s :: l) = s ++ sep ++ join sep l.
Proof. by destruct l. Qed.

Lemma join_split_go sep s : sep ≠ [] →
  ∀ k acc, k ≤ length s →
    join sep (split_go sep k acc s) = rev acc ++ drop k s.
Proof.
  intros Hsep. induction s as [|c t IH]; intros k acc Hk; simpl in *.
  - by rewrite drop_nil, app_nil_r.
  - destruct k as [|k]; simpl.
    + destruct (starts_with sep (c :: t)) eqn:E.
      * apply starts_with_spec in E as [r Hr].
        rewrite join_cons by apply split_go_nonempty.
        destruct sep as [|d sep]; [done|]. simplify_eq/=.
        rewrite Nat.sub_0_r, IH by (rewrite length_app; lia). simpl.
        by rewrite drop_app_length.
      * rewrite IH by lia. simpl. by rewrite <- app_assoc.
    + apply IH. lia.
Qed.

Lemma join_split s sep : sep ≠ [] → join sep (split s sep) = s.
Proof. intros H. unfold split. rewrite join_split_go by (done || lia). done. Qed.

(** [drop_while] removes a run of characters satisfying the test. *)
Lemma drop_while_spec f s :
  ∃ a, s = a ++ drop_while f s ∧ forallb f a = true ∧
       match drop_while f s with [] => True | c :: _ => f c = false end.
Proof.
  induction s as [|c t (a & Ha & Hf & Hh)]; simpl; [by exists []|].
  destruct (f c) eqn:E.
  - exists (c :: a). simpl. rewrite E. split_and!; [by f_equal|done|done].
  - by exists [].
Qed.

Lemma length_rstrip_by f s : length (rstrip_by f s) ≤ length s.
Proof.
  unfold rstrip_by. rewrite length_rev.
  destruct (drop_while_spec f (rev s)) as (a & Ha & _).
  apply (f_equal length) in Ha. rewrite length_rev, length_app in Ha. lia.
Qed.

Lemma rstrip_by_prefix f s : ∃ b, s = rstrip_by f s ++ b.
Proof.
  unfold rstrip_by. destruct (drop_while_spec f (rev s)) as (a & Ha & _).
  exists (rev a). by rewrite <- rev_app_distr, <- Ha, rev_involutive.
Qed.

(** ** Replacing and lower-casing *)

(** Replacing what does not occur changes nothing; replacing one character by
    another works on each character. *)
Lemma replace_go_absent old new s : (∀ i, ¬ occurs_at old s i) → replace_go old new 0 s = s.
Proof.
  induction s as [|c t IH]; intros H; [done|]. cbn [replace_go].
  destruct (starts_with old (c :: t)) eqn:E.
  - destruct (H 0). by apply occurs_at_0.
  - f_equal. apply IH. intros i Hi. apply (H (S i)). by apply occurs_at_cons.
Qed.

Lemma replace_char a b s :
  replace s [a] [b] = (λ c, if (c =? a)%N then b else c) <$> s.
Proof.
  unfold replace. induction s as [|c t IH]; [done|]. simpl. rewrite (N.eqb_sym a c).
  destruct (c =? a)%N; simpl; by rewrite IH.
Qed.

Lemma occurs_at_char sub s i c : occurs_at sub s i → c ∈ sub → c ∈ s.
Proof. intros (a & b & -> & _) H. rewrite !elem_of_app. auto. Qed.

Lemma replace_go_elem old new k s x : x ∈ replace_go old new k s → x ∈ s ∨ x ∈ new.
Proof.
  revert k. induction s as [|c t IH]; intros k.
  { intros H. by apply not_elem_of_nil in H. }
  cbn [replace_go]. destruct k as [|k].
  - destruct (starts_with old (c :: t)); rewrite ?elem_of_app, !elem_of_cons.
    + intros [H|H%IH]; naive_solver.
    + intros [->|H%IH]; naive_solver.
  - intros H%IH. rewrite elem_of_cons. naive_solver.
Qed.

(** Every character is in the ASCII range. *)
Definition ascii (s : str) : Prop := ∀ c, c ∈ s → (c < 128)%N.

Lemma to_lower_idemp c : to_lower (to_lower c) = to_lower c.
Proof.
  unfold to_lower, is_upper, in_range.
  destruct (N.leb_spec 65 c), (N.leb_spec c 90); simpl;
    repeat match goal with |- context [N.leb ?a ?b] => destruct (N.leb_spec a b) end; simpl; lia.
Qed.

Lemma to_lower_props c : (c < 128)%N → c ≠ 45%N → (to_lower c < 128)%N ∧ to_lower c ≠ 45%N.
Proof.
  unfold to_lower, is_upper, in_range.
  destruct (N.leb_spec 65 c), (N.leb_spec c 90); simpl; lia.
Qed.

(** The last occurrence of a character. *)
Lemma rfind_char_None c s : rfind_at [c] s = None ↔ c ∉ s.
Proof.
  induction s as [|d t IH]; simpl; [split; [by intros _ ?%not_elem_of_nil|done]|].
  rewrite not_elem_of_cons, <- IH.
  destruct (rfind_at [c] t); simpl; [naive_solver|].
  destruct (N.eqb_spec c d); simpl; naive_solver.
Qed.

Lemma rfind_char_Some c s i : rfind_at [c] s = Some i →
  ∃ a b, s = a ++ c :: b ∧ length a = i ∧ c ∉ b.
Proof.
  revert i. induction s as [|d t IH]; intros i H; [discriminate H|]. simpl in H.
  destruct (rfind_at [c] t) as [k|] eqn:E; simpl in H.
  - injection H as <-. destruct (IH k eq_refl) as (a & b & -> & <- & Hb).
    by exists (d :: a), b.
  - apply rfind_char_None in E. destruct (N.eqb_spec c d) as [->|]; simplify_eq/=.
    by exists [], t.
Qed.

Lemma rstrip_by_spec f s :
  ∃ b, s = rstrip_by f s ++ b ∧ forallb f b = true ∧
    (rstrip_by f s = [] ∨ ∃ a c, rstrip_by f s = a ++ [c] ∧ f c = false).
Proof.
  unfold rstrip_by. destruct (drop_while_spec f (rev s)) as (a & Ha & Hf & Hh).
  exists (rev a). split_and!.
  - by rewrite <- rev_app_distr, <- Ha, rev_involutive.
  - apply forallb_forall. intros x Hx%in_rev. by apply (proj1 (forallb_forall f a)).
  - destruct (drop_while f (rev s)) as [|c t]; [by left|]. right. by exists (rev t), c.
Qed.
