(* ===== verification/Regex.v ===== *)
(** * Regular expressions: the backtracking matcher of Python's [re]

    The abstract syntax of the patterns the program uses, the matcher (greedy
    and lazy repetition, groups, back references, lookahead, anchors, word
    boundaries, tried in the order of Python's engine), a declarative relation
    [den] and the theorem that the matcher finds a match exactly when [den]
    has one. *)
From S2P Require Import Prelude PyStr.

(** ** Syntax *)

Inductive cclass := CDigit | CSpace | CWord.
Inductive set_item :=
| SChar (c : N) | SRange (lo hi : N) | SClass (neg : bool) (k : cclass).

(** One-character tests: a literal, [.], a set or class. *)
Inductive cset := CLit (c : N) | CDot | CSet (neg : bool) (items : list set_item).

Inductive regex :=
| Eps
| Chars (cs : cset)
| Bol | Eol | WordB
| Seq (r1 r2 : regex)
| Alt (r1 r2 : regex)
| Rep (greedy : bool) (lo : nat) (hi : option nat) (r : regex)
| Grp (n : nat) (r : regex)
| Bref (n : nat)
| Look (positive : bool) (r : regex).

(** [re.I] and [re.M]. *)
Record flags := Flags { f_icase : bool; f_multi : bool }.

(** ** Character tests *)

(** [\w] without [re.UNICODE]. *)
Definition is_word (c : N) : bool := is_alnum c || (c =? 95)%N.

Definition class_test (k : cclass) (c : N) : bool :=
  match k with CDigit => is_digit c | CSpace => is_space c | CWord => is_word c end.

Definition item_test (fl : flags) (c : N) (i : set_item) : bool :=
  match i with
  | SChar d => if f_icase fl then (to_lower c =? to_lower d)%N else (c =? d)%N
  | SRange lo hi =>
      in_range lo hi c ||
      (f_icase fl && (in_range lo hi (to_lower c) || in_range lo hi (to_upper c)))
  | SClass neg k => xorb neg (class_test k c)
  end.

Definition cs_test (fl : flags) (cs : cset) (c : N) : bool :=
  match cs with
  | CLit d => if f_icase fl then (to_lower c =? to_lower d)%N else (c =? d)%N
  | CDot => negb (c =? c_nl)%N
  | CSet neg items => xorb neg (existsb (item_test fl c) items)
  end.

(** ** Matching states

    What has been consumed (reversed), what is left, and the groups closed so
    far with their bounds, the latest first. *)
Record mst := Mst { pre : str; suf : str; caps : list (nat * (nat * nat)) }.

Definition pos (st : mst) : nat := length (pre st).
Definition whole (st : mst) : str := rev (pre st) ++ suf st.

Fixpoint cap_get (n : nat) (cs : list (nat * (nat * nat))) : option (nat * nat) :=
  match cs with
  | [] => None
  | (m, b) :: cs' => if (n =? m)%nat then Some b else cap_get n cs'
  end.

Definition head_is (f : N → bool) (s : str) : bool :=
  match s with [] => false | c :: _ => f c end.

Definition at_bol (fl : flags) (st : mst) : bool :=
  match pre st with [] => true | c :: _ => f_multi fl && (c =? c_nl)%N end.
Definition at_eol (fl : flags) (st : mst) : bool :=
  match suf st with
  | [] => true
  | [c] => (c =? c_nl)%N
  | c :: _ => f_multi fl && (c =? c_nl)%N
  end.
Definition at_wordb (st : mst) : bool :=
  xorb (head_is is_word (pre st)) (head_is is_word (suf st)).

(** Consume exactly the string [w]. *)
Fixpoint consume (fl : flags) (w : str) (st : mst) : option mst :=
  match w with
  | [] => Some st
  | d :: w' =>
      match suf st with
      | c :: t => if cs_test fl (CLit d) c
                  then consume fl w' (Mst (c :: pre st) t (caps st)) else None
      | [] => None
      end
  end.

Definition cap_text (n : nat) (st : mst) : option str :=
  match cap_get n (caps st) with
  | Some (b, e) => Some (take (e - b) (drop b (whole st)))
  | None => None
  end.

(** ** The matcher, in continuation-passing style *)

Definition try_else {A} (a b : option A) : option A :=
  match a with Some x => Some x | None => b end.

Definition progress (st st' : mst) : bool := (length (suf st') <? length (suf st))%nat.

(** Repetition: [lo] mandatory rounds, then rounds while they consume input; a
    round that consumes nothing is the last one. *)
Fixpoint rep_loop (body : mst → (mst → option mst) → option mst) (greedy : bool)
    (fuel lo : nat) (hi : option nat) (st : mst) (k : mst → option mst) : option mst :=
  match fuel with
  | 0 => None
  | S fuel =>
      match lo with
      | S lo => body st (λ st', rep_loop body greedy fuel lo (pred <$> hi) st' k)
      | 0 =>
          let more :=
            match hi with
            | Some 0 => None
            | _ => body st (λ st', if progress st st'
                                   then rep_loop body greedy fuel 0 (pred <$> hi) st' k
                                   else k st')
            end in
          if greedy then try_else more (k st) else try_else (k st) more
      end
  end.

Fixpoint m (fl : flags) (r : regex) (st : mst) (k : mst → option mst) : option mst :=
  match r with
  | Eps => k st
  | Chars cs =>
      match suf st with
      | c :: t => if cs_test fl cs c then k (Mst (c :: pre st) t (caps st)) else None
      | [] => None
      end
  | Bol => if at_bol fl st then k st else None
  | Eol => if at_eol fl st then k st else None
  | WordB => if at_wordb st then k st else None
  | Seq r1 r2 => m fl r1 st (λ st', m fl r2 st' k)
  | Alt r1 r2 => try_else (m fl r1 st k) (m fl r2 st k)
  | Rep greedy lo hi r1 =>
      rep_loop (m fl r1) greedy (S (lo + length (suf st))) lo hi st k
  | Grp n r1 =>
      m fl r1 st (λ st', k (Mst (pre st') (suf st') ((n, (pos st, pos st')) :: caps st')))
  | Bref n =>
      match cap_text n st with
      | Some w => match consume fl w st with Some st' => k st' | None => None end
      | None => None
      end
  | Look positive r1 =>
      match m fl r1 st Some, positive with
      | Some st', true => k (Mst (pre st) (suf st) (caps st'))
      | None, false => k st
      | _, _ => None
      end
  end.

(** ** What a pattern denotes *)

Inductive rep_den (R : mst → mst → Prop) : nat → option nat → mst → mst → Prop :=
| rd_stop hi st : rep_den R 0 hi st st
| rd_must lo hi st st1 st2 :
    R st st1 → rep_den R lo (pred <$> hi) st1 st2 → rep_den R (S lo) hi st st2
| rd_more hi st st1 st2 :
    hi ≠ Some 0 → R st st1 → progress st st1 = true →
    rep_den R 0 (pred <$> hi) st1 st2 → rep_den R 0 hi st st2
| rd_last hi st st1 :
    hi ≠ Some 0 → R st st1 → progress st st1 = false → rep_den R 0 hi st st1.

Fixpoint den (fl : flags) (r : regex) (st st' : mst) : Prop :=
  match r with
  | Eps => st' = st
  | Chars cs => ∃ c t, suf st = c :: t ∧ cs_test fl cs c = true ∧
                       st' = Mst (c :: pre st) t (caps st)
  | Bol => at_bol fl st = true ∧ st' = st
  | Eol => at_eol fl st = true ∧ st' = st
  | WordB => at_wordb st = true ∧ st' = st
  | Seq r1 r2 => ∃ st1, den fl r1 st st1 ∧ den fl r2 st1 st'
  | Alt r1 r2 => den fl r1 st st' ∨ den fl r2 st st'
  | Rep _ lo hi r1 => rep_den (den fl r1) lo hi st st'
  | Grp n r1 => ∃ st1, den fl r1 st st1 ∧
      st' = Mst (pre st1) (suf st1) ((n, (pos st, pos st1)) :: caps st1)
  | Bref n => ∃ w, cap_text n st = Some w ∧ consume fl w st = Some st'
  | Look true r1 => ∃ st1, m fl r1 st Some = Some st1 ∧
      st' = Mst (pre st) (suf st) (caps st1)
  | Look false r1 => m fl r1 st Some = None ∧ st' = st
  end.

(** ** Matching only moves forward *)

Definition ext (st st' : mst) : Prop :=
  ∃ w, suf st = w ++ suf st' ∧ pre st' = rev w ++ pre st.

#[export] Instance ext_refl : Reflexive ext.
Proof. intros st. by exists []. Qed.

#[export] Instance ext_trans : Transitive ext.
Proof.
  intros s1 s2 s3 (w1 & H1 & H1') (w2 & H2 & H2'). exists (w1 ++ w2). split.
  - by rewrite H1, H2, app_assoc.
  - by rewrite H2', H1', rev_app_distr, app_assoc.
Qed.

Lemma ext_suf_le st st' : ext st st' → length (suf st') ≤ length (suf st).
Proof. intros (w & -> & _). rewrite length_app. lia. Qed.

Lemma ext_whole st st' : ext st st' → whole st' = whole st.
Proof.
  intros (w & H1 & H2). unfold whole. rewrite H2, H1, rev_app_distr, rev_involutive.
  by rewrite <- app_assoc.
Qed.

Lemma consume_ext fl w st st' : consume fl w st = Some st' → ext st st'.
Proof.
  revert st. induction w as [|d w IH]; intros st H; cbn [consume] in H.
  - by injection H as ->.
  - destruct (suf st) as [|c t] eqn:E; [done|]. destruct (cs_test fl (CLit d) c); [|done].
    etransitivity; [|by apply IH]. exists [c]. by rewrite E.
Qed.

Lemma rep_den_ext (R : mst → mst → Prop) lo hi st st' :
  (∀ s s', R s s' → ext s s') → rep_den R lo hi st st' → ext st st'.
Proof.
  intros HR. induction 1; [done| | |by apply HR]; (etransitivity; [by apply HR|done]).
Qed.

Lemma den_ext fl r st st' : den fl r st st' → ext st st'.
Proof.
  revert st st'. induction r as [|cs| | | |r1 IH1 r2 IH2|r1 IH1 r2 IH2|g lo hi r IH|n r IH|n|p r IH];
    intros st st' H; cbn [den] in H.
  - by subst.
  - destruct H as (c & t & E & _ & ->). exists [c]. by rewrite E.
  - by destruct H as [_ ->].
  - by destruct H as [_ ->].
  - by destruct H as [_ ->].
  - destruct H as (st1 & H1 & H2). etransitivity; eauto.
  - destruct H; eauto.
  - eapply rep_den_ext; eauto.
  - destruct H as (st1 & H1 & ->). destruct (IH _ _ H1) as (w & Hw). by exists w.
  - destruct H as (w & _ & H). by eapply consume_ext.
  - destruct p; [destruct H as (st1 & _ & ->)|destruct H as [_ ->]]; by exists [].
Qed.

(** ** The matcher agrees with the denotation *)

Lemma try_else_Some {A} (a b : option A) x :
  try_else a b = Some x → a = Some x ∨ b = Some x.
Proof. destruct a; simpl; auto. Qed.

Lemma try_else_is_Some {A} (a b : option A) :
  is_Some (try_else a b) ↔ is_Some a ∨ is_Some b.
Proof.
  destruct a; simpl.
  - split; [intros _; left|]; eauto.
  - split; [auto|]. by intros [[x [=]]|].
Qed.

Definition sound (R : mst → mst → Prop) (body : mst → (mst → option mst) → option mst) :=
  ∀ st k x, body st k = Some x → ∃ st', R st st' ∧ k st' = Some x.
Definition complete (R : mst → mst → Prop) (body : mst → (mst → option mst) → option mst) :=
  ∀ st st' k, R st st' → is_Some (k st') → is_Some (body st k).

Lemma rep_loop_sound R body greedy : sound R body →
  ∀ fuel lo hi st k x, rep_loop body greedy fuel lo hi st k = Some x →
  ∃ st', rep_den R lo hi st st' ∧ k st' = Some x.
Proof.
  intros HR. induction fuel as [|fuel IH]; intros lo hi st k x H; [done|].
  cbn [rep_loop] in H. destruct lo as [|lo].
  - assert (Hmore : ∀ y, match hi with Some 0 => None | _ => body st (λ st', if progress st st'
        then rep_loop body greedy fuel 0 (pred <$> hi) st' k else k st') end = Some y →
        ∃ st', rep_den R 0 hi st st' ∧ k st' = Some y).
    { intros y Hy. assert (Hhi : hi ≠ Some 0) by (by intros ->).
      assert (Hb : body st (λ st', if progress st st'
        then rep_loop body greedy fuel 0 (pred <$> hi) st' k else k st') = Some y)
        by (by destruct hi as [[|?]|]).
      apply HR in Hb as (st1 & H1 & H2). destruct (progress st st1) eqn:E.
      - apply IH in H2 as (st2 & H2 & H3). exists st2. split; [|done]. by eapply rd_more.
      - exists st1. split; [|done]. by apply rd_last. }
    destruct greedy; apply try_else_Some in H as [H|H]; auto;
      exists st; (split; [constructor|done]).
  - apply HR in H as (st1 & H1 & H2). apply IH in H2 as (st2 & H2 & H3).
    exists st2. split; [|done]. by econstructor.
Qed.

Lemma rep_loop_complete R body greedy : complete R body → (∀ s s', R s s' → ext s s') →
  ∀ lo hi st st', rep_den R lo hi st st' →
  ∀ fuel k, lo + length (suf st) < fuel → is_Some (k st') →
  is_Some (rep_loop body greedy fuel lo hi st k).
Proof.
  intros HR Hext. induction 1 as [hi st|lo hi st st1 st2 H1 H2 IH|hi st st1 st2 Hhi H1 Hp H2 IH|hi st st1 Hhi H1 Hp];
    intros [|fuel] k Hf Hk; try lia; cbn [rep_loop].
  - destruct greedy; rewrite try_else_is_Some; auto.
  - eapply HR; [done|]. simpl. apply IH; [|done]. apply Hext, ext_suf_le in H1. lia.
  - assert (Hm : is_Some (body st (λ st', if progress st st'
        then rep_loop body greedy fuel 0 (pred <$> hi) st' k else k st'))).
    { eapply HR; [done|]. simpl. rewrite Hp. apply IH; [|done].
      unfold progress in Hp. apply Nat.ltb_lt in Hp. lia. }
    destruct hi as [[|?]|]; [done| |]; destruct greedy; rewrite try_else_is_Some; auto.
  - assert (Hm : is_Some (body st (λ st', if progress st st'
        then rep_loop body greedy fuel 0 (pred <$> hi) st' k else k st'))).
    { eapply HR; [done|]. simpl. by rewrite Hp. }
    destruct hi as [[|?]|]; [done| |]; destruct greedy; rewrite try_else_is_Some; auto.
Qed.

(** The continuation of a successful match was reached in a denoted state. *)
Lemma m_sound fl r : sound (den fl r) (m fl r).
Proof.
  induction r as [|cs| | | |r1 IH1 r2 IH2|r1 IH1 r2 IH2|g lo hi r IH|n r IH|n|p r IH];
    intros st k x H; cbn [m den] in H |- *.
  - eauto.
  - destruct (suf st) as [|c t]; [done|]. destruct (cs_test fl cs c) eqn:E; [|done].
    eexists. split; [|exact H]. by exists c, t.
  - destruct (at_bol fl st); [|done]. eauto.
  - destruct (at_eol fl st); [|done]. eauto.
  - destruct (at_wordb st); [|done]. eauto.
  - apply IH1 in H as (st1 & H1 & H2). apply IH2 in H2 as (st2 & H2 & H3). eauto.
  - apply try_else_Some in H as [H|H]; [apply IH1 in H|apply IH2 in H];
      destruct H as (st' & H1 & H2); eauto.
  - eapply rep_loop_sound in H; eauto.
  - apply IH in H as (st1 & H1 & H2). eauto.
  - destruct (cap_text n st) as [w|]; [|done]. destruct (consume fl w st) eqn:E; [|done]. eauto.
  - destruct (m fl r st Some) as [st1|] eqn:E, p; try done; eauto.
Qed.

(** A denoted state whose continuation succeeds makes the match succeed. *)
Lemma m_complete fl r : complete (den fl r) (m fl r).
Proof.
  induction r as [|cs| | | |r1 IH1 r2 IH2|r1 IH1 r2 IH2|g lo hi r IH|n r IH|n|p r IH];
    intros st st' k H Hk; cbn [m den] in H |- *.
  - by subst.
  - destruct H as (c & t & -> & -> & ->). done.
  - by destruct H as [-> ->].
  - by destruct H as [-> ->].
  - by destruct H as [-> ->].
  - destruct H as (st1 & H1 & H2). eapply IH1; [done|]. eapply IH2; eauto.
  - rewrite try_else_is_Some. destruct H; [left; eapply IH1|right; eapply IH2]; eauto.
  - eapply rep_loop_complete; [done|apply den_ext|done|lia|done].
  - destruct H as (st1 & H1 & ->). by eapply IH.
  - by destruct H as (w & -> & ->).
  - destruct p; [by destruct H as (st1 & -> & ->)|by destruct H as [-> ->]].
Qed.

Theorem m_den fl r st : is_Some (m fl r st Some) ↔ ∃ st', den fl r st st'.
Proof.
  split.
  - intros [x H]. apply m_sound in H as (st' & H & _). eauto.
  - intros [st' H]. eapply m_complete; eauto.
Qed.

Lemma m_Some_den fl r st st' : m fl r st Some = Some st' → den fl r st st'.
Proof. intros H. apply m_sound in H as (st1 & H & [= ->]). done. Qed.

Lemma m_None_den fl r st : m fl r st Some = None ↔ ∀ st', ¬ den fl r st st'.
Proof.
  split.
  - intros H st' Hd. assert (is_Some (m fl r st Some)) as [x Hx] by (apply m_den; eauto).
    congruence.
  - intros H. destruct (m fl r st Some) as [st'|] eqn:E; [|done].
    by apply m_Some_den, H in E.
Qed.

(** ** Evaluating the matcher on literals and runs *)

(** The state [n] characters further. *)
Definition adv (n : nat) (st : mst) : mst :=
  Mst (rev (take n (suf st)) ++ pre st) (drop n (suf st)) (caps st).

(** A literal text followed by [r]. *)
Definition lits (w : str) (r : regex) : regex := foldr (λ c, Seq (Chars (CLit c))) r w.

Lemma adv_0 st : adv 0 st = st.
Proof. by destruct st. Qed.

Lemma adv_S n st c t : suf st = c :: t →
  adv (S n) st = adv n (Mst (c :: pre st) t (caps st)).
Proof. intros E. unfold adv. rewrite E. simpl. by rewrite <- app_assoc. Qed.

Lemma adv_adv n k st : n + k ≤ length (suf st) → adv k (adv n st) = adv (n + k) st.
Proof.
  intros H. unfold adv. simpl. rewrite drop_drop. f_equal.
  rewrite app_assoc, <- rev_app_distr. f_equal. f_equal.
  by rewrite <- take_take_drop.
Qed.

Lemma m_lits fl w r st k : f_icase fl = false →
  m fl (lits w r) st k = if starts_with w (suf st) then m fl r (adv (length w) st) k else None.
Proof.
  intros Hi. revert st. induction w as [|c w IH]; intros st; simpl.
  - by rewrite adv_0.
  - destruct (suf st) as [|d t] eqn:E; [done|]. rewrite Hi.
    rewrite (N.eqb_sym c d). destruct (N.eqb_spec d c) as [->|]; simpl; [|done].
    rewrite IH. simpl. by rewrite (adv_S _ _ _ _ E).
Qed.

(** A greedy run of a character class takes the longest run first. *)
Lemma m_run fl cs st n k x :
  n ≤ length (suf st) →
  forallb (cs_test fl cs) (take n (suf st)) = true →
  head_is (cs_test fl cs) (drop n (suf st)) = false →
  k (adv n st) = Some x →
  m fl (Rep true 0 None (Chars cs)) st k = Some x.
Proof.
  cbn [m]. simpl Nat.add. intros Hn Hrun Hstop Hk.
  assert (H : ∀ f, n < f → rep_loop (m fl (Chars cs)) true f 0 None st k = Some x);
    [|apply H; lia].
  revert st Hn Hrun Hstop Hk. induction n as [|n IH]; intros st Hn Hrun Hstop Hk [|f] Hf; try lia;
    cbn [rep_loop m].
  - rewrite adv_0 in Hk. simpl in Hstop. destruct (suf st) as [|c t]; [done|].
    simpl in Hstop. by rewrite Hstop.
  - destruct (suf st) as [|c t] eqn:E; [simpl in Hn; lia|]. simpl in *.
    apply andb_true_iff in Hrun as [-> Hrun].
    unfold progress. rewrite E. simpl. rewrite (proj2 (Nat.ltb_lt _ _)) by lia.
    rewrite (IH (Mst (c :: pre st) t (caps st))); [done|simpl; lia|done..| |lia].
    by rewrite <- (adv_S n st c t E).
Qed.

(** The matcher only looks at what its continuation returns. *)
Lemma rep_loop_cont body greedy :
  (∀ st k k', (∀ s, k s = k' s) → body st k = body st k') →
  ∀ fuel lo hi st k k', (∀ s, k s = k' s) →
    rep_loop body greedy fuel lo hi st k = rep_loop body greedy fuel lo hi st k'.
Proof.
  intros Hb. induction fuel as [|fuel IH]; intros lo hi st k k' Hk; [done|]. cbn [rep_loop].
  destruct lo as [|lo]; [|apply Hb; auto].
  assert (Hm : body st (λ st', if progress st st'
      then rep_loop body greedy fuel 0 (pred <$> hi) st' k else k st') =
    body st (λ st', if progress st st'
      then rep_loop body greedy fuel 0 (pred <$> hi) st' k' else k' st')).
  { apply Hb. intros s. destruct (progress st s); auto. }
  rewrite Hm, Hk. done.
Qed.

Lemma m_cont fl r : ∀ st k k', (∀ s, k s = k' s) → m fl r st k = m fl r st k'.
Proof.
  induction r as [|cs| | | |r1 IH1 r2 IH2|r1 IH1 r2 IH2|g lo hi r IH|n r IH|n|p r IH];
    intros st k k' Hk; cbn [m].
  - apply Hk.
  - destruct (suf st); [done|]. by destruct (cs_test fl cs n).
  - by destruct (at_bol fl st).
  - by destruct (at_eol fl st).
  - by destruct (at_wordb st).
  - apply IH1. intros s. by apply IH2.
  - by rewrite (IH1 st k k'), (IH2 st k k').
  - by apply rep_loop_cont.
  - apply IH. intros s. apply Hk.
  - destruct (cap_text n st) as [w|]; [|done]. by destruct (consume fl w st).
  - by destruct (m fl r st Some), p.
Qed.

(** An optional part: with it, else without. *)
Lemma m_option fl r st k :
  m fl (Rep true 0 (Some 1) r) st k = try_else (m fl r st k) (k st).
Proof.
  cbn [m rep_loop]. f_equal. apply m_cont. intros s. unfold progress.
  destruct (Nat.ltb_spec (length (suf s)) (length (suf st))); [|done].
  simpl. by destruct (length (suf st)); [lia|].
Qed.

Lemma adv_app st w r : suf st = w ++ r →
  adv (length w) st = Mst (rev w ++ pre st) r (caps st).
Proof. intros E. unfold adv. by rewrite E, take_app_length, drop_app_length. Qed.

(** ** Characters a match cannot do without *)

Fixpoint needs (c : N) (r : regex) : bool :=
  match r with
  | Chars (CLit d) => (c =? d)%N
  | Seq r1 r2 => needs c r1 || needs c r2
  | Alt r1 r2 => needs c r1 && needs c r2
  | Rep _ (S _) _ r1 => needs c r1
  | Grp _ r1 => needs c r1
  | _ => false
  end.

Lemma rep_den_first (R : mst → mst → Prop) lo hi st st' :
  (∀ s s', R s s' → ext s s') → rep_den R (S lo) hi st st' →
  ∃ st1, R st st1 ∧ ext st1 st'.
Proof.
  intros HR H. inversion H as [|? ? ? s1 ? H1 H2| |]; subst.
  exists s1. split; [done|]. by eapply rep_den_ext.
Qed.

Lemma den_needs fl r c st st' : f_icase fl = false → needs c r = true → den fl r st st' →
  ∃ w, suf st = w ++ suf st' ∧ c ∈ w.
Proof.
  intros Hi. revert st st'.
  induction r as [|cs| | | |r1 IH1 r2 IH2|r1 IH1 r2 IH2|g lo hi r IH|n r IH|n|p r IH];
    intros st st' Hn H; cbn [needs] in Hn; try discriminate Hn; cbn [den] in H.
  - destruct cs as [d| |]; [|done..]. destruct H as (e & t & E & Ht & ->).
    cbn [cs_test] in Ht. rewrite Hi in Ht. apply N.eqb_eq in Hn, Ht. subst.
    exists [d]. split; [done|by left].
  - destruct H as (st1 & H1 & H2). apply orb_true_iff in Hn as [Hn|Hn].
    + destruct (IH1 _ _ Hn H1) as (w & Hw & Hc). destruct (den_ext _ _ _ _ H2) as (w2 & Hw2 & _).
      exists (w ++ w2). rewrite Hw, Hw2, app_assoc, elem_of_app. auto.
    + destruct (IH2 _ _ Hn H2) as (w & Hw & Hc). destruct (den_ext _ _ _ _ H1) as (w1 & Hw1 & _).
      exists (w1 ++ w). rewrite Hw1, Hw, app_assoc, elem_of_app. auto.
  - apply andb_true_iff in Hn as [Hn1 Hn2]. destruct H as [H|H]; [by apply IH1|by apply IH2].
  - destruct lo as [|lo]; [done|].
    destruct (rep_den_first _ _ _ _ _ (den_ext fl r) H) as (st1 & H1 & w2 & Hw2 & _).
    destruct (IH _ _ Hn H1) as (w & Hw & Hc).
    exists (w ++ w2). rewrite Hw, Hw2, app_assoc, elem_of_app. auto.
  - destruct H as (st1 & H1 & ->). exact (IH _ _ Hn H1).
Qed.

(** Two characters that a match consumes one after the other. *)
Definition is_lit (c : N) (r : regex) : bool :=
  match r with Chars (CLit d) => (c =? d)%N | _ => false end.
Definition lit_first (c : N) (r : regex) : bool :=
  match r with Seq r1 _ => is_lit c r1 | _ => is_lit c r end.
Fixpoint needs_pair (c d : N) (r : regex) : bool :=
  match r with
  | Seq r1 r2 => (is_lit c r1 && lit_first d r2) || needs_pair c d r1 || needs_pair c d r2
  | Alt r1 r2 => needs_pair c d r1 && needs_pair c d r2
  | Grp _ r1 => needs_pair c d r1
  | _ => false
  end.

Lemma den_is_lit fl c r st st' : f_icase fl = false → is_lit c r = true → den fl r st st' →
  suf st = c :: suf st'.
Proof.
  intros Hi. destruct r as [|[x| |]| | | | | | | | |]; try done. simpl. rewrite Hi.
  by intros ->%N.eqb_eq (e & t & -> & <-%N.eqb_eq & ->).
Qed.

Lemma den_lit_first fl c r st st' : f_icase fl = false → lit_first c r = true → den fl r st st' →
  ∃ w, suf st = (c :: w) ++ suf st'.
Proof.
  intros Hi Hc Hd. destruct r; try (exists []; exact (den_is_lit _ _ _ _ _ Hi Hc Hd)).
  destruct Hd as (st1 & H1 & H2). destruct (den_ext _ _ _ _ H2) as (w & Hw & _).
  exists w. rewrite (den_is_lit _ _ _ _ _ Hi Hc H1), Hw. done.
Qed.

Lemma den_needs_pair fl r c d st st' :
  f_icase fl = false → needs_pair c d r = true → den fl r st st' →
  ∃ a b, suf st = a ++ [c; d] ++ b ++ suf st'.
Proof.
  intros Hi. revert st st'.
  induction r as [| | | | |r1 IH1 r2 IH2|r1 IH1 r2 IH2| |n r IH| |];
    intros st st' Hn H; cbn [needs_pair] in Hn; try discriminate Hn; cbn [den] in H.
  - destruct H as (st1 & H1 & H2). apply orb_true_iff in Hn as [Hn|Hn].
    + apply orb_true_iff in Hn as [[Hc Hd]%andb_true_iff|Hn].
      * destruct (den_lit_first _ _ _ _ _ Hi Hd H2) as (w & Hw). exists [], w.
        by rewrite (den_is_lit _ _ _ _ _ Hi Hc H1), Hw.
      * destruct (IH1 _ _ Hn H1) as (a & b & ->). destruct (den_ext _ _ _ _ H2) as (w & -> & _).
        exists a, (b ++ w). by rewrite <- app_assoc.
    + destruct (IH2 _ _ Hn H2) as (a & b & Hab). destruct (den_ext _ _ _ _ H1) as (w & -> & _).
      exists (w ++ a), b. by rewrite Hab, <- app_assoc.
  - apply andb_true_iff in Hn as [Hn1 Hn2]. destruct H as [H|H]; [by apply IH1|by apply IH2].
  - destruct H as (st1 & H1 & ->). exact (IH _ _ Hn H1).
Qed.

(** ** How much a match consumes, and where its groups begin *)

(** The least number of characters a match consumes. *)
Fixpoint least (r : regex) : nat :=
  match r with
  | Chars _ => 1
  | Seq r1 r2 => least r1 + least r2
  | Alt r1 r2 => Nat.min (least r1) (least r2)
  | Rep _ lo _ r1 => lo * least r1
  | Grp _ r1 => least r1
  | _ => 0
  end.

(** At least how far after the start of a match group [n] begins; [None] when
    the pattern does not set it. *)
Definition omin (a b : option nat) : option nat :=
  match a, b with
  | Some x, Some y => Some (Nat.min x y)
  | Some x, None => Some x
  | None, b => b
  end.
Fixpoint begins (n : nat) (r : regex) : option nat :=
  match r with
  | Seq r1 r2 => omin (begins n r1) (Nat.add (least r1) <$> begins n r2)
  | Alt r1 r2 => omin (begins n r1) (begins n r2)
  | Rep _ _ _ r1 => begins n r1
  | Grp k r1 => if (n =? k)%nat then Some 0 else begins n r1
  | Look true r1 => begins n r1
  | _ => None
  end.

Lemma ext_pos_suf st st' : ext st st' →
  pos st ≤ pos st' ∧ pos st' + length (suf st') = pos st + length (suf st).
Proof.
  intros (w & H1 & H2). unfold pos. rewrite H1, H2, !length_app, length_rev. lia.
Qed.

Lemma consume_pos fl w st st' : consume fl w st = Some st' → pos st ≤ pos st'.
Proof. intros H%consume_ext%ext_pos_suf. lia. Qed.

Lemma rep_den_least (R : mst → mst → Prop) n lo hi st st' :
  (∀ s s', R s s' → pos s + n ≤ pos s') → rep_den R lo hi st st' →
  pos st + lo * n ≤ pos st'.
Proof.
  intros HR. induction 1 as [|lo hi st st1 st2 H _ IH|hi st st1 st2 _ H _ _ IH|hi st st1 _ H _];
    try apply HR in H; lia.
Qed.

Lemma den_least fl r st st' : den fl r st st' → pos st + least r ≤ pos st'.
Proof.
  revert st st'. induction r as [|cs| | | |r1 IH1 r2 IH2|r1 IH1 r2 IH2|g lo hi r IH|n r IH|n|p r IH];
    intros st st' H; cbn [den least] in *.
  - subst. lia.
  - destruct H as (c & t & E & _ & ->). unfold pos. simpl. lia.
  - destruct H as [_ ->]. lia.
  - destruct H as [_ ->]. lia.
  - destruct H as [_ ->]. lia.
  - destruct H as (st1 & H1%IH1 & H2%IH2). lia.
  - destruct H as [H%IH1|H%IH2]; lia.
  - by eapply rep_den_least.
  - destruct H as (st1 & H1%IH & ->). exact H1.
  - destruct H as (w & _ & H%consume_pos). lia.
  - destruct p; [destruct H as (st1 & _ & ->)|destruct H as [_ ->]]; unfold pos; simpl; lia.
Qed.

(** The bounds [be] of group [n] after a match: those before it, or new ones
    that lie where the pattern says. *)
Definition placed (n : nat) (k : option nat) (st st' : mst) : Prop :=
  ∀ be, cap_get n (caps st') = Some be → cap_get n (caps st) = Some be ∨
    ∃ d, k = Some d ∧ pos st + d ≤ be.1 ∧ be.1 ≤ be.2 ∧ be.2 ≤ pos st + length (suf st).

Lemma placed_weaken n k k' st st' :
  (∀ d, k = Some d → ∃ d', k' = Some d' ∧ d' ≤ d) → placed n k st st' → placed n k' st st'.
Proof.
  intros Hk H be Hb. destruct (H be Hb) as [?|(d & Hd & ?)]; [by left|right].
  destruct (Hk d Hd) as (d' & ? & ?). exists d'. split; [done|lia].
Qed.

Lemma placed_trans n k st st1 st2 : ext st st1 → placed n k st st1 → placed n k st1 st2 →
  placed n k st st2.
Proof.
  intros He%ext_pos_suf H1 H2 be Hb. destruct (H2 be Hb) as [Hc|(d & Hd & ?)].
  - by apply H1.
  - right. exists d. split; [done|lia].
Qed.

Lemma rep_den_placed (R : mst → mst → Prop) n k lo hi st st' :
  (∀ s s', R s s' → ext s s' ∧ placed n k s s') → rep_den R lo hi st st' → placed n k st st'.
Proof.
  intros HR. induction 1 as [|lo hi st st1 st2 H _ IH|hi st st1 st2 _ H _ _ IH|hi st st1 _ H _].
  - intros be Hb. by left.
  - destruct (HR _ _ H). by eapply placed_trans.
  - destruct (HR _ _ H). by eapply placed_trans.
  - by destruct (HR _ _ H).
Qed.

Lemma consume_caps fl w st st' : consume fl w st = Some st' → caps st' = caps st.
Proof.
  revert st. induction w as [|d w IH]; intros st H; cbn [consume] in H; [by injection H as ->|].
  destruct (suf st) as [|c t]; [done|]. destruct (cs_test fl (CLit d) c); [|done].
  by apply IH in H.
Qed.

Lemma den_placed fl n r st st' : den fl r st st' → placed n (begins n r) st st'.
Proof.
  assert (Hsame : ∀ st st' k, caps st' = caps st → placed n k st st')
    by (intros s s' k E be; rewrite E; by left).
  revert st st'. induction r as [|cs| | | |r1 IH1 r2 IH2|r1 IH1 r2 IH2|g lo hi r IH|k r IH|k|p r IH];
    intros st st' H; cbn [den begins] in *.
  - subst. by apply Hsame.
  - destruct H as (c & t & E & _ & ->). by apply Hsame.
  - destruct H as [_ ->]. by apply Hsame.
  - destruct H as [_ ->]. by apply Hsame.
  - destruct H as [_ ->]. by apply Hsame.
  - destruct H as (st1 & H1 & H2). pose proof (den_least _ _ _ _ H1) as Hl.
    pose proof (ext_pos_suf _ _ (den_ext _ _ _ _ H1)) as He.
    intros be Hb. destruct (IH2 _ _ H2 be Hb) as [Hc|(d & Hd & ?)].
    + destruct (IH1 _ _ H1 be Hc) as [?|(d & Hd & ?)]; [by left|right].
      rewrite Hd. destruct (begins n r2); simpl; eexists; (split; [done|lia]).
    + right. rewrite Hd. destruct (begins n r1); simpl; eexists; (split; [done|lia]).
  - destruct H as [H|H]; [apply IH1 in H|apply IH2 in H]; revert H; apply placed_weaken;
      intros d Hd; [destruct (begins n r2)|destruct (begins n r1)]; rewrite Hd; simpl;
      eexists; (split; [done|lia]).
  - eapply rep_den_placed; [|done]. intros s s' Hs. split; [by eapply den_ext|by apply IH].
  - destruct H as (st1 & H1 & ->). pose proof (ext_pos_suf _ _ (den_ext _ _ _ _ H1)) as He.
    intros be Hb. cbn [caps cap_get] in Hb. destruct (n =? k)%nat eqn:E.
    + injection Hb as <-. right. exists 0. simpl. split; [done|lia].
    + by apply IH in H1; apply H1.
  - destruct H as (w & _ & H). apply Hsame. by eapply consume_caps.
  - destruct p; [|destruct H as [_ ->]; by apply Hsame].
    destruct H as (st1 & H1%m_Some_den & ->). by apply IH in H1.
Qed.

(** ** The texts a group can have *)

(** All the texts of a pattern built from literals only. *)
Fixpoint texts (r : regex) : option (list str) :=
  match r with
  | Eps => Some [[]]
  | Chars (CLit c) => Some [[c]]
  | Seq r1 r2 =>
      l1 ← texts r1; l2 ← texts r2; Some (mbind (M:=list) (λ w1 : str, app w1 <$> l2) l1)
  | Alt r1 r2 => l1 ← texts r1; l2 ← texts r2; Some (l1 ++ l2)
  | _ => None
  end.

(** All the texts group [n] can have; [None] when they are not all literal. *)
Fixpoint group_texts (n : nat) (r : regex) : option (list str) :=
  match r with
  | Seq r1 r2 | Alt r1 r2 =>
      l1 ← group_texts n r1; l2 ← group_texts n r2; Some (l1 ++ l2)
  | Rep _ _ _ r1 => group_texts n r1
  | Grp k r1 =>
      if (n =? k)%nat
      then l1 ← texts r1; l2 ← group_texts n r1; Some (l1 ++ l2)
      else group_texts n r1
  | Look true r1 => group_texts n r1
  | _ => Some []
  end.

Lemma den_texts fl r l st st' : f_icase fl = false → texts r = Some l → den fl r st st' →
  ∃ w, w ∈ l ∧ suf st = w ++ suf st' ∧ pre st' = rev w ++ pre st.
Proof.
  intros Hi. revert l st st'.
  induction r as [|cs| | | |r1 IH1 r2 IH2|r1 IH1 r2 IH2|g lo hi r IH|n r IH|n|p r IH];
    intros l st st' Hl H; cbn [texts] in Hl; try discriminate Hl; cbn [den] in H.
  - injection Hl as <-. subst. exists []. split; [by left|done].
  - destruct cs as [d| |]; [|done..]. injection Hl as <-. destruct H as (c & t & E & Ht & ->).
    cbn [cs_test] in Ht. rewrite Hi in Ht. apply N.eqb_eq in Ht as ->.
    exists [d]. split; [by left|]. by rewrite E.
  - apply bind_Some in Hl as (l1 & E1 & (l2 & E2 & [= <-])%bind_Some).
    destruct H as (st1 & H1 & H2).
    destruct (IH1 _ _ _ E1 H1) as (w1 & Hw1 & S1 & P1).
    destruct (IH2 _ _ _ E2 H2) as (w2 & Hw2 & S2 & P2).
    exists (w1 ++ w2). rewrite S1, S2, P2, P1, rev_app_distr, <- !app_assoc.
    split; [|done]. apply list_elem_of_bind. exists w1. split; [|done].
    by apply list_elem_of_fmap_2.
  - apply bind_Some in Hl as (l1 & E1 & (l2 & E2 & [= <-])%bind_Some).
    destruct H as [H|H]; [destruct (IH1 _ _ _ E1 H) as (w & ? & ?)
      |destruct (IH2 _ _ _ E2 H) as (w & ? & ?)]; exists w; rewrite elem_of_app; auto.
Qed.

(** Group [n], if a match sets it, has one of the texts [l]. *)
Definition spelled (n : nat) (l : list str) (st st' : mst) : Prop :=
  ∀ be, cap_get n (caps st') = Some be → cap_get n (caps st) = Some be ∨
    take (be.2 - be.1) (drop be.1 (whole st)) ∈ l.

Lemma spelled_trans n l st st1 st2 : ext st st1 → spelled n l st st1 → spelled n l st1 st2 →
  spelled n l st st2.
Proof.
  intros He H1 H2 be Hb. destruct (H2 be Hb) as [Hc|Hw]; [by apply H1|].
  right. by rewrite (ext_whole _ _ He) in Hw.
Qed.

Lemma spelled_weaken n l l' st st' : l ⊆ l' → spelled n l st st' → spelled n l' st st'.
Proof. intros Hl H be Hb. destruct (H be Hb) as [?|?]; auto. Qed.

Lemma rep_den_spelled (R : mst → mst → Prop) n l lo hi st st' :
  (∀ s s', R s s' → ext s s' ∧ spelled n l s s') → rep_den R lo hi st st' → spelled n l st st'.
Proof.
  intros HR. induction 1 as [|lo hi st st1 st2 H _ IH|hi st st1 st2 _ H _ _ IH|hi st st1 _ H _].
  - intros be Hb. by left.
  - destruct (HR _ _ H). by eapply spelled_trans.
  - destruct (HR _ _ H). by eapply spelled_trans.
  - by destruct (HR _ _ H).
Qed.

Lemma den_spelled fl n r l st st' : f_icase fl = false → group_texts n r = Some l →
  den fl r st st' → spelled n l st st'.
Proof.
  intros Hi. assert (Hsame : ∀ st st' l, caps st' = caps st → spelled n l st st')
    by (intros s s' k E be; rewrite E; by left).
  revert l st st'.
  induction r as [|cs| | | |r1 IH1 r2 IH2|r1 IH1 r2 IH2|g lo hi r IH|k r IH|k|p r IH];
    intros l st st' Hl H; cbn [den group_texts] in *.
  - subst. by apply Hsame.
  - destruct H as (c & t & E & _ & ->). by apply Hsame.
  - destruct H as [_ ->]. by apply Hsame.
  - destruct H as [_ ->]. by apply Hsame.
  - destruct H as [_ ->]. by apply Hsame.
  - apply bind_Some in Hl as (l1 & E1 & (l2 & E2 & [= <-])%bind_Some).
    destruct H as (st1 & H1 & H2). eapply spelled_trans; [by eapply den_ext| |].
    + eapply spelled_weaken; [|by eapply IH1]. set_solver.
    + eapply spelled_weaken; [|by eapply IH2]. set_solver.
  - apply bind_Some in Hl as (l1 & E1 & (l2 & E2 & [= <-])%bind_Some).
    destruct H as [H|H]; [eapply spelled_weaken; [|by eapply IH1]
      |eapply spelled_weaken; [|by eapply IH2]]; set_solver.
  - eapply rep_den_spelled; [|done]. intros s s' Hs. split; [by eapply den_ext|by eapply IH].
  - destruct H as (st1 & H1 & ->). destruct (n =? k)%nat eqn:E.
    + apply bind_Some in Hl as (l1 & E1 & (l2 & E2 & [= <-])%bind_Some).
      intros be Hb. cbn [caps cap_get] in Hb. rewrite E in Hb. injection Hb as <-. right.
      destruct (den_texts _ _ _ _ _ Hi E1 H1) as (w & Hw & Hs & Hp). rewrite elem_of_app. left.
      simpl. unfold whole, pos. rewrite Hp, Hs, length_app, length_rev.
      replace (length w + length (pre st) - length (pre st)) with (length w) by lia.
      rewrite <- (length_rev (pre st)), drop_app_length, take_app_length. done.
    + intros be Hb. cbn [caps cap_get] in Hb. rewrite E in Hb. by apply (IH _ _ _ Hl H1).
  - destruct H as (w & _ & H). apply Hsame. by eapply consume_caps.
  - destruct p; [|destruct H as [_ ->]; by apply Hsame].
    destruct H as (st1 & H1%m_Some_den & ->). intros be Hb. by apply (IH _ _ _ Hl H1).
Qed.

(** Does every match set group [n]? *)
Fixpoint sets (n : nat) (r : regex) : bool :=
  match r with
  | Seq r1 r2 => sets n r1 || sets n r2
  | Alt r1 r2 => sets n r1 && sets n r2
  | Rep _ (S _) _ r1 => sets n r1
  | Grp k r1 => (n =? k)%nat || sets n r1
  | Look true r1 => sets n r1
  | _ => false
  end.

Lemma den_caps_stay fl n r st st' : den fl r st st' →
  is_Some (cap_get n (caps st)) → is_Some (cap_get n (caps st')).
Proof.
  revert st st'. induction r as [|cs| | | |r1 IH1 r2 IH2|r1 IH1 r2 IH2|g lo hi r IH|k r IH|k|p r IH];
    intros st st' H Hc; cbn [den] in *.
  - by subst.
  - by destruct H as (c & t & _ & _ & ->).
  - by destruct H as [_ ->].
  - by destruct H as [_ ->].
  - by destruct H as [_ ->].
  - destruct H as (st1 & H1 & H2). apply (IH2 st1); [done|]. by apply (IH1 st).
  - destruct H; [by apply (IH1 st)|by apply (IH2 st)].
  - induction H as [|lo hi s s1 s2 H1 _ IH2|hi s s1 s2 _ H1 _ _ IH2|hi s s1 _ H1 _]; auto.
    + apply IH2. by apply (IH s).
    + apply IH2. by apply (IH s).
    + by apply (IH s).
  - destruct H as (st1 & H1 & ->). cbn [caps cap_get]. destruct (n =? k)%nat; [done|].
    by apply (IH st).
  - destruct H as (w & _ & H). by rewrite (consume_caps _ _ _ _ H).
  - destruct p; [|by destruct H as [_ ->]]. destruct H as (st1 & H1%m_Some_den & ->). by apply (IH st st1).
Qed.

Lemma den_sets fl n r st st' : sets n r = true → den fl r st st' →
  is_Some (cap_get n (caps st')).
Proof.
  revert st st'. induction r as [|cs| | | |r1 IH1 r2 IH2|r1 IH1 r2 IH2|g lo hi r IH|k r IH|k|p r IH];
    intros st st' Hs H; cbn [sets] in Hs; try discriminate Hs; cbn [den] in H.
  - destruct H as (st1 & H1 & H2). apply orb_true_iff in Hs as [Hs|Hs]; [|by eapply IH2].
    eapply den_caps_stay; [done|]. by eapply IH1.
  - apply andb_true_iff in Hs as [Hs1 Hs2]. destruct H; [by eapply IH1|by eapply IH2].
  - destruct lo as [|lo]; [done|]. inversion H as [|? ? ? st1 ? H1 H2| |]; subst.
    apply (IH _ _ Hs) in H1. apply (den_caps_stay fl n (Rep g lo (pred <$> hi) r) st1); done.
  - destruct H as (st1 & H1 & ->). cbn [caps cap_get].
    destruct (n =? k)%nat; [done|]. by eapply IH.
  - destruct p; [|done]. destruct H as (st1 & H1%m_Some_den & ->). by apply (IH st st1).
Qed.

(** ** Patterns that read the text only *)

(** Neither anchored to lines nor dependent on groups. *)
Fixpoint text_only (r : regex) : bool :=
  match r with
  | Eps | Chars _ | WordB => true
  | Seq r1 r2 | Alt r1 r2 => text_only r1 && text_only r2
  | Rep _ _ _ r1 | Grp _ r1 => text_only r1
  | Bol | Eol | Bref _ | Look _ _ => false
  end.

Lemma cs_test_icase fl fl' cs c : f_icase fl = f_icase fl' → cs_test fl cs c = cs_test fl' cs c.
Proof.
  intros H. destruct cs as [d| |neg items]; simpl; [by rewrite H|done|]. f_equal.
  induction items as [|i items IH]; [done|]. simpl. rewrite IH. f_equal.
  by destruct i; simpl; rewrite ?H.
Qed.

(** The pattern without its groups. *)
Fixpoint ungroup (r : regex) : regex :=
  match r with
  | Seq r1 r2 => Seq (ungroup r1) (ungroup r2)
  | Alt r1 r2 => Alt (ungroup r1) (ungroup r2)
  | Rep g lo hi r1 => Rep g lo hi (ungroup r1)
  | Grp _ r1 => ungroup r1
  | r => r
  end.

(** Groups make no difference to what is matched, nor does [re.M]. *)
Lemma den_ungroup fl fl' r : f_icase fl = f_icase fl' → text_only r = true →
  ∀ st st', den fl r st st' →
  ∀ cs, den fl' (ungroup r) (Mst (pre st) (suf st) cs) (Mst (pre st') (suf st') cs).
Proof.
  intros Hi. induction r as [|c| | | |r1 IH1 r2 IH2|r1 IH1 r2 IH2|g lo hi r IH|n r IH|n|p r IH];
    intros Ht; cbn [text_only] in Ht; try discriminate Ht; intros st st' H cs;
    cbn [ungroup den] in *.
  - by subst.
  - destruct H as (d & t & E & Hc & ->). exists d, t. cbn [pre suf caps].
    by rewrite <- (cs_test_icase _ _ _ _ Hi).
  - destruct H as [H ->]. split; [|done]. exact H.
  - apply andb_true_iff in Ht as [Ht1 Ht2]. destruct H as (st1 & H1 & H2).
    eexists. split; [exact (IH1 Ht1 _ _ H1 cs)|exact (IH2 Ht2 _ _ H2 cs)].
  - apply andb_true_iff in Ht as [Ht1 Ht2].
    destruct H as [H|H]; [left; exact (IH1 Ht1 _ _ H cs)|right; exact (IH2 Ht2 _ _ H cs)].
  - specialize (IH Ht).
    induction H as [hi st|lo hi st st1 st2 H _ IHr|hi st st1 st2 Hhi H Hp _ IHr|hi st st1 Hhi H Hp];
      [apply rd_stop|eapply rd_must; [by apply IH|done]
      |eapply rd_more; [done|by apply IH|exact Hp|done]
      |apply rd_last; [done|by apply IH|exact Hp]].
  - destruct H as (st1 & H & ->). exact (IH Ht _ _ H cs).
Qed.

(** The character a match ends with. *)
Fixpoint ends_with (r : regex) : option cset :=
  match r with
  | Chars cs => Some cs
  | Seq _ r2 => ends_with r2
  | Grp _ r1 => ends_with r1
  | _ => None
  end.

Lemma den_ends_with fl r cs st st' : ends_with r = Some cs → den fl r st st' →
  ∃ c t, pre st' = c :: t ∧ cs_test fl cs c = true.
Proof.
  revert st st'. induction r as [|cs'| | | |r1 IH1 r2 IH2|r1 IH1 r2 IH2|g lo hi r IH|n r IH|n|p r IH];
    intros st st' E H; cbn [ends_with] in E; try discriminate E; cbn [den] in H.
  - injection E as ->. destruct H as (c & t & _ & Hc & ->). by exists c, (pre st).
  - destruct H as (st1 & _ & H). by eapply IH2.
  - destruct H as (st1 & H & ->). cbn [pre]. by eapply IH.
Qed.

(** A group put around the middle of a pattern. *)
Lemma den_regroup fl fl' r1 r2 r3 st st' : f_icase fl = f_icase fl' →
  text_only (Seq r1 (Seq r2 r3)) = true → den fl (Seq r1 (Seq r2 r3)) st st' →
  ∀ n cs, ∃ st2, den fl' (Seq (Grp n (ungroup (Seq r1 r2))) (ungroup r3))
                     (Mst (pre st) (suf st) cs) st2.
Proof.
  intros Hi Ht (st1 & H1 & st2 & H2 & H3) n cs.
  cbn [text_only] in Ht. apply andb_true_iff in Ht as [Ht1 [Ht2 Ht3]%andb_true_iff].
  eexists. cbn [den ungroup]. eexists. split.
  - eexists. split; [|reflexivity]. eexists.
    split; [exact (den_ungroup _ _ _ Hi Ht1 _ _ H1 cs)|exact (den_ungroup _ _ _ Hi Ht2 _ _ H2 cs)].
  - exact (den_ungroup _ _ _ Hi Ht3 _ _ H3 _).
Qed.
