(* ===== verification/RegexParse.v ===== *)
(** * Pattern syntax: from the text of a pattern to a [regex]

    A parser for the pattern language of Python's [re] (the fragment with
    literals, classes and sets, groups, lookahead, back references, greedy and
    lazy repetition, [(?i)] and the verbose layout), so that every pattern of
    the program is written here with the text it has there.  A text outside
    the grammar has no compiled form; the program's own patterns all have,
    and a text escaped by [re.escape] can stand in a pattern that has. *)
From S2P Require Import Prelude PyStr Regex.

Record compiled := Compiled { re_flags : flags; re_body : regex }.

(** ** Helpers *)

Fixpoint seq_of (l : list regex) : regex :=
  match l with
  | [] => Eps
  | [r] => r
  | r :: l' => Seq r (seq_of l')
  end.

(** Leading decimal digits. *)
Fixpoint take_digits (s : str) : str * str :=
  match s with
  | c :: t => if is_digit c then let '(d, r) := take_digits t in (c :: d, r) else ([], s)
  | [] => ([], [])
  end.
Definition nat_of_digits (d : str) : nat :=
  fold_left (λ n c, 10 * n + N.to_nat (c - 48))%nat d 0.

(** The minimal width of a pattern and whether its width is unbounded. *)
Fixpoint width (r : regex) : nat * bool :=
  match r with
  | Chars _ => (1, false)
  | Seq r1 r2 =>
      let '(a, b) := width r1 in let '(c, d) := width r2 in (a + c, b || d)%nat
  | Alt r1 r2 =>
      let '(a, b) := width r1 in let '(c, d) := width r2 in (Nat.min a c, b || d)
  | Rep _ lo hi r1 =>
      let '(a, b) := width r1 in
      (lo * a, b || match hi with None => true | _ => false end)%nat
  | Grp _ r1 => width r1
  | _ => (0, false)
  end.

(** What may be repeated: not an anchor, not a repetition, and for a greedy
    one not a body that is both possibly empty and unbounded. *)
Definition repeatable (greedy : bool) (r : regex) : bool :=
  match r with
  | Bol | Eol | WordB | Rep _ _ _ _ => false
  | _ => let '(a, b) := width r in negb (greedy && (a =? 0)%nat && b)
  end.

(** ** Escapes *)

Definition class_escape (c : N) : option set_item :=
  if (c =? ch "d")%N then Some (SClass false CDigit)
  else if (c =? ch "D")%N then Some (SClass true CDigit)
  else if (c =? ch "s")%N then Some (SClass false CSpace)
  else if (c =? ch "S")%N then Some (SClass true CSpace)
  else if (c =? ch "w")%N then Some (SClass false CWord)
  else if (c =? ch "W")%N then Some (SClass true CWord)
  else None.

Definition char_escape (c : N) : option N :=
  if (c =? ch "n")%N then Some 10%N
  else if (c =? ch "t")%N then Some 9%N
  else if (c =? ch "r")%N then Some 13%N
  else if (c =? ch "f")%N then Some 12%N
  else if (c =? ch "v")%N then Some 11%N
  else if (c =? ch "a")%N then Some 7%N
  else if char_in c (u "xuUAZB0") then None
  else Some c.

Definition atom_escape (c : N) : option regex :=
  match class_escape c with
  | Some i => Some (Chars (CSet false [i]))
  | None =>
      if (c =? ch "b")%N then Some WordB
      else if in_range 49 57 c then Some (Bref (N.to_nat (c - 48)))
      else (λ d, Chars (CLit d)) <$> char_escape c
  end.

Definition set_escape (c : N) : option set_item :=
  match class_escape c with
  | Some i => Some i
  | None => if (c =? ch "b")%N then Some (SChar 8)
            else if is_digit c then None else SChar <$> char_escape c
  end.

(** ** Sets *)

(** One element of a set, before a possible range. *)
Definition set_code (s : str) : option (set_item * str) :=
  match s with
  | [] => None
  | c :: t =>
      if (c =? ch "\")%N
      then match t with [] => None | d :: t' => (λ i, (i, t')) <$> set_escape d end
      else Some (SChar c, t)
  end.

Fixpoint parse_set (fuel : nat) (first : bool) (s : str) : option (list set_item * str) :=
  match fuel, s with
  | 0, _ | _, [] => None
  | S fuel, c :: t =>
      if (c =? ch "]")%N && negb first then Some ([], t)
      else
        '(i, t1) ← set_code s;
        match t1 with
        | d :: e :: t2 =>
            if (d =? ch "-")%N then
              if (e =? ch "]")%N then Some ([i; SChar (ch "-")], t2)
              else
                '(j, t3) ← set_code (e :: t2);
                match i, j with
                | SChar lo, SChar hi =>
                    if (hi <? lo)%N then None
                    else '(l, r) ← parse_set fuel false t3; Some (SRange lo hi :: l, r)
                | _, _ => None
                end
            else '(l, r) ← parse_set fuel false t1; Some (i :: l, r)
        | _ => '(l, r) ← parse_set fuel false t1; Some (i :: l, r)
        end
  end.

Definition parse_bracket (s : str) : option (regex * str) :=
  let '(neg, t) := match s with
    | c :: t => if (c =? ch "^")%N then (true, t) else (false, s)
    | [] => (false, s) end in
  '(l, r) ← parse_set (S (length t)) true t;
  Some (Chars (CSet neg l), r).

(** ** Repetition suffixes *)

(** The bounds after an item, when the text starts with a repetition.  A brace
    that does not spell bounds is a literal. *)
Definition parse_bounds (c : N) (t : str) : option (nat * option nat * str) :=
  if (c =? ch "*")%N then Some (0, None, t)
  else if (c =? ch "+")%N then Some (1, None, t)
  else if (c =? ch "?")%N then Some (0, Some 1, t)
  else if (c =? ch "{")%N then
    match t with
    | d :: _ => if (d =? ch "}")%N then None else
        let '(lo, t1) := take_digits t in
        let '(hi, t2) := match t1 with
          | e :: t1' => if (e =? ch ",")%N then let '(h, t2) := take_digits t1' in (Some h, t2)
                        else (None, t1)
          | [] => (None, t1) end in
        match t2 with
        | e :: t3 =>
            if (e =? ch "}")%N then
              let lo_n := nat_of_digits lo in
              let hi_n := match hi with
                | Some [] => None
                | Some h => Some (nat_of_digits h)
                | None => match lo with [] => None | _ => Some lo_n end end in
              Some (lo_n, hi_n, t3)
            else None
        | [] => None
        end
    | [] => None
    end
  else None.

Definition bounds_ok (lo : nat) (hi : option nat) : bool :=
  match hi with Some h => (lo <=? h)%nat | None => true end.

(** ** The grammar *)

(** What a parenthesis opens. *)
Inductive opening := OGroup | OPlain | OAhead | ONotAhead | OFlagI.

Definition parse_opening (s : str) : option (opening * str) :=
  match s with
  | q :: c :: t =>
      if (q =? ch "?")%N then
        if (c =? ch ":")%N then Some (OPlain, t)
        else if (c =? ch "=")%N then Some (OAhead, t)
        else if (c =? ch "!")%N then Some (ONotAhead, t)
        else if starts_with (u "i)") (c :: t) then Some (OFlagI, drop 1 t)
        else None
      else Some (OGroup, s)
  | [q] => if (q =? ch "?")%N then None else Some (OGroup, s)
  | [] => Some (OGroup, s)
  end.

(** Parsing threads the number of the next group and the case flag. *)
Record pst := Pst { p_rest : str; p_gid : nat; p_icase : bool }.

Definition with_rest (p : pst) (s : str) : pst := Pst s (p_gid p) (p_icase p).

Fixpoint skip_line (s : str) : str :=
  match s with [] => [] | c :: t => if (c =? c_nl)%N then t else skip_line t end.

Fixpoint parse_alt (verbose : bool) (fuel : nat) (p : pst) : option (regex * pst) :=
  match fuel with
  | 0 => None
  | S fuel =>
      '(r1, p1) ← parse_seq verbose fuel [] p;
      match p_rest p1 with
      | c :: t =>
          if (c =? ch "|")%N then
            '(r2, p2) ← parse_alt verbose fuel (with_rest p1 t);
            Some (Alt r1 r2, p2)
          else Some (r1, p1)
      | [] => Some (r1, p1)
      end
  end
with parse_seq (verbose : bool) (fuel : nat) (acc : list regex) (p : pst)
    : option (regex * pst) :=
  match fuel with
  | 0 => None
  | S fuel =>
      match p_rest p with
      | [] => Some (seq_of (rev acc), p)
      | c :: t =>
          let p' := with_rest p t in
          if char_in c (u "|)") then Some (seq_of (rev acc), p)
          else if verbose && is_space c then parse_seq verbose fuel acc p'
          else if verbose && (c =? ch "#")%N then
            parse_seq verbose fuel acc (with_rest p (skip_line t))
          else if (c =? ch "[")%N then
            '(r, t') ← parse_bracket t;
            parse_seq verbose fuel (r :: acc) (with_rest p t')
          else if char_in c (u "*+?{") then
            match parse_bounds c t with
            | Some (lo, hi, t') =>
                match acc with
                | [] => None
                | r :: acc' =>
                    let '(greedy, t'') := match t' with
                      | d :: t'' => if (d =? ch "?")%N then (false, t'') else (true, t')
                      | [] => (true, t') end in
                    if repeatable greedy r && bounds_ok lo hi
                    then parse_seq verbose fuel (Rep greedy lo hi r :: acc')
                           (with_rest p t'')
                    else None
                end
            | None => if (c =? ch "{")%N
                      then parse_seq verbose fuel (Chars (CLit c) :: acc) p' else None
            end
          else if (c =? ch ".")%N then parse_seq verbose fuel (Chars CDot :: acc) p'
          else if (c =? ch "^")%N then parse_seq verbose fuel (Bol :: acc) p'
          else if (c =? ch "$")%N then parse_seq verbose fuel (Eol :: acc) p'
          else if (c =? ch "\")%N then
            if starts_with (u "000") t
            then parse_seq verbose fuel (Chars (CLit 0) :: acc) (with_rest p (drop 3 t))
            else
            match t with
            | [] => None
            | d :: t' => r ← atom_escape d;
                         parse_seq verbose fuel (r :: acc) (with_rest p t')
            end
          else if (c =? ch "(")%N then
            '(o, t') ← parse_opening t;
            match o with
            | OFlagI => parse_seq verbose fuel acc (Pst t' (p_gid p) true)
            | _ =>
                let n := p_gid p in
                let gid := match o with OGroup => S n | _ => n end in
                '(r, p1) ← parse_alt verbose fuel (Pst t' gid (p_icase p));
                match p_rest p1 with
                | d :: t1 =>
                    if (d =? ch ")")%N then
                      let r' := match o with
                        | OGroup => Grp n r | OAhead => Look true r
                        | ONotAhead => Look false r | _ => r end in
                      parse_seq verbose fuel (r' :: acc) (with_rest p1 t1)
                    else None
                | [] => None
                end
            end
          else parse_seq verbose fuel (Chars (CLit c) :: acc) p'
      end
  end.

(** [re.compile(pattern)] with the flags [re.I], [re.M] and [re.VERBOSE]. *)
Definition re_compile_with (icase multi verbose : bool) (pattern : str) : option compiled :=
  '(r, p) ← parse_alt verbose (2 * length pattern + 2) (Pst pattern 1 icase);
  match p_rest p with
  | [] => Some (Compiled (Flags (p_icase p) multi) r)
  | _ => None
  end.

Definition re_compile : str → option compiled := re_compile_with false false false.

(** [re.escape]: a backslash before every non-alphanumeric character. *)
Definition re_escape (s : str) : str :=
  s ≫= λ c, if is_alnum c then [c]
            else if (c =? 0)%N then u "\000" else [ch "\"; c].

(** ** Escaped texts always compile *)

Definition escape_char (c : N) : str :=
  if is_alnum c then [c] else if (c =? 0)%N then u "\000" else [ch "\"; c].

Lemma re_escape_cons c s : re_escape (c :: s) = escape_char c ++ re_escape s.
Proof. done. Qed.

(** Decide the comparisons of [c] with the characters of the grammar. *)
Ltac not_in_grammar c E :=
  repeat match goal with
  | |- context [N.eqb c ?d] =>
      destruct (N.eqb_spec c d) as [->|?]; [vm_compute in E; discriminate E|]
  end.

Lemma atom_escape_symbol c : is_alnum c = false → c ≠ 0%N →
  atom_escape c = Some (Chars (CLit c)).
Proof.
  intros E H0. unfold atom_escape, class_escape, char_escape, char_in.
  change (u "xuUAZB0") with [120; 117; 85; 65; 90; 66; 48]%N. cbn [existsb].
  change (ch "d") with 100%N. change (ch "D") with 68%N. change (ch "s") with 115%N.
  change (ch "S") with 83%N. change (ch "w") with 119%N. change (ch "W") with 87%N.
  change (ch "b") with 98%N. change (ch "n") with 110%N. change (ch "t") with 116%N.
  change (ch "r") with 114%N. change (ch "f") with 102%N. change (ch "v") with 118%N.
  change (ch "a") with 97%N.
  not_in_grammar c E.
  assert (Hd : in_range 49 57 c = false).
  { unfold is_alnum, is_digit, in_range in *. apply not_true_iff_false. intros H.
    apply andb_true_iff in H as [H1 H2]. apply N.leb_le in H1, H2.
    rewrite (proj2 (N.leb_le 48 c)), (proj2 (N.leb_le c 57)) in E by lia. done. }
  rewrite Hd. cbn [orb]. done.
Qed.

(** Each escaped character is read back as the literal it stands for. *)
Lemma parse_escape_char fuel acc c rest gid i :
  parse_seq false (S fuel) acc (Pst (escape_char c ++ rest) gid i) =
    parse_seq false fuel (Chars (CLit c) :: acc) (Pst rest gid i).
Proof.
  unfold escape_char. destruct (is_alnum c) eqn:E.
  - cbn [parse_seq p_rest app]. unfold with_rest, char_in. cbn [p_gid p_icase andb].
    change (u "|)") with [124; 41]%N. change (u "*+?{") with [42; 43; 63; 123]%N.
    change (ch "[") with 91%N. change (ch ".") with 46%N. change (ch "^") with 94%N.
    change (ch "$") with 36%N. change (ch "\") with 92%N. change (ch "(") with 40%N.
    change (ch "{") with 123%N. cbn [existsb]. not_in_grammar c E. reflexivity.
  - destruct (N.eqb_spec c 0) as [->|H0]; [reflexivity|]. change (ch "\") with 92%N.
    cbn [app parse_seq p_rest]. unfold with_rest. cbn [p_gid p_icase].
    assert (Hs : starts_with (u "000") (c :: rest) = false).
    { change (u "000") with [48; 48; 48]%N. cbn [starts_with].
      destruct (N.eqb_spec 48 c) as [<-|?]; [by vm_compute in E|done]. }
    rewrite Hs, (atom_escape_symbol c E H0). reflexivity.
Qed.

Lemma parse_re_escape fuel acc s rest gid i :
  parse_seq false (length s + fuel) acc (Pst (re_escape s ++ rest) gid i) =
    parse_seq false fuel (rev (Chars <$> (CLit <$> s)) ++ acc) (Pst rest gid i).
Proof.
  revert acc. induction s as [|c s IH]; intros acc; [done|].
  rewrite re_escape_cons, <- app_assoc. cbn [length Nat.add]. rewrite parse_escape_char, IH.
  simpl. by rewrite <- app_assoc.
Qed.

Lemma length_re_escape s : length s ≤ length (re_escape s).
Proof.
  induction s as [|c s IH]; [done|]. rewrite re_escape_cons, length_app. unfold escape_char.
  destruct (is_alnum c), (c =? 0)%N; simpl; lia.
Qed.

(** An escaped text does not begin with a question mark, which would change
    what a repetition before it means. *)
Definition no_question (s : str) : Prop := head (A:=N) s ≠ Some (ch "?").

Lemma re_escape_no_question s after :
  no_question after → no_question (re_escape s ++ after).
Proof.
  intros H. destruct s as [|c s]; [done|]. rewrite re_escape_cons. unfold escape_char.
  destruct (is_alnum c) eqn:E; [intros [= ->]; by vm_compute in E|].
  by destruct (N.eqb_spec c 0).
Qed.

(** A pattern around an escaped text compiles when its two ends do: [before]
    is read in [n] steps (its groups in at most [e] more), leaving the items
    [acc] and the group number [gid], and [after] is then read to its end in [k]
    steps, whatever the items are. *)
Lemma re_compile_around before after s n e k acc gid :
  (∀ fuel rest, no_question rest →
     parse_seq false (n + (e + fuel)) [] (Pst (before ++ rest) 1 false) =
     parse_seq false (e + fuel) acc (Pst rest gid false)) →
  (∀ fuel acc', ∃ r gid' i', parse_seq false (k + fuel) acc' (Pst after gid false) =
                  Some (r, Pst [] gid' i')) →
  no_question after → n ≤ length before → n + e ≤ 2 * length before → k ≤ length after →
  is_Some (re_compile (before ++ re_escape s ++ after)).
Proof.
  intros Hb Ha Hq Hn He Hk. unfold re_compile, re_compile_with.
  pose proof (length_re_escape s) as Hs.
  set (len := length (before ++ re_escape s ++ after)).
  assert (Hlen : len = length before + (length (re_escape s) + length after))
    by (unfold len; by rewrite !length_app).
  clearbody len. set (fuel := 2 * len + 1 - n).
  replace (2 * len + 2) with (S (n + (e + (fuel - e)))) by lia.
  cbn [parse_alt]. rewrite Hb by by apply re_escape_no_question.
  replace (e + (fuel - e)) with (length s + (k + (fuel - length s - k))) by lia.
  rewrite parse_re_escape.
  destruct (Ha (fuel - length s - k) (rev (Chars <$> (CLit <$> s)) ++ acc))
    as (r & gid' & i' & ->). simpl. eauto.
Qed.

(** A repetition sign not followed by a question mark is greedy. *)
Lemma parse_repetition fuel c lo hi r acc rest gid i : no_question rest →
  (c, lo, hi) ∈ [(ch "*", 0, None); (ch "+", 1, None); (ch "?", 0, Some 1)] →
  repeatable true r = true →
  parse_seq false (S fuel) (r :: acc) (Pst (c :: rest) gid i) =
    parse_seq false fuel (Rep true lo hi r :: acc) (Pst rest gid i).
Proof.
  intros Hq Hc Hr.
  assert (Hg : match rest with
     | d :: t => if (d =? ch "?")%N then (false, t) else (true, rest)
     | [] => (true, rest) end = (true, rest)).
  { destruct rest as [|d s]; [done|]. destruct (N.eqb_spec d (ch "?")) as [->|]; [|done].
    by destruct Hq. }
  rewrite !elem_of_cons in Hc. 
  assert (Hb : parse_bounds c rest = Some (lo, hi, rest) ∧ char_in c (u "|)") = false ∧
    (c =? ch "[")%N = false ∧ char_in c (u "*+?{") = true ∧ bounds_ok lo hi = true)
    by (by destruct Hc as [E|[E|[E|[]%not_elem_of_nil]]]; injection E as -> -> ->).
  destruct Hb as (Hb & H1 & H2 & H3 & H4). cbn [parse_seq p_rest andb]. unfold with_rest.
  rewrite H1, H2, H3, Hb. cbn [p_gid p_icase]. by rewrite Hg, Hr, H4.
Qed.

(** The items of a sequence. *)
Fixpoint items_of (r : regex) : list regex :=
  match r with Seq r1 r2 => r1 :: items_of r2 | r => [r] end.
