(* ===== verification/PyRe.v ===== *)
(** * The functions of Python's [re] module

    Match objects, [match], [search], [sub], [findall], [finditer] and [split]
    over the matcher of [Regex], and what a successful or failed search means
    in terms of the pattern's denotation. *)
From S2P Require Import Prelude PyStr Regex RegexParse.

(** ** Match objects *)

Record match_obj := MatchObj {
  mo_string : str;
  mo_start : nat;
  mo_end : nat;
  mo_caps : list (nat * (nat * nat));
}.

Definition span (s : str) (b e : nat) : str := take (e - b) (drop b s).

(** [m.group(0)], and [m.group(n)] for [n >= 1], which is [None] when the
    group took no part in the match. *)
Definition group0 (mo : match_obj) : str := span (mo_string mo) (mo_start mo) (mo_end mo).
Definition group (mo : match_obj) (n : nat) : option str :=
  (λ '(b, e), span (mo_string mo) b e) <$> cap_get n (mo_caps mo).

(** The text of a group the pattern always sets. *)
Definition group_str (mo : match_obj) (n : nat) : str := default [] (group mo n).

(** [m.start(n)] is [-1] for a group that took no part. *)
Definition group_start (mo : match_obj) (n : nat) : Z :=
  match cap_get n (mo_caps mo) with Some (b, _) => Z.of_nat b | None => (-1)%Z end.

(** ** Matching at a position *)

(** The state at position [i] of [s]. *)
Definition st_at (s : str) (i : nat) : mst := Mst (rev (take i s)) (drop i s) [].

Definition match_at (c : compiled) (s : str) (i : nat) : option match_obj :=
  (λ st, MatchObj s i (pos st) (caps st)) <$> m (re_flags c) (re_body c) (st_at s i) Some.

(** [pattern.match(s)]. *)
Definition re_match (c : compiled) (s : str) : option match_obj := match_at c s 0.

(** The first match at or after position [i]; [n] positions are left. *)
Fixpoint search_from (c : compiled) (s : str) (n i : nat) : option match_obj :=
  match match_at c s i with
  | Some mo => Some mo
  | None => match n with 0 => None | S n => search_from c s n (S i) end
  end.

Definition re_search_at (c : compiled) (s : str) (i : nat) : option match_obj :=
  if (i <=? length s)%nat then search_from c s (length s - i) i else None.

(** [pattern.search(s)]. *)
Definition re_search (c : compiled) (s : str) : option match_obj := re_search_at c s 0.

Definition matches (c : compiled) (s : str) : bool := bool_decide (is_Some (re_match c s)).
Definition found (c : compiled) (s : str) : bool := bool_decide (is_Some (re_search c s)).

(** ** Scanning: every successive match

    After an empty match the scan restarts one character further. *)
Fixpoint scan (c : compiled) (s : str) (fuel i : nat) : list match_obj :=
  match fuel with
  | 0 => []
  | S fuel =>
      match re_search_at c s i with
      | None => []
      | Some mo =>
          mo :: scan c s fuel (if (mo_end mo =? mo_start mo)%nat then S (mo_end mo)
                               else mo_end mo)
      end
  end.

(** [pattern.finditer(s)]. *)
Definition re_finditer (c : compiled) (s : str) : list match_obj := scan c s (S (length s)) 0.

(** [re.findall] for a pattern with one group or more: the first group. *)
Definition re_findall1 (c : compiled) (s : str) : list str :=
  (λ mo, group_str mo 1) <$> re_finditer c s.

(** [pattern.sub(f, s)]: an empty match just after the previous match is left
    alone. [last] is the end of the text already copied. *)
Fixpoint sub_go (f : match_obj → str) (s : str) (last : nat) (first : bool)
    (l : list match_obj) : str :=
  match l with
  | [] => drop last s
  | mo :: l =>
      if (mo_start mo =? mo_end mo)%nat && (mo_start mo =? last)%nat && negb first
      then sub_go f s last false l
      else span s last (mo_start mo) ++ f mo ++ sub_go f s (mo_end mo) false l
  end.

Definition re_sub_with (c : compiled) (f : match_obj → str) (s : str) : str :=
  sub_go f s 0 true (re_finditer c s).
Definition re_sub (c : compiled) (rep s : str) : str := re_sub_with c (λ _, rep) s.

(** [re.split(pattern, s)] for a pattern without groups; empty matches do not
    split. *)
Fixpoint split_at_matches (s : str) (last : nat) (l : list match_obj) : list str :=
  match l with
  | [] => [drop last s]
  | mo :: l =>
      if (mo_start mo =? mo_end mo)%nat then split_at_matches s last l
      else span s last (mo_start mo) :: split_at_matches s (mo_end mo) l
  end.
Definition re_split (c : compiled) (s : str) : list str :=
  split_at_matches s 0 (re_finditer c s).

(** ** What searching means *)

Lemma matches_den c s :
  matches c s = true ↔ ∃ st, den (re_flags c) (re_body c) (st_at s 0) st.
Proof.
  unfold matches, re_match, match_at. rewrite bool_decide_eq_true, fmap_is_Some. apply m_den.
Qed.

Lemma search_from_None c s n i :
  search_from c s n i = None ↔ ∀ j, i ≤ j ≤ i + n → match_at c s j = None.
Proof.
  revert i. induction n as [|n IH]; intros i; simpl.
  - destruct (match_at c s i) eqn:E; split; intros H; try done.
    + by rewrite <- E, H by lia.
    + intros j Hj. by replace j with i by lia.
  - destruct (match_at c s i) eqn:E.
    + split; [done|]. intros H. by rewrite H in E by lia.
    + rewrite IH. split; intros H j Hj.
      * destruct (decide (j = i)) as [->|]; [done|]. apply H. lia.
      * apply H. lia.
Qed.

Lemma search_from_Some c s n i mo : search_from c s n i = Some mo →
  ∃ j, i ≤ j ≤ i + n ∧ match_at c s j = Some mo ∧
       ∀ j', i ≤ j' < j → match_at c s j' = None.
Proof.
  revert i. induction n as [|n IH]; intros i H; simpl in H;
    destruct (match_at c s i) eqn:E; simplify_eq.
  - exists i. split_and!; [lia|lia|done|]. lia.
  - exists i. split_and!; [lia|lia|done|]. lia.
  - apply IH in H as (j & Hj & Hm & Hmin). exists j. split_and!; [lia|lia|done|].
    intros j' Hj'. destruct (decide (j' = i)) as [->|]; [done|]. apply Hmin. lia.
Qed.

Lemma match_at_den c s i mo : match_at c s i = Some mo →
  ∃ st, den (re_flags c) (re_body c) (st_at s i) st ∧
        mo = MatchObj s i (pos st) (caps st).
Proof.
  unfold match_at. intros (st & Hst & ->)%fmap_Some.
  exists st. split; [|done]. by apply m_Some_den.
Qed.

Lemma found_den c s : found c s = true ↔
  ∃ i st, i ≤ length s ∧ den (re_flags c) (re_body c) (st_at s i) st.
Proof.
  unfold found, re_search, re_search_at. simpl. rewrite bool_decide_eq_true.
  rewrite Nat.sub_0_r. split.
  - intros [mo (j & Hj & Hm & _)%search_from_Some].
    apply match_at_den in Hm as (st & Hd & _). exists j, st. split; [lia|done].
  - intros (i & st & Hi & Hd).
    destruct (search_from c s (length s) 0) as [mo|] eqn:E; [eauto|].
    assert (Hn : match_at c s i = None)
      by (apply (proj1 (search_from_None c s (length s) 0)); [done|lia]).
    apply fmap_None, m_None_den with (st' := st) in Hn. done.
Qed.

(** A match stays inside its subject, and ends no earlier than it starts. *)
Lemma st_at_pos s i : i ≤ length s → pos (st_at s i) = i.
Proof. intros H. unfold pos, st_at. simpl. rewrite length_rev, length_take. lia. Qed.

Lemma st_at_whole s i : whole (st_at s i) = s.
Proof. unfold whole, st_at. simpl. by rewrite rev_involutive, take_drop. Qed.

Lemma ext_pos st st' : ext st st' → pos st ≤ pos st' ≤ length (whole st).
Proof.
  intros (w & H1 & H2). unfold pos, whole. rewrite H2, !length_app, !length_rev, H1, length_app.
  lia.
Qed.

Lemma match_at_bounds c s i mo : i ≤ length s → match_at c s i = Some mo →
  mo_string mo = s ∧ mo_start mo = i ∧ i ≤ mo_end mo ≤ length s.
Proof.
  intros Hi (st & Hd & ->)%match_at_den. simpl. split_and!; [done|done| |];
    apply den_ext, ext_pos in Hd; rewrite st_at_pos, st_at_whole in Hd; lia.
Qed.

Lemma re_search_Some c s mo : re_search c s = Some mo →
  mo_string mo = s ∧ mo_start mo ≤ mo_end mo ≤ length s ∧
  match_at c s (mo_start mo) = Some mo.
Proof.
  intros (j & Hj & Hm & _)%search_from_Some.
  destruct (match_at_bounds c s j mo) as (? & Hs & ?); [simpl in *; lia|done|].
  rewrite Hs. split_and!; [done|lia|lia|done].
Qed.

Lemma re_search_first c s i mo : i ≤ length s →
  (∀ j, j < i → match_at c s j = None) → match_at c s i = Some mo →
  re_search c s = Some mo.
Proof.
  intros Hi Hmin Hm. unfold re_search, re_search_at. cbn [Nat.leb]. rewrite Nat.sub_0_r.
  destruct (search_from c s (length s) 0) as [mo'|] eqn:E.
  - apply search_from_Some in E as (j & Hj & Hm' & Hmin').
    destruct (Nat.lt_trichotomy i j) as [H|[->|H]]; [|congruence|].
    + rewrite Hmin' in Hm by lia. done.
    + rewrite Hmin in Hm' by lia. done.
  - apply (proj1 (search_from_None c s (length s) 0)) with (j := i) in E; [|lia]. congruence.
Qed.

Lemma re_search_None c s : re_search c s = None ↔ ∀ j, j ≤ length s → match_at c s j = None.
Proof.
  unfold re_search, re_search_at. cbn [Nat.leb]. rewrite Nat.sub_0_r, search_from_None.
  split; intros H j Hj; apply H; lia.
Qed.

(** A subject without such a character has no match. *)
Lemma match_at_needs p c s i : f_icase (re_flags p) = false → needs c (re_body p) = true →
  c ∉ s → match_at p s i = None.
Proof.
  intros Hi Hn Hc. destruct (match_at p s i) as [mo|] eqn:E; [|done].
  apply match_at_den in E as (st & Hd & _).
  destruct (den_needs _ _ _ _ _ Hi Hn Hd) as (w & Hw & Hin).
  destruct Hc. rewrite <- (take_drop i s), elem_of_app. right. unfold st_at in Hw.
  cbn [suf] in Hw. rewrite Hw, elem_of_app. by left.
Qed.

Lemma re_search_needs p c s : f_icase (re_flags p) = false → needs c (re_body p) = true →
  c ∉ s → re_search p s = None.
Proof. intros Hi Hn Hc. apply re_search_None. intros j _. by eapply match_at_needs. Qed.

(** Without a match, substitution changes nothing. *)
Lemma re_sub_none p rep s : re_search p s = None → re_sub p rep s = s.
Proof.
  intros H. unfold re_sub, re_sub_with, re_finditer. cbn [scan].
  change (re_search_at p s 0) with (re_search p s). by rewrite H.
Qed.

Lemma re_sub_needs p c rep s : f_icase (re_flags p) = false → needs c (re_body p) = true →
  c ∉ s → re_sub p rep s = s.
Proof. intros. apply re_sub_none. by eapply re_search_needs. Qed.

(** The same for two characters in a row. *)
Lemma re_sub_needs_pair p c d rep s : f_icase (re_flags p) = false →
  needs_pair c d (re_body p) = true → contains s [c; d] = false → re_sub p rep s = s.
Proof.
  intros Hi Hn Hc. apply re_sub_none, re_search_None. intros j _.
  destruct (match_at p s j) as [mo|] eqn:E; [|done].
  apply match_at_den in E as (st & Hd & _).
  destruct (den_needs_pair _ _ _ _ _ _ Hi Hn Hd) as (a & b & Hab). unfold st_at in Hab.
  cbn [suf] in Hab. rewrite (proj2 (contains_spec _ _)) in Hc; [done|].
  exists (take j s ++ a), (b ++ suf st). rewrite <- (take_drop j s) at 1.
  by rewrite Hab, <- app_assoc.
Qed.

(** Loops that go on with a group of the match end: the group is shorter than
    the subject. *)
Definition shrinks (n : nat) (c : compiled) : bool :=
  (1 <=? least (re_body c))%nat &&
  match begins n (re_body c) with Some d => (1 <=? d)%nat | None => true end.

Lemma group_shrinks n c s mo : shrinks n c = true → re_match c s = Some mo →
  length (group_str mo n) < length s.
Proof.
  intros [Hl Hb]%andb_true_iff (st & Hd & ->)%match_at_den. apply Nat.leb_le in Hl.
  pose proof (den_least _ _ _ _ Hd) as Hle.
  pose proof (ext_pos_suf _ _ (den_ext _ _ _ _ Hd)) as He.
  assert (Hp : pos (st_at s 0) = 0) by done. change (suf (st_at s 0)) with s in He.
  unfold group_str, group. cbn [mo_caps mo_string].
  destruct (cap_get n (caps st)) as [[b e]|] eqn:E.
  - destruct (den_placed _ n _ _ _ Hd _ E) as [[=]|(d & Hk & Hd1 & Hd2 & Hd3)].
    rewrite Hk in Hb. apply Nat.leb_le in Hb. change (suf (st_at s 0)) with s in Hd3.
    cbn [fst snd] in *. simpl. unfold span. rewrite length_take, length_drop. lia.
  - simpl. lia.
Qed.

(** What a group can be: one of the texts the pattern spells. *)
Lemma group_spelled n c l s i mo : i ≤ length s → match_at c s i = Some mo →
  f_icase (re_flags c) = false → group_texts n (re_body c) = Some l →
  sets n (re_body c) = true → group_str mo n ∈ l.
Proof.
  intros Hle (st & Hd & ->)%match_at_den Hi Hl Hs.
  destruct (den_sets _ _ _ _ _ Hs Hd) as [[b e] E].
  unfold group_str, group. cbn [mo_caps mo_string]. rewrite E. simpl.
  destruct (den_spelled _ _ _ _ _ _ Hi Hl Hd _ E) as [[=]|Hw].
  by rewrite st_at_whole in Hw.
Qed.

Lemma re_finditer_match_at c s mo : mo ∈ re_finditer c s →
  mo_start mo ≤ length s ∧ match_at c s (mo_start mo) = Some mo.
Proof.
  unfold re_finditer. generalize (S (length s)) as fuel. intros fuel.
  generalize 0 as i. induction fuel as [|fuel IH]; intros i H; [by apply not_elem_of_nil in H|].
  cbn [scan] in H. destruct (re_search_at c s i) as [mo'|] eqn:E;
    [|by apply not_elem_of_nil in H].
  apply elem_of_cons in H as [->|H]; [|by eapply IH].
  unfold re_search_at in E. destruct (Nat.leb_spec i (length s)); [|done].
  apply search_from_Some in E as (j & Hj & Hm & _).
  destruct (match_at_bounds c s j mo') as (_ & -> & _); [lia|done|]. split; [lia|done].
Qed.

(** A leading group and what follows it: the group is a prefix of the subject
    that leaves room for the rest. *)
Lemma group1_prefix c r R s mo : re_body c = Seq Bol (Seq (Grp 1 r) R) →
  begins 1 R = None → re_match c s = Some mo →
  group_str mo 1 = take (length (group_str mo 1)) s ∧
  length (group_str mo 1) + least R ≤ length s.
Proof.
  intros Hb Hnone (st & Hd & ->)%match_at_den. rewrite Hb in Hd. cbn [den] in Hd.
  destruct Hd as (st1 & [_ ->] & st2 & (st3 & Hr & ->) & HR).
  pose proof (den_least _ _ _ _ HR) as Hl. apply den_ext in Hr as He.
  pose proof (ext_pos_suf _ _ He) as [Hp Hs]. pose proof (ext_whole _ _ He) as Hw.
  pose proof (ext_pos_suf _ _ (den_ext _ _ _ _ HR)) as [Hp' Hs'].
  rewrite st_at_whole in Hw. change (pos (st_at s 0)) with 0 in *.
  change (suf (st_at s 0)) with s in *.
  change (pos (Mst (pre st3) (suf st3) ((1, (0, pos st3)) :: caps st3))) with (pos st3) in *.
  cbn [suf] in Hs'.
  assert (Hg : cap_get 1 (caps st) = Some (0, pos st3)).
  { destruct (den_sets (re_flags c) 1 (Seq Bol (Grp 1 r)) (st_at s 0)
      (Mst (pre st3) (suf st3) ((1, (0, pos st3)) :: caps st3))) as [be Hbe].
    - done.
    - cbn [den]. exists (st_at s 0). split; [done|]. by exists st3.
    - pose proof (den_caps_stay _ 1 _ _ _ HR (ex_intro _ be Hbe)) as [be' Hbe'].
      destruct (den_placed _ 1 _ _ _ HR _ Hbe') as [E|(d & E & _)]; [|congruence].
      cbn [caps cap_get Nat.eqb] in E. injection E as <-. exact Hbe'. }
  assert (Hgs : group_str (MatchObj s 0 (pos st) (caps st)) 1 = take (pos st3) s).
  { unfold group_str, group. cbn [mo_caps mo_string]. rewrite Hg. simpl. unfold span.
    by rewrite Nat.sub_0_r, drop_0. }
  rewrite Hgs, length_take. split; [|lia]. by rewrite Nat.min_l by lia.
Qed.

(** Substituting a text no longer than any match does not lengthen a subject. *)
Lemma match_at_least c s i mo : i ≤ length s → match_at c s i = Some mo →
  i + least (re_body c) ≤ mo_end mo.
Proof.
  intros Hi (st & Hd & ->)%match_at_den. apply den_least in Hd. by rewrite st_at_pos in Hd.
Qed.

Lemma sub_go_length c rep s fuel : ∀ i last first,
  1 ≤ least (re_body c) → length rep ≤ least (re_body c) → last ≤ i → last ≤ length s →
  length (sub_go (λ _, rep) s last first (scan c s fuel i)) ≤ length s - last.
Proof.
  induction fuel as [|fuel IH]; intros i last first H1 Hrep Hi Hl; cbn [scan].
  { cbn [sub_go]. by rewrite length_drop. }
  destruct (re_search_at c s i) as [mo|] eqn:E; [|cbn [sub_go]; by rewrite length_drop].
  unfold re_search_at in E. destruct (Nat.leb_spec i (length s)); [|done].
  apply search_from_Some in E as (j & Hj & Hm & _).
  pose proof (match_at_least c s j mo ltac:(lia) Hm) as Hlen.
  destruct (match_at_bounds c s j mo ltac:(lia) Hm) as (_ & Hst & Hen).
  cbn [sub_go]. rewrite Hst. destruct (Nat.eqb_spec j (mo_end mo)); [lia|]. cbn [andb].
  destruct (Nat.eqb_spec (mo_end mo) j); [lia|].
  rewrite !length_app. unfold span. rewrite length_take, length_drop.
  specialize (IH (mo_end mo) (mo_end mo) false). lia.
Qed.

Lemma re_sub_length c rep s : 1 ≤ least (re_body c) → length rep ≤ least (re_body c) →
  length (re_sub c rep s) ≤ length s.
Proof.
  intros H1 Hrep. unfold re_sub, re_sub_with, re_finditer.
  pose proof (sub_go_length c rep s (S (length s)) 0 0 true H1 Hrep). lia.
Qed.

(** A subject with a match has the characters a match needs. *)
Lemma re_search_has p c s : f_icase (re_flags p) = false → needs c (re_body p) = true →
  is_Some (re_search p s) → c ∈ s.
Proof.
  intros Hi Hn [mo Hm]. destruct (decide (c ∈ s)) as [|Hc]; [done|].
  by rewrite (re_search_needs p c s Hi Hn Hc) in Hm.
Qed.

Lemma re_match_has p c s : f_icase (re_flags p) = false → needs c (re_body p) = true →
  is_Some (re_match p s) → c ∈ s.
Proof.
  intros Hi Hn [mo Hm]. destruct (decide (c ∈ s)) as [|Hc]; [done|].
  unfold re_match in Hm. by rewrite (match_at_needs p c s 0 Hi Hn Hc) in Hm.
Qed.

(** ** The program's patterns

    [rx "..."] is a pattern of the program, compiled where it is written; a
    text the grammar does not accept is an error there. [rx_i], [rx_m] and
    [rx_x] compile with [re.I], [re.M] and [re.VERBOSE]. *)
Ltac compile_rx o :=
  let c := eval vm_compute in o in
  lazymatch c with
  | Some ?r => exact r
  | None => fail "this pattern does not compile"
  end.
Notation "'rx' p" := ltac:(compile_rx (re_compile (u p)))
  (at level 9, p at level 8, only parsing).
Notation "'rx_i' p" := ltac:(compile_rx (re_compile_with true false false (u p)))
  (at level 9, p at level 8, only parsing).
Notation "'rx_m' p" := ltac:(compile_rx (re_compile_with false true false (u p)))
  (at level 9, p at level 8, only parsing).
Notation "'rx_x' p" := ltac:(compile_rx (re_compile_with false false true (u p)))
  (at level 9, p at level 8, only parsing).
