(* ===== verification/World.v ===== *)
(** * The program's global state and its effects

    cpplint keeps its configuration, its NOLINT suppressions and its error
    counts in module globals and writes to [sys.stderr].  [world] is that
    state, [M] the programs that read and change it and may raise, and [wp]
    their weakest precondition, with [preserves] and [returns] the two ways the
    later theorems use it.  A check
    receives its error handler as an argument, as in the source. *)
From S2P Require Import Prelude PyStr.

(** ** State *)

(** [class _CppLintState]. *)
Record lint_state := LintState {
  verbose_level : Z;
  error_count : Z;
  filters : list str;
  counting : str;
  errors_by_category : gmap str Z;
  output_format : str;
}.

Record world := World {
  error_suppressions : gmap (option str) (gset Z);
  cpplint_state : lint_state;
  w_root : option str;
  w_line_length : Z;
  w_valid_extensions : gset str;
  stderr : list str;
}.

Definition set_suppressions (s : gmap (option str) (gset Z)) (w : world) : world :=
  World s (cpplint_state w) (w_root w) (w_line_length w) (w_valid_extensions w) (stderr w).
Definition set_state (s : lint_state) (w : world) : world :=
  World (error_suppressions w) s (w_root w) (w_line_length w) (w_valid_extensions w)
    (stderr w).
Definition set_root (r : option str) (w : world) : world :=
  World (error_suppressions w) (cpplint_state w) r (w_line_length w)
    (w_valid_extensions w) (stderr w).
Definition set_line_length (n : Z) (w : world) : world :=
  World (error_suppressions w) (cpplint_state w) (w_root w) n (w_valid_extensions w)
    (stderr w).
Definition set_valid_extensions (e : gset str) (w : world) : world :=
  World (error_suppressions w) (cpplint_state w) (w_root w) (w_line_length w) e (stderr w).
Definition add_stderr (s : str) (w : world) : world :=
  World (error_suppressions w) (cpplint_state w) (w_root w) (w_line_length w)
    (w_valid_extensions w) (stderr w ++ [s]).

(** ** Programs *)

Definition M (A : Type) : Type := world → res A * world.

#[export] Instance M_ret : MRet M := λ A a w, (Ok a, w).
#[export] Instance M_bind : MBind M := λ A B f c w,
  match c w with
  | (Ok a, w') => f a w'
  | (Raise e, w') => (Raise e, w')
  end.

Definition gets {A} (f : world → A) : M A := λ w, (Ok (f w), w).
Definition modify (f : world → world) : M unit := λ w, (Ok tt, f w).
Definition raise {A} (e : exn) : M A := λ w, (Raise e, w).
Definition lift {A} (r : res A) : M A := λ w, (r, w).
Definition skip : M unit := mret tt.
Definition when (b : bool) (c : M unit) : M unit := if b then c else skip.

(** [try: c except e: h]. *)
Definition try_except {A} (c : M A) (catches : exn → bool) (h : exn → M A) : M A :=
  λ w, match c w with
       | (Raise e, w') => if catches e then h e w' else (Raise e, w')
       | r => r
       end.

(** [sys.stderr.write(s)]. *)
Definition stderr_write (s : str) : M unit := modify (add_stderr s).

(** [for x in l: f(x)]. *)
Fixpoint for_each {A} (l : list A) (f : A → M unit) : M unit :=
  match l with
  | [] => skip
  | x :: l' => f x ;; for_each l' f
  end.

(** [for x in l] threading the loop's local state. *)
Fixpoint for_fold {A S} (l : list A) (s : S) (f : S → A → M S) : M S :=
  match l with
  | [] => mret s
  | x :: l' => s' ← f s x; for_fold l' s' f
  end.

(** [enumerate(l)], from a given first number. *)
Fixpoint enumerate_from {A} (i : Z) (l : list A) : list (Z * A) :=
  match l with [] => [] | x :: l' => (i, x) :: enumerate_from (i + 1)%Z l' end.
Definition enumerate {A} (l : list A) : list (Z * A) := enumerate_from 0 l.

(** [xrange(a, b)]. *)
Definition zrange (a b : Z) : list Z :=
  (λ i : nat, (a + Z.of_nat i)%Z) <$> seq 0 (Z.to_nat (b - a)).

(** The handler a check reports to: [error(filename, linenum, category,
    confidence, message)]. *)
Definition handler : Type := str → Z → str → Z → str → M unit.

(** ** Weakest preconditions *)

Definition wp {A} (c : M A) (Q : A → world → Prop) (E : exn → world → Prop)
    (w : world) : Prop :=
  match c w with
  | (Ok a, w') => Q a w'
  | (Raise e, w') => E e w'
  end.

(** No exception escapes. *)
Definition no_exn (e : exn) (w : world) : Prop := False.

Section wp.
Context {E : exn → world → Prop}.

Lemma wp_ret {A} (a : A) Q w : Q a w → wp (mret a) Q E w.
Proof. done. Qed.

Lemma wp_bind {A B} (c : M A) (f : A → M B) Q w :
  wp c (λ a w', wp (f a) Q E w') E w → wp (c ≫= f) Q E w.
Proof. unfold wp, mbind, M_bind. by destruct (c w) as [[a|e] w']. Qed.

Lemma wp_mono {A} (c : M A) (Q Q' : A → world → Prop) w :
  wp c Q E w → (∀ a w', Q a w' → Q' a w') → wp c Q' E w.
Proof. unfold wp. destruct (c w) as [[a|e] w']; auto. Qed.

Lemma wp_gets {A} (f : world → A) Q w : Q (f w) w → wp (gets f) Q E w.
Proof. done. Qed.

Lemma wp_modify f Q w : Q tt (f w) → wp (modify f) Q E w.
Proof. done. Qed.

Lemma wp_raise {A} e (Q : A → world → Prop) w : E e w → wp (raise e) Q E w.
Proof. done. Qed.

Lemma wp_lift_Ok {A} (r : res A) a Q w : r = Ok a → Q a w → wp (lift r) Q E w.
Proof. by intros ->. Qed.

Lemma wp_when b c (Q : unit → world → Prop) w :
  (b = true → wp c Q E w) → (b = false → Q tt w) → wp (when b c) Q E w.
Proof. intros H1 H2. destruct b; [by apply H1|by apply H2]. Qed.

Lemma wp_for_each {A} (l : list A) (f : A → M unit) (I : world → Prop) w :
  I w → (∀ x w', x ∈ l → I w' → wp (f x) (λ _, I) E w') →
  wp (for_each l f) (λ _, I) E w.
Proof.
  revert w. induction l as [|x l IH]; intros w Hw Hf; [done|]. simpl.
  apply wp_bind. eapply wp_mono.
  - apply Hf; [|done]. by left.
  - intros ? w' Hw'. apply IH; [done|]. intros y w'' Hy. apply Hf. by right.
Qed.

Lemma wp_for_fold {A S} (l : list A) (s : S) (f : S → A → M S) (I : S → world → Prop) w :
  I s w → (∀ s x w', x ∈ l → I s w' → wp (f s x) I E w') →
  wp (for_fold l s f) I E w.
Proof.
  revert s w. induction l as [|x l IH]; intros s w Hw Hf; [done|]. simpl.
  apply wp_bind. eapply wp_mono.
  - apply Hf; [by left|done].
  - intros s' w' Hw'. apply IH; [done|]. intros s'' y w'' Hy. apply Hf. by right.
Qed.
End wp.

(** What a run leaves behind is determined by [wp] with no exception. *)
Lemma wp_no_exn {A} (c : M A) Q w :
  wp c Q no_exn w → ∃ a w', c w = (Ok a, w') ∧ Q a w'.
Proof. unfold wp. destruct (c w) as [[a|e] w']; [eauto|done]. Qed.

(** ** Ranges and enumerations *)

Lemma elem_of_zrange a b i : i ∈ zrange a b ↔ (a <= i < b)%Z.
Proof.
  unfold zrange. rewrite list_elem_of_fmap. split.
  - intros (k & -> & Hk). apply elem_of_seq in Hk. lia.
  - intros H. exists (Z.to_nat (i - a)). split; [lia|]. apply elem_of_seq. lia.
Qed.

Lemma zrange_nil a b : (b <= a)%Z → zrange a b = [].
Proof. intros H. unfold zrange. by replace (Z.to_nat (b - a)) with 0 by lia. Qed.

Lemma zrange_cons a b : (a < b)%Z → zrange a b = a :: zrange (a + 1) b.
Proof.
  intros H. unfold zrange. replace (Z.to_nat (b - a)) with (S (Z.to_nat (b - (a + 1)))) by lia.
  cbn [seq fmap list_fmap]. rewrite Z.add_0_r, <- fmap_S_seq, <- list_fmap_compose. f_equal.
  apply list_fmap_ext. intros i x _. unfold compose. lia.
Qed.

Lemma elem_of_enumerate_from {A} (l : list A) j i x :
  (i, x) ∈ enumerate_from j l ↔ (j <= i)%Z ∧ l !! Z.to_nat (i - j) = Some x.
Proof.
  revert j. induction l as [|y l IH]; intros j; simpl.
  - split; [by intros ?%not_elem_of_nil|]. intros [_ H]. by rewrite lookup_nil in H.
  - rewrite elem_of_cons, IH. split.
    + intros [[= -> ->]|[H1 H2]]; [split; [lia|by rewrite Z.sub_diag]|].
      split; [lia|]. replace (Z.to_nat (i - j)) with (S (Z.to_nat (i - (j + 1)))) by lia. done.
    + intros [H1 H2]. destruct (decide (i = j)) as [->|Hne].
      * rewrite Z.sub_diag in H2. simpl in H2. left. congruence.
      * right. split; [lia|].
        replace (Z.to_nat (i - j)) with (S (Z.to_nat (i - (j + 1)))) in H2 by lia. done.
Qed.

Lemma elem_of_enumerate {A} (l : list A) i x :
  (i, x) ∈ enumerate l ↔ (0 <= i)%Z ∧ l !! Z.to_nat i = Some x.
Proof. unfold enumerate. by rewrite elem_of_enumerate_from, Z.sub_0_r. Qed.

(** ** Programs that keep an invariant

    [preserves I c]: run in a state satisfying [I], [c] ends in one, whether it
    returns or raises.  [preserve] applies the rules below; the lemma of each
    check is a hint of the database [preserves]. *)
Create HintDb preserves.

Section preserves.
Context (I : world → Prop).

Definition preserves {A} (c : M A) : Prop := ∀ w, I w → wp c (λ _, I) (λ _, I) w.

Lemma preserves_ret {A} (a : A) : preserves (mret a).
Proof. by intros w Hw. Qed.

Lemma preserves_skip : preserves skip.
Proof. by intros w Hw. Qed.

Lemma preserves_gets {A} (f : world → A) : preserves (gets f).
Proof. by intros w Hw. Qed.

Lemma preserves_raise {A} e : preserves (@raise A e).
Proof. by intros w Hw. Qed.

Lemma preserves_lift {A} (r : res A) : preserves (lift r).
Proof. intros w Hw. unfold wp, lift. by destruct r. Qed.

Lemma preserves_modify f : (∀ w, I w → I (f w)) → preserves (modify f).
Proof. intros Hf w Hw. by apply Hf. Qed.

Lemma preserves_bind {A B} (c : M A) (f : A → M B) :
  preserves c → (∀ a, preserves (f a)) → preserves (c ≫= f).
Proof.
  intros Hc Hf w Hw. apply wp_bind. eapply wp_mono; [by apply Hc|].
  intros a w' Hw'. by apply Hf.
Qed.

(** After a pure computation, its result is known. *)
Lemma preserves_bind_lift {A B} (r : res A) (f : A → M B) :
  (∀ a, r = Ok a → preserves (f a)) → preserves (lift r ≫= f).
Proof.
  intros Hf w Hw. apply wp_bind. unfold wp at 1, lift. destruct r as [a|e]; [|done].
  by apply Hf.
Qed.

Lemma preserves_when (b : bool) c : (b = true → preserves c) → preserves (when b c).
Proof. intros Hc w Hw. destruct b; [by apply Hc|done]. Qed.

Lemma preserves_for_each {A} (l : list A) (f : A → M unit) :
  (∀ x, x ∈ l → preserves (f x)) → preserves (for_each l f).
Proof. intros Hf w Hw. apply wp_for_each; [done|]. intros x w' Hx Hw'. by apply Hf. Qed.

Lemma preserves_for_fold {A S} (l : list A) (s : S) (f : S → A → M S) :
  (∀ s x, x ∈ l → preserves (f s x)) → preserves (for_fold l s f).
Proof. intros Hf w Hw. apply wp_for_fold; [done|]. intros s' x w' Hx Hw'. by apply Hf. Qed.

Lemma preserves_try {A} (c : M A) catches h :
  preserves c → (∀ e, preserves (h e)) → preserves (try_except c catches h).
Proof.
  intros Hc Hh w Hw. specialize (Hc w Hw). unfold wp, try_except in *.
  destruct (c w) as [[a|e] w']; [done|]. destruct (catches e); [by apply Hh|done].
Qed.
End preserves.

(** The rules are chosen by the program's head, never by unfolding it. *)
Ltac preserve_step :=
  lazymatch goal with
  | |- preserves _ (mret _) => apply preserves_ret
  | |- preserves _ skip => apply preserves_skip
  | |- preserves _ (gets _) => apply preserves_gets
  | |- preserves _ (raise _) => apply preserves_raise
  | |- preserves _ (lift _) => apply preserves_lift
  | |- preserves _ (when _ _) => apply preserves_when; intros ?
  | |- preserves _ (for_each _ _) => apply preserves_for_each; intros ? ?
  | |- preserves _ (for_fold _ _ _) => apply preserves_for_fold; intros ? ? ?
  | |- preserves _ (lift _ ≫= _) => apply preserves_bind_lift; intros ? ?
  | |- preserves _ (_ ≫= _) => apply preserves_bind; [|intros ?]
  | |- preserves _ (match ?x with _ => _ end) => destruct x eqn:?
  | |- _ => solve [auto with preserves]
  end.
Ltac preserve := repeat (cbv zeta; preserve_step).
(** ** Programs that return

    [returns Inv c]: run in a state satisfying [Inv], [c] raises nothing (and no
    loop of it runs out of fuel) and ends in such a state.  [return_] applies
    the rules by the program's head; the lemma of each check is a hint of the
    database [returns]. *)
Create HintDb returns.

Section returns.
Context (Inv : world → Prop).

Definition returns {A} (c : M A) : Prop := ∀ w, Inv w → wp c (λ _, Inv) no_exn w.

Lemma returns_ret {A} (a : A) : returns (mret a).
Proof. by intros w Hw. Qed.

Lemma returns_skip : returns skip.
Proof. by intros w Hw. Qed.

Lemma returns_gets {A} (f : world → A) : returns (gets f).
Proof. by intros w Hw. Qed.

Lemma returns_modify f : (∀ w, Inv w → Inv (f w)) → returns (modify f).
Proof. intros Hf w Hw. by apply Hf. Qed.

Lemma returns_bind {A B} (c : M A) (f : A → M B) :
  returns c → (∀ a, returns (f a)) → returns (c ≫= f).
Proof.
  intros Hc Hf w Hw. apply wp_bind. eapply wp_mono; [by apply Hc|].
  intros a w' Hw'. by apply Hf.
Qed.

Lemma returns_lift {A} (r : res A) : is_ok r → returns (lift r).
Proof. intros [a ->] w Hw. done. Qed.

(** After a pure computation that succeeds, its result is known. *)
Lemma returns_bind_lift {A B} (r : res A) (f : A → M B) :
  is_ok r → (∀ a, r = Ok a → returns (f a)) → returns (lift r ≫= f).
Proof. intros [a E] Hf w Hw. rewrite E. by apply Hf. Qed.

(** After reading the state, what the invariant says of it is known. *)
Lemma returns_bind_gets {A B} (f : world → A) (g : A → M B) :
  (∀ w, Inv w → returns (g (f w))) → returns (gets f ≫= g).
Proof. intros Hg w Hw. by apply (Hg w). Qed.

Lemma returns_when (b : bool) c : (b = true → returns c) → returns (when b c).
Proof. intros Hc. destruct b; [by apply Hc|apply returns_skip]. Qed.

Lemma returns_for_each {A} (l : list A) (f : A → M unit) :
  (∀ x, x ∈ l → returns (f x)) → returns (for_each l f).
Proof.
  intros Hf w Hw. apply wp_for_each; [done|]. intros x w' Hx Hw'. by apply Hf.
Qed.

(** The same, when the result matters: it satisfies [P]. *)
Definition yields {A} (P : A → Prop) (c : M A) : Prop :=
  ∀ w, Inv w → wp c (λ a w', P a ∧ Inv w') no_exn w.

Lemma yields_ret {A} (P : A → Prop) a : P a → yields P (mret a).
Proof. by intros Ha w Hw. Qed.

Lemma yields_bind {A B} (P : A → Prop) (Q : B → Prop) (c : M A) (f : A → M B) :
  yields P c → (∀ a, P a → yields Q (f a)) → yields Q (c ≫= f).
Proof.
  intros Hc Hf w Hw. apply wp_bind. eapply wp_mono; [by apply Hc|].
  intros a w' [Ha Hw']. by apply Hf.
Qed.

Lemma yields_after {A B} (Q : B → Prop) (c : M A) (f : A → M B) :
  returns c → (∀ a, yields Q (f a)) → yields Q (c ≫= f).
Proof.
  intros Hc Hf. apply (yields_bind (λ _, True)); [|auto].
  intros w Hw. eapply wp_mono; [by apply Hc|done].
Qed.

Lemma yields_bind_lift {A B} (Q : B → Prop) (r : res A) (f : A → M B) :
  is_ok r → (∀ a, r = Ok a → yields Q (f a)) → yields Q (lift r ≫= f).
Proof. intros [a E] Hf w Hw. rewrite E. by apply Hf. Qed.

Lemma yields_returns {A} (P : A → Prop) (c : M A) : yields P c → returns c.
Proof. intros Hc w Hw. eapply wp_mono; [by apply Hc|]. by intros a w' [_ ?]. Qed.

Lemma returns_bind_yields {A B} (P : A → Prop) (c : M A) (f : A → M B) :
  yields P c → (∀ a, P a → returns (f a)) → returns (c ≫= f).
Proof.
  intros Hc Hf w Hw. apply wp_bind. eapply wp_mono; [by apply Hc|].
  intros a w' [Ha Hw']. by apply Hf.
Qed.

Lemma yields_for_fold {A S} (P : S → Prop) (l : list A) (s : S) (f : S → A → M S) :
  P s → (∀ s x, x ∈ l → P s → yields P (f s x)) → yields P (for_fold l s f).
Proof.
  intros Hs Hf w Hw. apply (wp_for_fold _ _ _ (λ s w, P s ∧ Inv w)); [done|].
  intros s' x w' Hx [Hs' Hw']. by apply Hf.
Qed.
End returns.

#[export] Hint Resolve is_ok_Ok is_ok_or_raise : returns.

(** A pure computation's success is looked for among the hints, then the rest
    of the program is met with its result. *)
Ltac return_step :=
  lazymatch goal with
  | |- returns _ (mret _) => apply returns_ret
  | |- returns _ skip => apply returns_skip
  | |- returns _ (gets _) => apply returns_gets
  | |- returns _ (when _ _) => apply returns_when; intros ?
  | |- returns _ (for_each _ _) => apply returns_for_each; intros ? ?
  | |- returns _ (lift _ ≫= _) =>
      apply returns_bind_lift; [solve [eauto with returns]|intros ? ?]
  | |- returns _ (_ ≫= _) => apply returns_bind; [|intros ?]
  | |- returns _ (match ?x with _ => _ end) => destruct x eqn:?
  | |- _ => solve [auto with returns]
  end.
Ltac return_ := repeat (cbv zeta; return_step).

(** ** What a returning run did *)

Lemma M_bind_Ok {A B} (c : M A) (f : A → M B) w b w' :
  (c ≫= f) w = (Ok b, w') ↔ ∃ a w1, c w = (Ok a, w1) ∧ f a w1 = (Ok b, w').
Proof.
  unfold mbind, M_bind. destruct (c w) as [[a|e] w1]; split.
  - eauto.
  - by intros (a' & w1' & [= <- <-] & H).
  - done.
  - by intros (a' & w1' & H & _).
Qed.

Lemma lift_Ok {A} (r : res A) w a w' : lift r w = (Ok a, w') ↔ r = Ok a ∧ w' = w.
Proof. unfold lift. split; [by intros [= -> ->]|by intros [-> ->]]. Qed.
