(* ===== verification/LintState.v ===== *)
(** * Error categories, suppressions, filters and counts

    The module-level state of cpplint.py: NOLINT suppressions
    ([ParseNolintSuppressions], [IsErrorSuppressedByNolint]), the class
    [_CppLintState] with its filters and counters, and [Error], which decides
    with [_ShouldPrintError] whether a report is counted and printed. *)
From S2P Require Import Prelude PyStr Regex RegexParse PyRe World.

Definition _ERROR_CATEGORIES : list str :=
  [u "build/class"; u "build/deprecated";
   u "build/endif_comment"; u "build/explicit_make_pair";
   u "build/forward_decl"; u "build/header_guard";
   u "build/include"; u "build/include_alpha";
   u "build/include_order"; u "build/include_what_you_use";
   u "build/namespaces"; u "build/printf_format";
   u "build/storage_class"; u "legal/copyright";
   u "readability/alt_tokens"; u "readability/braces";
   u "readability/casting"; u "readability/check";
   u "readability/constructors"; u "readability/fn_size";
   u "readability/function"; u "readability/multiline_comment";
   u "readability/multiline_string"; u "readability/namespace";
   u "readability/nolint"; u "readability/nul";
   u "readability/streams"; u "readability/todo";
   u "readability/utf8"; u "runtime/arrays";
   u "runtime/casting"; u "runtime/explicit";
   u "runtime/int"; u "runtime/init";
   u "runtime/invalid_increment"; u "runtime/member_string_references";
   u "runtime/memset"; u "runtime/operator";
   u "runtime/printf"; u "runtime/printf_format";
   u "runtime/references"; u "runtime/string";
   u "runtime/threadsafe_fn"; u "runtime/vlog";
   u "whitespace/blank_line"; u "whitespace/braces";
   u "whitespace/comma"; u "whitespace/comments";
   u "whitespace/empty_conditional_body"; u "whitespace/empty_loop_body";
   u "whitespace/end_of_line"; u "whitespace/ending_newline";
   u "whitespace/forcolon"; u "whitespace/indent";
   u "whitespace/line_length"; u "whitespace/newline";
   u "whitespace/operators"; u "whitespace/parens";
   u "whitespace/semicolon"; u "whitespace/tab";
   u "whitespace/todo"].

Definition _DEFAULT_FILTERS : list str := [u "-build/include_alpha"].

(** ** The cache of compiled patterns

    [Match], [Search] and [ReplaceAll] compile each pattern once.  The other
    files call the [re] functions directly: [cached_calls_agree] below says why that is
    the same. *)
Module RegexpCache.

Definition compile_cached (pattern : str) (cache : gmap str compiled)
    : res compiled * gmap str compiled :=
  match cache !! pattern with
  | Some c => (Ok c, cache)
  | None => match re_compile pattern with
            | Some c => (Ok c, <[pattern := c]> cache)
            | None => (Raise ReError, cache)
            end
  end.

Definition Match (pattern s : str) (cache : gmap str compiled)
    : res (option match_obj) * gmap str compiled :=
  let '(r, cache') := compile_cached pattern cache in
  ((λ c, re_match c s) <$> r, cache').

Definition Search (pattern s : str) (cache : gmap str compiled)
    : res (option match_obj) * gmap str compiled :=
  let '(r, cache') := compile_cached pattern cache in
  ((λ c, re_search c s) <$> r, cache').

Definition ReplaceAll (pattern rep s : str) (cache : gmap str compiled)
    : res str * gmap str compiled :=
  let '(r, cache') := compile_cached pattern cache in
  ((λ c, re_sub c rep s) <$> r, cache').

(** Every entry is the compiled form of its key. *)
Definition cache_ok (cache : gmap str compiled) : Prop :=
  ∀ p c, cache !! p = Some c → re_compile p = Some c.

Lemma compile_cached_ok p cache : cache_ok cache →
  (compile_cached p cache).1 = or_raise ReError (re_compile p) ∧
  cache_ok (compile_cached p cache).2.
Proof.
  intros H. unfold compile_cached. destruct (cache !! p) as [c|] eqn:E.
  - by rewrite (H _ _ E).
  - destruct (re_compile p) as [c|] eqn:E'; simpl; [|done]. split; [done|].
    intros q c' [[<- <-]|[_ Hq]]%lookup_insert_Some; auto.
Qed.

End RegexpCache.

(** ** NOLINT suppressions *)

Definition _RE_SUPPRESSION : compiled := rx "\bNOLINT\b(\([^)]*\))?".

(** [_error_suppressions.setdefault(category, set()).add(linenum)]. *)
Definition add_suppression (category : option str) (linenum : Z) (w : world) : world :=
  let old := default ∅ (error_suppressions w !! category) in
  set_suppressions (<[category := {[linenum]} ∪ old]> (error_suppressions w)) w.

Definition ParseNolintSuppressions (error : handler) (filename raw_line : str)
    (linenum : Z) : M unit :=
  match re_search _RE_SUPPRESSION raw_line with
  | Some matched =>
      match group matched 1 with
      | None => modify (add_suppression None linenum)
      | Some category =>
          if str_eqb category (u "(*)") then modify (add_suppression None linenum)
          else if startswith category (u "(") && endswith category (u ")") then
            let category := py_slice category 1 (-1) in
            if str_in category _ERROR_CATEGORIES
            then modify (add_suppression (Some category) linenum)
            else error filename linenum (u "readability/nolint") 5%Z
                   (u "Unknown NOLINT error category: " ++ category)
          else skip
      end
  | None => skip
  end.

Definition ResetNolintSuppressions : M unit := modify (set_suppressions ∅).

Definition suppressed (w : world) (category : str) (linenum : Z) : bool :=
  bool_decide (linenum ∈ default ∅ (error_suppressions w !! Some category)) ||
  bool_decide (linenum ∈ default ∅ (error_suppressions w !! None)).

Definition IsErrorSuppressedByNolint (category : str) (linenum : Z) : M bool :=
  gets (λ w, suppressed w category linenum).

(** ** [class _CppLintState] *)

Definition with_verbose (n : Z) (s : lint_state) : lint_state :=
  LintState n (error_count s) (filters s) (counting s) (errors_by_category s)
    (output_format s).
Definition with_counts (n : Z) (m : gmap str Z) (s : lint_state) : lint_state :=
  LintState (verbose_level s) n (filters s) (counting s) m (output_format s).
Definition with_filters (f : list str) (s : lint_state) : lint_state :=
  LintState (verbose_level s) (error_count s) f (counting s) (errors_by_category s)
    (output_format s).
Definition with_counting (c : str) (s : lint_state) : lint_state :=
  LintState (verbose_level s) (error_count s) (filters s) c (errors_by_category s)
    (output_format s).
Definition with_format (f : str) (s : lint_state) : lint_state :=
  LintState (verbose_level s) (error_count s) (filters s) (counting s)
    (errors_by_category s) f.

Definition upd_state (f : lint_state → lint_state) (w : world) : world :=
  set_state (f (cpplint_state w)) w.

(** [_CppLintState.__init__] and the other module globals at import time. *)
Definition init_lint_state : lint_state :=
  LintState 1 0 _DEFAULT_FILTERS (u "total") ∅ (u "emacs").

Definition _valid_extensions : gset str :=
  list_to_set [u "cc"; u "h"; u "cpp"; u "cu"; u "cuh"].

Definition init_world : world := World ∅ init_lint_state None 80 _valid_extensions [].

Definition SetOutputFormat (format : str) : M unit := modify (upd_state (with_format format)).

(** Returns the previous setting. *)
Definition SetVerboseLevel (level : Z) : M Z :=
  last ← gets (λ w, verbose_level (cpplint_state w));
  modify (upd_state (with_verbose level)) ;;
  mret last.

Definition SetCountingStyle (style : str) : M unit :=
  modify (upd_state (with_counting style)).

(** [_OutputFormat], [_SetOutputFormat], [_VerboseLevel], ... forward to the
    one [_CppLintState] object of the module. *)
Definition _OutputFormat : M str := gets (λ w, output_format (cpplint_state w)).
Definition _VerboseLevel : M Z := gets (λ w, verbose_level (cpplint_state w)).
Definition _Filters : M (list str) := gets (λ w, filters (cpplint_state w)).
Definition _SetOutputFormat : str → M unit := SetOutputFormat.
Definition _SetVerboseLevel : Z → M Z := SetVerboseLevel.
Definition _SetCountingStyle : str → M unit := SetCountingStyle.

(** The filters a flag value spells: the non-blank pieces between commas. *)
Definition flag_filters (filters : str) : list str :=
  (λ f, bstrip f) <$> split filters (u ",") ≫= λ f, match f with [] => [] | _ => [f] end.

Definition has_sign (filt : str) : bool :=
  startswith filt (u "+") || startswith filt (u "-").

Definition unsigned_filter (filt : str) : exn :=
  ValueError (u "Every filter in --filters must start with + or - (" ++ filt ++ u " does not)").

Definition SetFilters (filters : str) : M unit :=
  let new := _DEFAULT_FILTERS ++ flag_filters filters in
  modify (upd_state (with_filters new)) ;;
  for_each new (λ filt,
    when (negb (has_sign filt)) (raise (unsigned_filter filt))).
Definition _SetFilters : str → M unit := SetFilters.

Definition ResetErrorCounts : M unit := modify (upd_state (with_counts 0 ∅)).

(** [category.split('/')[0]]. *)
Definition top_level (category : str) : str := hd [] (split category (u "/")).

Definition count_error (category : str) (s : lint_state) : lint_state :=
  let n := (error_count s + 1)%Z in
  if str_in (counting s) [u "toplevel"; u "detailed"] then
    let category := if negb (str_eqb (counting s) (u "detailed"))
                    then top_level category else category in
    let old := default 0%Z (errors_by_category s !! category) in
    with_counts n (<[category := (old + 1)%Z]> (errors_by_category s)) s
  else with_counts n (errors_by_category s) s.

Definition IncrementErrorCount (category : str) : M unit :=
  modify (upd_state (count_error category)).

(** ** Deciding what is printed *)

(** One filter of [_ShouldPrintError]'s loop; a filter without a sign trips the
    assertion. *)
Definition apply_filter (category : str) (is_filtered : bool) (one_filter : str) : res bool :=
  if startswith one_filter (u "-") then
    Ok (if startswith category (py_from one_filter 1) then true else is_filtered)
  else if startswith one_filter (u "+") then
    Ok (if startswith category (py_from one_filter 1) then false else is_filtered)
  else Raise AssertionError.

Definition _ShouldPrintError (category : str) (confidence linenum : Z) : M bool :=
  sup ← IsErrorSuppressedByNolint category linenum;
  if (sup : bool) then mret false else
  level ← _VerboseLevel;
  if (confidence <? level)%Z then mret false else
  fs ← _Filters;
  is_filtered ← lift (foldl_res (apply_filter category) false fs);
  mret (negb is_filtered).

(** The line written for a report, in each output format. *)
Definition format_error (format filename : str) (linenum : Z) (category : str)
    (confidence : Z) (message : str) : str :=
  let tail := message ++ u "  [" ++ category ++ u "] [" ++ fmt_d confidence ++ u "]" ++ nl in
  if str_eqb format (u "vs7")
  then filename ++ u "(" ++ fmt_d linenum ++ u "):  " ++ tail
  else if str_eqb format (u "eclipse")
  then filename ++ u ":" ++ fmt_d linenum ++ u ": warning: " ++ tail
  else filename ++ u ":" ++ fmt_d linenum ++ u ":  " ++ tail.

Definition Error : handler := λ filename linenum category confidence message,
  print ← _ShouldPrintError category confidence linenum;
  when print (
    IncrementErrorCount category ;;
    format ← _OutputFormat;
    stderr_write (format_error format filename linenum category confidence message)).

(** [PrintErrorCounts]: the summary lines; [items] is the iteration order of
    the dictionary of counts. *)
Definition PrintErrorCounts (items : gmap str Z → list (str * Z)) : M unit :=
  s ← gets cpplint_state;
  for_each (items (errors_by_category s)) (λ '(category, n),
    stderr_write (u "Category '" ++ category ++ u "' errors found: " ++ fmt_d n ++ nl)) ;;
  stderr_write (u "Total errors found: " ++ fmt_d (error_count s) ++ nl).

(** ** Filters *)

Section filters.
Context (category : str).
Definition filter_applies (f : str) : bool := startswith category (py_from f 1).

(** The last filter that applies to the category, if any, decides. *)
Definition rejected (fs : list str) : Prop :=
  ∃ fs1 f fs2, fs = fs1 ++ f :: fs2 ∧ startswith f (u "-") = true ∧
    filter_applies f = true ∧ Forall (λ g, filter_applies g = false) fs2.

Lemma apply_filter_Ok b f : has_sign f = true →
  apply_filter category b f =
    Ok (if filter_applies f then startswith f (u "-") else b).
Proof.
  unfold has_sign, apply_filter, filter_applies. intros H.
  destruct (startswith f (u "-")); [done|]. by destruct (startswith f (u "+")).
Qed.

Lemma foldl_filters fs b : Forall (λ f, has_sign f = true) fs →
  ∃ r, foldl_res (apply_filter category) b fs = Ok r ∧
  (r = true ↔ rejected fs ∨ b = true ∧ Forall (λ g, filter_applies g = false) fs).
Proof.
  intros H. revert b. induction H as [|f fs Hf _ IH]; intros b; cbn [foldl_res].
  - exists b. split; [done|]. split; [auto|].
    intros [(fs1 & f & fs2 & E & _)|[? _]]; [|done]. by destruct fs1.
  - rewrite apply_filter_Ok by done. cbn [mbind res_bind].
    destruct (IH (if filter_applies f then startswith f (u "-") else b)) as (r & -> & Hr).
    exists r. split; [done|]. rewrite Hr. split.
    + intros [(fs1 & g & fs2 & -> & Hg)|[Hb Hfs]].
      * left. by exists (f :: fs1), g, fs2.
      * destruct (filter_applies f) eqn:E; [|right; auto].
        left. by exists [], f, fs.
    + intros [(fs1 & g & fs2 & E & Hm & Hg & Hall)|[Hb Hall]].
      * destruct fs1 as [|f' fs1]; simplify_eq/=; [right; by rewrite Hg|].
        left. by exists fs1, g, fs2.
      * inversion Hall as [|? ? Ha Hall']; subst. right. by rewrite Ha.
Qed.
End filters.

Definition signed_filters (w : world) : Prop :=
  Forall (λ f, has_sign f = true) (filters (cpplint_state w)).

Lemma should_print_Ok category confidence linenum w : signed_filters w →
  ∃ b, _ShouldPrintError category confidence linenum w = (Ok b, w) ∧
    (b = true ↔ suppressed w category linenum = false ∧
       (verbose_level (cpplint_state w) <= confidence)%Z ∧
       ¬ rejected category (filters (cpplint_state w))).
Proof.
  intros Hs. unfold _ShouldPrintError, IsErrorSuppressedByNolint, _VerboseLevel, _Filters.
  unfold mbind, M_bind, gets, mret, M_ret, lift. simpl.
  destruct (suppressed w category linenum).
  { exists false. split; [done|]. split; [done|]. by intros [? _]. }
  destruct (Z.ltb_spec confidence (verbose_level (cpplint_state w))).
  { exists false. split; [done|]. split; [done|]. intros (_ & ? & _). lia. }
  destruct (foldl_filters category _ false Hs) as (r & -> & Hr).
  exists (negb r). split; [done|]. destruct r; simpl; split; try done.
  - intros (_ & _ & []). by destruct Hr as [[?|[? _]] _].
  - intros _. split_and!; try done. intros HR.
    by assert (false = true) by (apply Hr; auto).
Qed.

(** ** Setting filters *)

Lemma for_each_signs fs w :
  for_each fs (λ filt, when (negb (has_sign filt)) (raise (unsigned_filter filt))) w =
  match List.find (λ f, negb (has_sign f)) fs with
  | None => (Ok tt, w)
  | Some filt => (Raise (unsigned_filter filt), w)
  end.
Proof.
  induction fs as [|f fs IH]; [done|]. cbn [for_each List.find].
  unfold mbind, M_bind. destruct (has_sign f); simpl; [exact IH|done].
Qed.

Lemma find_unsigned_None fs :
  List.find (λ f, negb (has_sign f)) fs = None ↔ Forall (λ f, has_sign f = true) fs.
Proof.
  induction fs as [|f fs IH]; simpl; [by split|].
  rewrite Forall_cons, <- IH. destruct (has_sign f); simpl; [|by split; [|intros [? _]]].
  split; [auto|by intros [_ ?]].
Qed.

Lemma SetFilters_run fl w :
  SetFilters fl w =
    (match List.find (λ f, negb (has_sign f)) (_DEFAULT_FILTERS ++ flag_filters fl) with
     | None => Ok tt
     | Some filt => Raise (unsigned_filter filt)
     end,
     upd_state (with_filters (_DEFAULT_FILTERS ++ flag_filters fl)) w).
Proof.
  unfold SetFilters, modify. unfold mbind at 1, M_bind at 1. cbv beta iota.
  rewrite for_each_signs. by destruct (List.find _ _).
Qed.

(** C9: once a filter flag has been accepted, a report is printed exactly when
    no NOLINT suppresses it, its confidence reaches the verbosity level and the
    last filter that is a prefix of its category (defaults first, then the
    flag's) is not a minus filter; the assertion on unsigned filters never
    fails, and asking changes nothing. *)
Theorem accepted_filters_decide fl w w' : SetFilters fl w = (Ok tt, w') →
  ∀ category confidence linenum, ∃ b,
    _ShouldPrintError category confidence linenum w' = (Ok b, w') ∧
    (b = true ↔ suppressed w category linenum = false ∧
       (verbose_level (cpplint_state w) <= confidence)%Z ∧
       ¬ rejected category (_DEFAULT_FILTERS ++ flag_filters fl)).
Proof.
  rewrite SetFilters_run. intros H category confidence linenum.
  destruct (List.find _ _) eqn:E in H; [discriminate H|].
  apply (find_unsigned_None (_DEFAULT_FILTERS ++ flag_filters fl)) in E. injection H as <-.
  apply (should_print_Ok category confidence linenum
           (upd_state (with_filters (_DEFAULT_FILTERS ++ flag_filters fl)) w)).
  exact E.
Qed.

Lemma accepted_filters_decide_witness :
  let fl := u "-,+build" in
  SetFilters fl init_world = (Ok tt, upd_state (with_filters
     [u "-build/include_alpha"; u "-"; u "+build"]) init_world) ∧
  ∃ b, _ShouldPrintError (u "build/class") 5 3 (upd_state (with_filters
     [u "-build/include_alpha"; u "-"; u "+build"]) init_world) = (Ok b, upd_state (with_filters
     [u "-build/include_alpha"; u "-"; u "+build"]) init_world) ∧
    (b = true ↔ suppressed init_world (u "build/class") 3 = false ∧ (1 <= 5)%Z ∧
       ¬ rejected (u "build/class") (_DEFAULT_FILTERS ++ flag_filters fl)).
Proof.
  split; [vm_compute; reflexivity|].
  apply (accepted_filters_decide (u "-,+build") init_world). vm_compute; reflexivity.
Defined.

(** C35: a filter flag is accepted if and only if every non-blank piece between
    its commas starts with + or -. *)
Theorem filters_need_a_sign fl w :
  Forall (λ f, has_sign f = true) (flag_filters fl) ↔ (SetFilters fl w).1 = Ok tt.
Proof.
  rewrite SetFilters_run. simpl. destruct (List.find _ _) as [f|] eqn:E in |- *.
  - split; [|done]. intros H.
    assert (Hn : Forall (λ f, has_sign f = true) (_DEFAULT_FILTERS ++ flag_filters fl))
      by (apply Forall_app; split; [repeat constructor|done]).
    apply find_unsigned_None in Hn. simpl in *. congruence.
  - apply (find_unsigned_None (_DEFAULT_FILTERS ++ flag_filters fl)) in E.
    apply Forall_app in E as [_ E]. done.
Qed.

(** ** What a report does *)

Definition printed (category : str) (confidence linenum : Z) (w : world) : Prop :=
  suppressed w category linenum = false ∧
  (verbose_level (cpplint_state w) <= confidence)%Z ∧
  ¬ rejected category (filters (cpplint_state w)).

Lemma Error_run filename linenum category confidence message w : signed_filters w →
  ∃ b : bool, (b = true ↔ printed category confidence linenum w) ∧
    Error filename linenum category confidence message w =
      (Ok tt, if b then
         add_stderr (format_error (output_format (cpplint_state w)) filename linenum
                       category confidence message)
           (upd_state (count_error category) w)
       else w).
Proof.
  intros Hs. destruct (should_print_Ok category confidence linenum w Hs) as (b & Hr & Hb).
  exists b. split; [exact Hb|]. unfold Error, mbind, M_bind. rewrite Hr.
  destruct b; [|done]. simpl. unfold upd_state, count_error. simpl.
  by destruct (str_in (counting (cpplint_state w)) _).
Qed.

(** C23: [Error] never raises under accepted filters; a report that passes the
    suppressions, the verbosity and the filters adds one to the error count and
    writes one line, any other report leaves the whole state as it was. *)
Theorem Error_counts_what_it_prints filename linenum category confidence message w :
  signed_filters w →
  let w' := (Error filename linenum category confidence message w).2 in
  (Error filename linenum category confidence message w).1 = Ok tt ∧
  (printed category confidence linenum w →
     error_count (cpplint_state w') = (error_count (cpplint_state w) + 1)%Z ∧
     stderr w' = stderr w ++ [format_error (output_format (cpplint_state w)) filename linenum
                                category confidence message]) ∧
  (¬ printed category confidence linenum w → w' = w).
Proof.
  intros Hs w'. destruct (Error_run filename linenum category confidence message w Hs)
    as (b & Hb & Hr).
  subst w'. rewrite Hr. split; [done|]. split.
  - intros Hp. apply Hb in Hp as ->. simpl. split; [|done].
    unfold count_error. by destruct (str_in (counting (cpplint_state w)) _).
  - intros Hp. destruct b; [|done]. by destruct Hp; apply Hb.
Qed.

Lemma Error_counts_what_it_prints_witness :
  signed_filters init_world ∧
  stderr (Error (u "a.cc") 3%Z (u "build/class") 5%Z (u "msg") init_world).2 =
    [u "a.cc:3:  msg  [build/class] [5]" ++ nl] ∧
  (Error (u "a.cc") 3%Z (u "build/include_alpha") 5%Z (u "msg") init_world).2 = init_world.
Proof.
  assert (Hs : signed_filters init_world) by (repeat constructor).
  split; [exact Hs|]. split.
  - destruct (Error_counts_what_it_prints (u "a.cc") 3 (u "build/class") 5 (u "msg") init_world Hs)
      as (_ & _ & _). vm_compute; reflexivity.
  - destruct (Error_counts_what_it_prints (u "a.cc") 3 (u "build/include_alpha") 5 (u "msg")
                init_world Hs) as (_ & _ & H).
    apply H. intros (_ & _ & HR). apply HR.
    exists [], (u "-build/include_alpha"), []. split_and!; [reflexivity..|constructor].
Defined.

(** ** Counts by category *)

Definition sum_counts (m : gmap str Z) : Z := map_fold (λ _, Z.add) 0%Z m.

Lemma total_insert_new (k : str) (n : Z) (m : gmap str Z) : m !! k = None →
  sum_counts (<[k := n]> m) = (n + sum_counts m)%Z.
Proof. intros H. unfold sum_counts. rewrite map_fold_insert_L; [done|intros; lia|done]. Qed.

Lemma total_count (k : str) (m : gmap str Z) :
  sum_counts (<[k := (default 0 (m !! k) + 1)%Z]> m) = (sum_counts m + 1)%Z.
Proof.
  destruct (m !! k) as [n|] eqn:E; simpl.
  - assert (H : sum_counts m = (n + sum_counts (delete k m))%Z).
    { rewrite <- (insert_delete_id m k n) at 1 by done.
      by rewrite total_insert_new by apply lookup_delete_eq. }
    rewrite <- insert_delete_eq, total_insert_new by apply lookup_delete_eq. lia.
  - rewrite total_insert_new by done. lia.
Qed.

(** In the counting styles that keep counts by category, they add up. *)
Definition counts_add_up (w : world) : Prop :=
  str_in (counting (cpplint_state w)) [u "toplevel"; u "detailed"] = true →
  sum_counts (errors_by_category (cpplint_state w)) = error_count (cpplint_state w).

Lemma count_error_adds_up category w :
  counts_add_up w → counts_add_up (upd_state (count_error category) w).
Proof.
  unfold counts_add_up, upd_state, count_error. simpl. intros H.
  destruct (str_in (counting (cpplint_state w)) _) eqn:E; simpl; rewrite E; [|done].
  intros _. by rewrite total_count, H.
Qed.



(** ** Suppression comments *)

Definition nolint_group : regex :=
  Grp 1 (Seq (Chars (CLit 40))
    (Seq (Rep true 0 None (Chars (CSet true [SChar 41]))) (Chars (CLit 41)))).

Lemma RE_SUPPRESSION_shape :
  re_body _RE_SUPPRESSION =
    Seq WordB (lits (u "NOLINT") (Seq WordB (Rep true 0 (Some 1) nolint_group))).
Proof. reflexivity. Qed.

(** The word NOLINT first occurs at [i], and nothing is glued to its left. *)
Definition nolint_at (line : str) (i : nat) : Prop :=
  find_at (u "NOLINT") line = Some i ∧ head_is is_word (rev (take i line)) = false.

Lemma suppression_needs_word line j : j ≤ length line →
  ¬ occurs_at (u "NOLINT") line j → match_at _RE_SUPPRESSION line j = None.
Proof.
  intros Hj Ho. unfold match_at. rewrite RE_SUPPRESSION_shape. cbn [m].
  destruct (at_wordb (st_at line j)); [|done].
  rewrite m_lits by done. simpl suf. rewrite occurs_at_drop in Ho by done.
  by destruct (starts_with (u "NOLINT") (drop j line)).
Qed.

Lemma search_suppression line i mo : nolint_at line i →
  match_at _RE_SUPPRESSION line i = Some mo → re_search _RE_SUPPRESSION line = Some mo.
Proof.
  intros [Hf _] Hm. pose proof (find_at_bound _ _ _ Hf).
  apply find_at_Some in Hf as [Ho Hmin].
  apply re_search_first with (i := i); [lia| |done].
  intros j Hj. apply suppression_needs_word; [lia|auto].
Qed.

(** After the word, only the optional group is left to match. *)
Lemma match_suppression_at line i : nolint_at line i →
  head_is is_word (drop (i + 6) line) = false →
  match_at _RE_SUPPRESSION line i =
    (λ st, MatchObj line i (pos st) (caps st)) <$>
    m (Flags false false) (Rep true 0 (Some 1) nolint_group) (adv 6 (st_at line i)) Some.
Proof.
  intros [Hf Hl] Hr. pose proof (find_at_bound _ _ _ Hf) as Hb.
  apply find_at_Some in Hf as [Ho _]. apply occurs_at_drop in Ho; [|lia].
  unfold match_at. f_equal. rewrite RE_SUPPRESSION_shape.
  change (m (Flags false false)
    (Seq WordB (lits (u "NOLINT") (Seq WordB (Rep true 0 (Some 1) nolint_group))))
    (st_at line i) Some = m (Flags false false) (Rep true 0 (Some 1) nolint_group)
    (adv 6 (st_at line i)) Some).
  apply starts_with_spec in Ho as [r Ho].
  assert (Hw : at_wordb (st_at line i) = true).
  { unfold at_wordb, st_at. cbn [pre suf]. rewrite Hl, Ho. reflexivity. }
  cbn [m]. rewrite Hw, m_lits by done. unfold st_at at 1. cbn [suf].
  rewrite Ho. cbn [m]. rewrite starts_with_app.
  assert (Hw' : at_wordb (adv 6 (st_at line i)) = true).
  { unfold at_wordb, adv, st_at. cbn [pre suf]. rewrite drop_drop, Hr, Ho. reflexivity. }
  change (length (u "NOLINT")) with 6. cbn [m]. by rewrite Hw'.
Qed.

(** The group of a category: everything up to the first closing parenthesis. *)
Lemma m_nolint_group st cat post k x : suf st = (u "(" ++ cat ++ u ")") ++ post →
  ch ")" ∉ cat →
  k (Mst (rev (u "(" ++ cat ++ u ")") ++ pre st) post
       ((1, (pos st, pos st + length cat + 2)) :: caps st)) = Some x →
  m (Flags false false) nolint_group st k = Some x.
Proof.
  change (u "(") with [40%N]. change (u ")") with [41%N]. cbn [app].
  intros Hs Hc Hk. rewrite <- app_assoc in Hs. cbn [app] in Hs.
  unfold nolint_group. cbn [m]. rewrite Hs. cbn [cs_test f_icase].
  change (40 =? 40)%N with true. cbv iota.
  assert (Hrun : forallb (cs_test (Flags false false) (CSet true [SChar 41])) cat = true).
  { apply forallb_forall. intros c Hin. simpl. rewrite orb_false_r.
    destruct (N.eqb_spec c 41) as [->|]; [|done]. by apply list_elem_of_In in Hin. }
  apply (m_run (Flags false false) (CSet true [SChar 41]) _ (length cat)); cbn [suf].
  - rewrite length_app. lia.
  - by rewrite take_app_length.
  - by rewrite drop_app_length.
  - rewrite (adv_app _ cat (41%N :: post)) by done. cbn [suf pre caps cs_test f_icase].
    change (41 =? 41)%N with true. cbv iota. rewrite <- Hk. f_equal. f_equal.
    + cbn [rev]. rewrite rev_app_distr. cbn [rev app]. by rewrite <- app_assoc.
    + do 3 f_equal. unfold pos. cbn [pre]. simpl length. rewrite length_app, length_rev. simpl. lia.
Qed.

Lemma match_nolint_category line i cat post : nolint_at line i → ch ")" ∉ cat →
  drop (i + 6) line = u "(" ++ cat ++ u ")" ++ post →
  ∃ e, re_search _RE_SUPPRESSION line =
         Some (MatchObj line i e [(1, (i + 6, i + 6 + length cat + 2))]).
Proof.
  intros Hn Hc Hd. eexists. apply search_suppression with (i := i); [done|].
  rewrite match_suppression_at; [|done|by rewrite Hd].
  pose proof (find_at_bound _ _ _ (proj1 Hn)) as Hb. simpl length in Hb.
  assert (Hp : pos (adv 6 (st_at line i)) = i + 6).
  { unfold pos, adv, st_at. cbn [pre suf].
    rewrite length_app, !length_rev, !length_take, length_drop. lia. }
  assert (Hs : suf (adv 6 (st_at line i)) = (u "(" ++ cat ++ u ")") ++ post).
  { unfold adv, st_at. cbn [suf]. by rewrite drop_drop, Hd, <- !app_assoc. }
  rewrite m_option, (m_nolint_group _ cat post Some _ Hs Hc eq_refl).
  cbn [try_else fmap option_fmap option_map caps]. by rewrite Hp.
Qed.

(** A bare NOLINT: the optional group finds no parenthesis. *)
Lemma match_bare_nolint line i : nolint_at line i →
  head_is is_word (drop (i + 6) line) = false →
  head_is (N.eqb (ch "(")) (drop (i + 6) line) = false →
  ∃ e, re_search _RE_SUPPRESSION line = Some (MatchObj line i e []).
Proof.
  intros Hn Hw Hp. eexists. apply search_suppression with (i := i); [done|].
  rewrite match_suppression_at by done. rewrite m_option.
  replace (m (Flags false false) nolint_group (adv 6 (st_at line i)) Some) with (@None mst);
    [reflexivity|].
  unfold nolint_group, adv, st_at. cbn [m suf]. rewrite drop_drop.
  destruct (drop (i + 6) line) as [|c t]; [done|].
  cbn [cs_test f_icase]. cbn [head_is] in Hp. change (ch "(") with 40%N in Hp.
  by rewrite N.eqb_sym, Hp.
Qed.

Lemma nolint_group_text line i cat post e : i + 6 ≤ length line →
  drop (i + 6) line = u "(" ++ cat ++ u ")" ++ post →
  group (MatchObj line i e [(1, (i + 6, i + 6 + length cat + 2))]) 1 =
    Some (u "(" ++ cat ++ u ")").
Proof.
  intros Hl Hd. unfold group, span. cbn. f_equal. rewrite Hd.
  replace (i + 6 + length cat + 2 - (i + 6)) with (length (u "(" ++ cat ++ u ")"))
    by (rewrite !length_app; simpl; lia).
  replace (u "(" ++ cat ++ u ")" ++ post) with ((u "(" ++ cat ++ u ")") ++ post)
    by (by rewrite <- !app_assoc).
  apply take_app_length.
Qed.

Lemma categories_plain cat : cat ∈ _ERROR_CATEGORIES → (ch ")" ∉ cat) ∧ cat ≠ u "*".
Proof.
  intros H. split.
  - intros Hc%char_in_spec.
    assert (Hall : forallb (λ c, negb (char_in (ch ")") c)) _ERROR_CATEGORIES = true)
      by (vm_compute; reflexivity).
    rewrite forallb_forall in Hall. apply list_elem_of_In, Hall in H. by rewrite Hc in H.
  - intros ->. assert (Hn : str_in (u "*") _ERROR_CATEGORIES = false)
      by (vm_compute; reflexivity).
    by apply bool_decide_eq_false in Hn.
Qed.

Lemma suppressed_add_category c cat n linenum w :
  suppressed (add_suppression (Some cat) linenum w) c n =
    suppressed w c n || bool_decide (c = cat ∧ n = linenum).
Proof.
  unfold suppressed, add_suppression. simpl.
  rewrite (lookup_insert_ne _ (Some cat) None) by done.
  destruct (decide (c = cat)) as [->|Hne].
  - rewrite lookup_insert_eq. simpl.
    destruct (decide (n = linenum)) as [->|Hn].
    + rewrite (bool_decide_true (linenum ∈ _)) by set_solver.
      rewrite (bool_decide_true (cat = cat ∧ _)) by done. by rewrite orb_true_r.
    + rewrite (bool_decide_false (cat = cat ∧ _)) by naive_solver. rewrite orb_false_r.
      f_equal. apply bool_decide_ext. set_solver.
  - rewrite lookup_insert_ne by naive_solver.
    rewrite (bool_decide_false (c = cat ∧ _)) by naive_solver. by rewrite orb_false_r.
Qed.

Lemma suppressed_add_all c n linenum w :
  suppressed (add_suppression None linenum w) c n =
    suppressed w c n || bool_decide (n = linenum).
Proof.
  unfold suppressed, add_suppression. simpl.
  rewrite lookup_insert_ne by done. rewrite lookup_insert_eq, <- orb_assoc. f_equal. simpl.
  destruct (decide (n = linenum)) as [->|Hn].
  - rewrite (bool_decide_true (linenum ∈ _)) by set_solver.
    rewrite (bool_decide_true (linenum = linenum)) by done. by rewrite orb_true_r.
  - rewrite (bool_decide_false (n = linenum)) by done. rewrite orb_false_r.
    apply bool_decide_ext. set_solver.
Qed.

(** What the parser does with the text of a group. *)
Lemma strip_parens cat : startswith (u "(" ++ cat ++ u ")") (u "(") &&
  endswith (u "(" ++ cat ++ u ")") (u ")") = true ∧
  py_slice (u "(" ++ cat ++ u ")") 1 (-1) = cat.
Proof.
  split.
  - apply andb_true_iff. split; [apply startswith_spec|apply endswith_spec].
    + by exists (cat ++ u ")").
    + exists (u "(" ++ cat). by rewrite <- app_assoc.
  - unfold py_slice, py_bound. rewrite !length_app.
    change (length (u "(")) with 1. change (length (u ")")) with 1.
    rewrite (proj2 (Z.ltb_ge 1 0)) by lia. rewrite (proj2 (Z.ltb_lt (-1) 0)) by lia.
    replace (Z.to_nat (Z.min (Z.max 1 0) (Z.of_nat (1 + (length cat + 1))))) with 1 by lia.
    replace (Z.to_nat _ - 1) with (length cat) by lia.
    change (drop 1 (u "(" ++ cat ++ u ")")) with (cat ++ u ")"). apply take_app_length.
Qed.

Lemma paren_star cat : cat ≠ u "*" → str_eqb (u "(" ++ cat ++ u ")") (u "(*)") = false.
Proof.
  intros H. apply bool_decide_eq_false. intros E. apply H.
  change (u "(*)") with (u "(" ++ u "*" ++ u ")") in E.
  apply app_inv_head, app_inv_tail in E. exact E.
Qed.

(** C6: a comment NOLINT(category) with a known category suppresses that
    category on that line, and nothing else: every other suppression is as
    before, and nothing is reported. *)
Theorem NOLINT_category_suppresses error filename line i cat post linenum w :
  nolint_at line i → drop (i + 6) line = u "(" ++ cat ++ u ")" ++ post →
  cat ∈ _ERROR_CATEGORIES →
  ∃ w', ParseNolintSuppressions error filename line linenum w = (Ok tt, w') ∧
    ∀ c n, suppressed w' c n = suppressed w c n || bool_decide (c = cat ∧ n = linenum).
Proof.
  intros Hn Hd Hc. destruct (categories_plain cat Hc) as [Hp Hstar].
  destruct (match_nolint_category line i cat post Hn Hp Hd) as [e He].
  pose proof (find_at_bound _ _ _ (proj1 Hn)) as Hb. simpl length in Hb.
  exists (add_suppression (Some cat) linenum w).
  split; [|intros c n; apply suppressed_add_category].
  unfold ParseNolintSuppressions. rewrite He, (nolint_group_text line i cat post e Hb Hd).
  rewrite paren_star by done. destruct (strip_parens cat) as [-> ->].
  unfold str_in. by rewrite bool_decide_true.
Qed.

(** C30: NOLINT with an unknown category suppresses nothing and is itself
    reported, under readability/nolint with confidence 5. *)
Theorem NOLINT_unknown_category_is_reported error filename line i cat post linenum w :
  nolint_at line i → drop (i + 6) line = u "(" ++ cat ++ u ")" ++ post →
  ch ")" ∉ cat → cat ∉ _ERROR_CATEGORIES → cat ≠ u "*" →
  ParseNolintSuppressions error filename line linenum w =
    error filename linenum (u "readability/nolint") 5%Z
      (u "Unknown NOLINT error category: " ++ cat) w.
Proof.
  intros Hn Hd Hp Hc Hstar.
  destruct (match_nolint_category line i cat post Hn Hp Hd) as [e He].
  pose proof (find_at_bound _ _ _ (proj1 Hn)) as Hb. simpl length in Hb.
  unfold ParseNolintSuppressions. rewrite He, (nolint_group_text line i cat post e Hb Hd).
  rewrite paren_star by done. destruct (strip_parens cat) as [-> ->].
  unfold str_in. by rewrite bool_decide_false.
Qed.

(** C31: NOLINT without a category, or with a star as its category, suppresses
    every category on its line and nothing on the other lines. *)
Theorem NOLINT_alone_suppresses_everything error filename line i linenum w :
  nolint_at line i → head_is is_word (drop (i + 6) line) = false →
  head_is (N.eqb (ch "(")) (drop (i + 6) line) = false ∨
  starts_with (u "(*)") (drop (i + 6) line) = true →
  ∃ w', ParseNolintSuppressions error filename line linenum w = (Ok tt, w') ∧
    ∀ c n, suppressed w' c n = suppressed w c n || bool_decide (n = linenum).
Proof.
  intros Hn Hw Hcase. exists (add_suppression None linenum w).
  split; [|intros c n; apply suppressed_add_all].
  pose proof (find_at_bound _ _ _ (proj1 Hn)) as Hb. simpl length in Hb.
  unfold ParseNolintSuppressions. destruct Hcase as [Hp|[r Hd]%starts_with_spec].
  - by destruct (match_bare_nolint line i Hn Hw Hp) as [e ->].
  - destruct (match_nolint_category line i (u "*") r Hn) as [e He];
      [by rewrite <- char_in_spec|done|].
    by rewrite He, (nolint_group_text line i (u "*") r e Hb Hd).
Qed.

Definition nolint_example : str := u "long x;  // NOLINT(runtime/int) legacy".

Lemma nolint_example_at : nolint_at nolint_example 12.
Proof. split; vm_compute; reflexivity. Defined.

Lemma NOLINT_category_suppresses_witness :
  nolint_at nolint_example 12 ∧
  drop 18 nolint_example = u "(" ++ u "runtime/int" ++ u ")" ++ u " legacy" ∧
  ∃ w', ParseNolintSuppressions Error (u "a.cc") nolint_example 7 init_world = (Ok tt, w') ∧
    ∀ c n, suppressed w' c n =
      suppressed init_world c n || bool_decide (c = u "runtime/int" ∧ n = 7%Z).
Proof.
  split; [exact nolint_example_at|]. split; [vm_compute; reflexivity|].
  apply (NOLINT_category_suppresses Error (u "a.cc") nolint_example 12 (u "runtime/int")
           (u " legacy")); [exact nolint_example_at|vm_compute; reflexivity|].
  apply (bool_decide_unpack (u "runtime/int" ∈ _ERROR_CATEGORIES)). vm_compute. exact I.
Defined.

Lemma NOLINT_unknown_category_is_reported_witness :
  ParseNolintSuppressions Error (u "a.cc") (u "x;  // NOLINT(runtime/integer)") 7 init_world =
    Error (u "a.cc") 7%Z (u "readability/nolint") 5%Z
      (u "Unknown NOLINT error category: " ++ u "runtime/integer") init_world.
Proof.
  apply (NOLINT_unknown_category_is_reported Error (u "a.cc")
           (u "x;  // NOLINT(runtime/integer)") 7 (u "runtime/integer") []).
  - split; vm_compute; reflexivity.
  - vm_compute; reflexivity.
  - apply (bool_decide_unpack (ch ")" ∉ u "runtime/integer")). vm_compute. exact I.
  - apply (bool_decide_unpack (u "runtime/integer" ∉ _ERROR_CATEGORIES)). vm_compute. exact I.
  - vm_compute. discriminate.
Defined.

Lemma NOLINT_alone_suppresses_everything_witness :
  (∃ w', ParseNolintSuppressions Error (u "a.cc") (u "x = 1  ;// NOLINT") 7 init_world = (Ok tt, w') ∧
    ∀ c n, suppressed w' c n = suppressed init_world c n || bool_decide (n = 7%Z)) ∧
  (∃ w', ParseNolintSuppressions Error (u "a.cc") (u "NOLINT(*)") 7 init_world = (Ok tt, w') ∧
    ∀ c n, suppressed w' c n = suppressed init_world c n || bool_decide (n = 7%Z)).
Proof.
  split.
  - apply (NOLINT_alone_suppresses_everything Error (u "a.cc") (u "x = 1  ;// NOLINT") 11);
      [split; vm_compute; reflexivity|vm_compute; reflexivity|left; vm_compute; reflexivity].
  - apply (NOLINT_alone_suppresses_everything Error (u "a.cc") (u "NOLINT(*)") 0);
      [split; vm_compute; reflexivity|vm_compute; reflexivity|right; vm_compute; reflexivity].
Defined.

(** C33: [Match], [Search] and [ReplaceAll] through the cache of compiled
    patterns return what compiling the pattern anew would, and keep every entry
    of the cache the compiled form of its key. *)
Theorem cached_calls_agree pattern c s rep cache :
  RegexpCache.cache_ok cache → re_compile pattern = Some c →
  (RegexpCache.Match pattern s cache).1 = Ok (re_match c s) ∧
  (RegexpCache.Search pattern s cache).1 = Ok (re_search c s) ∧
  (RegexpCache.ReplaceAll pattern rep s cache).1 = Ok (re_sub c rep s) ∧
  RegexpCache.cache_ok (RegexpCache.Match pattern s cache).2 ∧
  RegexpCache.cache_ok (RegexpCache.Search pattern s cache).2 ∧
  RegexpCache.cache_ok (RegexpCache.ReplaceAll pattern rep s cache).2.
Proof.
  intros Hok Hc. destruct (RegexpCache.compile_cached_ok pattern cache Hok) as [Hr Hok'].
  unfold RegexpCache.Match, RegexpCache.Search, RegexpCache.ReplaceAll. rewrite Hc in Hr.
  destruct (RegexpCache.compile_cached pattern cache) as [r cache']. simpl in *.
  subst r. done.
Qed.

Lemma cached_calls_agree_witness :
  let cache := (RegexpCache.Search (u "a+b") (u "xaab") ∅).2 in
  RegexpCache.cache_ok ∅ ∧ RegexpCache.cache_ok cache ∧ cache ≠ ∅ ∧
  (RegexpCache.Search (u "a+b") (u "xaab") cache).1 = Ok (re_search (rx "a+b") (u "xaab")).
Proof.
  assert (H0 : RegexpCache.cache_ok ∅) by (intros p c Hp; by rewrite lookup_empty in Hp).
  assert (Hc : re_compile (u "a+b") = Some (rx "a+b")) by (vm_compute; reflexivity).
  destruct (cached_calls_agree (u "a+b") (rx "a+b") (u "xaab") [] ∅ H0 Hc)
    as (_ & _ & _ & _ & Hok & _).
  split; [exact H0|]. split; [exact Hok|]. split; [vm_compute; discriminate|].
  exact (proj1 (proj2 (cached_calls_agree (u "a+b") (rx "a+b") (u "xaab") [] _ Hok Hc))).
Defined.

(** ** What the checks need of their error handler

    A handler that keeps an invariant for every report made on the file checked,
    under a known category with a confidence between 0 and 5; the invariant does
    not depend on the suppressions, which the driver and NOLINT comments change. *)
Class Reporter (Inv : world → Prop) (error : handler) (filename : str) : Prop := {
  report_ok linenum category confidence message :
    category ∈ _ERROR_CATEGORIES → (0 <= confidence <= 5)%Z →
    preserves Inv (error filename linenum category confidence message);
  suppress_ok category linenum w : Inv w → Inv (add_suppression category linenum w);
  reset_ok w : Inv w → Inv (set_suppressions ∅ w);
}.

(** The same, with tests that compute. *)
Lemma report_known {Inv error filename} `{!Reporter Inv error filename} linenum category confidence message :
  str_in category _ERROR_CATEGORIES = true → (0 <=? confidence)%Z && (confidence <=? 5)%Z = true →
  preserves Inv (error filename linenum category confidence message).
Proof.
  intros Hc Hb. apply andb_true_iff in Hb as [Hl Hh]. apply report_ok; [|lia].
  by apply bool_decide_eq_true in Hc.
Qed.

#[export] Hint Extern 1 (preserves _ (?report _ _ _ _ _)) =>
  is_var report; apply report_known; vm_compute; reflexivity : preserves.

Lemma ParseNolintSuppressions_ok {Inv error filename} `{!Reporter Inv error filename} raw_line linenum :
  preserves Inv (ParseNolintSuppressions error filename raw_line linenum).
Proof.
  unfold ParseNolintSuppressions. preserve; apply preserves_modify; intros; by apply suppress_ok.
Qed.
#[export] Hint Resolve ParseNolintSuppressions_ok : preserves.

(** ** Handlers that return *)

(** What a check needs to return: a handler that returns and keeps the
    invariant, which does not depend on the suppressions. *)
Class Returning (Inv : world → Prop) (error : handler) : Prop := {
  error_returns filename linenum category confidence message :
    returns Inv (error filename linenum category confidence message);
  suppress_keeps category linenum w : Inv w → Inv (add_suppression category linenum w);
  reset_keeps w : Inv w → Inv (set_suppressions ∅ w);
}.

#[export] Hint Extern 1 (returns _ (?report _ _ _ _ _)) =>
  is_var report; apply error_returns : returns.

(** A handler that returns in every state. *)
Definition always_returns (error : handler) : Prop :=
  ∀ filename linenum category confidence message w,
    ∃ w', error filename linenum category confidence message w = (Ok tt, w').

Lemma always_returning error : always_returns error → Returning (λ _, True) error.
Proof.
  intros H. split; [|done..]. intros f n c k m w _. unfold wp. by destruct (H f n c k m w) as [w' ->].
Qed.

Lemma ParseNolintSuppressions_returns {Inv error} `{!Returning Inv error} filename raw_line linenum :
  returns Inv (ParseNolintSuppressions error filename raw_line linenum).
Proof.
  unfold ParseNolintSuppressions. return_; apply returns_modify; intros w; apply suppress_keeps.
Qed.
#[export] Hint Resolve ParseNolintSuppressions_returns : returns.
