(* ===== verification/Cleanse.v ===== *)
(** * Cleansed lines: removing comments and strings

    [IsCppString], [CleanseRawStrings], the multi-line comment functions,
    [CleanseComments] and the class [CleansedLines] of cpplint.py. *)
From S2P Require Import Prelude PyStr Regex RegexParse PyRe World.

(** ** Patterns *)

Definition _RE_PATTERN_CLEANSE_LINE_ESCAPES : compiled :=
  rx "\\([abfnrtv?`\\\']|\d+|x[0-9a-fA-F]+)".
Definition _RE_PATTERN_CLEANSE_LINE_DOUBLE_QUOTES : compiled := rx "`[^`]*`".
Definition _RE_PATTERN_CLEANSE_LINE_SINGLE_QUOTES : compiled := rx "'.'".
Definition _RE_PATTERN_CLEANSE_LINE_C_COMMENTS : compiled :=
  rx_x "(\s*/\*.*\*/\s*$|
            /\*.*\*/\s+|
         \s+/\*.*\*/(?=\W)|
            /\*.*\*/)".
Definition _RE_PATTERN_INCLUDE : compiled := rx "^\s*#\s*include\s*([<`])([^>`]*)[>`].*$".

(** ** Strings *)

(** Does the next character after [line] lie in a string constant? *)
Definition IsCppString (line : str) : bool :=
  let line := replace line (u "\\") (u "XX") in
  Z.odd (count line (u "`") - count line (u "\`") - count line (u "'`'")).

(** The loop of [CleanseRawStrings]: the delimiter waited for, if any, and the
    cleansed lines, the latest first. *)
Definition raw_string_step (st : option str * list str) (line : str)
    : res (option str * list str) :=
  let '(delimiter, acc) := st in
  match delimiter with
  | Some d =>
      (** Inside a raw string, look for the end *)
      let e := find line d in
      if (0 <=? e)%Z then
        leading_space ← or_raise AttributeError (re_match (rx "^(\s*)\S") line);
        mret (None, (group_str leading_space 1 ++ u "``"
                     ++ py_from line (e + Z.of_nat (length d))) :: acc)
      else mret (Some d, [] :: acc)
  | None =>
      (** Look for beginning of a raw string *)
      match re_match (rx "^(.*)\b(?:R|u8R|uR|UR|LR)`([^\s\\()]*)\((.*)$") line with
      | Some matched =>
          let d := u ")" ++ group_str matched 2 ++ u "`" in
          let e := find (group_str matched 3) d in
          if (0 <=? e)%Z
          then mret (None, (group_str matched 1 ++ u "``"
                   ++ py_from (group_str matched 3) (e + Z.of_nat (length d))) :: acc)
          else mret (Some d, (group_str matched 1 ++ u "``") :: acc)
      | None => mret (None, line :: acc)
      end
  end.

Definition CleanseRawStrings (raw_lines : list str) : res (list str) :=
  '(_, acc) ← foldl_res raw_string_step (None, []) raw_lines;
  mret (rev acc).

(** ** Multi-line comments *)

(** The first line at or after [lineix] with the property; the number of lines
    if there is none. *)
Fixpoint first_line_from (p : str → bool) (rest : list str) (lineix : nat) : nat :=
  match rest with
  | [] => lineix
  | l :: rest' => if p l then lineix else first_line_from p rest' (S lineix)
  end.

Definition starts_comment (line : str) : bool :=
  startswith (strip line) (u "/*") && (find_from (strip line) (u "*/") 2 <? 0)%Z.
Definition ends_comment (line : str) : bool := endswith (strip line) (u "*/").

Definition FindNextMultiLineCommentStart (lines : list str) (lineix : nat) : nat :=
  first_line_from starts_comment (drop lineix lines) lineix.
Definition FindNextMultiLineCommentEnd (lines : list str) (lineix : nat) : nat :=
  first_line_from ends_comment (drop lineix lines) lineix.

(** [for i in range(begin, end): lines[i] = '// dummy']. *)
Definition RemoveMultiLineCommentsFromRange (lines : list str) (b e : nat) : list str :=
  take b lines ++ replicate (e - b) (u "// dummy") ++ drop (Nat.max b e) lines.

(** The list is updated in place; the updated list is the result.  Each round
    moves [lineix] forward, so the number of lines is fuel enough. *)
Fixpoint remove_comments_loop (error : handler) (filename : str) (fuel : nat)
    (lines : list str) (lineix : nat) : M (list str) :=
  match fuel with
  | 0 => raise OutOfFuel
  | S fuel =>
      if (lineix <? length lines)%nat then
        let lineix_begin := FindNextMultiLineCommentStart lines lineix in
        if (length lines <=? lineix_begin)%nat then mret lines
        else
          let lineix_end := FindNextMultiLineCommentEnd lines lineix_begin in
          if (length lines <=? lineix_end)%nat then
            error filename (Z.of_nat lineix_begin + 1)%Z (u "readability/multiline_comment") 5%Z
              (u "Could not find end of multi-line comment") ;;
            mret lines
          else
            remove_comments_loop error filename fuel
              (RemoveMultiLineCommentsFromRange lines lineix_begin (lineix_end + 1))
              (lineix_end + 1)
      else mret lines
  end.

Definition RemoveMultiLineComments (error : handler) (filename : str) (lines : list str)
    : M (list str) :=
  remove_comments_loop error filename (S (length lines)) lines 0.

(** ** Comments on one line *)

Definition CleanseComments (line : str) : str :=
  let commentpos := find line (u "//") in
  let line :=
    if negb (commentpos =? -1)%Z && negb (IsCppString (py_to line commentpos))
    then rstrip (py_to line commentpos) else line in
  re_sub _RE_PATTERN_CLEANSE_LINE_C_COMMENTS [] line.

(** ** [class CleansedLines] *)

Record cleansed_lines := CleansedLines {
  elided : list str;
  lines : list str;
  raw_lines : list str;
  num_lines : Z;
  lines_without_raw_strings : list str;
}.

Definition _CollapseStrings (elided : str) : str :=
  if negb (matches _RE_PATTERN_INCLUDE elided) then
    let elided := re_sub _RE_PATTERN_CLEANSE_LINE_ESCAPES [] elided in
    let elided := re_sub _RE_PATTERN_CLEANSE_LINE_SINGLE_QUOTES (u "''") elided in
    re_sub _RE_PATTERN_CLEANSE_LINE_DOUBLE_QUOTES (u "``") elided
  else elided.

(** [CleansedLines.__init__]. *)
Definition cleanse (raw : list str) : res cleansed_lines :=
  without ← CleanseRawStrings raw;
  mret (CleansedLines
    ((λ line, CleanseComments (_CollapseStrings line)) <$> without)
    (CleanseComments <$> without)
    raw
    (Z.of_nat (length raw))
    without).

Definition NumLines (cl : cleansed_lines) : Z := num_lines cl.

(** ** Cleansing never fails *)

Lemma cs_space fl neg c : cs_test fl (CSet false [SClass neg CSpace]) c = xorb neg (is_space c).
Proof. simpl. rewrite orb_false_r. by destruct (xorb _ _). Qed.

Lemma leading_space_matches line c : c ∈ line → is_space c = false →
  is_Some (re_match (rx "^(\s*)\S") line).
Proof.
  intros Hc Hs. destruct (drop_while_spec is_space line) as (a & Ha & Hf & Hh).
  destruct (drop_while is_space line) as [|d t].
  - rewrite app_nil_r in Ha. subst a. exfalso. rewrite forallb_forall in Hf.
    rewrite (Hf c) in Hs; [done|by apply list_elem_of_In].
  - unfold re_match, match_at. apply fmap_is_Some.
    cbn [m re_flags re_body]. change (at_bol _ _) with true. cbv iota.
    assert (E : suf (st_at line 0) = a ++ d :: t) by exact Ha.
    eexists. eapply (m_run _ _ _ (length a)).
    + rewrite E, length_app. lia.
    + rewrite E, take_app_length. apply forallb_forall. intros x Hx.
      rewrite cs_space. rewrite forallb_forall in Hf. by rewrite Hf.
    + rewrite E, drop_app_length. cbn [head_is]. by rewrite cs_space, Hh.
    + rewrite (adv_app _ _ _ E). cbn [suf pre caps]. rewrite cs_space, Hh. reflexivity.
Qed.

(** The delimiter waited for always holds a closing parenthesis. *)
Definition delimiter_ok (st : option str * list str) : Prop :=
  match st.1 with Some d => 41%N ∈ d | None => True end.

Lemma raw_string_step_Ok st line : delimiter_ok st →
  ∃ st', raw_string_step st line = Ok st' ∧ delimiter_ok st' ∧
    length st'.2 = S (length st.2).
Proof.
  destruct st as [[d|] acc]; unfold raw_string_step, delimiter_ok; cbn [fst snd]; intros Hd.
  - destruct (Z.leb_spec 0 (find line d)) as [Hf|Hf]; [|eexists; split; [reflexivity|done]].
    apply find_nonneg, contains_spec in Hf as (x & y & ->).
    destruct (leading_space_matches (x ++ d ++ y) 41) as [mo ->];
      [rewrite !elem_of_app; auto|reflexivity|].
    cbn [or_raise mbind res_bind]. eexists. split; [reflexivity|done].
  - destruct (re_match _ line) as [mo|]; [|eexists; split; [reflexivity|done]].
    destruct (0 <=? _)%Z; (eexists; split; [reflexivity|split; [|done]]); [done|].
    cbn [fst]. apply elem_of_app. left. by left.
Qed.

Lemma foldl_raw_string_Ok raw st : delimiter_ok st →
  ∃ st', foldl_res raw_string_step st raw = Ok st' ∧ length st'.2 = length raw + length st.2.
Proof.
  revert st. induction raw as [|line raw IH]; intros st Hst; [by exists st|].
  destruct (raw_string_step_Ok st line Hst) as (st1 & Hr & Hst1 & Hl).
  destruct (IH st1 Hst1) as (st2 & Hr2 & Hl2). exists st2. cbn [foldl_res].
  rewrite Hr. split; [done|]. rewrite Hl2, Hl. simpl. lia.
Qed.

Lemma CleanseRawStrings_Ok raw : ∃ without,
  CleanseRawStrings raw = Ok without ∧ length without = length raw.
Proof.
  unfold CleanseRawStrings.
  destruct (foldl_raw_string_Ok raw (None, [])) as ([d acc] & -> & Hl); [done|].
  exists (rev acc). split; [done|]. rewrite length_rev. simpl in Hl. lia.
Qed.

(** Every view of the file has one line for each raw line. *)
Definition cleansed_ok (cl : cleansed_lines) : Prop :=
  length (elided cl) = length (raw_lines cl) ∧ length (lines cl) = length (raw_lines cl) ∧
  length (lines_without_raw_strings cl) = length (raw_lines cl) ∧
  NumLines cl = Z.of_nat (length (raw_lines cl)).

Lemma cleanse_run raw : ∃ cl, cleanse raw = Ok cl ∧ raw_lines cl = raw ∧ cleansed_ok cl.
Proof.
  unfold cleanse. destruct (CleanseRawStrings_Ok raw) as (without & -> & Hl).
  eexists. split; [reflexivity|]. split; [done|].
  unfold cleansed_ok. cbn. by rewrite !length_fmap.
Qed.

(** C15: cleansing succeeds on every file, whatever its lines hold (raw strings
    that never end included), and the cleansed, the comment-free and the
    raw-string-free views each keep exactly one line per line of the file, so
    that line numbers mean the same in all of them. *)
Theorem cleanse_keeps_line_numbers raw :
  ∃ cl, cleanse raw = Ok cl ∧ raw_lines cl = raw ∧
    length (elided cl) = length raw ∧ length (lines cl) = length raw ∧
    length (lines_without_raw_strings cl) = length raw ∧
    NumLines cl = Z.of_nat (length raw).
Proof.
  destruct (cleanse_run raw) as (cl & Hc & Hr & Hok). exists cl.
  unfold cleansed_ok in Hok. rewrite Hr in Hok. tauto.
Qed.

(** ** Multi-line comments *)

Lemma first_line_from_spec p rest i :
  let j := first_line_from p rest i in
  i ≤ j ≤ i + length rest ∧
  (∀ k l, i ≤ k < j → rest !! (k - i) = Some l → p l = false) ∧
  (j < i + length rest → ∃ l, rest !! (j - i) = Some l ∧ p l = true).
Proof.
  revert i. induction rest as [|l rest IH]; intros i; simpl.
  { split_and!; [lia|lia|intros; lia|lia]. }
  destruct (p l) eqn:E.
  - split_and!; [lia|lia|intros; lia|]. intros _. exists l. by rewrite Nat.sub_diag.
  - destruct (IH (S i)) as (Hj & Hno & Hyes). split_and!; [lia|lia| |].
    + intros k x Hk Hl. destruct (decide (k = i)) as [->|].
      * rewrite Nat.sub_diag in Hl. simpl in Hl. congruence.
      * apply (Hno k x); [lia|]. by replace (k - i) with (S (k - S i)) in Hl by lia.
    + intros Hlt. destruct Hyes as (x & Hx & Hp); [lia|]. exists x. split; [|done].
      by replace (first_line_from p rest (S i) - i) with
        (S (first_line_from p rest (S i) - S i)) by lia.
Qed.

Lemma find_line_spec p lines i : i ≤ length lines →
  let j := first_line_from p (drop i lines) i in
  i ≤ j ≤ length lines ∧
  (∀ k l, i ≤ k < j → lines !! k = Some l → p l = false) ∧
  (j < length lines → ∃ l, lines !! j = Some l ∧ p l = true).
Proof.
  intros Hi. destruct (first_line_from_spec p (drop i lines) i) as (Hj & Hno & Hyes).
  rewrite length_drop in *. split; [simpl in *; lia|]. split.
  - intros k l Hk Hl. apply (Hno k l Hk). rewrite lookup_drop.
    by replace (i + (k - i)) with k by lia.
  - intros Hlt. destruct Hyes as (l & Hl & Hp); [simpl in *; lia|]. exists l. split; [|done].
    rewrite lookup_drop in Hl. by replace (i + (_ - i)) with (first_line_from p (drop i lines) i) in Hl by (simpl in *; lia).
Qed.

Definition dummy : str := u "// dummy".

(** Lines [b] to [e] are blanked, the others kept. *)
Lemma remove_range_lookup lines b e k : b ≤ e ≤ length lines →
  RemoveMultiLineCommentsFromRange lines b e !! k =
    if decide (b ≤ k < e) then Some dummy else lines !! k.
Proof.
  intros He. unfold RemoveMultiLineCommentsFromRange.
  rewrite Nat.max_r by lia. destruct (decide (b ≤ k < e)) as [H|H].
  - rewrite lookup_app_r by (rewrite length_take; lia).
    rewrite lookup_app_l by (rewrite length_replicate, length_take; lia).
    apply lookup_replicate_2. rewrite length_take. lia.
  - destruct (decide (k < b)).
    + rewrite lookup_app_l by (rewrite length_take; lia). apply lookup_take_lt. lia.
    + rewrite lookup_app_r by (rewrite length_take; lia).
      rewrite lookup_app_r by (rewrite length_replicate, length_take; lia).
      rewrite lookup_drop. f_equal. rewrite length_replicate, length_take. lia.
Qed.

Lemma remove_range_length lines b e : b ≤ e ≤ length lines →
  length (RemoveMultiLineCommentsFromRange lines b e) = length lines.
Proof.
  intros H. unfold RemoveMultiLineCommentsFromRange.
  rewrite !length_app, length_take, length_replicate, length_drop. lia.
Qed.

(** Each line is kept or blanked. *)
Definition blanked (lines lines' : list str) : Prop :=
  length lines' = length lines ∧
  ∀ k, lines' !! k = lines !! k ∨ lines' !! k = Some dummy.

Lemma blanked_trans l1 l2 l3 : blanked l1 l2 → blanked l2 l3 → blanked l1 l3.
Proof.
  intros [H1 H1'] [H2 H2']. split; [congruence|]. intros k.
  destruct (H2' k) as [->| ->]; [apply H1'|by right].
Qed.

Lemma remove_range_blanked lines b e : b ≤ e ≤ length lines →
  blanked lines (RemoveMultiLineCommentsFromRange lines b e).
Proof.
  intros H. split; [by apply remove_range_length|]. intros k.
  rewrite remove_range_lookup by done. destruct (decide _); auto.
Qed.

Section remove.
Context (error : handler) (filename : str).

(** No line before [i] starts a comment that is still open at its end. *)
Definition closed_before (lines : list str) (i : nat) : Prop :=
  ∀ k l, k < i → lines !! k = Some l → starts_comment l = false.

Lemma remove_loop_run fuel lines i : length lines < fuel + i → i ≤ length lines →
  closed_before lines i →
  ∃ lines', blanked lines lines' ∧
    ((closed_before lines' (length lines') ∧
      remove_comments_loop error filename fuel lines i = mret lines') ∨
     (∃ n l, lines' !! n = Some l ∧ starts_comment l = true ∧
        (∀ k l, n ≤ k → lines' !! k = Some l → ends_comment l = false) ∧
        remove_comments_loop error filename fuel lines i =
          (error filename (Z.of_nat n + 1)%Z (u "readability/multiline_comment") 5%Z
             (u "Could not find end of multi-line comment") ;; mret lines'))).
Proof.
  revert lines i. induction fuel as [|fuel IH]; intros lines i Hf Hi Hc; [lia|].
  cbn [remove_comments_loop].
  destruct (Nat.ltb_spec i (length lines)) as [Hlt|Hge].
  2: { exists lines. split; [split; auto|]. left. split; [|done].
       replace (length lines) with i by lia. done. }
  destruct (find_line_spec starts_comment lines i Hi) as (Hb & Hno & Hyes).
  fold (FindNextMultiLineCommentStart lines i) in Hb, Hno, Hyes.
  set (b := FindNextMultiLineCommentStart lines i) in *.
  assert (Hcb : closed_before lines b).
  { intros k l Hk Hl. destruct (decide (k < i)); [by apply (Hc k)|]. by apply (Hno k l); [lia|]. }
  destruct (Nat.leb_spec (length lines) b) as [Hnone|Hsome].
  { exists lines. split; [split; auto|]. left. split; [|done].
    replace (length lines) with b by lia. done. }
  destruct (find_line_spec ends_comment lines b) as (He & Heno & Heyes); [lia|].
  fold (FindNextMultiLineCommentEnd lines b) in He, Heno, Heyes.
  set (e := FindNextMultiLineCommentEnd lines b) in *.
  destruct (Nat.leb_spec (length lines) e) as [Hopen|Hclosed].
  - exists lines. split; [split; auto|]. right. destruct (Hyes Hsome) as (l & Hl & Hs).
    exists b, l. split; [done|]. split; [done|]. split; [|done].
    intros k x Hk Hx. apply (Heno k x); [|done]. apply lookup_lt_Some in Hx. lia.
  - assert (Hrange : b ≤ e + 1 ≤ length lines) by lia.
    pose proof (remove_range_length lines b (e + 1) Hrange) as Hlen.
    destruct (IH (RemoveMultiLineCommentsFromRange lines b (e + 1)) (e + 1))
      as (lines' & Hbl & Hres); [lia|lia| |].
    + intros k l Hk. rewrite remove_range_lookup by done. destruct (decide _) as [_|Hd].
      * intros [= <-]. reflexivity.
      * intros Hl. apply (Hcb k l); [lia|done].
    + exists lines'. split; [|done]. eapply blanked_trans; [by apply remove_range_blanked|done].
Qed.

(** C10: removing multi-line comments ends, keeps the number of lines, and
    either reports nothing, in which case no line of the result starts a
    comment still open at its end, or makes exactly one report, about a line
    whose comment no later line ends; lines are only ever kept or replaced by a
    dummy comment. *)
Theorem multiline_comments_removed lines :
  ∃ lines', length lines' = length lines ∧
    (∀ k, lines' !! k = lines !! k ∨ lines' !! k = Some (u "// dummy")) ∧
    (((∀ k l, lines' !! k = Some l → starts_comment l = false) ∧
      RemoveMultiLineComments error filename lines = mret lines') ∨
     (∃ n l, lines' !! n = Some l ∧ starts_comment l = true ∧
        (∀ k l, n ≤ k → lines' !! k = Some l → ends_comment l = false) ∧
        RemoveMultiLineComments error filename lines =
          (error filename (Z.of_nat n + 1)%Z (u "readability/multiline_comment") 5%Z
             (u "Could not find end of multi-line comment") ;; mret lines'))).
Proof.
  destruct (remove_loop_run (S (length lines)) lines 0) as (lines' & [Hl Hk] & Hres);
    [lia|lia|intros k l Hk; lia|].
  exists lines'. split; [done|]. split; [done|].
  destruct Hres as [[Hc Hr]|Hr]; [left|by right]. split; [|exact Hr].
  intros k l Hx. apply (Hc k l); [|done]. by apply lookup_lt_Some in Hx.
Qed.
End remove.

(** ** Lines without comments or strings *)

Lemma count_absent sub s c : c ∈ sub → c ∉ s → count s sub = 0%Z.
Proof.
  intros Hc Hs. unfold count.
  assert (H : ∀ t, c ∉ t → count_go sub 0 t = 0); [|by rewrite H].
  induction t as [|d t IH]; intros Ht; [done|]. cbn [count_go].
  destruct (starts_with sub (d :: t)) eqn:E.
  - apply starts_with_spec in E as [r E]. destruct Ht. rewrite E, elem_of_app. by left.
  - apply IH. rewrite not_elem_of_cons in Ht. tauto.
Qed.

Lemma find_absent c sub s : c ∈ sub → c ∉ s → find s sub = (-1)%Z.
Proof.
  intros Hc Hs. unfold find. rewrite (proj2 (find_at_None sub s)); [done|].
  intros i Hi. by apply Hs, (occurs_at_char sub s i).
Qed.

Lemma cleanse_comments_plain line : ch "/" ∉ line → CleanseComments line = line.
Proof.
  intros H. unfold CleanseComments.
  rewrite (find_absent (ch "/")) by (done || (apply char_in_spec; reflexivity)). cbn [Z.eqb negb andb].
  exact (re_sub_needs _RE_PATTERN_CLEANSE_LINE_C_COMMENTS 47 _ _ eq_refl eq_refl H).
Qed.

(** No character that could begin a comment, a string or a character. *)
Definition plain_line (l : str) : Prop :=
  (ch "/" ∉ l) ∧ (ch "\" ∉ l) ∧ (ch "'" ∉ l) ∧ (c_dquote ∉ l).

Lemma collapse_plain line : plain_line line → _CollapseStrings line = line.
Proof.
  intros (_ & Hb & Hs & Hd). unfold _CollapseStrings. destruct (negb _); [|done].
  rewrite (re_sub_needs _RE_PATTERN_CLEANSE_LINE_ESCAPES 92 _ _ eq_refl eq_refl Hb).
  rewrite (re_sub_needs _RE_PATTERN_CLEANSE_LINE_SINGLE_QUOTES 39 _ _ eq_refl eq_refl Hs).
  exact (re_sub_needs _RE_PATTERN_CLEANSE_LINE_DOUBLE_QUOTES 34 _ _ eq_refl eq_refl Hd).
Qed.

Lemma raw_string_step_plain acc l : c_dquote ∉ l →
  raw_string_step (None, acc) l = Ok (None, l :: acc).
Proof.
  intros Hd. cbv beta iota delta [raw_string_step re_match].
  by rewrite (match_at_needs _ 34) by first [reflexivity|exact Hd].
Qed.

Lemma raw_strings_plain raw : Forall plain_line raw → CleanseRawStrings raw = Ok raw.
Proof.
  intros H. unfold CleanseRawStrings.
  assert (Hf : ∀ acc, foldl_res raw_string_step (None, acc) raw = Ok (None, rev raw ++ acc)).
  { induction H as [|l raw (_ & _ & _ & Hd) _ IH]; intros acc; [done|].
    cbn [foldl_res]. rewrite raw_string_step_plain by done. cbn [mbind res_bind].
    rewrite IH. simpl. by rewrite <- app_assoc. }
  rewrite Hf, app_nil_r. simpl. by rewrite rev_involutive.
Qed.

(** C26: a file whose lines hold no slash, backslash or quote is its own
    cleansed form: nothing is taken from code outside comments and strings. *)
Theorem plain_lines_untouched raw : Forall plain_line raw →
  cleanse raw = Ok (CleansedLines raw raw raw (Z.of_nat (length raw)) raw).
Proof.
  intros H. unfold cleanse. rewrite raw_strings_plain by done. cbn [mbind res_bind mret res_ret].
  assert (Hid : ∀ f : str → str, (∀ l, plain_line l → f l = l) → f <$> raw = raw).
  { intros f Hf. transitivity (id <$> raw); [|apply list_fmap_id].
    apply list_fmap_ext. intros i l Hl. apply Hf. by eapply Forall_lookup_1. }
  rewrite (Hid CleanseComments), (Hid (λ line, CleanseComments (_CollapseStrings line))); [done|..].
  - intros l Hl. rewrite collapse_plain by done. by apply cleanse_comments_plain, Hl.
  - intros l Hl. by apply cleanse_comments_plain, Hl.
Qed.

Lemma find_line_comment code comment :
  find (code ++ u "//" ++ comment) (u "//") = Z.of_nat (length code) →
  py_to (code ++ u "//" ++ comment) (find (code ++ u "//" ++ comment) (u "//")) = code ∧
  find (code ++ u "//" ++ comment) (u "//") ≠ (-1)%Z.
Proof. intros ->. split; [by rewrite py_to_nat, take_app_length|lia]. Qed.

Lemma contains_prefix s b sub : contains (s ++ b) sub = false → contains s sub = false.
Proof.
  intros H. destruct (contains s sub) eqn:E; [|done]. apply contains_spec in E as (a & c & ->).
  rewrite <- H. symmetry. apply contains_spec. exists a, (c ++ b). by rewrite <- !app_assoc.
Qed.

Lemma cleanse_no_c_comment s : contains s (u "/*") = false →
  re_sub _RE_PATTERN_CLEANSE_LINE_C_COMMENTS [] s = s.
Proof. by apply (re_sub_needs_pair _ 47 42). Qed.


Lemma plain_lines_untouched_witness :
  let raw := [u "int f(int x) {"; u "  return x + 1;"; u "}"] in
  Forall plain_line raw ∧
  cleanse raw = Ok (CleansedLines raw raw raw (Z.of_nat (length raw)) raw).
Proof.
  assert (H : Forall plain_line [u "int f(int x) {"; u "  return x + 1;"; u "}"]).
  { repeat constructor; rewrite <- char_in_spec; vm_compute; discriminate. }
  split; [exact H|]. exact (plain_lines_untouched _ H).
Defined.

