(* ===== verification/Expr.v ===== *)
(** * Matching brackets across lines

    [FindEndOfExpressionInLine], [CloseExpression] and their mirror images,
    the angle-bracket searches and [_GetTextInside] of cpplint.py, on the
    elided lines of a [CleansedLines] object.  The line numbers and positions
    given to them are those of the file: where the source indexes the list of
    lines in a loop, the loop here runs over the part of the list it visits. *)
From S2P Require Import Prelude PyStr Regex RegexParse PyRe World Cleanse.

(** ** Scanning one line *)

(** The loop over the characters [text], the first of them at index [i]. *)
Fixpoint find_end_go (text : str) (i depth : Z) (startchar endchar : N) : Z * Z :=
  match text with
  | [] => ((-1)%Z, depth)
  | c :: text =>
      if (c =? startchar)%N then find_end_go text (i + 1) (depth + 1) startchar endchar
      else if (c =? endchar)%N then
        if (depth - 1 =? 0)%Z then ((i + 1)%Z, 0%Z)
        else find_end_go text (i + 1) (depth - 1) startchar endchar
      else find_end_go text (i + 1) depth startchar endchar
  end.

(** The characters [line[i]] for [i] in [xrange(startpos, len(line))]; negative
    indices count from the end. *)
Definition chars_from (line : str) (startpos : Z) : str :=
  if (startpos <? 0)%Z
  then drop (Z.to_nat (Z.of_nat (length line) + startpos)) line ++ line
  else drop (Z.to_nat startpos) line.

Definition FindEndOfExpressionInLine (line : str) (startpos depth : Z)
    (startchar endchar : N) : Z * Z :=
  find_end_go (chars_from line startpos) startpos depth startchar endchar.

(** Backwards: the characters at [endpos], [endpos - 1], ..., [0]. *)
Fixpoint find_start_go (text : str) (i depth : Z) (startchar endchar : N) : Z * Z :=
  match text with
  | [] => ((-1)%Z, depth)
  | c :: text =>
      if (c =? endchar)%N then find_start_go text (i - 1) (depth + 1) startchar endchar
      else if (c =? startchar)%N then
        if (depth - 1 =? 0)%Z then (i, 0%Z)
        else find_start_go text (i - 1) (depth - 1) startchar endchar
      else find_start_go text (i - 1) depth startchar endchar
  end.

Definition FindStartOfExpressionInLine (line : str) (endpos depth : Z)
    (startchar endchar : N) : Z * Z :=
  find_start_go (rev (take (Z.to_nat (endpos + 1)) line)) endpos depth startchar endchar.

(** ** Scanning from line to line *)

Definition closing_of (c : N) : option N :=
  if (c =? ch "(")%N then Some (ch ")")
  else if (c =? ch "[")%N then Some (ch "]")
  else if (c =? ch "{")%N then Some (ch "}")
  else if (c =? ch "<")%N then Some (ch ">")
  else None.

Definition opening_of (c : N) : option N :=
  if (c =? ch ")")%N then Some (ch "(")
  else if (c =? ch "]")%N then Some (ch "[")
  else if (c =? ch "}")%N then Some (ch "{")
  else if (c =? ch ">")%N then Some (ch "<")
  else None.

(** A position: the line's text, its number and the index in it. *)
Definition where_ : Type := str * Z * Z.

(** The lines after [linenum], with the depth reached so far. *)
Fixpoint close_go (rest : list str) (line : str) (linenum num_lines num_open : Z)
    (startchar endchar : N) : where_ :=
  match rest with
  | [] => (line, num_lines, (-1)%Z)
  | line :: rest =>
      let linenum := (linenum + 1)%Z in
      let '(end_pos, num_open) :=
        FindEndOfExpressionInLine line 0 num_open startchar endchar in
      if (-1 <? end_pos)%Z then (line, linenum, end_pos)
      else close_go rest line linenum num_lines num_open startchar endchar
  end.

Definition CloseExpression (cl : cleansed_lines) (linenum pos : Z) : res where_ :=
  line ← py_nth (elided cl) linenum;
  startchar ← py_nth line pos;
  match closing_of startchar with
  | None => mret (line, NumLines cl, (-1)%Z)
  | Some endchar =>
      (** Check first line *)
      let '(end_pos, num_open) := FindEndOfExpressionInLine line pos 0 startchar endchar in
      if (-1 <? end_pos)%Z then mret (line, linenum, end_pos)
      else
        (** Continue scanning forward *)
        mret (close_go (drop (Z.to_nat (linenum + 1)) (elided cl)) line linenum
                (NumLines cl) num_open startchar endchar)
  end.

(** The lines before [linenum], the nearest first. *)
Fixpoint reverse_close_go (rest : list str) (line : str) (linenum num_open : Z)
    (startchar endchar : N) : where_ :=
  match rest with
  | [] => (line, 0%Z, (-1)%Z)
  | line :: rest =>
      let linenum := (linenum - 1)%Z in
      let '(start_pos, num_open) :=
        FindStartOfExpressionInLine line (Z.of_nat (length line) - 1) num_open
          startchar endchar in
      if (-1 <? start_pos)%Z then (line, linenum, start_pos)
      else reverse_close_go rest line linenum num_open startchar endchar
  end.

Definition ReverseCloseExpression (cl : cleansed_lines) (linenum pos : Z) : res where_ :=
  line ← py_nth (elided cl) linenum;
  endchar ← py_nth line pos;
  match opening_of endchar with
  | None => mret (line, 0%Z, (-1)%Z)
  | Some startchar =>
      (** Check last line *)
      let '(start_pos, num_open) :=
        FindStartOfExpressionInLine line pos 0 startchar endchar in
      if (-1 <? start_pos)%Z then mret (line, linenum, start_pos)
      else
        (** Continue scanning backward *)
        mret (reverse_close_go (rev (take (Z.to_nat linenum) (elided cl))) line linenum
                num_open startchar endchar)
  end.

(** ** Angle brackets *)

(** One operator of [FindNextMatchingAngleBracket]: the answer, or the new
    nesting stack (its top first). *)
Definition next_angle_step (operator : N) (nesting_stack : list N) : res (bool + list N) :=
  match nesting_stack with
  | [] => Raise IndexError
  | top :: below => mret (
      if (top =? ch "<")%N then
        if char_in operator (u "<([") then inr (operator :: nesting_stack)
        else if (operator =? ch ">")%N then
          match below with [] => inl true | _ => inr below end
        else if (operator =? ch ",")%N then inl true
        else inl false
      else
        if char_in operator (u "<([") then inr (operator :: nesting_stack)
        else if char_in operator (u ")]") then inr below
        else inr nesting_stack)
  end.

Fixpoint next_angle_go (fuel : nat) (line : str) (rest : list str)
    (nesting_stack : list N) : res bool :=
  match fuel with
  | 0 => Raise OutOfFuel
  | S fuel =>
      match re_search (rx "^[^<>(),;\[\]]*([<>(),;\[\]])(.*)$") line with
      | Some mo =>
          operator ← py_nth (group_str mo 1) 0;
          step ← next_angle_step operator nesting_stack;
          match (step : bool + list N) with
          | inl answer => mret answer
          | inr nesting_stack => next_angle_go fuel (group_str mo 2) rest nesting_stack
          end
      | None =>
          (** Scan the next line *)
          match rest with
          | [] => mret true
          | line :: rest => next_angle_go fuel line rest nesting_stack
          end
      end
  end.

(** Each round drops a character of the line or moves to the next line. *)
Definition angle_fuel (line : str) (rest : list str) : nat :=
  S (length line + sum_list_with (λ l, S (length l)) rest).

Definition FindNextMatchingAngleBracket (cl : cleansed_lines) (linenum : Z)
    (init_suffix : str) : res bool :=
  let rest := drop (Z.to_nat (linenum + 1)) (elided cl) in
  next_angle_go (angle_fuel init_suffix rest) init_suffix rest [ch "<"].

Definition previous_angle_step (operator : N) (nesting_stack : list N) : res (bool + list N) :=
  match nesting_stack with
  | [] => Raise IndexError
  | top :: below => mret (
      if (top =? ch ">")%N then
        if char_in operator (u ">)]") then inr (operator :: nesting_stack)
        else if (operator =? ch "<")%N then
          match below with [] => inl true | _ => inr below end
        else if (operator =? ch ",")%N then inl true
        else inl false
      else
        if char_in operator (u ">)]") then inr (operator :: nesting_stack)
        else if char_in operator (u "([") then inr below
        else inr nesting_stack)
  end.

Fixpoint previous_angle_go (fuel : nat) (line : str) (rest : list str)
    (nesting_stack : list N) : res bool :=
  match fuel with
  | 0 => Raise OutOfFuel
  | S fuel =>
      match re_search (rx "^(.*)([<>(),;\[\]])[^<>(),;\[\]]*$") line with
      | Some mo =>
          operator ← py_nth (group_str mo 2) 0;
          step ← previous_angle_step operator nesting_stack;
          match (step : bool + list N) with
          | inl answer => mret answer
          | inr nesting_stack => previous_angle_go fuel (group_str mo 1) rest nesting_stack
          end
      | None =>
          (** Scan the previous line *)
          match rest with
          | [] => mret false
          | line :: rest => previous_angle_go fuel line rest nesting_stack
          end
      end
  end.

Definition FindPreviousMatchingAngleBracket (cl : cleansed_lines) (linenum : Z)
    (init_prefix : str) : res bool :=
  let rest := rev (take (Z.to_nat linenum) (elided cl)) in
  previous_angle_go (angle_fuel init_prefix rest) init_prefix rest [ch ">"].

(** ** [_GetTextInside] *)

Definition matching_punctuation (c : N) : option N :=
  if (c =? ch "(")%N then Some (ch ")")
  else if (c =? ch "{")%N then Some (ch "}")
  else if (c =? ch "[")%N then Some (ch "]")
  else None.
Definition closing_punctuation : str := u ")}]".

(** The loop: the number of characters read when the stack (its top first)
    runs empty; [None] when it does not or a closing character is unexpected. *)
Fixpoint text_inside_go (text : str) (punctuation_stack : list N) (position : nat)
    : option nat :=
  match punctuation_stack with
  | [] => Some position
  | top :: below =>
      match text with
      | [] => None
      | c :: text =>
          if (c =? top)%N then text_inside_go text below (S position)
          else if char_in c closing_punctuation then None
          else match matching_punctuation c with
               | Some d => text_inside_go text (d :: punctuation_stack) (S position)
               | None => text_inside_go text punctuation_stack (S position)
               end
      end
  end.

Definition _GetTextInside (text : str) (start_pattern : compiled) : res (option str) :=
  match re_search start_pattern text with
  | None => mret None
  | Some mo =>
      let start_position := mo_end mo in
      if (start_position =? 0)%nat then Raise AssertionError
      else
        c ← py_nth text (Z.of_nat start_position - 1);
        match matching_punctuation c with
        | None => Raise AssertionError
        | Some d =>
            mret ((λ position, span text start_position (position - 1))
                    <$> text_inside_go (drop start_position text) [d] start_position)
        end
  end.

(** ** Balance *)

(** Openings minus closings. *)
Fixpoint bal (s e : N) (text : str) : Z :=
  match text with
  | [] => 0
  | c :: text => ((if (c =? s)%N then 1 else if (c =? e)%N then -1 else 0) + bal s e text)%Z
  end.

Lemma bal_app s e t1 t2 : bal s e (t1 ++ t2) = (bal s e t1 + bal s e t2)%Z.
Proof. induction t1 as [|c t1 IH]; simpl; [done|]. rewrite IH. lia. Qed.

Lemma bal_rev s e t : bal s e (rev t) = bal s e t.
Proof. induction t as [|c t IH]; simpl; [done|]. rewrite bal_app, IH. simpl. lia. Qed.

Lemma bal_swap s e t : s ≠ e → bal e s t = (- bal s e t)%Z.
Proof.
  intros H. induction t as [|c t IH]; simpl; [done|]. rewrite IH.
  destruct (N.eqb_spec c s), (N.eqb_spec c e); subst; try congruence; lia.
Qed.

(** Where the balance, starting from [depth], first comes back to zero by a
    closing character: the number of characters read. *)
Fixpoint first_close (s e : N) (depth : Z) (text : str) : option nat :=
  match text with
  | [] => None
  | c :: text =>
      S <$> (if (c =? s)%N then first_close s e (depth + 1) text
             else if (c =? e)%N then
               if (depth - 1 =? 0)%Z then Some 0 else first_close s e (depth - 1) text
             else first_close s e depth text)
  end.

Lemma first_close_app s e depth t1 t2 :
  first_close s e depth (t1 ++ t2) =
    match first_close s e depth t1 with
    | Some k => Some k
    | None => (λ k, length t1 + k) <$> first_close s e (depth + bal s e t1) t2
    end.
Proof.
  revert depth. induction t1 as [|c t1 IH]; intros depth; simpl.
  { rewrite Z.add_0_r. by destruct (first_close s e depth t2). }
  assert (Hmap : ∀ o : option nat, S <$> ((λ k, length t1 + k) <$> o) = (λ k, S (length t1 + k)) <$> o)
    by (intros o; by destruct o).
  destruct (c =? s)%N; [|destruct (c =? e)%N]; rewrite ?IH.
  - rewrite Z.add_assoc. destruct (first_close s e (depth + 1) t1); [done|apply Hmap].
  - destruct (depth - 1 =? 0)%Z; [done|].
    replace (depth + (-1 + bal s e t1))%Z with (depth - 1 + bal s e t1)%Z by lia.
    destruct (first_close s e (depth - 1) t1); [done|apply Hmap].
  - destruct (first_close s e depth t1); [done|apply Hmap].
Qed.

Lemma first_close_bound s e depth t k : first_close s e depth t = Some k → 0 < k ≤ length t.
Proof.
  revert depth k. induction t as [|c t IH]; intros depth k H; simpl in H; [done|].
  apply fmap_Some in H as (k' & H & ->). simpl.
  destruct (c =? s)%N; [apply IH in H; lia|]. destruct (c =? e)%N; [|apply IH in H; lia].
  destruct (depth - 1 =? 0)%Z; [injection H as <-; lia|apply IH in H; lia].
Qed.

(** The shortest prefix that brings the balance down to zero. *)
Definition closes (s e : N) (depth : Z) (t : str) (k : nat) : Prop :=
  k ≤ length t ∧ (depth + bal s e (take k t) = 0)%Z ∧
  ∀ j, j < k → (0 < depth + bal s e (take j t))%Z.

Lemma closes_0 s e depth t : closes s e depth t 0 ↔ depth = 0%Z.
Proof. unfold closes. simpl. split; [lia|]. intros ->. split_and!; lia. Qed.

Lemma closes_S s e depth c t k : (0 < depth)%Z →
  closes s e depth (c :: t) (S k) ↔ closes s e (depth + bal s e [c]) t k.
Proof.
  intros Hd. unfold closes. simpl. rewrite Z.add_0_r, Z.add_assoc.
  split; intros (H1 & H2 & H3); (split_and!; [lia|done|]).
  - intros j Hj. specialize (H3 (S j)). simpl in H3. rewrite Z.add_assoc in H3. apply H3. lia.
  - intros [|j] Hj; simpl; [lia|]. rewrite Z.add_assoc. apply H3. lia.
Qed.

Lemma closes_at_zero s e t k : closes s e 0 t k ↔ k = 0.
Proof.
  split; [|by intros ->; apply closes_0]. intros (_ & _ & H).
  destruct k as [|k]; [done|]. specialize (H 0). simpl in H. lia.
Qed.

(** Started inside at least one bracket, [first_close] finds that prefix. *)
Lemma first_close_spec s e depth t k : s ≠ e → (0 < depth)%Z →
  first_close s e depth t = Some k ↔ closes s e depth t k.
Proof.
  intros Hse. revert depth k. induction t as [|c t IH]; intros depth [|k] Hd.
  - rewrite closes_0. simpl. split; [done|lia].
  - split; [done|]. intros (H & _). simpl in H. lia.
  - rewrite closes_0. split; [|lia]. intros H%first_close_bound. lia.
  - rewrite closes_S by done. cbn [first_close bal].
    match goal with |- S <$> ?o = Some (S k) ↔ _ => transitivity (o = Some k);
      [destruct o; simpl; split; congruence|] end.
    destruct (N.eqb_spec c s) as [->|Hs]; [apply IH; lia|].
    destruct (N.eqb_spec c e) as [->|He]; [|rewrite !Z.add_0_r; by apply IH].
    rewrite Z.add_0_r. change (depth + -1)%Z with (depth - 1)%Z. destruct (Z.eqb_spec (depth - 1) 0) as [E|E].
    + rewrite E, closes_at_zero. split; congruence.
    + apply IH. lia.
Qed.

(** The loops of the source in these terms. *)
Lemma find_end_go_run s e text i depth :
  find_end_go text i depth s e =
    match first_close s e depth text with
    | Some k => ((i + Z.of_nat k)%Z, 0%Z)
    | None => ((-1)%Z, (depth + bal s e text)%Z)
    end.
Proof.
  revert i depth. induction text as [|c text IH]; intros i depth; cbn [find_end_go first_close bal].
  { by rewrite Z.add_0_r. }
  destruct (c =? s)%N; [|destruct (c =? e)%N; [destruct (depth - 1 =? 0)%Z; [done|]|]];
    rewrite IH; match goal with |- context [first_close s e ?d text] =>
      destruct (first_close s e d text) end; simpl; f_equal; lia.
Qed.

Lemma find_start_go_run s e text i depth :
  find_start_go text i depth s e =
    match first_close e s depth text with
    | Some k => ((i - Z.of_nat k + 1)%Z, 0%Z)
    | None => ((-1)%Z, (depth + bal e s text)%Z)
    end.
Proof.
  revert i depth. induction text as [|c text IH]; intros i depth; cbn [find_start_go first_close bal].
  { by rewrite Z.add_0_r. }
  destruct (c =? e)%N; [|destruct (c =? s)%N; [destruct (depth - 1 =? 0)%Z|]].
  2: simpl; f_equal; lia.
  all: rewrite IH; match goal with |- context [first_close ?a ?b ?d ?t] =>
      destruct (first_close a b d t) end; simpl; f_equal; lia.
Qed.

(** ** Positions in the whole file *)

(** The text up to a position, and what a position stands for in it. *)
Definition offset (ls : list str) (n p : nat) : nat := length (concat (take n ls)) + p.

Lemma offset_next ls n l : ls !! n = Some l → offset ls (S n) 0 = offset ls n (length l).
Proof.
  intros H. unfold offset. rewrite (take_S_r _ _ _ H), concat_app, length_app. simpl.
  rewrite app_nil_r. lia.
Qed.

Lemma split_at (ls : list str) n p l : ls !! n = Some l → p ≤ length l →
  concat ls = (concat (take n ls) ++ take p l) ++ drop p l ++ concat (drop (S n) ls).
Proof.
  intros Hl Hp. rewrite <- (take_drop n ls) at 1. rewrite concat_app, <- app_assoc. f_equal.
  rewrite (drop_S _ _ _ Hl). simpl. by rewrite app_assoc, take_drop.
Qed.

Lemma length_split_at (ls : list str) n p l : ls !! n = Some l → p ≤ length l →
  length (concat (take n ls) ++ take p l) = offset ls n p.
Proof. intros Hl Hp. unfold offset. rewrite length_app, length_take. lia. Qed.

Lemma take_offset (ls : list str) n p l : ls !! n = Some l → p ≤ length l →
  take (offset ls n p) (concat ls) = concat (take n ls) ++ take p l.
Proof.
  intros Hl Hp. rewrite (split_at ls n p l Hl Hp), <- (length_split_at ls n p l Hl Hp).
  apply take_app_length.
Qed.

Lemma drop_offset (ls : list str) n p l : ls !! n = Some l → p ≤ length l →
  drop (offset ls n p) (concat ls) = drop p l ++ concat (drop (S n) ls).
Proof.
  intros Hl Hp. rewrite (split_at ls n p l Hl Hp), <- (length_split_at ls n p l Hl Hp).
  apply drop_app_length.
Qed.

Lemma chars_from_nat l (p : nat) : chars_from l (Z.of_nat p) = drop p l.
Proof. unfold chars_from. rewrite (proj2 (Z.ltb_ge _ _)) by lia. by rewrite Nat2Z.id. Qed.

(** The scan of the following lines is a scan of their concatenation. *)
Lemma close_go_run s e ls : ∀ n line depth total,
  match first_close s e depth (concat (drop n ls)) with
  | Some k => ∃ n' l p, close_go (drop n ls) line (Z.of_nat n - 1) total depth s e
                = (l, Z.of_nat n', Z.of_nat p) ∧
      n ≤ n' ∧ ls !! n' = Some l ∧ 0 < p ≤ length l ∧ offset ls n' p = offset ls n 0 + k
  | None => ∃ l, close_go (drop n ls) line (Z.of_nat n - 1) total depth s e = (l, total, (-1)%Z)
  end.
Proof.
  assert (H : ∀ r n line depth total, length ls - n = r →
    match first_close s e depth (concat (drop n ls)) with
    | Some k => ∃ n' l p, close_go (drop n ls) line (Z.of_nat n - 1) total depth s e
                  = (l, Z.of_nat n', Z.of_nat p) ∧
        n ≤ n' ∧ ls !! n' = Some l ∧ 0 < p ≤ length l ∧ offset ls n' p = offset ls n 0 + k
    | None => ∃ l, close_go (drop n ls) line (Z.of_nat n - 1) total depth s e
                  = (l, total, (-1)%Z)
    end); [|intros; by eapply H].
  induction r as [|r IH]; intros n line depth total Hr.
  { rewrite drop_ge by lia. simpl. eauto. }
  destruct (lookup_lt_is_Some_2 ls n) as [l Hl]; [lia|].
  rewrite (drop_S _ _ _ Hl). cbn [concat close_go].
  unfold FindEndOfExpressionInLine. change 0%Z with (Z.of_nat 0). rewrite chars_from_nat, drop_0.
  rewrite find_end_go_run, first_close_app.
  destruct (first_close s e depth l) as [k|] eqn:E.
  - apply first_close_bound in E. rewrite (proj2 (Z.ltb_lt _ _)) by lia.
    exists n, l, k. split; [repeat f_equal; lia|]. split_and!; try done; try lia.
    unfold offset. lia.
  - cbn [Z.ltb Z.compare]. specialize (IH (S n) l (depth + bal s e l)%Z total).
    replace (Z.of_nat n - 1 + 1)%Z with (Z.of_nat (S n) - 1)%Z by lia.
    destruct (first_close s e (depth + bal s e l) (concat (drop (S n) ls))) as [k|]; cbn [fmap option_fmap option_map].
    + destruct IH as (n' & l' & p & -> & Hn & Hl' & Hp & Ho); [lia|].
      exists n', l', p. split_and!; try done; try lia.
      rewrite Ho, (offset_next _ _ _ Hl). unfold offset. lia.
    + apply IH. lia.
Qed.

(** [CloseExpression] in these terms. *)
Lemma CloseExpression_run cl n p l c e : elided cl !! n = Some l → l !! p = Some c →
  closing_of c = Some e →
  match first_close c e 0 (drop (offset (elided cl) n p) (concat (elided cl))) with
  | Some k => ∃ n' l' p', CloseExpression cl (Z.of_nat n) (Z.of_nat p)
                = Ok (l', Z.of_nat n', Z.of_nat p') ∧
      n ≤ n' ∧ elided cl !! n' = Some l' ∧ 0 < p' ≤ length l' ∧
      offset (elided cl) n' p' = offset (elided cl) n p + k
  | None => ∃ l', CloseExpression cl (Z.of_nat n) (Z.of_nat p) = Ok (l', NumLines cl, (-1)%Z)
  end.
Proof.
  intros Hl Hc He. assert (Hp : p < length l) by (by apply lookup_lt_Some in Hc).
  rewrite (drop_offset _ _ _ _ Hl) by lia. unfold CloseExpression.
  rewrite py_nth_nat, Hl. cbn [or_raise mbind res_bind]. rewrite py_nth_nat, Hc.
  cbn [or_raise mbind res_bind]. rewrite He. unfold FindEndOfExpressionInLine.
  rewrite chars_from_nat, find_end_go_run, first_close_app.
  destruct (first_close c e 0 (drop p l)) as [k|] eqn:E.
  - apply first_close_bound in E. rewrite length_drop in E.
    rewrite (proj2 (Z.ltb_lt _ _)) by lia. exists n, l, (p + k).
    split; [cbn; repeat f_equal; lia|]. split_and!; try done; try lia. unfold offset. lia.
  - cbn [Z.ltb Z.compare]. rewrite Z.add_0_l.
    replace (Z.to_nat (Z.of_nat n + 1)) with (S n) by lia.
    pose proof (close_go_run c e (elided cl) (S n) l (bal c e (drop p l)) (NumLines cl)) as H.
    replace (Z.of_nat (S n) - 1)%Z with (Z.of_nat n) in H by lia.
    destruct (first_close c e (bal c e (drop p l)) (concat (drop (S n) (elided cl)))) as [k|];
      cbn [fmap option_fmap option_map].
    + destruct H as (n' & l' & p' & -> & Hn & Hl' & Hp' & Ho).
      exists n', l', p'. split; [done|]. split_and!; try done; try lia.
      rewrite Ho, (offset_next _ _ _ Hl), length_drop. unfold offset. lia.
    + destruct H as [l' ->]. eauto.
Qed.

(** The mirror image: scanning the previous lines. *)
Lemma reverse_close_go_run s e ls : ∀ n line depth, n ≤ length ls →
  match first_close e s depth (rev (concat (take n ls))) with
  | Some k => ∃ n' l p, reverse_close_go (rev (take n ls)) line (Z.of_nat n) depth s e
                = (l, Z.of_nat n', Z.of_nat p) ∧
      n' < n ∧ ls !! n' = Some l ∧ p < length l ∧ offset ls n' p + k = offset ls n 0
  | None => ∃ l, reverse_close_go (rev (take n ls)) line (Z.of_nat n) depth s e = (l, 0%Z, (-1)%Z)
  end.
Proof.
  induction n as [|n IH]; intros line depth Hn.
  { simpl. eauto. }
  destruct (lookup_lt_is_Some_2 ls n) as [l Hl]; [lia|].
  rewrite (take_S_r _ _ _ Hl), concat_app, !rev_app_distr.
  simpl concat. rewrite app_nil_r. cbn [rev app reverse_close_go].
  unfold FindStartOfExpressionInLine.
  replace (Z.to_nat (Z.of_nat (length l) - 1 + 1)) with (length l) by lia. rewrite firstn_all.
  rewrite find_start_go_run, first_close_app.
  replace (Z.of_nat (S n) - 1)%Z with (Z.of_nat n) by lia.
  destruct (first_close e s depth (rev l)) as [k|] eqn:E.
  - apply first_close_bound in E. rewrite length_rev in E.
    rewrite (proj2 (Z.ltb_lt _ _)) by lia.
    exists n, l, (length l - k). split; [repeat f_equal; lia|]. split_and!; try done; try lia.
    rewrite (offset_next _ _ _ Hl). unfold offset. lia.
  - cbn [Z.ltb Z.compare]. specialize (IH l (depth + bal e s (rev l))%Z).
    destruct (first_close e s (depth + bal e s (rev l)) (rev (concat (take n ls)))) as [k|];
      cbn [fmap option_fmap option_map].
    + destruct IH as (n' & l' & p & -> & Hn' & Hl' & Hp & Ho); [lia|].
      exists n', l', p. split_and!; try done; try lia.
      rewrite (offset_next _ _ _ Hl), length_rev. unfold offset in *. lia.
    + apply IH. lia.
Qed.

Lemma ReverseCloseExpression_run cl n p l e s : elided cl !! n = Some l → l !! p = Some e →
  opening_of e = Some s →
  match first_close e s 0 (rev (take (offset (elided cl) n (S p)) (concat (elided cl)))) with
  | Some k => ∃ n' l' p', ReverseCloseExpression cl (Z.of_nat n) (Z.of_nat p)
                = Ok (l', Z.of_nat n', Z.of_nat p') ∧
      n' ≤ n ∧ elided cl !! n' = Some l' ∧ p' < length l' ∧
      offset (elided cl) n' p' + k = offset (elided cl) n (S p)
  | None => ∃ l', ReverseCloseExpression cl (Z.of_nat n) (Z.of_nat p) = Ok (l', 0%Z, (-1)%Z)
  end.
Proof.
  intros Hl He Hs. assert (Hp : p < length l) by (by apply lookup_lt_Some in He).
  rewrite (take_offset _ _ _ _ Hl), rev_app_distr by lia. unfold ReverseCloseExpression.
  rewrite py_nth_nat, Hl. cbn [or_raise mbind res_bind]. rewrite py_nth_nat, He.
  cbn [or_raise mbind res_bind]. rewrite Hs. unfold FindStartOfExpressionInLine.
  replace (Z.to_nat (Z.of_nat p + 1)) with (S p) by lia.
  rewrite find_start_go_run, first_close_app.
  destruct (first_close e s 0 (rev (take (S p) l))) as [k|] eqn:E.
  - apply first_close_bound in E. rewrite length_rev, length_take in E.
    rewrite (proj2 (Z.ltb_lt _ _)) by lia. exists n, l, (S p - k).
    split; [cbn; repeat f_equal; lia|]. split_and!; try done; try lia. unfold offset. lia.
  - cbn [Z.ltb Z.compare]. rewrite Z.add_0_l, Nat2Z.id.
    pose proof (reverse_close_go_run s e (elided cl) n l (bal e s (rev (take (S p) l)))) as H.
    destruct (first_close e s (bal e s (rev (take (S p) l))) _) as [k|];
      cbn [fmap option_fmap option_map].
    + destruct H as (n' & l' & p' & -> & Hn & Hl' & Hp' & Ho); [apply lookup_lt_Some in Hl; lia|].
      exists n', l', p'. split; [done|]. split_and!; try done; try lia.
      rewrite length_rev, length_take. unfold offset in *. lia.
    + destruct H as [l' ->]; [apply lookup_lt_Some in Hl; lia|]. eauto.
Qed.

(** Two positions inside lines are the same when their offsets are. *)
Lemma offset_mono ls n m : n ≤ m → offset ls n 0 ≤ offset ls m 0.
Proof.
  intros H. unfold offset.
  replace (take n ls) with (take n (take m ls)) by (rewrite take_take; f_equal; lia).
  rewrite <- (take_drop n (take m ls)) at 2. rewrite concat_app, length_app. lia.
Qed.

Lemma offset_inj ls n p l n' p' l' : ls !! n = Some l → p < length l →
  ls !! n' = Some l' → p' < length l' → offset ls n p = offset ls n' p' → n = n' ∧ p = p'.
Proof.
  intros Hl Hp Hl' Hp' E. pose proof (offset_next _ _ _ Hl). pose proof (offset_next _ _ _ Hl').
  destruct (Nat.lt_trichotomy n n') as [Hn|[->|Hn]].
  - pose proof (offset_mono ls (S n) n' Hn). unfold offset in *. lia.
  - unfold offset in *. split; [done|lia].
  - pose proof (offset_mono ls (S n') n Hn). unfold offset in *. lia.
Qed.

(** ** What the bracket searches find *)

(** The first [k] characters are a bracketed expression: as many closings as
    openings, which is true of no shorter prefix. *)
Definition bracketed (s e : N) (text : str) (k : nat) : Prop :=
  0 < k ≤ length text ∧ bal s e (take k text) = 0%Z ∧
  ∀ j, 0 < j < k → (0 < bal s e (take j text))%Z.

Lemma first_close_open s e text k : s ≠ e → head text = Some s →
  first_close s e 0 text = Some k ↔ bracketed s e text k.
Proof.
  intros Hse Hh. destruct text as [|c t]; [done|]. simpl in Hh. injection Hh as ->.
  cbn [first_close]. rewrite N.eqb_refl. destruct k as [|k].
  { split; [by destruct (first_close s e (0 + 1) t)|]. intros ((H & _) & _). lia. }
  transitivity (first_close s e 1 t = Some k);
    [change (0 + 1)%Z with 1%Z; destruct (first_close s e 1 t); simpl; split; congruence|].
  rewrite first_close_spec by (done || lia). unfold closes, bracketed. simpl.
  rewrite N.eqb_refl. split; intros (H1 & H2 & H3); (split_and!; [lia..|done|]) || split_and!; try lia.
  - intros [|j] Hj; [lia|]. simpl. rewrite N.eqb_refl. apply H3. lia.
  - intros j Hj. specialize (H3 (S j)). simpl in H3. rewrite N.eqb_refl in H3. apply H3. lia.
Qed.

Lemma closing_opening c e : closing_of c = Some e → opening_of e = Some c ∧ c ≠ e.
Proof.
  unfold closing_of. intros H.
  repeat match type of H with (if ?b then _ else _) = _ =>
    destruct b eqn:?; [match goal with E : (c =? _)%N = true |- _ => apply N.eqb_eq in E end;
      injection H as <-; subst; by split|] end.
  discriminate H.
Qed.

Lemma bracketed_rev s e w : s ≠ e → bracketed s e w (length w) → bracketed e s (rev w) (length w).
Proof.
  intros Hse (Hk & H0 & Hpos). rewrite firstn_all in H0. split_and!.
  - lia.
  - rewrite length_rev. lia.
  - rewrite firstn_all2 by (rewrite length_rev; lia). rewrite bal_rev, bal_swap by done. lia.
  - intros j Hj. rewrite <- (take_drop (length w - j) w) in H0. rewrite bal_app in H0.
    specialize (Hpos (length w - j)).
    replace (take j (rev w)) with (rev (drop (length w - j) w)).
    + rewrite bal_rev, (bal_swap s e) by done. lia.
    + assert (E : rev w = rev (drop (length w - j) w) ++ rev (take (length w - j) w))
        by (by rewrite <- rev_app_distr, take_drop).
      rewrite E. symmetry. apply take_app_length'. rewrite length_rev, length_drop. lia.
Qed.

Lemma bracketed_take s e text k : bracketed s e text k → bracketed s e (take k text) k.
Proof.
  intros ([H1 H1'] & H2 & H3). split_and!.
  - done.
  - rewrite length_take. lia.
  - by rewrite take_take, Nat.min_id.
  - intros j Hj. rewrite take_take, Nat.min_l by lia. by apply H3.
Qed.

Lemma bracketed_app s e w rest k : k ≤ length w →
  bracketed s e (w ++ rest) k ↔ bracketed s e w k.
Proof.
  intros Hk. unfold bracketed. rewrite length_app, take_app_le by done.
  split; intros (H1 & H2 & H3); (split_and!; [lia|lia|done|]); intros j Hj;
    specialize (H3 j Hj); by rewrite take_app_le in * by lia.
Qed.

(** It ends with the closing character. *)
Lemma bracketed_last s e w : head w = Some s → bracketed s e w (length w) →
  ∃ w', w = w' ++ [e].
Proof.
  intros Hs (Hk & H0 & Hpos). rewrite firstn_all in H0.
  destruct w as [|x w' _] using rev_ind; [simpl in Hk; lia|]. exists w'. do 2 f_equal.
  rewrite length_app in Hpos. specialize (Hpos (length w')).
  rewrite take_app_length, bal_app in *. simpl in *.
  destruct w' as [|y w'].
  - simpl in Hs, H0. injection Hs as ->. rewrite N.eqb_refl in H0. lia.
  - assert (0 < bal s e (y :: w'))%Z by (apply Hpos; simpl; lia).
    destruct (N.eqb_spec x s), (N.eqb_spec x e); simpl in *; lia || done.
Qed.

Lemma head_at (ls : list str) n p l c : ls !! n = Some l → l !! p = Some c →
  head (drop (offset ls n p) (concat ls)) = Some c.
Proof.
  intros Hl Hc. assert (p < length l) by (by apply lookup_lt_Some in Hc).
  rewrite (drop_offset _ _ _ _ Hl) by lia. by rewrite (drop_S _ _ _ Hc).
Qed.

Lemma last_char_at (ls : list str) n p l x e w : ls !! n = Some l → p < length l →
  take (offset ls n (S p)) (concat ls) = x ++ w ++ [e] → l !! p = Some e.
Proof.
  intros Hl Hp. rewrite (take_offset _ _ _ _ Hl) by lia.
  destruct (lookup_lt_is_Some_2 l p Hp) as [d Hd]. rewrite (take_S_r _ _ _ Hd), Hd, !app_assoc.
  by intros [_ ->]%app_inj_tail.
Qed.

Section close.
Context (cl : cleansed_lines).

(** C5: from an opening bracket, [CloseExpression] returns the position just
    past the end of the shortest text of the rest of the file, lines put
    together, that has as many closing as opening brackets of that kind; when
    no text has, it returns -1 and the number of lines. *)
Theorem CloseExpression_finds_the_match n p l c e :
  elided cl !! n = Some l → l !! p = Some c → closing_of c = Some e →
  let text := drop (offset (elided cl) n p) (concat (elided cl)) in
  (∃ k n' l' p', bracketed c e text k ∧
     CloseExpression cl (Z.of_nat n) (Z.of_nat p) = Ok (l', Z.of_nat n', Z.of_nat p') ∧
     n ≤ n' ∧ elided cl !! n' = Some l' ∧ 0 < p' ≤ length l' ∧
     offset (elided cl) n' p' = offset (elided cl) n p + k) ∨
  ((∀ k, ¬ bracketed c e text k) ∧
   ∃ l', CloseExpression cl (Z.of_nat n) (Z.of_nat p) = Ok (l', NumLines cl, (-1)%Z)).
Proof.
  intros Hl Hc He text. destruct (closing_opening _ _ He) as [_ Hne].
  pose proof (CloseExpression_run cl n p l c e Hl Hc He) as H. fold text in H.
  assert (Hhead : head text = Some c) by exact (head_at _ _ _ _ _ Hl Hc).
  destruct (first_close c e 0 text) as [k|] eqn:E.
  - apply first_close_open in E; [|done..]. destruct H as (n' & l' & p' & Hr & H). left.
    exists k, n', l', p'. tauto.
  - right. split; [|done]. intros k Hk. apply first_close_open in Hk; [|done..]. congruence.
Qed.

(** C8: going forward from an opening bracket to its match and back again from
    there leads to the bracket it started from. *)
Theorem ReverseClose_undoes_Close n p l c e l' n' p' :
  elided cl !! n = Some l → l !! p = Some c → closing_of c = Some e →
  CloseExpression cl (Z.of_nat n) (Z.of_nat p) = Ok (l', n', p') → (0 <= p')%Z →
  ReverseCloseExpression cl n' (p' - 1) = Ok (l, Z.of_nat n, Z.of_nat p).
Proof.
  intros Hl Hc He Hr Hp'. destruct (closing_opening _ _ He) as [Ho Hne].
  pose proof (CloseExpression_run cl n p l c e Hl Hc He) as H.
  set (text := drop (offset (elided cl) n p) (concat (elided cl))) in *.
  assert (Hhead : head text = Some c) by exact (head_at _ _ _ _ _ Hl Hc).
  destruct (first_close c e 0 text) as [k|] eqn:E.
  2: { destruct H as [l'' H]. rewrite H in Hr. injection Hr as _ _ Hm. lia. }
  destruct H as (m & lm & q & H & Hnm & Hlm & Hq & Hoff). rewrite H in Hr.
  injection Hr as <- <- <-. apply first_close_open in E; [|done..].
  (* the bracketed text, seen from its end *)
  pose proof (bracketed_take _ _ _ _ E) as Hw. set (w := take k text) in *.
  assert (Hlw : length w = k) by (unfold w; rewrite length_take; destruct E as [? _]; lia).
  assert (Hsplit : take (offset (elided cl) m q) (concat (elided cl)) =
    take (offset (elided cl) n p) (concat (elided cl)) ++ w).
  { rewrite Hoff. unfold w, text. by rewrite take_take_drop. }
  rewrite <- Hlw in Hw. destruct (bracketed_last c e w) as [w' Hlast]; [|done|].
  { unfold w. destruct text as [|x t]; [done|]. destruct k; [destruct E; lia|done]. }
  destruct q as [|q]; [lia|].
  assert (He' : lm !! q = Some e)
    by (apply (last_char_at _ _ _ _ (take (offset (elided cl) n p) (concat (elided cl))) _ w' Hlm); [lia|by rewrite Hsplit, Hlast]).
  pose proof (ReverseCloseExpression_run cl m q lm e c Hlm He' Ho) as Hrev.
  rewrite Hsplit, rev_app_distr in Hrev.
  assert (Hfc : first_close e c 0 (rev w ++ rev (take (offset (elided cl) n p)
      (concat (elided cl)))) = Some k).
  { apply first_close_open; [done|by rewrite Hlast, rev_app_distr|].
    rewrite <- Hlw. apply bracketed_app; [by rewrite length_rev|]. by apply bracketed_rev. }
  rewrite Hfc in Hrev. destruct Hrev as (n2 & l2 & p2 & Hrun & _ & Hl2 & Hp2 & Hoff2).
  destruct (offset_inj (elided cl) n p l n2 p2 l2) as [-> ->];
    [done|by apply lookup_lt_Some in Hc|done|done|lia|].
  replace (Z.of_nat (S q) - 1)%Z with (Z.of_nat q) by lia. rewrite Hrun. congruence.
Qed.
End close.

Definition close_example : cleansed_lines :=
  let ls := [u "int x = f(a,"; u "  g(b));"] in CleansedLines ls ls ls 2 ls.

Lemma CloseExpression_finds_the_match_witness :
  let text := drop (offset (elided close_example) 0 9) (concat (elided close_example)) in
  CloseExpression close_example 0 9 = Ok (u "  g(b));", 1%Z, 7%Z) ∧
  ((∃ k n' l' p', bracketed (ch "(") (ch ")") text k ∧
     CloseExpression close_example (Z.of_nat 0) (Z.of_nat 9) = Ok (l', Z.of_nat n', Z.of_nat p') ∧
     0 ≤ n' ∧ elided close_example !! n' = Some l' ∧ 0 < p' ≤ length l' ∧
     offset (elided close_example) n' p' = offset (elided close_example) 0 9 + k) ∨
  ((∀ k, ¬ bracketed (ch "(") (ch ")") text k) ∧
   ∃ l', CloseExpression close_example (Z.of_nat 0) (Z.of_nat 9)
           = Ok (l', NumLines close_example, (-1)%Z))).
Proof.
  split; [vm_compute; reflexivity|].
  apply (CloseExpression_finds_the_match close_example 0 9 (u "int x = f(a,")); reflexivity.
Defined.

Lemma ReverseClose_undoes_Close_witness :
  CloseExpression close_example 0 9 = Ok (u "  g(b));", 1%Z, 7%Z) ∧
  ReverseCloseExpression close_example 1 6 = Ok (u "int x = f(a,", 0%Z, 9%Z).
Proof.
  split; [vm_compute; reflexivity|].
  apply (ReverseClose_undoes_Close close_example 0 9 (u "int x = f(a,") (ch "(") (ch ")")
           (u "  g(b));") 1 7); [reflexivity..|lia].
Defined.

(** ** The searches succeed *)

Lemma close_go_line s e rest : ∀ line linenum n depth l' n' e',
  close_go rest line linenum n depth s e = (l', n', e') →
  ((0 <= e')%Z → (linenum < n' <= linenum + Z.of_nat (length rest))%Z) ∧
  ((e' < 0)%Z → n' = n).
Proof.
  induction rest as [|x rest IH]; intros line linenum n depth l' n' e' H; cbn [close_go] in H.
  - injection H as <- <- <-. split; [lia|done].
  - destruct (FindEndOfExpressionInLine x 0 depth s e) as [p d].
    destruct (Z.ltb_spec (-1) p).
    + injection H as <- <- <-. simpl length. lia.
    + apply IH in H. simpl length. split; [|apply H]. intros He. destruct H as [H _].
      specialize (H He). lia.
Qed.

(** From a character of the line, [CloseExpression] gives a position on a line
    of the file, or none and the number of lines. *)
Lemma CloseExpression_returns cl linenum line k c :
  py_nth (elided cl) linenum = Ok line → (0 <= linenum)%Z → line !! k = Some c →
  ∃ l' n' e', CloseExpression cl linenum (Z.of_nat k) = Ok (l', n', e') ∧
    ((0 <= e')%Z → (linenum <= n' < Z.of_nat (length (elided cl)))%Z) ∧
    ((e' < 0)%Z → n' = NumLines cl).
Proof.
  intros Hl Hn Hk. unfold CloseExpression. rewrite Hl. cbn [mbind res_bind].
  rewrite py_nth_nat, Hk. cbn [or_raise mbind res_bind]. destruct (closing_of c) as [e|].
  - destruct (FindEndOfExpressionInLine line (Z.of_nat k) 0 c e) as [p d].
    assert (Hr : (linenum < Z.of_nat (length (elided cl)))%Z).
    { assert (Hl' : py_nth (elided cl) (Z.of_nat (Z.to_nat linenum)) = Ok line)
        by (by rewrite Z2Nat.id).
      rewrite py_nth_nat in Hl'. apply or_raise_Ok, lookup_lt_Some in Hl'. lia. }
    destruct (Z.ltb_spec (-1) p); [do 3 eexists; split; [reflexivity|lia]|].
    destruct (close_go _ _ _ _ _ _ _) as [[l' n'] e'] eqn:E. do 3 eexists.
    split; [reflexivity|]. apply close_go_line in E as [E1 E2]. split; [|done].
    intros He. specialize (E1 He). rewrite length_drop in E1. lia.
  - do 3 eexists. split; [reflexivity|]. split; [lia|done].
Qed.

Lemma reverse_close_go_line s e rest : ∀ line linenum depth l' n' e',
  reverse_close_go rest line linenum depth s e = (l', n', e') → (-1 < e')%Z →
  (linenum - Z.of_nat (length rest) <= n' < linenum)%Z.
Proof.
  induction rest as [|x rest IH]; intros line linenum depth l' n' e' H He;
    cbn [reverse_close_go] in H.
  - injection H as <- <- <-. lia.
  - destruct (FindStartOfExpressionInLine _ _ depth s e) as [p d].
    destruct (Z.ltb_spec (-1) p).
    + injection H as <- <- <-. simpl length. lia.
    + apply IH in H; [|done]. simpl length. lia.
Qed.

Lemma ReverseCloseExpression_returns cl linenum line k c :
  py_nth (elided cl) linenum = Ok line → (0 <= linenum)%Z → line !! k = Some c →
  ∃ l' n' e', ReverseCloseExpression cl linenum (Z.of_nat k) = Ok (l', n', e') ∧
    ((-1 < e')%Z → (0 <= n' <= linenum)%Z).
Proof.
  intros Hl Hn Hk. unfold ReverseCloseExpression. rewrite Hl. cbn [mbind res_bind].
  rewrite py_nth_nat, Hk. cbn [or_raise mbind res_bind]. destruct (opening_of c) as [s|].
  - destruct (FindStartOfExpressionInLine _ _ _ _ _) as [p d].
    destruct (Z.ltb_spec (-1) p); [do 3 eexists; split; [reflexivity|lia]|].
    destruct (reverse_close_go _ _ _ _ _ _) as [[l' n'] e'] eqn:E. do 3 eexists.
    split; [reflexivity|]. intros He. apply reverse_close_go_line in E; [|done].
    rewrite length_rev, length_take in E. lia.
  - do 3 eexists. split; [reflexivity|]. lia.
Qed.

(** ** The angle bracket searches end *)

Lemma run_caps fl g lo hi cs st st' :
  den fl (Rep g lo hi (Chars cs)) st st' → caps st' = caps st ∧ pos st ≤ pos st'.
Proof.
  intros H. split; [|apply den_ext, ext_pos in H; lia].
  cbn [den] in H. induction H as [| lo hi st st1 st2 H1 _ IH|hi st st1 st2 _ H1 _ _ IH|hi st st1 _ H1 _];
    [done| | |]; rewrite ?IH; by destruct H1 as (c & t & _ & _ & ->).
Qed.

Lemma char_pos fl cs st st' : den fl (Chars cs) st st' → caps st' = caps st ∧ pos st' = S (pos st).
Proof. by intros (c & t & _ & _ & ->). Qed.

Lemma length_span s b e : b ≤ e ≤ length s → length (span s b e) = e - b.
Proof. intros H. unfold span. rewrite length_take, length_drop. lia. Qed.

Lemma one_char (s : str) : length s = 1 → ∃ c, s = [c].
Proof. destruct s as [|c [|]]; try done. intros _. by exists c. Qed.

(** The operator found, and the text left to search, which is shorter. *)
Lemma next_operator line mo :
  re_search (rx "^[^<>(),;\[\]]*([<>(),;\[\]])(.*)$") line = Some mo →
  (∃ c, group_str mo 1 = [c]) ∧ length (group_str mo 2) < length line.
Proof.
  intros (_ & Hb & Hm)%re_search_Some.
  set (i := mo_start mo) in *. clearbody i.
  pose proof (match_at_den _ _ _ _ Hm) as (st & Hd & ->). cbn [mo_end] in Hb.
  assert (Hi : i ≤ length line) by lia.
  cbn [den re_flags re_body] in Hd.
  destruct Hd as (s0 & [_ ->] & s1 & H1 & s2 & (s1' & H2 & ->) & s3 & (s2' & H3 & ->) & _ & ->).
  apply (run_caps (Flags false false) true 0 None) in H1 as [C1 P1].
  apply (char_pos (Flags false false)) in H2 as [C2 P2].
  apply (run_caps (Flags false false) true 0 None) in H3 as [C3 P3].
  rewrite st_at_pos in P1 by done.
  unfold pos in *. cbn [pre caps suf] in *. rewrite C3, C2, C1. simpl in *.
  split.
  - apply one_char. unfold group_str, group. cbn. rewrite length_span; lia.
  - unfold group_str, group. cbn. rewrite length_span; lia.
Qed.

Lemma previous_operator line mo :
  re_search (rx "^(.*)([<>(),;\[\]])[^<>(),;\[\]]*$") line = Some mo →
  (∃ c, group_str mo 2 = [c]) ∧ length (group_str mo 1) < length line.
Proof.
  intros (_ & Hb & Hm)%re_search_Some.
  set (i := mo_start mo) in *. clearbody i.
  pose proof (match_at_den _ _ _ _ Hm) as (st & Hd & ->). cbn [mo_end] in Hb.
  assert (Hi : i ≤ length line) by lia.
  cbn [den re_flags re_body] in Hd.
  destruct Hd as (s0 & [_ ->] & s1 & (s1' & H1 & ->) & s2 & (s2' & H2 & ->) & s3 & H3 & _ & ->).
  apply (run_caps (Flags false false) true 0 None) in H1 as [C1 P1].
  apply (char_pos (Flags false false)) in H2 as [C2 P2].
  apply (run_caps (Flags false false) true 0 None) in H3 as [C3 P3].
  rewrite st_at_pos in P1 by done.
  pose proof (st_at_pos line i Hi) as P0.
  unfold pos in *. cbn [pre caps suf] in *. rewrite C3, C2, C1. split.
  - apply one_char. unfold group_str, group. cbn. rewrite length_span; lia.
  - unfold group_str, group. cbn - [pre]. rewrite length_span; lia.
Qed.

(** The stack is never empty: it ends with the bracket searched from. *)
Definition stack_of (bottom : N) (stack : list N) : Prop := ∃ l, stack = l ++ [bottom].

Lemma stack_push b c stack : stack_of b stack → stack_of b (c :: stack).
Proof. intros [l ->]. by exists (c :: l). Qed.

Lemma stack_pop b top below : stack_of b (top :: below) → below ≠ [] → stack_of b below.
Proof. intros [[|x l] E] H; simplify_eq/=. by exists l. Qed.

Lemma stack_bottom b top : stack_of b [top] → top = b.
Proof. intros [[|x [|]] E]; by simplify_eq/=. Qed.

Lemma next_angle_step_total operator stack : stack_of (ch "<") stack →
  ∃ r, next_angle_step operator stack = Ok r ∧
    match r with inl _ => True | inr stack' => stack_of (ch "<") stack' end.
Proof.
  intros Hs. destruct stack as [|top below]; [destruct Hs as [[|] E]; done|].
  eexists. split; [reflexivity|].
  pose proof (stack_pop _ _ _ Hs) as Hpop.
  destruct (N.eqb_spec top (ch "<")) as [->|Ht].
  - repeat case_match; simplify_eq; try done; first [by apply stack_push|by apply Hpop].
  - assert (below ≠ []) by (by intros ->; apply stack_bottom in Hs).
    repeat case_match; simplify_eq; try done; first [by apply stack_push|by apply Hpop].
Qed.

Lemma previous_angle_step_total operator stack : stack_of (ch ">") stack →
  ∃ r, previous_angle_step operator stack = Ok r ∧
    match r with inl _ => True | inr stack' => stack_of (ch ">") stack' end.
Proof.
  intros Hs. destruct stack as [|top below]; [destruct Hs as [[|] E]; done|].
  eexists. split; [reflexivity|].
  pose proof (stack_pop _ _ _ Hs) as Hpop.
  destruct (N.eqb_spec top (ch ">")) as [->|Ht].
  - repeat case_match; simplify_eq; try done; first [by apply stack_push|by apply Hpop].
  - assert (below ≠ []) by (by intros ->; apply stack_bottom in Hs).
    repeat case_match; simplify_eq; try done; first [by apply stack_push|by apply Hpop].
Qed.

Lemma next_angle_go_total fuel line rest stack : stack_of (ch "<") stack →
  length line + sum_list_with (λ l, S (length l)) rest < fuel →
  ∃ b, next_angle_go fuel line rest stack = Ok b.
Proof.
  revert line rest stack. induction fuel as [|fuel IH]; intros line rest stack Hs Hf; [lia|].
  cbn [next_angle_go].
  destruct (re_search _ line) as [mo|] eqn:E.
  - apply next_operator in E as ((c & ->) & Hl). cbn [py_nth].
    change (py_nth [c] 0) with (@Ok N c). cbn [mbind res_bind].
    destruct (next_angle_step_total c stack Hs) as (r & -> & Hr). cbn [mbind res_bind].
    destruct r as [answer|stack']; [by exists answer|]. apply IH; [done|lia].
  - destruct rest as [|line' rest]; [by exists true|]. apply IH; [done|]. simpl in Hf. lia.
Qed.

Lemma previous_angle_go_total fuel line rest stack : stack_of (ch ">") stack →
  length line + sum_list_with (λ l, S (length l)) rest < fuel →
  ∃ b, previous_angle_go fuel line rest stack = Ok b.
Proof.
  revert line rest stack. induction fuel as [|fuel IH]; intros line rest stack Hs Hf; [lia|].
  cbn [previous_angle_go].
  destruct (re_search _ line) as [mo|] eqn:E.
  - apply previous_operator in E as ((c & ->) & Hl).
    change (py_nth [c] 0) with (@Ok N c). cbn [mbind res_bind].
    destruct (previous_angle_step_total c stack Hs) as (r & -> & Hr). cbn [mbind res_bind].
    destruct r as [answer|stack']; [by exists answer|]. apply IH; [done|lia].
  - destruct rest as [|line' rest]; [by exists false|]. apply IH; [done|]. simpl in Hf. lia.
Qed.

(** C20: both angle bracket searches always give an answer: neither runs for
    ever nor looks at the top of an empty stack, whatever the file and the
    text they start from. *)
Theorem angle_bracket_searches_end cl linenum text :
  (∃ b, FindNextMatchingAngleBracket cl linenum text = Ok b) ∧
  (∃ b, FindPreviousMatchingAngleBracket cl linenum text = Ok b).
Proof.
  split; [apply next_angle_go_total|apply previous_angle_go_total];
    try (by exists []); unfold angle_fuel; lia.
Qed.

(** ** The text inside brackets *)

Definition is_closing (c : N) : bool := char_in c closing_punctuation.

(** Texts in which round, curly and square brackets are properly nested. *)
Inductive well_nested : str → Prop :=
| wn_nil : well_nested []
| wn_char c t : matching_punctuation c = None → is_closing c = false →
    well_nested t → well_nested (c :: t)
| wn_nest c d inner t : matching_punctuation c = Some d →
    well_nested inner → well_nested t → well_nested (c :: inner ++ d :: t).

(** A text that closes each bracket of a stack in turn. *)
Inductive closes_stack : list N → str → Prop :=
| cs_nil : closes_stack [] []
| cs_cons top below w t : well_nested w → closes_stack below t →
    closes_stack (top :: below) (w ++ top :: t).

Lemma matching_closing c d : matching_punctuation c = Some d →
  is_closing d = true ∧ is_closing c = false.
Proof.
  unfold matching_punctuation. intros H.
  repeat match type of H with (if ?b then _ else _) = _ =>
    destruct b eqn:?; [match goal with E : (c =? _)%N = true |- _ => apply N.eqb_eq in E end;
      injection H as <-; subst; by split|] end.
  discriminate H.
Qed.

(** A well nested text is read through, whatever is expected after it. *)
Lemma read_through t : well_nested t → ∀ rest top below position, is_closing top = true →
  text_inside_go (t ++ rest) (top :: below) position =
    text_inside_go rest (top :: below) (position + length t).
Proof.
  assert (Hne : ∀ c top, is_closing c = false → is_closing top = true → (c =? top)%N = false).
  { intros c top Hc Ht. apply N.eqb_neq. intros ->. congruence. }
  induction 1 as [|c t Hm Hc Ht IH|c d inner t Hm Hi IHi Ht IHt];
    intros rest top below position Htop.
  - by rewrite Nat.add_0_r.
  - cbn [app text_inside_go]. rewrite (Hne c top) by done. fold (is_closing c). rewrite Hc, Hm.
    rewrite IH by done. f_equal. simpl. lia.
  - destruct (matching_closing c d Hm) as [Hd Hc].
    cbn [app text_inside_go]. rewrite (Hne c top) by done. fold (is_closing c). rewrite Hc, Hm.
    rewrite <- app_assoc, IHi by done. cbn [app text_inside_go]. rewrite N.eqb_refl, IHt by done.
    f_equal. simpl. rewrite length_app. simpl. lia.
Qed.

Lemma text_inside_sound text stack position q :
  text_inside_go text stack position = Some q →
  ∃ t rest, text = t ++ rest ∧ q = position + length t ∧ closes_stack stack t.
Proof.
  revert stack position. induction text as [|c text IH]; intros [|top below] position H;
    cbn [text_inside_go] in H; [|done| |].
  - injection H as <-. exists [], []. split_and!; [done|simpl; lia|constructor].
  - injection H as <-. exists [], (c :: text). split_and!; [done|simpl; lia|constructor].
  - destruct (N.eqb_spec c top) as [->|Hne].
    + apply IH in H as (t & rest & -> & -> & Hs). exists (top :: t), rest.
      split_and!; [done|simpl; lia|]. by apply (cs_cons top below []); [constructor|].
    + fold (is_closing c) in H. destruct (is_closing c) eqn:Hc; [done|].
      destruct (matching_punctuation c) as [d|] eqn:Hm;
        apply IH in H as (t & rest & -> & -> & Hs); exists (c :: t), rest;
        (split_and!; [done|simpl; lia|]).
      * inversion Hs as [|? ? w t1 Hw Hs1]; subst. inversion Hs1 as [|? ? w1 t2 Hw1 Hs2]; subst.
        replace (c :: w ++ d :: w1 ++ top :: t2) with ((c :: w ++ d :: w1) ++ top :: t2)
          by (simpl; by rewrite <- app_assoc).
        by constructor; [constructor|].
      * inversion Hs as [|? ? w t1 Hw Hs1]; subst.
        by apply (cs_cons top below (c :: w)); [constructor|].
Qed.

(** C16: where the start pattern's match ends with an opening bracket,
    [_GetTextInside] returns a text exactly when the text that follows is that
    text, its brackets properly nested, and then the matching closing bracket;
    otherwise it returns nothing. It never fails. *)
Theorem GetTextInside_spec text pattern mo c d :
  re_search pattern text = Some mo → 0 < mo_end mo → text !! (mo_end mo - 1) = Some c →
  matching_punctuation c = Some d →
  ∃ result, _GetTextInside text pattern = Ok result ∧
    ∀ t, result = Some t ↔
      ∃ rest, drop (mo_end mo) text = t ++ d :: rest ∧ well_nested t.
Proof.
  intros Hmo He Hc Hd. unfold _GetTextInside. rewrite Hmo.
  destruct (Nat.eqb_spec (mo_end mo) 0) as [|_]; [lia|].
  replace (Z.of_nat (mo_end mo) - 1)%Z with (Z.of_nat (mo_end mo - 1)) by lia.
  rewrite py_nth_nat, Hc. cbn [or_raise mbind res_bind]. rewrite Hd.
  eexists. split; [reflexivity|]. intros t. rewrite fmap_Some.
  destruct (matching_closing c d Hd) as [Hcl _]. split.
  - intros (q & Hq & ->). apply text_inside_sound in Hq as (t' & rest & Hdrop & -> & Hs).
    inversion Hs as [|? ? w t1 Hw Hs1]; subst. inversion Hs1; subst.
    exists rest. unfold span. rewrite Hdrop, <- app_assoc.
    rewrite length_app. simpl. replace (_ - _ - _) with (length w) by lia.
    by rewrite take_app_length.
  - intros (rest & Hdrop & Hw). exists (mo_end mo + length t + 1).
    rewrite Hdrop, read_through by done. cbn [text_inside_go]. rewrite N.eqb_refl.
    split; [destruct rest; simpl; f_equal; lia|].
    unfold span. rewrite Hdrop. replace (_ - _ - _) with (length t) by lia.
    by rewrite take_app_length.
Qed.

Lemma GetTextInside_spec_witness :
  let text := u "x = printf(a(), b[c(1)]);" in
  _GetTextInside text (rx "printf\s*\(") = Ok (Some (u "a(), b[c(1)]")) ∧
  ∃ result, _GetTextInside text (rx "printf\s*\(") = Ok result ∧
    ∀ t, result = Some t ↔
      ∃ rest, drop 11 text = t ++ ch ")" :: rest ∧ well_nested t.
Proof.
  split; [vm_compute; reflexivity|].
  apply (GetTextInside_spec (u "x = printf(a(), b[c(1)]);") (rx "printf\s*\(")
           (MatchObj (u "x = printf(a(), b[c(1)]);") 4 11 []) (ch "(") (ch ")"));
    [vm_compute; reflexivity|simpl; lia|reflexivity|reflexivity].
Defined.
