(* ===== verification/FileInfo.v ===== *)
(** * The environment, POSIX paths and [class FileInfo]

    What the program asks of its surroundings (the current directory, which
    paths exist, the contents of files, the Unicode tables, the iteration order
    of dictionaries and sets) is the class [Env]; [posixpath] is modelled as
    the standard library defines it; [FileInfo] follows cpplint.py. *)
From S2P Require Import Prelude PyStr Regex RegexParse PyRe World.

Class Env := {
  (** [os.getcwd()], [os.path.exists] *)
  getcwd : str;
  path_exists : str → bool;
  (** [codecs.open(f, 'r', 'utf8', 'replace').read()]; [None] is an [IOError] *)
  read_file : str → option str;
  read_stdin : str;
  (** [os.linesep != '\r\n'] *)
  linesep_is_crlf : bool;
  (** Unicode tables: [isalnum], [isdigit] and [lower] of one code point, the
      normal form NFC, wide characters and combining characters *)
  uni_isalnum : N → bool;
  uni_isdigit : N → bool;
  uni_lower : N → str;
  nfc : str → str;
  east_asian_wide : N → bool;
  combining : N → bool;
  (** the order in which a dictionary or a set is iterated *)
  dict_items : ∀ {A}, gmap str A → list (str * A);
  set_items : gset str → list str;
}.

(** What the documentation of Python says of them. *)
Class EnvLaws `{Env} : Prop := {
  cwd_absolute : ∃ d, getcwd = ch "/" :: d;
  ascii_isalnum c : (c < 128)%N → uni_isalnum c = is_alnum c;
  ascii_isdigit c : (c < 128)%N → uni_isdigit c = is_digit c;
  ascii_lower c : (c < 128)%N → uni_lower c = [to_lower c];
  dict_items_perm A (m : gmap str A) : dict_items m ≡ₚ map_to_list m;
  set_items_perm s : set_items s ≡ₚ elements s;
}.

(** ** [posixpath] *)

Definition slash : str := u "/".

Definition path_join (a b : str) : str :=
  if startswith b slash then b
  else if str_eqb a [] || endswith a slash then a ++ b
  else a ++ slash ++ b.

(** [os.path.split]; its head is [os.path.dirname]. *)
Definition path_split (p : str) : str * str :=
  let i := match rfind_at slash p with Some i => S i | None => 0 end in
  let head := take i p in
  let head := if forallb (N.eqb (ch "/")) head then head
              else rstrip_by (N.eqb (ch "/")) head in
  (head, drop i p).
Definition dirname (p : str) : str := (path_split p).1.

Definition path_splitext (p : str) : str * str :=
  let start := match rfind_at slash p with Some i => S i | None => 0 end in
  match rfind_at (u ".") p with
  | Some dot =>
      if (start <=? dot)%nat && negb (forallb (N.eqb (ch ".")) (span p start dot))
      then (take dot p, drop dot p) else (p, [])
  | None => (p, [])
  end.

(** The loop of [normpath]; [comps] holds the components kept, the latest
    first. *)
Definition norm_step (absolute : bool) (comps : list str) (comp : str) : list str :=
  if str_in comp [[]; u "."] then comps
  else if negb (str_eqb comp (u "..")) ||
          (negb absolute && match comps with [] => true | _ => false end) ||
          match comps with c :: _ => str_eqb c (u "..") | [] => false end
  then comp :: comps
  else match comps with [] => [] | _ :: comps' => comps' end.

Definition normpath (path : str) : str :=
  match path with
  | [] => u "."
  | _ =>
      let initial_slashes :=
        if startswith path slash then
          if startswith path (u "//") && negb (startswith path (u "///")) then u "//"
          else slash
        else [] in
      let absolute := negb (str_eqb initial_slashes []) in
      let comps := fold_left (norm_step absolute) (split path slash) [] in
      match initial_slashes ++ join slash (rev comps) with
      | [] => u "."
      | p => p
      end
  end.

Definition abspath `{Env} (p : str) : str :=
  normpath (if startswith p slash then p else path_join getcwd p).

(** [os.path.commonprefix] of two paths. *)
Fixpoint common_prefix (s t : str) : str :=
  match s, t with
  | c :: s', d :: t' => if (c =? d)%N then c :: common_prefix s' t' else []
  | _, _ => []
  end.

(** ** [class FileInfo] *)

Section FileInfo.
Context `{Env}.

(** [FileInfo(filename)]; the object holds the name only. *)
Record file_info := FileInfo { _filename : str }.

(** Make Windows paths like Unix. *)
Definition FullName (fi : file_info) : str :=
  replace (abspath (_filename fi)) (u "\") (u "/").

Definition has_entry (dir entry : str) : bool := path_exists (path_join dir entry).
Definition has_vcs (dir : str) : bool :=
  has_entry dir (u ".git") || has_entry dir (u ".hg") || has_entry dir (u ".svn").

(** The [while] loop up the tree of an SVN checkout, and the root it ends
    with.  It stops when some directory above has no [.svn]. *)
Fixpoint svn_root (fuel : nat) (root_dir one_up_dir : str) : res str :=
  match fuel with
  | 0 => Raise OutOfFuel
  | S fuel =>
      if has_entry one_up_dir (u ".svn")
      then svn_root fuel (dirname root_dir) (dirname one_up_dir)
      else mret root_dir
  end.

(** The loop that looks for a git, hg or svn top level directory. *)
Fixpoint vcs_root (fuel : nat) (root_dir : str) : res str :=
  match fuel with
  | 0 => Raise OutOfFuel
  | S fuel =>
      if negb (str_eqb root_dir (dirname root_dir)) && negb (has_vcs root_dir)
      then vcs_root fuel (dirname root_dir)
      else mret root_dir
  end.

Definition RepositoryName (fi : file_info) : res str :=
  let fullname := FullName fi in
  if path_exists fullname then
    let project_dir := dirname fullname in
    if has_entry project_dir (u ".svn") then
      root_dir ← svn_root (S (length fullname)) project_dir (dirname project_dir);
      let prefix := common_prefix root_dir project_dir in
      mret (drop (length prefix + 1) fullname)
    else
      root_dir ← vcs_root (S (length fullname)) (dirname fullname);
      if has_vcs root_dir then
        let prefix := common_prefix root_dir project_dir in
        mret (drop (length prefix + 1) fullname)
      else mret fullname
  else mret fullname.

(** (directory, basename, extension). *)
Definition Split (fi : file_info) : res (str * str * str) :=
  googlename ← RepositoryName fi;
  let '(project, rest) := path_split googlename in
  let '(base, ext) := path_splitext rest in
  mret (project, base, ext).

Definition BaseName (fi : file_info) : res str := '(_, b, _) ← Split fi; mret b.
Definition Extension (fi : file_info) : res str := '(_, _, e) ← Split fi; mret e.
Definition NoExtension (fi : file_info) : res str :=
  '(d, b, _) ← Split fi; mret (join slash [d; b]).
Definition IsSource (fi : file_info) : res bool :=
  e ← Extension fi; mret (str_in (py_from e 1) [u "c"; u "cc"; u "cpp"; u "cxx"]).
End FileInfo.

(** [_DropCommonSuffixes] and [_IsTestFilename]. *)
Fixpoint drop_first_suffix (filename : str) (suffixes : list str) : option str :=
  match suffixes with
  | [] => None
  | suffix :: rest =>
      if endswith filename suffix && (length suffix <? length filename)%nat &&
         match filename !! (length filename - length suffix - 1) with
         | Some c => char_in c (u "-_") | None => false end
      then Some (take (length filename - length suffix - 1) filename)
      else drop_first_suffix filename rest
  end.

Definition _DropCommonSuffixes (filename : str) : str :=
  match drop_first_suffix filename
          [u "test.cc"; u "regtest.cc"; u "unittest.cc"; u "inl.h"; u "impl.h"; u "internal.h"] with
  | Some s => s
  | None => (path_splitext filename).1
  end.

Definition _IsTestFilename (filename : str) : bool :=
  endswith filename (u "_test.cc") || endswith filename (u "_unittest.cc") ||
  endswith filename (u "_regtest.cc").

(** [FilesBelongToSameModule]. *)
Definition drop_suffix (s suffix : str) : str := take (length s - length suffix) s.

Definition FilesBelongToSameModule (filename_cc filename_h : str) : bool * str :=
  if negb (endswith filename_cc (u ".cc")) then (false, []) else
  let filename_cc := drop_suffix filename_cc (u ".cc") in
  let filename_cc :=
    if endswith filename_cc (u "_unittest") then drop_suffix filename_cc (u "_unittest")
    else if endswith filename_cc (u "_test") then drop_suffix filename_cc (u "_test")
    else filename_cc in
  let filename_cc := replace filename_cc (u "/public/") (u "/") in
  let filename_cc := replace filename_cc (u "/internal/") (u "/") in
  if negb (endswith filename_h (u ".h")) then (false, []) else
  let filename_h := drop_suffix filename_h (u ".h") in
  let filename_h :=
    if endswith filename_h (u "-inl") then drop_suffix filename_h (u "-inl")
    else filename_h in
  let filename_h := replace filename_h (u "/public/") (u "/") in
  let filename_h := replace filename_h (u "/internal/") (u "/") in
  if endswith filename_cc filename_h
  then (true, py_to filename_cc (- Z.of_nat (length filename_h)))
  else (false, []).

(** ** Going up the directory tree *)

Definition is_root (d : str) : bool := forallb (N.eqb (ch "/")) d.

(** A directory name is what precedes a slash, unless it is a root. *)
Lemma dirname_spec p :
  ∃ rest, p = dirname p ++ rest ∧
    (is_root (dirname p) = true ∨ ∃ rest', rest = ch "/" :: rest').
Proof.
  unfold dirname, path_split, slash. change (u "/") with [ch "/"].
  destruct (rfind_at [ch "/"] p) as [i|] eqn:E; cbn [fst].
  - apply rfind_char_Some in E as (a & b & -> & <- & _).
    replace (take (S (length a)) (a ++ ch "/" :: b)) with (a ++ [ch "/"]).
    2: { rewrite (cons_middle (ch "/") a b), app_assoc.
         rewrite take_app_length'; [done|]. rewrite length_app. simpl. lia. }
    destruct (forallb _ (a ++ [ch "/"])) eqn:Hr.
    + exists b. split; [by rewrite <- app_assoc|]. by left.
    + destruct (rstrip_by_spec (N.eqb (ch "/")) (a ++ [ch "/"])) as (s & Hs & Hf & Hl).
      set (d := rstrip_by _ _) in *.
      exists (s ++ b). rewrite app_assoc, <- Hs. split; [by rewrite <- app_assoc|]. right.
      destruct s as [|x s].
      * rewrite app_nil_r in Hs. destruct Hl as [Hl|(a' & c & Hl & Hc)].
        -- rewrite Hl in Hs. by destruct a.
        -- rewrite Hl in Hs. apply app_inj_tail in Hs as [_ <-]. discriminate Hc.
      * cbn [forallb] in Hf. apply andb_true_iff in Hf as [Hx _].
        apply N.eqb_eq in Hx as <-. by exists (s ++ b).
  - exists p. split; [done|]. by left.
Qed.

Lemma dirname_shrinks p : dirname p = p ∨ length (dirname p) < length p.
Proof.
  destruct (dirname_spec p) as (rest & Hp & _).
  destruct rest as [|c rest]; [left; by rewrite app_nil_r in Hp|right].
  rewrite Hp at 2. rewrite length_app. simpl. lia.
Qed.

Lemma dirname_le p : length (dirname p) ≤ length p.
Proof. destruct (dirname_shrinks p) as [->|]; lia. Qed.

(** [r] is [p] or a directory above it. *)
Inductive above (p : str) : str → Prop :=
| above_self : above p p
| above_up r : above p r → above p (dirname r).

Lemma above_trans p q r : above p q → above q r → above p r.
Proof. intros H. induction 1; [done|by constructor]. Qed.

Lemma above_prefix p r : above p r →
  ∃ rest, p = r ++ rest ∧ (r = p ∨ is_root r = true ∨ ∃ rest', rest = ch "/" :: rest').
Proof.
  induction 1 as [|r _ (rest & Hp & Hr)].
  - exists []. split; [by rewrite app_nil_r|by left].
  - destruct (dirname_spec r) as (rest1 & Hd & Hs).
    exists (rest1 ++ rest). split; [by rewrite app_assoc, <- Hd|].
    destruct Hs as [Hs|[rest' ->]]; [by right; left|]. right; right. by exists (rest' ++ rest).
Qed.

Lemma common_prefix_app a b : common_prefix a (a ++ b) = a.
Proof.
  induction a as [|c a IH]; simpl; [by destruct b|].
  by rewrite N.eqb_refl, IH.
Qed.

Section repository.
Context `{Env}.

Lemma vcs_root_total fuel d : length d < fuel →
  ∃ r, vcs_root fuel d = Ok r ∧ above d r ∧ (has_vcs r = true ∨ dirname r = r).
Proof.
  revert d. induction fuel as [|fuel IH]; intros d Hl; [lia|]. cbn [vcs_root].
  unfold str_eqb. destruct (decide (d = dirname d)) as [E|E].
  - rewrite bool_decide_true by done. exists d. split; [done|]. split; [constructor|by right].
  - rewrite bool_decide_false by done. destruct (has_vcs d) eqn:Hv; simpl.
    + exists d. split; [done|]. split; [constructor|by left].
    + destruct (dirname_shrinks d) as [?|Hlt]; [congruence|].
      destruct (IH (dirname d)) as (r & Hr & Ha & Hp); [lia|].
      exists r. split; [done|]. split; [|done]. by eapply above_trans; [do 2 constructor|].
Qed.

(** The SVN loop ends below the first directory without [.svn]. *)
Lemma svn_root_total fuel d : (∀ r, dirname r = r → has_entry r (u ".svn") = false) →
  length (dirname d) < fuel → has_entry d (u ".svn") = true →
  ∃ r, svn_root fuel d (dirname d) = Ok r ∧ above d r ∧ has_entry r (u ".svn") = true ∧
    has_entry (dirname r) (u ".svn") = false.
Proof.
  intros Hroot. revert d. induction fuel as [|fuel IH]; intros d Hl Hd; [lia|]. cbn [svn_root].
  destruct (has_entry (dirname d) (u ".svn")) eqn:E.
  - destruct (dirname_shrinks (dirname d)) as [E'|Hlt].
    + by rewrite Hroot in E.
    + destruct (IH (dirname d)) as (r & Hr & Ha & Hp); [lia|done|].
      exists r. split; [done|]. split; [|done]. by eapply above_trans; [do 2 constructor|].
  - exists d. split; [done|]. split; [constructor|done].
Qed.
End repository.

Lemma above_dirname p r : above (dirname p) r →
  ∃ rest, p = r ++ rest ∧ (is_root r = true ∨ ∃ rest', rest = ch "/" :: rest').
Proof.
  intros Ha. destruct (above_prefix _ _ Ha) as (rest & Hp & Hr).
  destruct (dirname_spec p) as (rest1 & Hd & Hs).
  exists (rest ++ rest1). split; [by rewrite app_assoc, <- Hp|].
  destruct Hr as [->|[Hr|[rest' ->]]]; [|by left|right; by exists (rest' ++ rest1)].
  assert (rest = []) as -> by (apply (app_inv_head (dirname p)); by rewrite app_nil_r).
  exact Hs.
Qed.

Section repository_name.
Context `{Env}.

Lemma name_below fi root : above (dirname (FullName fi)) root →
  ∃ rest, FullName fi = root ++ rest ∧
    drop (length (common_prefix root (dirname (FullName fi))) + 1) (FullName fi) = drop 1 rest ∧
    (is_root root = false → rest = ch "/" :: drop 1 rest).
Proof.
  intros Ha. destruct (above_dirname _ _ Ha) as (rest & Hf & Hr).
  destruct (above_prefix _ _ Ha) as (rest' & Hd & _).
  exists rest. split; [done|]. split.
  - rewrite Hd, common_prefix_app, <- drop_drop. rewrite Hf at 1. by rewrite drop_app_length.
  - intros Hn. destruct Hr as [Hr|[t ->]]; [congruence|done].
Qed.

(** C21: provided no file system root holds a ".svn", the search for the
    repository ends, and the name it gives is either the full name or what
    follows, in the full name, a directory above the file that holds ".git",
    ".hg" or ".svn" and one more character: the slash, unless that directory
    is a file system root. *)
Theorem repository_name_spec fi :
  (∀ r, dirname r = r → has_entry r (u ".svn") = false) →
  ∃ name, RepositoryName fi = Ok name ∧
    (name = FullName fi ∨
     ∃ root rest, above (dirname (FullName fi)) root ∧ has_vcs root = true ∧
       FullName fi = root ++ rest ∧ name = drop 1 rest ∧
       (is_root root = false → FullName fi = root ++ ch "/" :: name)).
Proof.
  intros Hroot. unfold RepositoryName. set (fullname := FullName fi).
  destruct (path_exists fullname); [|eauto].
  pose proof (dirname_le fullname). pose proof (dirname_le (dirname fullname)).
  assert (Hname : ∀ root, above (dirname fullname) root → has_vcs root = true →
    ∃ rest, FullName fi = root ++ rest ∧
      drop (length (common_prefix root (dirname fullname)) + 1) fullname = drop 1 rest ∧
      (is_root root = false → FullName fi = root ++ ch "/" :: drop 1 rest)).
  { intros root Ha _. destruct (name_below fi root Ha) as (rest & Hf & Hd & Hn).
    exists rest. split; [done|]. split; [done|]. intros Hr. by rewrite <- (Hn Hr). }
  destruct (has_entry (dirname fullname) (u ".svn")) eqn:Hsvn.
  - destruct (svn_root_total (S (length fullname)) (dirname fullname) Hroot) as (r & -> & Ha & Hv & _);
      [lia|done|].
    assert (Hvcs : has_vcs r = true) by (unfold has_vcs; by rewrite Hv, !orb_true_r).
    destruct (Hname r Ha Hvcs) as (rest & Hf & Hd & Hn).
    cbn [mbind res_bind]. rewrite Hd. eexists. split; [reflexivity|]. right. by exists r, rest.
  - destruct (vcs_root_total (S (length fullname)) (dirname fullname)) as (r & -> & Ha & _);
      [lia|].
    cbn [mbind res_bind]. destruct (has_vcs r) eqn:Hvcs; [|eauto].
    destruct (Hname r Ha Hvcs) as (rest & Hf & Hd & Hn).
    rewrite Hd. eexists. split; [reflexivity|]. right. by exists r, rest.
Qed.

(** C36: when every directory from the file's own up to the file system root
    holds a ".svn", the search up the SVN checkout never ends: no amount of
    fuel is enough. *)
Theorem svn_search_diverges d : (∀ r, above d r → has_entry r (u ".svn") = true) →
  ∀ fuel, svn_root fuel d (dirname d) = Raise OutOfFuel.
Proof.
  intros Hall fuel. revert d Hall. induction fuel as [|fuel IH]; intros d Hall; [done|].
  cbn [svn_root]. rewrite Hall by do 2 constructor. apply IH.
  intros r Hr. apply Hall. by eapply above_trans; [do 2 constructor|].
Qed.
End repository_name.

(** ** A concrete environment *)

(** A file system given by the paths that exist and the files' texts; the rest
    is plain ASCII. *)
Definition small_env (cwd : str) (files : list (str * str)) (dirs : list str) : Env := {|
  getcwd := cwd;
  path_exists p := str_in p dirs || str_in p (fst <$> files);
  read_file p := snd <$> List.find (λ f, str_eqb (fst f) p) files;
  read_stdin := [];
  linesep_is_crlf := false;
  uni_isalnum := is_alnum;
  uni_isdigit := is_digit;
  uni_lower c := [to_lower c];
  nfc s := s;
  east_asian_wide _ := false;
  combining _ := false;
  dict_items A m := map_to_list m;
  set_items s := elements s;
|}.

#[export] Instance small_env_laws d files dirs :
  EnvLaws (H := small_env (ch "/" :: d) files dirs).
Proof. split; simpl; try done. by exists d. Qed.

Definition git_env : Env :=
  small_env (u "/home/me/proj") [(u "/home/me/proj/src/a.h", [])]
    [u "/"; u "/home"; u "/home/me/proj/.git"].
Definition root_git_env : Env :=
  small_env (u "/") [(u "/home/a.h", [])] [u "/"; u "/.git"].
Definition svn_env : Env :=
  small_env (u "/") [(u "/a/b.h", [])] [u "/"; u "/a"; u "/a/.svn"; u "/.svn"].

Lemma no_svn_at_roots cwd files dirs : 
  (∀ p, p ∈ dirs ++ (fst <$> files) → endswith p (u ".svn") = false) →
  ∀ r, dirname r = r → has_entry (H := small_env cwd files dirs) r (u ".svn") = false.
Proof.
  intros Hno r _. unfold has_entry. simpl.
  assert (He : endswith (path_join r (u ".svn")) (u ".svn") = true).
  { apply endswith_spec. unfold path_join. simpl.
    destruct (str_eqb r [] || endswith r slash); [by exists r|].
    exists (r ++ slash). by rewrite <- app_assoc. }
  rewrite <- not_true_iff_false, orb_true_iff. unfold str_in. rewrite !bool_decide_eq_true.
  intros Hin. specialize (Hno (path_join r (u ".svn"))). rewrite He in Hno.
  rewrite elem_of_app in Hno. by specialize (Hno Hin).
Qed.

Lemma repository_name_spec_witness :
  RepositoryName (H := git_env) (FileInfo (u "src/a.h")) = Ok (u "src/a.h") ∧
  ∃ name, RepositoryName (H := root_git_env) (FileInfo (u "home/a.h")) = Ok name ∧
    (name = u "/home/a.h" ∨ ∃ root rest,
      above (u "/home") root ∧ has_vcs (H := root_git_env) root = true ∧
      u "/home/a.h" = root ++ rest ∧ name = drop 1 rest ∧
      (is_root root = false → u "/home/a.h" = root ++ ch "/" :: name)).
Proof.
  split; [vm_compute; reflexivity|].
  apply (repository_name_spec (H := root_git_env) (FileInfo (u "home/a.h"))).
  apply no_svn_at_roots. apply Forall_forall. repeat constructor.
Defined.

Lemma svn_search_diverges_witness :
  (∀ fuel, svn_root (H := svn_env) fuel (u "/a") (dirname (u "/a")) = Raise OutOfFuel) ∧
  RepositoryName (H := svn_env) (FileInfo (u "a/b.h")) = Raise OutOfFuel.
Proof.
  split; [|vm_compute; reflexivity].
  apply (svn_search_diverges (H := svn_env) (u "/a")).
  intros r Hr. assert (r = u "/a" ∨ r = u "/") as [-> | ->]; [|vm_compute; reflexivity..].
  induction Hr as [|r _ [-> | ->]]; [by left|by right|by right].
Defined.

(** The directories above an absolute path are absolute. *)
Lemma dirname_absolute t : ∃ t', dirname (ch "/" :: t) = ch "/" :: t'.
Proof.
  unfold dirname, path_split, slash. change (u "/") with [ch "/"].
  destruct (rfind_at [ch "/"] (ch "/" :: t)) as [i|] eqn:E; cbn [fst].
  - cbn [take]. destruct (forallb _ (ch "/" :: take i t)) eqn:Hr; [by eexists|].
    destruct (rstrip_by_spec (N.eqb (ch "/")) (ch "/" :: take i t)) as (s & Hs & Hf & _).
    destruct (rstrip_by _ _) as [|x d]; [cbn [app] in Hs; subst s; congruence|].
    injection Hs as <- _. by eexists.
  - exfalso. apply rfind_char_None in E. apply E. by left.
Qed.

Lemma above_absolute p r : above p r → startswith p slash = true → startswith r slash = true.
Proof.
  intros Ha Hp. induction Ha as [|r _ IH]; [done|].
  apply startswith_spec in IH as [t ->]. destruct (dirname_absolute t) as [t' Ht].
  change (slash ++ t) with (ch "/" :: t). by rewrite Ht.
Qed.

(** Where the search ends when only the root of the file system has an entry. *)
Lemma only_root_has_vcs `{Env} c name r : c ≠ ch "/" →
  (∀ d, above (dirname (ch "/" :: c :: name)) d → d ≠ u "/" → has_vcs d = false) →
  above (dirname (ch "/" :: c :: name)) r → has_vcs r = true ∨ dirname r = r → r = u "/".
Proof.
  intros Hc Hno Ha Hr. destruct (decide (r = u "/")) as [|Hne]; [done|].
  destruct Hr as [Hr|Hr]; [by rewrite Hno in Hr|]. exfalso.
  assert (Habs : startswith r slash = true).
  { eapply above_absolute; [exact Ha|]. destruct (dirname_absolute (c :: name)) as [t ->]. done. }
  apply startswith_spec in Habs as [t ->]. change (slash ++ t) with (ch "/" :: t) in *.
  destruct t as [|x t]; [done|]. destruct (dirname_spec (ch "/" :: x :: t)) as (rest & E & Hroot).
  rewrite Hr in E, Hroot. assert (rest = []) as ->.
  { apply (app_inv_head (ch "/" :: x :: t)). by rewrite <- E, app_nil_r. }
  destruct Hroot as [Hroot|[? [=]]]. destruct (above_dirname _ _ Ha) as (rest' & E' & _).
  injection E' as <- _. unfold is_root in Hroot. cbn [forallb] in Hroot.
  rewrite !andb_true_iff in Hroot. destruct Hroot as (_ & Hx & _).
  by apply N.eqb_eq in Hx as <-.
Qed.

(** C39: when the repository's root is the root directory of the file system,
    the name loses its first letter: for an existing file, whose full name begins
    with one slash, if only "/" among the directories above it holds a ".git", ".hg" or ".svn" (and, for a file lying
    in "/" itself, "/" has no ".svn"), the name is the full name without the
    slash and without the letter after it. *)
Theorem repository_at_filesystem_root_loses_a_letter `{Env} fi c name :
  FullName fi = ch "/" :: c :: name → c ≠ ch "/" → path_exists (FullName fi) = true →
  has_entry (dirname (FullName fi)) (u ".svn") = false →
  (∀ d, above (dirname (FullName fi)) d → d ≠ u "/" → has_vcs d = false) →
  has_vcs (u "/") = true →
  RepositoryName fi = Ok name.
Proof.
  intros Hf Hc Hex Hsvn Hno Hvcs. unfold RepositoryName. rewrite Hex, Hsvn.
  pose proof (dirname_le (FullName fi)).
  destruct (vcs_root_total (S (length (FullName fi))) (dirname (FullName fi))) as (r & -> & Ha & Hr);
    [lia|].
  cbn [mbind res_bind mret res_ret]. destruct (name_below fi r Ha) as (rest & Er & -> & _).
  rewrite Hf in *. assert (r = u "/") as -> by (by eapply only_root_has_vcs).
  rewrite Hvcs. by injection Er as <-.
Qed.

Lemma repository_at_filesystem_root_loses_a_letter_witness :
  let env := small_env (u "/home") [(u "/home/foo.h", [])] [u "/.git"] in
  RepositoryName (H := env) (FileInfo (u "foo.h")) = Ok (u "ome/foo.h").
Proof.
  set (env := small_env (u "/home") [(u "/home/foo.h", [])] [u "/.git"]).
  apply (repository_at_filesystem_root_loses_a_letter (H := env)
           (FileInfo (u "foo.h")) (ch "h") (u "ome/foo.h")); try (vm_compute; reflexivity).
  - discriminate.
  - intros d Ha Hd. assert (d = u "/home" ∨ d = u "/") as [-> | ->]; [|vm_compute; reflexivity|done].
    clear Hd. induction Ha as [|d _ [-> | ->]]; [by left|by right|by right].
Defined.

(** ** Modules *)

Lemma endswith_app x s : endswith (x ++ s) s = true.
Proof. apply endswith_spec. by exists x. Qed.

Lemma drop_suffix_app x s : drop_suffix (x ++ s) s = x.
Proof.
  unfold drop_suffix. rewrite length_app, Nat.add_sub. apply take_app_length.
Qed.

(** No component of the path is named "public" or "internal". *)
Definition plain_path (p : str) : Prop :=
  (∀ i, ¬ occurs_at (u "/public/") p i) ∧ (∀ i, ¬ occurs_at (u "/internal/") p i).

Lemma plain_path_suffix a m : plain_path (a ++ m) → plain_path m.
Proof.
  intros [H1 H2]. split; intros i (x & y & -> & <-); [apply (H1 (length (a ++ x)))|
    apply (H2 (length (a ++ x)))]; exists (a ++ x), y; by rewrite <- app_assoc.
Qed.

Lemma plain_path_replace p : plain_path p →
  replace (replace p (u "/public/") (u "/")) (u "/internal/") (u "/") = p.
Proof.
  intros [H1 H2]. unfold replace. by rewrite (replace_go_absent (u "/public/")), replace_go_absent.
Qed.

(** C28: let m be a name, not empty and not ending in "-inl", and a a prefix such
    that am contains neither "/public/" nor "/internal/" and does not end in
    "_test" or "_unittest". Then a source file am.cc, am_test.cc or
    am_unittest.cc and a header m.h or m-inl.h are of the same module, and the
    prefix returned is a: put before the header's name it gives a file in the
    directory of the source file. *)
Theorem same_module_finds_header a m test inl :
  m ≠ [] → plain_path (a ++ m) →
  endswith (a ++ m) (u "_test") = false → endswith (a ++ m) (u "_unittest") = false →
  endswith m (u "-inl") = false →
  test ∈ [[]; u "_test"; u "_unittest"] → inl ∈ [[]; u "-inl"] →
  FilesBelongToSameModule (((a ++ m) ++ test) ++ u ".cc") ((m ++ inl) ++ u ".h") = (true, a).
Proof.
  intros Hm Hp Ht Hut Hi Htest Hinl. unfold FilesBelongToSameModule.
  rewrite !endswith_app, !drop_suffix_app. cbn [negb].
  assert (Hc : (if endswith ((a ++ m) ++ test) (u "_unittest")
      then drop_suffix ((a ++ m) ++ test) (u "_unittest")
      else if endswith ((a ++ m) ++ test) (u "_test")
      then drop_suffix ((a ++ m) ++ test) (u "_test") else (a ++ m) ++ test) = a ++ m).
  { set_unfold in Htest. destruct Htest as [->|[->|[->|[]]]].
    - by rewrite app_nil_r, Hut, Ht.
    - replace (endswith ((a ++ m) ++ u "_test") (u "_unittest")) with false.
      + by rewrite endswith_app, drop_suffix_app.
      + unfold endswith. by rewrite (rev_app_distr (a ++ m)).
    - by rewrite endswith_app, drop_suffix_app. }
  assert (Hh : (if endswith (m ++ inl) (u "-inl") then drop_suffix (m ++ inl) (u "-inl")
      else m ++ inl) = m).
  { set_unfold in Hinl. destruct Hinl as [->|[->|[]]].
    - by rewrite app_nil_r, Hi.
    - by rewrite endswith_app, drop_suffix_app. }
  rewrite Hc, Hh, (plain_path_replace (a ++ m)), plain_path_replace, endswith_app
    by eauto using plain_path_suffix.
  f_equal. unfold py_to, py_bound. rewrite length_app.
  assert (0 < length m) by (destruct m; [done|simpl; lia]).
  rewrite (proj2 (Z.ltb_lt _ _)) by lia.
  replace (Z.to_nat _) with (length a) by lia. apply take_app_length.
Qed.

Lemma same_module_finds_header_witness :
  FilesBelongToSameModule (u "/home/me/src/base/foo_unittest.cc") (u "base/foo-inl.h")
    = (true, u "/home/me/src/").
Proof.
  apply (same_module_finds_header (u "/home/me/src/") (u "base/foo") (u "_unittest") (u "-inl")).
  - discriminate.
  - split; apply find_at_None; vm_compute; reflexivity.
  - vm_compute; reflexivity.
  - vm_compute; reflexivity.
  - vm_compute; reflexivity.
  - apply list_elem_of_In. simpl. auto.
  - apply list_elem_of_In. simpl. auto.
Defined.
