(* ===== verification/IncludeState.v ===== *)
(** * [class _IncludeState]: the order of #include lines

    The includes met so far and the section of the canonical order the last
    one belonged to. *)
From S2P Require Import Prelude PyStr Regex RegexParse PyRe World Cleanse.

(** The [_XXX_HEADER] constants. *)
Inductive header_type :=
| _C_SYS_HEADER | _CPP_SYS_HEADER | _LIKELY_MY_HEADER | _POSSIBLE_MY_HEADER
| _OTHER_HEADER.

#[export] Instance header_type_eq_dec : EqDecision header_type.
Proof. solve_decision. Defined.

Definition _INITIAL_SECTION : Z := 0.
Definition _MY_H_SECTION : Z := 1.
Definition _C_SECTION : Z := 2.
Definition _CPP_SECTION : Z := 3.
Definition _OTHER_H_SECTION : Z := 4.

(** The dictionary maps an include to the line it stands on, or to a text
    "file:line" when it was found through another header. *)
Inductive include_at := AtLine (n : Z) | AtText (s : str).

Definition fmt_include_at (a : include_at) : str :=
  match a with AtLine n => fmt_d n | AtText s => s end.

Record include_state := IncludeState {
  includes : gmap str include_at;
  _section : Z;
  _last_header : str;
}.

Definition _TYPE_NAMES (t : header_type) : str :=
  match t with
  | _C_SYS_HEADER => u "C system header"
  | _CPP_SYS_HEADER => u "C++ system header"
  | _LIKELY_MY_HEADER => u "header this file implements"
  | _POSSIBLE_MY_HEADER => u "header this file may implement"
  | _OTHER_HEADER => u "other header"
  end.

Definition _SECTION_NAMES (section : Z) : res str :=
  if (section =? _INITIAL_SECTION)%Z then Ok (u "... nothing. (This can't be an error.)")
  else if (section =? _MY_H_SECTION)%Z then Ok (u "a header this file implements")
  else if (section =? _C_SECTION)%Z then Ok (u "C system header")
  else if (section =? _CPP_SECTION)%Z then Ok (u "C++ system header")
  else if (section =? _OTHER_H_SECTION)%Z then Ok (u "other header")
  else Raise KeyError.

Definition ResetSection (inc : include_state) : include_state :=
  IncludeState (includes inc) _INITIAL_SECTION [].

(** [_IncludeState.__init__]. *)
Definition init_include_state : include_state := ResetSection (IncludeState ∅ 0 []).

Definition SetLastHeader (header_path : str) (inc : include_state) : include_state :=
  IncludeState (includes inc) (_section inc) header_path.

(** [lower] is the lower-casing of one character. *)
Definition CanonicalizeAlphabeticalOrder (lower : N → str) (header_path : str) : str :=
  replace (replace header_path (u "-inl.h") (u ".h")) (u "-") (u "_") ≫= lower.

(** [s < t] on strings. *)
Fixpoint str_ltb (s t : str) : bool :=
  match s, t with
  | _, [] => false
  | [], _ :: _ => true
  | c :: s', d :: t' => (c <? d)%N || ((c =? d)%N && str_ltb s' t')
  end.

Definition IsInAlphabeticalOrder (inc : include_state) (cl : cleansed_lines)
    (linenum : Z) (header_path : str) : res bool :=
  if str_ltb header_path (_last_header inc) then
    previous ← py_nth (elided cl) (linenum - 1);
    mret (negb (negb (matches (rx "^\s*$") previous)))
  else mret true.

(** The new section of a header of type [t], or [None] when the header is out
    of order. *)
Definition next_section (t : header_type) (section : Z) : option Z :=
  match t with
  | _C_SYS_HEADER => if (section <=? _C_SECTION)%Z then Some _C_SECTION else None
  | _CPP_SYS_HEADER => if (section <=? _CPP_SECTION)%Z then Some _CPP_SECTION else None
  | _LIKELY_MY_HEADER | _POSSIBLE_MY_HEADER =>
      if (section <=? _MY_H_SECTION)%Z then Some _MY_H_SECTION else Some _OTHER_H_SECTION
  | _OTHER_HEADER => Some _OTHER_H_SECTION
  end.

(** The error message (empty when the order is right) and the new state. *)
Definition CheckNextIncludeOrder (inc : include_state) (t : header_type)
    : res (str * include_state) :=
  section_name ← _SECTION_NAMES (_section inc);
  let error_message := u "Found " ++ _TYPE_NAMES t ++ u " after " ++ section_name in
  match next_section t (_section inc) with
  | None => mret (error_message, IncludeState (includes inc) (_section inc) [])
  | Some section =>
      mret ([], IncludeState (includes inc) section
                  (if (_section inc =? section)%Z then _last_header inc else []))
  end.

(** ** The orders that are accepted *)

(** A file's includes in sequence: the messages and the final state. *)
Fixpoint check_order (inc : include_state) (ts : list header_type)
    : res (list str * include_state) :=
  match ts with
  | [] => Ok ([], inc)
  | t :: ts =>
      '(message, inc') ← CheckNextIncludeOrder inc t;
      '(messages, inc'') ← check_order inc' ts;
      Ok (message :: messages, inc'')
  end.

Definition is_my (t : header_type) : Prop := t = _LIKELY_MY_HEADER ∨ t = _POSSIBLE_MY_HEADER.
Definition is_rest (t : header_type) : Prop := t = _OTHER_HEADER ∨ is_my t.

(** First this file's headers, then C headers, then C++ headers, then a last
    section, of other headers and this file's own in any order. *)
Definition canonical_order (ts : list header_type) : Prop :=
  ∃ my c cpp rest, ts = my ++ c ++ cpp ++ rest ∧ Forall is_my my ∧
    Forall (.= _C_SYS_HEADER) c ∧ Forall (.= _CPP_SYS_HEADER) cpp ∧ Forall is_rest rest.

(** Any number of [P], then [L]. *)
Definition star (P : header_type → Prop) (L : list header_type → Prop)
    (ts : list header_type) : Prop :=
  ∃ a b, ts = a ++ b ∧ Forall P a ∧ L b.

Lemma star_cons P L t ts : star P L (t :: ts) ↔ (P t ∧ star P L ts) ∨ L (t :: ts).
Proof.
  split.
  - intros ([|x a] & b & E & Ha & Hb); simplify_eq/=; [by right|].
    apply Forall_cons in Ha as [Hx Ha]. left. split; [done|]. by exists a, b.
  - intros [[Ht (a & b & -> & Ha & Hb)]|H]; [|by exists [], (t :: ts)].
    exists (t :: a), b. split; [done|]. split; [by constructor|done].
Qed.

Lemma star_skip P (L : list header_type → Prop) ts : L ts → star P L ts.
Proof. intros H. by exists [], ts. Qed.

(** What is accepted from a section on. *)
Definition accepted_from (section : Z) : list header_type → Prop :=
  let rest := Forall is_rest in
  let cpp := star (.= _CPP_SYS_HEADER) rest in
  let c := star (.= _C_SYS_HEADER) cpp in
  if (section <=? _MY_H_SECTION)%Z then star is_my c
  else if (section <=? _C_SECTION)%Z then c
  else if (section <=? _CPP_SECTION)%Z then cpp else rest.

Lemma canonical_accepted ts : canonical_order ts ↔ accepted_from _INITIAL_SECTION ts.
Proof.
  unfold accepted_from, canonical_order. cbn. split.
  - intros (my & c & cpp & rest & -> & Hm & Hc & Hp & Hr).
    exists my, (c ++ cpp ++ rest). split; [done|]. split; [done|].
    exists c, (cpp ++ rest). split; [done|]. split; [done|]. by exists cpp, rest.
  - intros (my & ? & -> & Hm & c & ? & -> & Hc & cpp & rest & -> & Hp & Hr).
    by exists my, c, cpp, rest.
Qed.

Lemma accepted_nil section : accepted_from section [].
Proof.
  unfold accepted_from. repeat case_match; repeat apply star_skip; constructor.
Qed.

Definition section_ok (section : Z) : Prop :=
  (_INITIAL_SECTION <= section <= _OTHER_H_SECTION)%Z.

Lemma section_cases section : section_ok section →
  section = 0%Z ∨ section = 1%Z ∨ section = 2%Z ∨ section = 3%Z ∨ section = 4%Z.
Proof. unfold section_ok, _INITIAL_SECTION, _OTHER_H_SECTION. lia. Qed.

Lemma accepted_cons section t ts : section_ok section →
  accepted_from section (t :: ts) ↔
  match next_section t section with
  | Some section' => accepted_from section' ts
  | None => False
  end.
Proof.
  intros Hs. destruct (section_cases _ Hs) as [->|[->|[->|[->| ->]]]]; destruct t;
    unfold accepted_from, next_section; cbn;
    rewrite ?star_cons, ?Forall_cons; unfold is_rest, is_my;
    split; intros H; destruct_or?; destruct_and?; destruct_or?; try done;
    first [tauto|by do 3 apply star_skip].
Qed.

Lemma next_section_ok t section section' : section_ok section →
  next_section t section = Some section' → section_ok section' ∧ (section <= section')%Z.
Proof.
  intros Hs. destruct (section_cases _ Hs) as [->|[->|[->|[->| ->]]]]; destruct t;
    cbn; intros [= <-]; unfold section_ok; repeat split; vm_compute; discriminate.
Qed.

Lemma CheckNextIncludeOrder_run inc t : section_ok (_section inc) →
  ∃ message inc', CheckNextIncludeOrder inc t = Ok (message, inc') ∧
    section_ok (_section inc') ∧ (_section inc <= _section inc')%Z ∧ includes inc' = includes inc ∧
    (message = [] ↔ next_section t (_section inc) = Some (_section inc')) ∧
    (message ≠ [] → next_section t (_section inc) = None ∧ _section inc' = _section inc).
Proof.
  intros Hs. unfold CheckNextIncludeOrder.
  assert (exists n, _SECTION_NAMES (_section inc) = Ok n) as [name ->].
  { destruct (section_cases _ Hs) as [->|[->|[->|[->| ->]]]]; eexists; reflexivity. }
  cbn [mbind res_bind]. destruct (next_section t (_section inc)) as [section|] eqn:E.
  - eexists _, _. split; [reflexivity|]. cbn [_section includes].
    destruct (next_section_ok _ _ _ Hs E). done.
  - eexists _, _. split; [reflexivity|]. cbn [_section includes].
    by split_and!.
Qed.

Lemma check_order_run inc ts : section_ok (_section inc) →
  ∃ messages inc', check_order inc ts = Ok (messages, inc') ∧
    length messages = length ts ∧
    section_ok (_section inc') ∧ (_section inc <= _section inc')%Z ∧
    (Forall (.= []) messages ↔ accepted_from (_section inc) ts).
Proof.
  revert inc. induction ts as [|t ts IH]; intros inc Hs.
  { exists [], inc. split_and!; try done. split; [intros _; apply accepted_nil|done]. }
  destruct (CheckNextIncludeOrder_run inc t Hs)
    as (message & inc' & Hr & Hs' & Hle & _ & Hm & Hm').
  destruct (IH inc' Hs') as (messages & inc'' & Hr' & Hl & Hs'' & Hle' & Hall).
  exists (message :: messages), inc''. cbn [check_order]. rewrite Hr. cbn [mbind res_bind].
  rewrite Hr'. split; [done|]. split; [simpl; congruence|]. split; [done|]. split; [lia|].
  rewrite Forall_cons, Hall, accepted_cons by done.
  destruct (decide (message = [])) as [->|Hne].
  - rewrite (proj1 Hm eq_refl). tauto.
  - destruct (Hm' Hne) as [-> _]. tauto.
Qed.


(** ** Canonical header paths *)
Section canonical.
Context (lower : N → str) (ascii_lower : ∀ c, (c < 128)%N → lower c = [to_lower c]).

Lemma bind_lower s : ascii s → s ≫= lower = PyStr.lower s.
Proof.
  intros Hs. induction s as [|c s IH]; [done|]. cbn. rewrite ascii_lower by (apply Hs; by left).
  f_equal. apply IH. intros d Hd. apply Hs. by right.
Qed.

(** C34: canonicalising an ASCII header path twice is canonicalising it once, and
    the result holds no dash and no upper case letter. *)
Theorem canonical_path_idempotent path : ascii path →
  let canonical := CanonicalizeAlphabeticalOrder lower path in
  CanonicalizeAlphabeticalOrder lower canonical = canonical ∧
  (ch "-" ∉ canonical) ∧ ∀ c, c ∈ canonical → to_lower c = c.
Proof.
  intros Ha canonical.
  set (p := replace (replace path (u "-inl.h") (u ".h")) (u "-") (u "_")).
  assert (Hp : ascii p ∧ (45%N ∉ p)).
  { unfold p. change (u "-") with [45%N]. change (u "_") with [95%N]. rewrite replace_char.
    assert (H1 : ascii (replace path (u "-inl.h") (u ".h"))).
    { intros c [Hc|Hc]%replace_go_elem; [by apply Ha|].
      revert c Hc. apply Forall_forall. repeat constructor. }
    split.
    - intros c (d & -> & Hd)%list_elem_of_fmap. destruct (N.eqb_spec d 45); [lia|]. by apply H1.
    - intros (d & E & Hd)%list_elem_of_fmap. destruct (N.eqb_spec d 45); lia. }
  assert (Ec : canonical = PyStr.lower p) by (apply bind_lower, Hp).
  assert (Hc : ascii canonical ∧ (45%N ∉ canonical) ∧ ∀ c, c ∈ canonical → to_lower c = c).
  { rewrite Ec. unfold PyStr.lower. destruct Hp as [Hp1 Hp2]. split_and!.
    - intros c (d & -> & Hd)%list_elem_of_fmap. apply to_lower_props; [by apply Hp1|by intros ->].
    - intros (d & E & Hd)%list_elem_of_fmap.
      destruct (to_lower_props d) as [_ []]; [by apply Hp1|by intros ->|done].
    - intros c (d & -> & _)%list_elem_of_fmap. apply to_lower_idemp. }
  split; [|tauto]. destruct Hc as (Hc1 & Hc2 & Hc3).
  unfold CanonicalizeAlphabeticalOrder.
  assert (Habs : ∀ old new, 45%N ∈ old → replace canonical old new = canonical).
  { intros old new Ho. apply replace_go_absent. intros i Hi.
    by apply Hc2, (occurs_at_char old canonical i). }
  rewrite !Habs by (apply char_in_spec; reflexivity). rewrite bind_lower by done.
  unfold PyStr.lower. transitivity (id <$> canonical); [|apply list_fmap_id].
  apply list_fmap_ext. intros ? c Hl. apply Hc3. by eapply list_elem_of_lookup_2.
Qed.
End canonical.

Lemma canonical_path_idempotent_witness :
  let lower c := [to_lower c] in
  CanonicalizeAlphabeticalOrder lower (u "Foo/Bar-Baz-inl.h") = u "foo/bar_baz.h" ∧
  CanonicalizeAlphabeticalOrder lower (CanonicalizeAlphabeticalOrder lower (u "Foo/Bar-Baz-inl.h")) =
    CanonicalizeAlphabeticalOrder lower (u "Foo/Bar-Baz-inl.h").
Proof.
  split; [vm_compute; reflexivity|].
  apply (canonical_path_idempotent (λ c, [to_lower c]) (λ c _, eq_refl) (u "Foo/Bar-Baz-inl.h")).
  intros c. apply (proj1 (Forall_forall (λ c, (c < 128)%N) _)).
  repeat constructor.
Defined.
