(* ===== verification/FunctionState.v ===== *)
(** * [class _FunctionState]: the length of function bodies *)
From S2P Require Import Prelude PyStr Regex RegexParse PyRe World LintState.

Record function_state := FunctionState {
  in_a_function : bool;
  lines_in_function : Z;
  current_function : str;
}.

Definition _NORMAL_TRIGGER : Z := 250.
Definition _TEST_TRIGGER : Z := 400.

(** [_FunctionState.__init__]. *)
Definition init_function_state : function_state := FunctionState false 0 [].

Definition Begin (function_name : str) (fs : function_state) : function_state :=
  FunctionState true 0 function_name.

Definition Count (fs : function_state) : function_state :=
  if in_a_function fs
  then FunctionState true (lines_in_function fs + 1) (current_function fs) else fs.

Definition End (fs : function_state) : function_state :=
  FunctionState false (lines_in_function fs) (current_function fs).

Definition base_trigger (fs : function_state) : Z :=
  if matches (rx "T(EST|est)") (current_function fs) then _TEST_TRIGGER else _NORMAL_TRIGGER.

(** [lines > base * 2**verbose], and the trigger as ['%d'] prints it; a
    negative verbosity makes the power a fraction. *)
Definition exceeds_trigger (lines base verbose : Z) : bool :=
  if (verbose <? 0)%Z then (base <? lines * 2 ^ (- verbose))%Z
  else (base * 2 ^ verbose <? lines)%Z.
Definition shown_trigger (base verbose : Z) : Z :=
  if (verbose <? 0)%Z then (base / 2 ^ (- verbose))%Z else (base * 2 ^ verbose)%Z.

(** [min(int(math.log(n, 2)), 5)]; the logarithm of 0 is an error. *)
Definition error_level (n : Z) : res Z :=
  if (n <=? 0)%Z then Raise (ValueError (u "math domain error"))
  else Ok (Z.min (Z.log2 n) 5).

Definition Check (fs : function_state) (error : handler) (filename : str) (linenum : Z)
    : M unit :=
  let base := base_trigger fs in
  verbose ← _VerboseLevel;
  when (exceeds_trigger (lines_in_function fs) base verbose) (
    level ← lift (error_level (lines_in_function fs / base));
    error filename linenum (u "readability/fn_size") level
      (u "Small and focused functions are preferred: " ++ current_function fs
       ++ u " has " ++ fmt_d (lines_in_function fs) ++ u " non-comment lines"
       ++ u " (error triggered by exceeding " ++ fmt_d (shown_trigger base verbose)
       ++ u " lines).")).

(** ** When a function is too long *)

Lemma base_trigger_pos fs : (0 < base_trigger fs)%Z.
Proof. unfold base_trigger. by destruct (matches _ _). Qed.

Lemma error_level_bounds lines base verbose : (0 < base)%Z → (0 <= verbose)%Z →
  (base * 2 ^ verbose < lines)%Z →
  ∃ level, error_level (lines / base) = Ok level ∧ (Z.min verbose 5 <= level <= 5)%Z.
Proof.
  intros Hb Hv Hl. assert (H2 : (0 < 2 ^ verbose)%Z) by (apply Z.pow_pos_nonneg; lia).
  assert (Hq : (2 ^ verbose <= lines / base)%Z) by (apply Z.div_le_lower_bound; lia).
  unfold error_level. rewrite (proj2 (Z.leb_gt _ _)) by lia.
  eexists. split; [reflexivity|].
  assert (verbose <= Z.log2 (lines / base))%Z by (apply Z.log2_le_pow2; lia). lia.
Qed.

Lemma Check_run fs (error : handler) filename linenum w :
  (0 <= verbose_level (cpplint_state w))%Z →
  let verbose := verbose_level (cpplint_state w) in
  let limit := (base_trigger fs * 2 ^ verbose)%Z in
  ((lines_in_function fs <= limit)%Z → Check fs error filename linenum w = (Ok tt, w)) ∧
  ((limit < lines_in_function fs)%Z → ∃ level message,
     Check fs error filename linenum w =
       error filename linenum (u "readability/fn_size") level message w ∧
     (Z.min verbose 5 <= level <= 5)%Z).
Proof.
  intros Hv verbose limit. unfold Check, _VerboseLevel, mbind, M_bind, gets.
  unfold exceeds_trigger. rewrite (proj2 (Z.ltb_ge _ _)) by exact Hv.
  fold verbose. fold limit. split; intros Hl.
  - by rewrite (proj2 (Z.ltb_ge _ _)) by exact Hl.
  - rewrite (proj2 (Z.ltb_lt _ _)) by exact Hl.
    destruct (error_level_bounds (lines_in_function fs) (base_trigger fs) verbose)
      as (level & Hr & Hb); [apply base_trigger_pos|done|done|].
    cbn [when]. unfold lift. rewrite Hr. eexists level, _. split; [reflexivity|done].
Qed.

(** C29: with a verbosity of 0 or more the length check raises nothing: a body
    of more than base times 2 to the power of the verbosity lines makes exactly
    one report, whose confidence is at most 5 and at least the smaller of the
    verbosity and 5, so that a verbosity of 0 to 5 does not hide it; a body of at
    most so many lines makes none. *)
Theorem Check_reports_long_functions fs (error : handler) filename linenum w :
  (0 <= verbose_level (cpplint_state w))%Z →
  let verbose := verbose_level (cpplint_state w) in
  let limit := (base_trigger fs * 2 ^ verbose)%Z in
  ((lines_in_function fs <= limit)%Z → Check fs error filename linenum w = (Ok tt, w)) ∧
  ((limit < lines_in_function fs)%Z → ∃ level message,
     Check fs error filename linenum w =
       error filename linenum (u "readability/fn_size") level message w ∧
     (Z.min verbose 5 <= level <= 5)%Z).
Proof. apply Check_run. Qed.

Lemma Check_reports_long_functions_witness :
  let w := init_world in
  (0 <= verbose_level (cpplint_state w))%Z ∧
  Check (FunctionState true 500 (u "Foo()")) Error (u "a.cc") 9%Z w = (Ok tt, w) ∧
  ∃ level message,
    Check (FunctionState true 501 (u "Foo()")) Error (u "a.cc") 9%Z w =
      Error (u "a.cc") 9%Z (u "readability/fn_size") level message w ∧
    (Z.min 1 5 <= level <= 5)%Z.
Proof.
  assert (Hv : (0 <= verbose_level (cpplint_state init_world))%Z) by (vm_compute; discriminate).
  split; [exact Hv|]. split.
  - apply (Check_reports_long_functions (FunctionState true 500 (u "Foo()")) Error (u "a.cc") 9
             init_world Hv). vm_compute. discriminate.
  - apply (Check_reports_long_functions (FunctionState true 501 (u "Foo()")) Error (u "a.cc") 9
             init_world Hv). vm_compute. reflexivity.
Defined.

(** C40: with a negative verbosity the check is not safe: a body shorter than
    the base trigger that exceeds the fractional limit makes the logarithm of
    0 raise ValueError, and nothing is reported. *)
Theorem Check_negative_verbosity_raises fs (error : handler) filename linenum w :
  (verbose_level (cpplint_state w) < 0)%Z →
  (0 <= lines_in_function fs < base_trigger fs)%Z →
  (base_trigger fs < lines_in_function fs * 2 ^ (- verbose_level (cpplint_state w)))%Z →
  Check fs error filename linenum w = (Raise (ValueError (u "math domain error")), w).
Proof.
  intros Hv Hl Hx. unfold Check, _VerboseLevel, mbind, M_bind, gets, exceeds_trigger.
  rewrite (proj2 (Z.ltb_lt _ _)) by exact Hv. rewrite (proj2 (Z.ltb_lt _ _)) by exact Hx.
  cbn [when]. unfold error_level. by rewrite Z.div_small by exact Hl.
Qed.

Lemma Check_negative_verbosity_raises_witness :
  let w := (SetVerboseLevel (-1)%Z init_world).2 in
  Check (FunctionState true 126 (u "Foo()")) Error (u "a.cc") 9%Z w =
    (Raise (ValueError (u "math domain error")), w).
Proof.
  apply (Check_negative_verbosity_raises (FunctionState true 126 (u "Foo()")) Error (u "a.cc") 9
           (SetVerboseLevel (-1)%Z init_world).2); vm_compute; repeat split; discriminate.
Defined.
