(* ===== verification/FileChecks.v ===== *)
(** * Checks of a whole file: copyright, header guard, bad characters, the
    newline at the end

    [CheckForCopyright], [CheckForHeaderGuard], [CheckForBadCharacters] and
    [CheckForNewlineAtEOF] of cpplint.py. *)
From S2P Require Import Prelude PyStr Regex RegexParse PyRe World LintState FileInfo.

Definition CheckForCopyright (error : handler) (filename : str) (lines : list str) : M unit :=
  (** By line 10; there is a dummy line at the front. *)
  if existsb (found (rx_i "Copyright")) (take (Nat.min (length lines) 11 - 1) (drop 1 lines))
  then skip
  else error filename 0%Z (u "legal/copyright") 5%Z
         (u "No copyright message found.  "
          ++ u "You should have a line: `Copyright [year] <Copyright Owner>`").

Section header_guard.
Context `{Env}.

(** The part of the path a [--root] flag removes. *)
Definition strip_root (root : option str) (path : str) : res str :=
  match root with
  | None | Some [] => mret path
  | Some root =>
      c ← or_raise ReError (re_compile (u "^" ++ root ++ slash));
      mret (re_sub c [] path)
  end.

Definition GetHeaderGuardCPPVariable (filename : str) : M str :=
  (** Restores original filename in case that cpplint is invoked from
      Emacs's flymake. *)
  let filename := re_sub (rx "_flymake\.h$") (u ".h") filename in
  let filename := re_sub_with (rx "/\.flymake/([^/]*)$")
                    (λ mo, u "/" ++ group_str mo 1) filename in
  let fileinfo := FileInfo filename in
  file_path_from_root ← lift (RepositoryName fileinfo);
  root ← gets w_root;
  file_path_from_root ← lift (strip_root root file_path_from_root);
  mret (upper (re_sub (rx "[-./\s]") (u "_") file_path_from_root) ++ u "_").

(** What the first loop of [CheckForHeaderGuard] finds. *)
Record guard_scan := GuardScan {
  g_ifndef : option str; g_ifndef_linenum : Z;
  g_define : option str;
  g_endif : option str; g_endif_linenum : Z;
}.

Definition guard_step (g : guard_scan) (x : Z * str) : guard_scan :=
  let '(linenum, line) := x in
  let '(ifndef, ifndef_linenum, define) :=
    match split_ws line with
    | directive :: arg :: _ =>
        let '(ifndef, ifndef_linenum) :=
          match g_ifndef g with
          | None => if str_eqb directive (u "#ifndef") then (Some arg, linenum)
                    else (None, g_ifndef_linenum g)
          | Some _ => (g_ifndef g, g_ifndef_linenum g)
          end in
        let define :=
          match g_define g with
          | None => if str_eqb directive (u "#define") then Some arg else None
          | Some _ => g_define g
          end in
        (ifndef, ifndef_linenum, define)
    | _ => (g_ifndef g, g_ifndef_linenum g, g_define g)
    end in
  if startswith line (u "#endif")
  then GuardScan ifndef ifndef_linenum define (Some line) linenum
  else GuardScan ifndef ifndef_linenum define (g_endif g) (g_endif_linenum g).

Definition scan_guard (lines : list str) : guard_scan :=
  fold_left guard_step (enumerate lines) (GuardScan None 0 None None 0).

Definition CheckForHeaderGuard (error : handler) (filename : str) (lines : list str)
    : M unit :=
  cppvar ← GetHeaderGuardCPPVariable filename;
  let g := scan_guard lines in
  match g_ifndef g with
  | None => error filename 0%Z (u "build/header_guard") 5%Z
              (u "No #ifndef header guard found, suggested CPP variable is: " ++ cppvar)
  | Some ifndef =>
      match g_define g with
      | None => error filename 0%Z (u "build/header_guard") 5%Z
                  (u "No #define header guard found, suggested CPP variable is: " ++ cppvar)
      | Some define =>
          (** The guard should be PATH_FILE_H_, but we also allow PATH_FILE_H__
              for backward compatibility. *)
          when (negb (str_eqb ifndef cppvar)) (
            let error_level := if negb (str_eqb ifndef (cppvar ++ u "_")) then 5%Z else 0%Z in
            line ← lift (py_nth lines (g_ifndef_linenum g));
            ParseNolintSuppressions error filename line (g_ifndef_linenum g) ;;
            error filename (g_ifndef_linenum g) (u "build/header_guard") error_level
              (u "#ifndef header guard has wrong style, please use: " ++ cppvar)) ;;
          if negb (str_eqb define ifndef) then
            error filename 0%Z (u "build/header_guard") 5%Z
              (u "#ifndef and #define don't match, suggested CPP variable is: " ++ cppvar)
          else
            let endif_is s := bool_decide (g_endif g = Some (u "#endif  // " ++ s)) in
            when (negb (endif_is cppvar)) (
              let error_level := if negb (endif_is (cppvar ++ u "_")) then 5%Z else 0%Z in
              line ← lift (py_nth lines (g_endif_linenum g));
              ParseNolintSuppressions error filename line (g_endif_linenum g) ;;
              error filename (g_endif_linenum g) (u "build/header_guard") error_level
                (u "#endif line should be `#endif  // " ++ cppvar ++ u "`"))
      end
  end.
End header_guard.

Definition CheckForBadCharacters (error : handler) (filename : str) (lines : list str)
    : M unit :=
  for_each (enumerate lines) (λ '(linenum, line),
    when (char_in 65533 line)
      (error filename linenum (u "readability/utf8") 5%Z
         (u "Line contains invalid UTF-8 (or Unicode replacement character).")) ;;
    when (char_in 0 line)
      (error filename linenum (u "readability/nul") 5%Z (u "Line contains NUL byte."))).

Definition CheckForNewlineAtEOF (error : handler) (filename : str) (lines : list str)
    : M unit :=
  let n := Z.of_nat (length lines) in
  missing ← (if (n <? 3)%Z then mret true
             else last ← lift (py_nth lines (-2)); mret (negb (str_eqb last [])));
  when missing
    (error filename (n - 2)%Z (u "whitespace/ending_newline") 5%Z
       (u "Could not find a newline character at the end of the file.")).

(** The last line of a text: empty when the text is empty or ends with a
    newline. *)
Lemma split_go_last c acc s : ∃ pieces p, split_go [c] 0 acc s = pieces ++ [p] ∧
  (p = [] ↔ (s = [] ∧ acc = []) ∨ last s = Some c).
Proof.
  revert acc. induction s as [|x s IH]; intros acc.
  - exists [], (rev acc). split; [done|]. rewrite <- (length_zero_iff_nil (rev acc)), length_rev,
      length_zero_iff_nil. naive_solver.
  - cbn [split_go starts_with length Nat.sub]. rewrite andb_true_r.
    assert (Hl : s ≠ [] → last (x :: s) = last s) by (by destruct s).
    destruct (N.eqb_spec c x) as [<-|Hx].
    + destruct (IH []) as (pieces & p & -> & Hp). exists (rev acc :: pieces), p.
      split; [done|]. rewrite Hp. destruct s as [|y s]; [naive_solver|].
      rewrite Hl by done. naive_solver.
    + destruct (IH (x :: acc)) as (pieces & p & -> & Hp). exists pieces, p.
      split; [done|]. rewrite Hp. destruct s as [|y s]; [simpl; naive_solver|].
      rewrite Hl by done. naive_solver.
Qed.

(** C18: between its two marker lines, the lines of a text make
    `CheckForNewlineAtEOF` report one error, on the text's last line, exactly
    when the text is not empty and does not end with a newline. (The empty text,
    which has no newline at its end either, is not reported.) *)
Theorem newline_check_spec error filename first text final w :
  let lines := [first] ++ split text nl ++ [final] in
  CheckForNewlineAtEOF error filename lines w =
    if bool_decide (text = [] ∨ last text = Some c_nl) then (Ok tt, w)
    else error filename (Z.of_nat (length (split text nl))) (u "whitespace/ending_newline") 5%Z
           (u "Could not find a newline character at the end of the file.") w.
Proof.
  cbv zeta. unfold CheckForNewlineAtEOF, split, nl.
  destruct (split_go_last c_nl [] text) as (pieces & p & -> & Hp).
  set (n := length pieces). rewrite <- app_assoc.
  assert (Hlen : length ([first] ++ pieces ++ [p] ++ [final]) = S (S (S n)))
    by (rewrite !length_app; simpl; lia).
  rewrite Hlen. destruct (Z.ltb_spec (Z.of_nat (S (S (S n)))) 3) as [|_]; [lia|].
  assert (Hn : py_nth ([first] ++ pieces ++ [p] ++ [final]) (-2) = Ok p).
  { unfold py_nth. rewrite Hlen. replace (-2 <? 0)%Z with true by done.
    destruct (Z.ltb_spec (-2 + Z.of_nat (S (S (S n)))) 0); [lia|].
    replace (Z.to_nat (-2 + Z.of_nat (S (S (S n))))) with (length (first :: pieces))
      by (simpl; lia).
    change ([first] ++ pieces ++ [p] ++ [final]) with ((first :: pieces) ++ p :: [final]).
    by rewrite (list_lookup_middle (first :: pieces) [final] p). }
  rewrite Hn. unfold mbind, M_bind, lift, mret, M_ret. rewrite length_app. simpl length.
  replace (Z.of_nat (S (S (S n))) - 2)%Z with (Z.of_nat (length pieces + 1)) by lia.
  destruct (bool_decide_reflect (text = [] ∨ last text = Some c_nl)) as [Ht|Ht].
  - rewrite (proj2 Hp) by naive_solver. done.
  - destruct (str_eqb p []) eqn:E; [|done]. apply str_eqb_eq, Hp in E. naive_solver.
Qed.

(** ** An accepted header guard *)

(** The first word of a line, when another follows. *)
Definition directive_word (line : str) : option str :=
  match split_ws line with directive :: _ :: _ => Some directive | _ => None end.

Lemma words_go_word acc w rest : forallb (λ c, negb (is_uspace c)) w = true →
  words_go acc (w ++ rest) = words_go (rev w ++ acc) rest.
Proof.
  revert acc. induction w as [|c w IH]; intros acc Hw; [done|]. simpl in Hw.
  apply andb_true_iff in Hw as [Hc Hw]. apply negb_true_iff in Hc. simpl. rewrite Hc, IH by done.
  by rewrite <- app_assoc.
Qed.

Lemma split_ws_two d v : d ≠ [] → v ≠ [] → forallb (λ c, negb (is_uspace c)) d = true →
  forallb (λ c, negb (is_uspace c)) v = true → split_ws (d ++ u " " ++ v) = [d; v].
Proof.
  intros Hd Hv Hsd Hsv. unfold split_ws. rewrite words_go_word by done.
  rewrite app_nil_r. change (u " ") with [32%N]. cbn [app words_go].
  replace (is_uspace 32) with true by done.
  assert (E : ∀ x : str, x ≠ [] → ∃ c t, rev x = c :: t).
  { intros x Hx. destruct (rev x) eqn:E; [|eauto]. apply (f_equal (@rev N)) in E.
    rewrite rev_involutive in E. done. }
  destruct (E d Hd) as (c & t & Ed). rewrite Ed, <- Ed, rev_involutive. f_equal.
  rewrite <- (app_nil_r v), words_go_word by done. rewrite !app_nil_r. cbn [words_go].
  destruct (E v Hv) as (c' & t' & Ev). rewrite Ev, <- Ev, rev_involutive. done.
Qed.

Definition run_guard (i : Z) (lines : list str) (g : guard_scan) : guard_scan :=
  fold_left guard_step (enumerate_from i lines) g.

Lemma enumerate_from_app {A} i (l1 l2 : list A) :
  enumerate_from i (l1 ++ l2) =
    enumerate_from i l1 ++ enumerate_from (i + Z.of_nat (length l1)) l2.
Proof.
  revert i. induction l1 as [|x l1 IH]; intros i; simpl; [by rewrite Z.add_0_r|].
  rewrite IH. do 3 f_equal. lia.
Qed.

Lemma run_guard_app i l1 l2 g :
  run_guard i (l1 ++ l2) g = run_guard (i + Z.of_nat (length l1)) l2 (run_guard i l1 g).
Proof. unfold run_guard. by rewrite enumerate_from_app, fold_left_app. Qed.

(** Before the guard nothing is found; after it, only the `#endif` changes. *)
Lemma run_guard_before i lines g :
  Forall (λ l, directive_word l ∉ [Some (u "#ifndef"); Some (u "#define")]) lines →
  g_ifndef g = None → g_define g = None →
  g_ifndef (run_guard i lines g) = None ∧ g_define (run_guard i lines g) = None.
Proof.
  unfold run_guard. intros H. revert i g.
  induction H as [|l lines Hl _ IH]; intros i g Hi Hd; [done|]. cbn [enumerate_from fold_left].
  rewrite !elem_of_cons in Hl. unfold directive_word in Hl.
  assert (Hg : g_ifndef (guard_step g (i, l)) = None ∧ g_define (guard_step g (i, l)) = None).
  { unfold guard_step. rewrite Hi, Hd.
    destruct (split_ws l) as [|d [|a ws]]; [by destruct (startswith l _)..|].
    destruct (str_eqb d (u "#ifndef")) eqn:E1; [apply str_eqb_eq in E1; naive_solver|].
    destruct (str_eqb d (u "#define")) eqn:E2; [apply str_eqb_eq in E2; naive_solver|].
    by destruct (startswith l _). }
  destruct Hg. by apply IH.
Qed.

Lemma run_guard_kept i lines g v : g_ifndef g = Some v → g_define g = Some v →
  g_ifndef (run_guard i lines g) = Some v ∧ g_define (run_guard i lines g) = Some v.
Proof.
  unfold run_guard. revert i g.
  induction lines as [|l lines IH]; intros i g Hi Hd; [done|]. cbn [enumerate_from fold_left].
  assert (Hg : g_ifndef (guard_step g (i, l)) = Some v ∧ g_define (guard_step g (i, l)) = Some v).
  { unfold guard_step. rewrite Hi, Hd.
    destruct (split_ws l) as [|d [|a ws]]; by destruct (startswith l _). }
  destruct Hg. by apply IH.
Qed.

Lemma run_guard_no_endif i lines g : Forall (λ l, startswith l (u "#endif") = false) lines →
  g_endif (run_guard i lines g) = g_endif g.
Proof.
  unfold run_guard. intros H. revert i g.
  induction H as [|l lines Hl _ IH]; intros i g; [done|]. cbn [enumerate_from fold_left].
  rewrite IH. unfold guard_step. rewrite Hl. by repeat case_match.
Qed.

Lemma guard_step_endif i l g : startswith l (u "#endif") = true →
  g_endif (guard_step g (i, l)) = Some l.
Proof. unfold guard_step. intros ->. by repeat case_match. Qed.


Definition guard_env : Env :=
  small_env (u "/w") [(u "/w/dir/my-file.h", [])] [u "/w/.git"].

