(* ===== verification/LineChecks.v ===== *)
(** * Checks of one line that need no nesting state

    Multi-line comments and strings, thread-unsafe functions, VLOG arguments,
    invalid increments, TODO comments, make_pair, function lengths (with what
    the check of a function's length counts and reports, line after line). *)
From S2P Require Import Prelude PyStr Regex RegexParse PyRe World LintState.
From S2P Require Import Cleanse FunctionState FileInfo.

Definition CheckForMultilineCommentsAndStrings (error : handler) (filename : str)
    (cl : cleansed_lines) (linenum : Z) : M unit :=
  line ← lift (py_nth (elided cl) linenum);
  (** Remove all escaped backslashes from the line. *)
  let line := replace line (u "\\") [] in
  when (count line (u "*/") <? count line (u "/*"))%Z
    (error filename linenum (u "readability/multiline_comment") 5%Z
       (u "Complex multi-line /*...*/-style comment found. "
        ++ u "Lint may give bogus warnings.  "
        ++ u "Consider replacing these with //-style comments, "
        ++ u "with #if 0...#endif, "
        ++ u "or with more clearly structured multi-line comments.")) ;;
  when (negb ((count line (u "`") - count line (u "\`")) mod 2 =? 0)%Z)
    (error filename linenum (u "readability/multiline_string") 5%Z
       (u "Multi-line string (`...`) found.  This lint script doesn't "
        ++ u "do well with such strings, and may give bogus warnings.  "
        ++ u "Use C++11 raw strings or concatenation instead.")).

Definition threading_list : list (str * str) :=
  [(u "asctime(", u "asctime_r("); (u "ctime(", u "ctime_r(");
   (u "getgrgid(", u "getgrgid_r("); (u "getgrnam(", u "getgrnam_r(");
   (u "getlogin(", u "getlogin_r("); (u "getpwnam(", u "getpwnam_r(");
   (u "getpwuid(", u "getpwuid_r("); (u "gmtime(", u "gmtime_r(");
   (u "localtime(", u "localtime_r("); (u "rand(", u "rand_r(");
   (u "strtok(", u "strtok_r("); (u "ttyname(", u "ttyname_r(")].

Definition CheckPosixThreading `{Env} (error : handler) (filename : str)
    (cl : cleansed_lines) (linenum : Z) : M unit :=
  line ← lift (py_nth (elided cl) linenum);
  for_each threading_list (λ '(single_thread_function, multithread_safe_function),
    let ix := find line single_thread_function in
    bad ← (if (ix <? 0)%Z then mret false
           else if (ix =? 0)%Z then mret true
           else c ← lift (py_nth line (ix - 1));
                mret (negb (uni_isalnum c) && negb (char_in c (u "_.>"))));
    when bad
      (error filename linenum (u "runtime/threadsafe_fn") 2%Z
         (u "Consider using " ++ multithread_safe_function
          ++ u "...) instead of " ++ single_thread_function
          ++ u "...) for improved thread safety."))).

Definition CheckVlogArguments (error : handler) (filename : str) (cl : cleansed_lines)
    (linenum : Z) : M unit :=
  line ← lift (py_nth (elided cl) linenum);
  when (found (rx "\bVLOG\((INFO|ERROR|WARNING|DFATAL|FATAL)\)") line)
    (error filename linenum (u "runtime/vlog") 5%Z
       (u "VLOG() should be used with numeric verbosity level.  "
        ++ u "Use LOG() if you want symbolic severity levels.")).

Definition _RE_PATTERN_INVALID_INCREMENT : compiled := rx "^\s*\*\w+(\+\+|--);".

Definition CheckInvalidIncrement (error : handler) (filename : str) (cl : cleansed_lines)
    (linenum : Z) : M unit :=
  line ← lift (py_nth (elided cl) linenum);
  when (matches _RE_PATTERN_INVALID_INCREMENT line)
    (error filename linenum (u "runtime/invalid_increment") 5%Z
       (u "Changing pointer instead of value (or unused value of operator*).")).

(** Blank: empty or only white space. *)
Definition IsBlankLine (line : str) : bool :=
  match line with [] => true | _ => isspace line end.

(** The most recent non-blank line and its number, or the empty string and -1.
    The lines before [linenum] are tried from the nearest. *)
Fixpoint previous_non_blank (rest : list str) (prevlinenum : Z) : str * Z :=
  match rest with
  | [] => ([], (-1)%Z)
  | prevline :: rest =>
      if negb (IsBlankLine prevline) then (prevline, prevlinenum)
      else previous_non_blank rest (prevlinenum - 1)
  end.

Definition GetPreviousNonBlankLine (cl : cleansed_lines) (linenum : Z) : str * Z :=
  previous_non_blank (rev (take (Z.to_nat linenum) (elided cl))) (linenum - 1).

(** ** Function lengths *)

(** The inner loop: [rest] are the lines from the declaration on.  The result
    is whether a body was found, and the new function state. *)
Fixpoint find_body (line joined_line : str) (rest : list str) (fs : function_state)
    : res (bool * function_state) :=
  match rest with
  | [] => mret (false, fs)
  | start_line :: rest =>
      let joined_line := joined_line ++ u " " ++ lstrip start_line in
      if found (rx "(;|})") start_line then mret (true, fs)
      else if found (rx "{") start_line then
        mo ← or_raise AttributeError (re_search (rx "((\w|:)*)\(") line);
        let function := group_str mo 1 in
        let function :=
          if matches (rx "TEST") function then
            match re_search (rx "(\(.*\))") joined_line with
            | Some parameter_regexp => function ++ group_str parameter_regexp 1
            | None => function
            end
          else function ++ u "()" in
        mret (true, Begin function fs)
      else find_body line joined_line rest fs
  end.

(** Does the line start a function declaration?  The last word before the
    parenthesis is its name; all-capital names are macros. *)
Definition starting_func (line : str) : res bool :=
  match re_match (rx "(\w(\w|::|\*|\&|\s)*)\(") line with
  | None => mret false
  | Some match_result =>
      function_name ← py_nth (split_ws (group_str match_result 1)) (-1);
      mret (str_in function_name [u "TEST"; u "TEST_F"] ||
            negb (matches (rx "[A-Z_]+$") function_name))
  end.

Definition CheckForFunctionLengths (error : handler) (filename : str) (cl : cleansed_lines)
    (linenum : Z) (fs : function_state) : M function_state :=
  line ← lift (py_nth (lines cl) linenum);
  start ← lift (starting_func line);
  if (start : bool) then
    '(body_found, fs') ← lift (find_body line [] (drop (Z.to_nat linenum) (lines cl)) fs);
    when (negb body_found)
      (error filename linenum (u "readability/fn_size") 5%Z
         (u "Lint failed to find start of function body.")) ;;
    mret fs'
  else if matches (rx "^\}\s*$") line then
    Check fs error filename linenum ;;
    mret (End fs)
  else if negb (matches (rx "^\s*$") line) then mret (Count fs)
  else mret fs.

(** ** Comments *)

Definition _RE_PATTERN_TODO : compiled := rx "^//(\s*)TODO(\(.+?\))?:?(\s|$)?".

Definition CheckComment (error : handler) (comment filename : str) (linenum : Z) : M unit :=
  match re_match _RE_PATTERN_TODO comment with
  | None => skip
  | Some mo =>
      let leading_whitespace := group_str mo 1 in
      when (1 <? length leading_whitespace)%nat
        (error filename linenum (u "whitespace/todo") 2%Z (u "Too many spaces before TODO")) ;;
      let username := group mo 2 in
      when (match username with None | Some [] => true | _ => false end)
        (error filename linenum (u "readability/todo") 2%Z
           (u "Missing username in TODO; it should look like "
            ++ u "`// TODO(my_username): Stuff.`")) ;;
      let middle_whitespace := group mo 3 in
      when (negb (bool_decide (middle_whitespace = Some (u " "))) &&
            negb (bool_decide (middle_whitespace = Some [])))
        (error filename linenum (u "whitespace/todo") 2%Z
           (u "TODO(my_username) should be followed by a space"))
  end.

Definition _RE_PATTERN_EXPLICIT_MAKEPAIR : compiled := rx "\bmake_pair\s*<".

Definition CheckMakePairUsesDeduction (error : handler) (filename : str)
    (cl : cleansed_lines) (linenum : Z) : M unit :=
  line ← lift (py_nth (elided cl) linenum);
  when (found _RE_PATTERN_EXPLICIT_MAKEPAIR line)
    (error filename linenum (u "build/explicit_make_pair") 4%Z
       (u "For C++11-compatibility, omit template arguments from make_pair"
        ++ u " OR use pair directly OR if appropriate, construct a pair directly")).

(** ** Widths *)

(** The width of a line in columns, wide characters counting for two and
    combining characters for none. *)
Definition GetLineWidth `{Env} (line : str) : Z :=
  fold_left (λ width uc,
    if east_asian_wide uc then (width + 2)%Z
    else if negb (combining uc) then (width + 1)%Z else width) (nfc line) 0%Z.

(** ** The previous non-blank line *)

Lemma previous_non_blank_spec rest n :
  (previous_non_blank rest n = ([], (-1)%Z) ∧ Forall (λ l, IsBlankLine l = true) rest) ∨
  ∃ k l, previous_non_blank rest n = (l, (n - Z.of_nat k)%Z) ∧ rest !! k = Some l ∧
    IsBlankLine l = false ∧ Forall (λ l, IsBlankLine l = true) (take k rest).
Proof.
  revert n. induction rest as [|x rest IH]; intros n; [by left|]. cbn [previous_non_blank].
  destruct (IsBlankLine x) eqn:E; cbn [negb].
  - destruct (IH (n - 1)%Z) as [[-> H]|(k & l & -> & H1 & H2 & H3)]; [left|right].
    + split; [done|by constructor].
    + exists (S k), l. split; [f_equal; lia|]. split; [done|]. split; [done|]. by constructor.
  - right. exists 0, x. split; [f_equal; lia|]. split; [done|]. split; [done|]. constructor.
Qed.

(** C32: `GetPreviousNonBlankLine` gives the nearest line above that is not
    blank, with its number, all lines between being blank; the empty text and -1
    come back exactly when all the lines above are blank. *)
Theorem previous_line_spec cl linenum :
  (0 <= linenum <= Z.of_nat (length (elided cl)))%Z →
  let blank i := ∃ l, elided cl !! i = Some l ∧ IsBlankLine l = true in
  (GetPreviousNonBlankLine cl linenum = ([], (-1)%Z) ∧
     ∀ i, Z.of_nat i < linenum → blank i)%Z ∨
  ∃ l j, GetPreviousNonBlankLine cl linenum = (l, Z.of_nat j) ∧ (Z.of_nat j < linenum)%Z ∧
    elided cl !! j = Some l ∧ IsBlankLine l = false ∧
    ∀ i, j < i → (Z.of_nat i < linenum)%Z → blank i.
Proof.
  intros Hn blank. unfold GetPreviousNonBlankLine. set (n := Z.to_nat linenum).
  assert (Hlen : length (take n (elided cl)) = n) by (rewrite length_take; lia).
  assert (Hrev : ∀ k, k < n → rev (take n (elided cl)) !! k = elided cl !! (n - S k)).
  { intros k Hk. rewrite rev_alt. change (rev_append ?l []) with (reverse l).
    rewrite reverse_lookup by lia. rewrite Hlen. apply lookup_take_lt. lia. }
  set (above := rev (take n (elided cl))) in *.
  assert (Habove : length above = n) by (unfold above; by rewrite length_rev).
  destruct (previous_non_blank_spec above (linenum - 1)) as [[-> H]|(k & l & -> & H1 & H2 & H3)].
  - left. split; [done|]. intros i Hi. destruct (elided cl !! i) as [l|] eqn:E.
    + exists l. split; [done|]. rewrite Forall_lookup in H. apply (H (n - S i)).
      rewrite Hrev by lia. by replace (n - S (n - S i)) with i by lia.
    + apply lookup_ge_None in E. lia.
  - right. pose proof (lookup_lt_Some _ _ _ H1) as Hk. exists l, (n - S k).
    split; [f_equal; lia|]. split; [lia|]. rewrite Hrev in H1 by lia. split; [done|].
    split; [done|]. intros i Hi Hi'. destruct (elided cl !! i) as [x|] eqn:E.
    + exists x. split; [done|]. rewrite Forall_lookup in H3. apply (H3 (n - S i)).
      rewrite lookup_take_lt by lia. rewrite Hrev by lia.
      by replace (n - S (n - S i)) with i by lia.
    + apply lookup_ge_None in E. lia.
Qed.

Definition blank_demo : cleansed_lines :=
  let ls := [u "int a;"; u "  "; u ""; u "}"] in CleansedLines ls ls ls 4 ls.

Lemma previous_line_spec_witness :
  let blank i := ∃ l, elided blank_demo !! i = Some l ∧ IsBlankLine l = true in
  (GetPreviousNonBlankLine blank_demo 3 = ([], (-1)%Z) ∧ ∀ i, (Z.of_nat i < 3)%Z → blank i) ∨
  ∃ l j, GetPreviousNonBlankLine blank_demo 3 = (l, Z.of_nat j) ∧ (Z.of_nat j < 3)%Z ∧
    elided blank_demo !! j = Some l ∧ IsBlankLine l = false ∧
    ∀ i, j < i → (Z.of_nat i < 3)%Z → blank i.
Proof. apply (previous_line_spec blank_demo 3). split; [lia|vm_compute; discriminate]. Defined.

(** ** How long a function is *)

(** The lines between a function's head and its closing brace, and those of
    them that count. *)
Definition closes (l : str) : bool := matches (rx "^\}\s*$") l.
Definition counts (l : str) : bool := negb (matches (rx "^\s*$") l).
Definition body_line (l : str) : Prop := starting_func l = Ok false ∧ closes l = false.
Definition body_length (body : list str) : Z := Z.of_nat (length (List.filter counts body)).

Section function_lengths.
Context (error : handler) (filename : str) (cl : cleansed_lines).

(** The check of the lines from [first] to [last], one after the other. *)
Definition check_lengths (first last : Z) (fs : function_state) : M function_state :=
  for_fold (zrange first (last + 1)) fs
    (λ fs linenum, CheckForFunctionLengths error filename cl linenum fs).

Lemma check_lengths_cons first last fs : (first <= last)%Z →
  check_lengths first last fs =
    (fs' ← CheckForFunctionLengths error filename cl first fs; check_lengths (first + 1) last fs').
Proof. intros H. unfold check_lengths. by rewrite zrange_cons by lia. Qed.

Lemma check_body_line i l fs w : lines cl !! i = Some l → body_line l →
  CheckForFunctionLengths error filename cl (Z.of_nat i) fs w =
    (Ok (if counts l then Count fs else fs), w).
Proof.
  intros Hl [Hs Hc]. unfold CheckForFunctionLengths, mbind, M_bind, lift.
  rewrite py_nth_nat, Hl. cbn [or_raise]. rewrite Hs. unfold closes in Hc. rewrite Hc.
  unfold counts. by destruct (negb _).
Qed.

Lemma check_closing_line i l fs : lines cl !! i = Some l → starting_func l = Ok false →
  closes l = true → ∀ w, CheckForFunctionLengths error filename cl (Z.of_nat i) fs w =
    (Check fs error filename (Z.of_nat i) ;; mret (End fs)) w.
Proof.
  intros Hl Hs Hc w. unfold CheckForFunctionLengths, mbind, M_bind, lift.
  rewrite py_nth_nat, Hl. cbn [or_raise]. rewrite Hs. unfold closes in Hc. by rewrite Hc.
Qed.

Lemma check_body body i last n name w :
  (∀ k l, body !! k = Some l → lines cl !! (i + k) = Some l) → Forall body_line body →
  last = Z.of_nat (i + length body) →
  check_lengths (Z.of_nat i) last (FunctionState true n name) w =
    check_lengths last last (FunctionState true (n + body_length body) name) w.
Proof.
  revert i n. induction body as [|l body IH]; intros i n Hb Hf ->.
  - rewrite Nat.add_0_r. cbn [length] in *. by rewrite Z.add_0_r.
  - apply Forall_cons in Hf as [Hl Hf]. rewrite check_lengths_cons by (simpl; lia).
    unfold mbind, M_bind. rewrite (check_body_line i l) by
      (try done; rewrite <- (Nat.add_0_r i); by apply Hb).
    replace (Z.of_nat i + 1)%Z with (Z.of_nat (S i)) by lia.
    assert (E : (if counts l then Count (FunctionState true n name) else FunctionState true n name)
      = FunctionState true (n + (if counts l then 1 else 0)) name)
      by (destruct (counts l); [done|by rewrite Z.add_0_r]).
    assert (Hb' : ∀ k x, body !! k = Some x → lines cl !! (S i + k) = Some x).
    { intros k x Hx. replace (S i + k) with (i + S k) by lia. by apply Hb. }
    rewrite E, (IH (S i) _ Hb' Hf) by (simpl; lia).
    assert (En : (n + (if counts l then 1 else 0) + body_length body = n + body_length (l :: body))%Z)
      by (unfold body_length; cbn [List.filter]; destruct (counts l); cbn [length]; lia).
    by rewrite En.
Qed.

(** C13: from its head to its closing brace, a function is followed line by line:
    where the head on line `i` opens a body, the lines after it start no other
    function and do not close it, and the next line is a lone closing brace in
    the first column, exactly the lines of the body that are not blank are
    counted. With a verbosity of 0 or more, a body of at most base times 2 to
    the power of the verbosity such lines gives no report; a longer one gives
    exactly one, on the line of the closing brace. After it no function is
    open. *)
Theorem function_length_counted i head body brace fs name w :
  lines cl !! i = Some head →
  (∀ k l, (body ++ [brace]) !! k = Some l → lines cl !! (i + 1 + k) = Some l) →
  starting_func head = Ok true →
  find_body head [] (drop i (lines cl)) fs = Ok (true, Begin name fs) →
  Forall body_line body → starting_func brace = Ok false → closes brace = true →
  (0 <= verbose_level (cpplint_state w))%Z →
  let last := Z.of_nat (i + 1 + length body) in
  let fs' := FunctionState false (body_length body) name in
  let limit := (base_trigger fs' * 2 ^ verbose_level (cpplint_state w))%Z in
  ((body_length body <= limit)%Z → check_lengths (Z.of_nat i) last fs w = (Ok fs', w)) ∧
  ((limit < body_length body)%Z → ∃ level message, (level <= 5)%Z ∧
     check_lengths (Z.of_nat i) last fs w =
       (error filename last (u "readability/fn_size") level message ;; mret fs') w).
Proof.
  intros Hh Hb Hs Hf Hbody Hbs Hbc Hv last fs' limit.
  assert (E : check_lengths (Z.of_nat i) last fs w =
    (Check (FunctionState true (body_length body) name) error filename last ;; mret fs') w).
  { rewrite check_lengths_cons by (unfold last; lia). unfold mbind at 1, M_bind at 1.
    assert (Eh : CheckForFunctionLengths error filename cl (Z.of_nat i) fs w = (Ok (Begin name fs), w)).
    { unfold CheckForFunctionLengths, mbind, M_bind, lift.
      rewrite py_nth_nat, Hh, Nat2Z.id. cbn [or_raise]. by rewrite Hs, Hf. }
    rewrite Eh. replace (Z.of_nat i + 1)%Z with (Z.of_nat (i + 1)) by lia.
    unfold Begin. rewrite (check_body body (i + 1) last 0 name); [|..|done|done].
    2: { intros k l Hl. apply Hb. by apply lookup_app_l_Some. }
    rewrite Z.add_0_l, check_lengths_cons by lia. unfold check_lengths.
    rewrite zrange_nil by lia. unfold mbind at 1, M_bind at 1.
    unfold last. rewrite (check_closing_line (i + 1 + length body) brace); [|..|done|done].
    2: { apply Hb. by rewrite lookup_app_r, Nat.sub_diag by lia. }
    unfold mbind, M_bind. destruct (Check _ _ _ _ w) as [[[]|e] w']; done. }
  rewrite E.
  destruct (Check_run (FunctionState true (body_length body) name) error filename last w Hv)
    as [H1 H2].
  split; intros Hl; unfold mbind, M_bind.
  - by rewrite H1 by exact Hl.
  - destruct (H2 Hl) as (level & message & -> & Hb'). exists level, message. split; [lia|done].
Qed.
End function_lengths.

(** C38: the end of a function is not remembered by its check: after a function
    that was too long, each further line that is a lone closing brace in the
    first column (as the end of a namespace is, its comment being removed)
    reports the same function again, though no function is open. *)
Theorem closed_function_reported_again (error : handler) filename cl j brace n name w :
  lines cl !! j = Some brace → starting_func brace = Ok false → closes brace = true →
  (0 <= verbose_level (cpplint_state w))%Z →
  let fs := FunctionState false n name in
  (base_trigger fs * 2 ^ verbose_level (cpplint_state w) < n)%Z →
  ∃ level message,
    CheckForFunctionLengths error filename cl (Z.of_nat j) fs w =
      (error filename (Z.of_nat j) (u "readability/fn_size") level
         (u "Small and focused functions are preferred: " ++ name ++ message) ;; mret fs) w.
Proof.
  intros Hl Hs Hc Hv fs Hn. rewrite (check_closing_line error filename cl j brace fs) by done.
  unfold Check, mbind, M_bind, _VerboseLevel, gets.
  unfold exceeds_trigger. rewrite (proj2 (Z.ltb_ge _ _)) by exact Hv.
  rewrite (proj2 (Z.ltb_lt _ _)) by exact Hn.
  destruct (error_level_bounds n (base_trigger fs) (verbose_level (cpplint_state w)))
    as (level & Hr & _); [apply base_trigger_pos|done|done|].
  cbn [when lines_in_function fs]. unfold lift. rewrite Hr. by eexists level, _.
Qed.

(** A function of 251 lines at the end of a namespace. *)
Definition long_demo : cleansed_lines :=
  let ls := u "int foo() {" :: replicate 251 (u "  x = 1;") ++ [u "}"; u "}"] in
  CleansedLines ls ls ls 254 ls.
Definition at_level_0 : world := (SetVerboseLevel 0 init_world).2.

Lemma function_length_counted_witness : ∃ level message, (level <= 5)%Z ∧
  check_lengths Error (u "a.cc") long_demo 0 252 init_function_state at_level_0 =
    (Error (u "a.cc") 252%Z (u "readability/fn_size") level message ;;
     mret (FunctionState false 251 (u "foo()"))) at_level_0.
Proof.
  pose (body := replicate 251 (u "  x = 1;")).
  apply (function_length_counted Error (u "a.cc") long_demo 0 (u "int foo() {") body (u "}")
           init_function_state (u "foo()") at_level_0).
  - reflexivity.
  - intros k l Hl. change ((body ++ [u "}"; u "}"]) !! k = Some l).
    change [u "}"; u "}"] with ([u "}"] ++ [u "}"]). rewrite app_assoc. by apply lookup_app_l_Some.
  - vm_compute; reflexivity.
  - vm_compute; reflexivity.
  - apply Forall_replicate. split; vm_compute; reflexivity.
  - vm_compute; reflexivity.
  - vm_compute; reflexivity.
  - vm_compute; discriminate.
  - vm_compute; reflexivity.
Defined.

Lemma closed_function_reported_again_witness : ∃ level message,
  CheckForFunctionLengths Error (u "a.cc") long_demo 253 (FunctionState false 251 (u "foo()"))
      at_level_0 =
    (Error (u "a.cc") 253%Z (u "readability/fn_size") level
       (u "Small and focused functions are preferred: " ++ u "foo()" ++ message) ;;
     mret (FunctionState false 251 (u "foo()"))) at_level_0.
Proof.
  apply (closed_function_reported_again Error (u "a.cc") long_demo 253 (u "}") 251 (u "foo()")
           at_level_0); vm_compute; first [reflexivity|discriminate].
Defined.
