(* ===== verification/Nesting.v ===== *)
(** * The nesting state: namespaces, classes, blocks and #if/#else

    [_BlockInfo], [_ClassInfo], [_NamespaceInfo], [_PreprocessorInfo] and
    [_NestingState] of cpplint.py.  A stack is a list with its top first.  The
    copies the code makes of a stack are deep, so blocks are plain values.
    Proved: what conditionals do to the stack, and that [Update] returns. *)
From S2P Require Import Prelude PyStr Regex RegexParse PyRe World LintState Cleanse.

(** ** Blocks *)

(** The current inline assembly state. *)
Inductive asm_state := _NO_ASM | _INSIDE_ASM | _END_ASM | _BLOCK_ASM.

#[export] Instance asm_state_eq_dec : EqDecision asm_state.
Proof. solve_decision. Defined.

Definition _MATCH_ASM : compiled :=
  rx "^\s*(?:asm|_asm|__asm|__asm__)(?:\s+(volatile|__volatile__))?\s*[{(]".

(** The attributes of [_ClassInfo] and of [_NamespaceInfo] besides those of
    every block. *)
Record class_info := ClassInfo {
  c_name : str;
  c_starting_linenum : Z;
  is_derived : bool;
  access : str;
  is_struct : bool;
  class_indent : Z;
  last_line : Z;
}.

Record namespace_info := NamespaceInfo {
  n_name : str;
  n_starting_linenum : Z;
}.

(** The subclass of [_BlockInfo] an object belongs to. *)
Inductive block_kind :=
| KBlock | KClass (c : class_info) | KNamespace (n : namespace_info).

Record block := Block {
  seen_open_brace : bool;
  open_parentheses : Z;
  inline_asm : asm_state;
  kind : block_kind;
}.

#[export] Instance class_info_eq_dec : EqDecision class_info.
Proof. solve_decision. Defined.
#[export] Instance namespace_info_eq_dec : EqDecision namespace_info.
Proof. solve_decision. Defined.
#[export] Instance block_kind_eq_dec : EqDecision block_kind.
Proof. solve_decision. Defined.
#[export] Instance block_eq_dec : EqDecision block.
Proof. solve_decision. Defined.

Definition set_seen (b : block) : block :=
  Block true (open_parentheses b) (inline_asm b) (kind b).
Definition set_kind (k : block_kind) (b : block) : block :=
  Block (seen_open_brace b) (open_parentheses b) (inline_asm b) k.
Definition set_asm (a : asm_state) (b : block) : block :=
  Block (seen_open_brace b) (open_parentheses b) a (kind b).

(** [_BlockInfo.__init__]. *)
Definition _BlockInfo (seen : bool) (k : block_kind) : block := Block seen 0 _NO_ASM k.

(** The end of the class: the first line from the head on where the braces
    counted so far balance; 0 when there is none. *)
Fixpoint class_last_line (rest : list str) (i depth : Z) : Z :=
  match rest with
  | [] => 0
  | line :: rest =>
      let depth := (depth + (count line (u "{") - count line (u "}")))%Z in
      if (depth =? 0)%Z then i else class_last_line rest (i + 1) depth
  end.

(** [_ClassInfo.__init__]. *)
Definition _ClassInfo (name class_or_struct : str) (cl : cleansed_lines) (linenum : Z)
    : res block :=
  raw ← py_nth (raw_lines cl) linenum;
  let '(acc, struct) :=
    if str_eqb class_or_struct (u "struct") then (u "public", true) else (u "private", false) in
  let indent :=
    match re_match (rx "^( *)\S") raw with
    | Some initial_indent => Z.of_nat (length (group_str initial_indent 1))
    | None => 0%Z
    end in
  let last_line := class_last_line (drop (Z.to_nat linenum) (elided cl)) linenum 0 in
  mret (_BlockInfo false (KClass (ClassInfo name linenum false acc struct indent last_line))).

(** [_NamespaceInfo.__init__]. *)
Definition _NamespaceInfo (name : option str) (linenum : Z) : block :=
  _BlockInfo false (KNamespace (NamespaceInfo (default [] name) linenum)).

(** [CheckBegin]: only a class does something, it looks for a bare ':'. *)
Definition CheckBegin (b : block) (cl : cleansed_lines) (linenum : Z) : res block :=
  match kind b with
  | KClass c =>
      line ← py_nth (elided cl) linenum;
      mret (if found (rx "(^|[^:]):($|[^:])") line
            then set_kind (KClass (ClassInfo (c_name c) (c_starting_linenum c) true (access c)
                   (is_struct c) (class_indent c) (last_line c))) b
            else b)
  | _ => mret b
  end.

Definition parent_name (c : class_info) : str :=
  (if is_struct c then u "struct " else u "class ") ++ c_name c.

(** [_ClassInfo.CheckEnd]: the closing brace is aligned with the class. *)
Definition class_CheckEnd (c : class_info) (error : handler) (filename : str)
    (cl : cleansed_lines) (linenum : Z) : M unit :=
  line ← lift (py_nth (elided cl) linenum);
  match re_match (rx "^( *)\}") line with
  | Some indent =>
      when (negb (Z.of_nat (length (group_str indent 1)) =? class_indent c)%Z)
        (error filename linenum (u "whitespace/indent") 3%Z
           (u "Closing brace should be aligned with beginning of " ++ parent_name c))
  | None => skip
  end.

(** The pattern of the comment that ends the namespace [name]. *)
Definition end_namespace_pattern (name : str) : str :=
  u "};*\s*(//|/\*).*\bnamespace\s+" ++ re_escape name ++ u "[\*/\.\\\s]*$".

(** [_NamespaceInfo.CheckEnd]: end of namespace comments. *)
Definition namespace_CheckEnd (n : namespace_info) (error : handler) (filename : str)
    (cl : cleansed_lines) (linenum : Z) : M unit :=
  line ← lift (py_nth (raw_lines cl) linenum);
  if (linenum - n_starting_linenum n <? 10)%Z &&
     negb (matches (rx "};*\s*(//|/\*).*\bnamespace\b") line)
  then skip
  else match n_name n with
  | [] =>
      (** Anonymous namespace *)
      when (negb (matches (rx "};*\s*(//|/\*).*\bnamespace[\*/\.\\\s]*$") line))
        (error filename linenum (u "readability/namespace") 5%Z
           (u "Namespace should be terminated with `// namespace`"))
  | _ =>
      (** Named namespace *)
      c ← lift (or_raise ReError (re_compile (end_namespace_pattern (n_name n))));
      when (negb (matches c line))
        (error filename linenum (u "readability/namespace") 5%Z
           (u "Namespace should be terminated with `// namespace " ++ n_name n ++ u "`"))
  end.

Definition CheckEnd (b : block) (error : handler) (filename : str) (cl : cleansed_lines)
    (linenum : Z) : M unit :=
  match kind b with
  | KBlock => skip
  | KClass c => class_CheckEnd c error filename cl linenum
  | KNamespace n => namespace_CheckEnd n error filename cl linenum
  end.

(** ** The state *)

Record pp_info := PreprocessorInfo {
  stack_before_if : list block;
  stack_before_else : list block;
  seen_else : bool;
}.

Record nesting_state := NestingState {
  stack : list block;
  pp_stack : list pp_info;
}.

Definition init_nesting_state : nesting_state := NestingState [] [].
Definition set_stack (s : list block) (ns : nesting_state) : nesting_state :=
  NestingState s (pp_stack ns).

(** Have we seen the opening brace for the innermost block? *)
Definition stack_seen (s : list block) : bool :=
  match s with [] => true | b :: _ => seen_open_brace b end.
Definition SeenOpenBrace (ns : nesting_state) : bool := stack_seen (stack ns).

Definition is_namespace (b : block) : bool :=
  match kind b with KNamespace _ => true | _ => false end.
Definition is_class (b : block) : bool :=
  match kind b with KClass _ => true | _ => false end.

Definition InNamespaceBody (ns : nesting_state) : bool :=
  match stack ns with b :: _ => is_namespace b | [] => false end.

(** ** Preprocessor lines *)

Definition is_pp_if (line : str) : bool := matches (rx "^\s*#\s*(if|ifdef|ifndef)\b") line.
Definition is_pp_else (line : str) : bool := matches (rx "^\s*#\s*(else|elif)\b") line.
Definition is_pp_endif (line : str) : bool := matches (rx "^\s*#\s*endif\b") line.

Definition UpdatePreprocessor (line : str) (ns : nesting_state) : nesting_state :=
  if is_pp_if line then
    (** Beginning of #if block, save the nesting stack here. *)
    NestingState (stack ns) (PreprocessorInfo (stack ns) [] false :: pp_stack ns)
  else if is_pp_else line then
    (** Beginning of #else block *)
    match pp_stack ns with
    | [] => ns
    | top :: below =>
        let top :=
          if negb (seen_else top)
          then PreprocessorInfo (stack_before_if top) (stack ns) true else top in
        (** Restore the stack to how it was before the #if *)
        NestingState (stack_before_if top) (top :: below)
    end
  else if is_pp_endif line then
    (** End of #if or #else blocks. *)
    match pp_stack ns with
    | [] => ns
    | top :: below =>
        NestingState (if seen_else top then stack_before_else top else stack ns) below
    end
  else ns.

(** ** [Update], in the order of the code *)

(** Count parentheses, and see whether an inline assembly block starts or
    ends. *)
Definition update_parens (line : str) (ns : nesting_state) : nesting_state :=
  match stack ns with
  | [] => ns
  | inner :: below =>
      let depth_change := (count line (u "(") - count line (u ")"))%Z in
      let parens := (open_parentheses inner + depth_change)%Z in
      let asm :=
        match inline_asm inner with
        | _NO_ASM | _END_ASM =>
            if negb (depth_change =? 0)%Z && (parens =? 1)%Z && matches _MATCH_ASM line
            then _INSIDE_ASM else _NO_ASM
        | _INSIDE_ASM => if (parens =? 0)%Z then _END_ASM else _INSIDE_ASM
        | _BLOCK_ASM => _BLOCK_ASM
        end in
      set_stack (Block (seen_open_brace inner) parens asm (kind inner) :: below) ns
  end.

Definition namespace_decl : compiled := rx "^\s*namespace\b\s*([:\w]+)?(.*)$".

(** Consume namespace declarations at the beginning of the line; what is left
    of the line.  Each round shortens the line. *)
Fixpoint consume_namespaces (fuel : nat) (line : str) (linenum : Z) (ns : nesting_state)
    : res (str * nesting_state) :=
  match fuel with
  | 0 => Raise OutOfFuel
  | S fuel =>
      match re_match namespace_decl line with
      | None => mret (line, ns)
      | Some mo =>
          let new_namespace := _NamespaceInfo (group mo 1) linenum in
          let line := group_str mo 2 in
          let brace := find line (u "{") in
          if negb (brace =? -1)%Z
          then consume_namespaces fuel (py_from line (brace + 1)) linenum
                 (set_stack (set_seen new_namespace :: stack ns) ns)
          else consume_namespaces fuel line linenum
                 (set_stack (new_namespace :: stack ns) ns)
      end
  end.

Definition class_decl : compiled :=
  rx "\s*(template\s*<[\w\s<>,:]*>\s*)?(class|struct)\s+([A-Z_]+\s+)*(\w+(?:::\w+)*)(([^=>]|<[^<>]*>|<[^<>]*<[^<>]*>\s*>)*)$".

(** Look for a class declaration in whatever is left of the line. *)
Definition consume_class (line : str) (cl : cleansed_lines) (linenum : Z)
    (ns : nesting_state) : res (str * nesting_state) :=
  match re_match class_decl line with
  | Some mo =>
      if match stack ns with [] => true | b :: _ => (open_parentheses b =? 0)%Z end then
        b ← _ClassInfo (group_str mo 4) (group_str mo 2) cl linenum;
        mret (group_str mo 5, set_stack (b :: stack ns) ns)
      else mret (line, ns)
  | None => mret (line, ns)
  end.

(** If we have not yet seen the opening brace for the innermost block, run
    checks here. *)
Definition check_begin (cl : cleansed_lines) (linenum : Z) (ns : nesting_state)
    : res nesting_state :=
  match stack ns with
  | b :: below =>
      if negb (seen_open_brace b) then
        b ← CheckBegin b cl linenum; mret (set_stack (b :: below) ns)
      else mret ns
  | [] => mret ns
  end.

Definition access_decl : compiled :=
  rx "^(.*)\b(public|private|protected|signals)(\s+(?:slots\s*)?)?:(?:[^:]|$)".

(** Update access control if we are inside a class/struct. *)
Definition update_access (error : handler) (filename line : str) (linenum : Z)
    (ns : nesting_state) : M nesting_state :=
  match stack ns with
  | b :: below =>
      match kind b, re_match access_decl line with
      | KClass c, Some mo =>
          let c' := ClassInfo (c_name c) (c_starting_linenum c) (is_derived c)
                      (group_str mo 2) (is_struct c) (class_indent c) (last_line c) in
          let indent := group_str mo 1 in
          when (negb (Z.of_nat (length indent) =? class_indent c + 1)%Z &&
                matches (rx "^\s*$") indent)
            (error filename linenum (u "whitespace/indent") 3%Z
               (group_str mo 2 ++ group_str mo 3 ++ u ": should be indented +1 space inside "
                ++ parent_name c)) ;;
          mret (set_stack (set_kind (KClass c') b :: below) ns)
      | _, _ => mret ns
      end
  | [] => mret ns
  end.

Definition brace_or_semicolon : compiled := rx "^[^{;)}]*([{;)}])(.*)$".

(** What one token does to the stack. *)
Definition step_token (error : handler) (filename : str) (cl : cleansed_lines)
    (linenum : Z) (token line : str) (s : list block) : M (list block) :=
  if str_eqb token (u "{") then
    match s with
    | b :: below =>
        if negb (seen_open_brace b) then mret (set_seen b :: below)
        else mret (set_asm (if matches _MATCH_ASM line then _BLOCK_ASM else _NO_ASM)
                     (_BlockInfo true KBlock) :: s)
    | [] => mret [set_asm (if matches _MATCH_ASM line then _BLOCK_ASM else _NO_ASM)
                    (_BlockInfo true KBlock)]
    end
  else if str_eqb token (u ";") || str_eqb token (u ")") then
    (** Probably a forward declaration, or function arguments with extra
        "class" or "struct" keywords. *)
    if negb (stack_seen s) then mret (tail s) else mret s
  else
    (** Perform end of block checks and pop the stack. *)
    match s with
    | b :: below => CheckEnd b error filename cl linenum ;; mret below
    | [] => mret []
    end.

(** Consume braces or semicolons from what's left of the line; each round
    shortens it. *)
Fixpoint consume_braces (error : handler) (filename : str) (cl : cleansed_lines)
    (linenum : Z) (fuel : nat) (line : str) (s : list block) : M (list block) :=
  match fuel with
  | 0 => raise OutOfFuel
  | S fuel =>
      match re_match brace_or_semicolon line with
      | None => mret s
      | Some matched =>
          s ← step_token error filename cl linenum (group_str matched 1) line s;
          consume_braces error filename cl linenum fuel (group_str matched 2) s
      end
  end.

Definition Update (error : handler) (filename : str) (cl : cleansed_lines) (linenum : Z)
    (ns : nesting_state) : M nesting_state :=
  line ← lift (py_nth (elided cl) linenum);
  let ns := update_parens line (UpdatePreprocessor line ns) in
  '(line, ns) ← lift (consume_namespaces (S (length line)) line linenum ns);
  '(line, ns) ← lift (consume_class line cl linenum ns);
  ns ← lift (check_begin cl linenum ns);
  ns ← update_access error filename line linenum ns;
  s ← consume_braces error filename cl linenum (S (length line)) line (stack ns);
  mret (set_stack s ns).

(** ** Queries *)

Fixpoint innermost_class (s : list block) : option (block * class_info) :=
  match s with
  | [] => None
  | b :: s => match kind b with KClass c => Some (b, c) | _ => innermost_class s end
  end.
Definition InnermostClass (ns : nesting_state) : option (block * class_info) :=
  innermost_class (stack ns).

(** All classes and namespaces have been completely parsed; from the bottom of
    the stack. *)
Definition CheckCompletedBlocks (error : handler) (filename : str) (ns : nesting_state)
    : M unit :=
  for_each (rev (stack ns)) (λ obj,
    match kind obj with
    | KClass c =>
        error filename (c_starting_linenum c) (u "build/class") 5%Z
          (u "Failed to find complete declaration of class " ++ c_name c)
    | KNamespace n =>
        error filename (n_starting_linenum n) (u "build/namespaces") 5%Z
          (u "Failed to find complete declaration of namespace " ++ n_name n)
    | KBlock => skip
    end).

(** [CheckAccess]: improper use of DISALLOW* macros. *)
Definition CheckAccess (error : handler) (filename : str) (cl : cleansed_lines)
    (linenum : Z) (ns : nesting_state) : M unit :=
  line ← lift (py_nth (elided cl) linenum);
  match re_match (rx "\s*(DISALLOW_COPY_AND_ASSIGN|DISALLOW_EVIL_CONSTRUCTORS|DISALLOW_IMPLICIT_CONSTRUCTORS)") line with
  | None => skip
  | Some matched =>
      match stack ns with
      | b :: _ =>
          match kind b with
          | KClass c =>
              when (negb (str_eqb (access c) (u "private")))
                (error filename linenum (u "readability/constructors") 3%Z
                   (group_str matched 1 ++ u " must be in the private: section"))
          | _ => skip
          end
      | [] => skip
      end
  end.

(** ** Preprocessor conditionals *)

(** What a line is to [UpdatePreprocessor]. *)
Inductive directive := DIf | DElse | DEndif | DNone.

Definition directive_of (line : str) : directive :=
  if is_pp_if line then DIf else if is_pp_else line then DElse
  else if is_pp_endif line then DEndif else DNone.

(** Lines in which every conditional that is opened is closed, and the
    branches that may follow the first one. *)
Inductive balanced : list str → Prop :=
| bal_nil : balanced []
| bal_line line ls : directive_of line = DNone → balanced ls → balanced (line :: ls)
| bal_if i body alts e ls :
    directive_of i = DIf → balanced body → branches alts → directive_of e = DEndif →
    balanced ls → balanced (i :: body ++ alts ++ e :: ls)
with branches : list str → Prop :=
| br_nil : branches []
| br_else line body alts :
    directive_of line = DElse → balanced body → branches alts →
    branches (line :: body ++ alts).

Scheme balanced_mut := Induction for balanced Sort Prop
with branches_mut := Induction for branches Sort Prop.
Combined Scheme balanced_branches_ind from balanced_mut, branches_mut.

(** The part of [Update] after [UpdatePreprocessor] leaves [pp_stack] alone. *)
Lemma update_parens_pp line ns : pp_stack (update_parens line ns) = pp_stack ns.
Proof. unfold update_parens. by destruct (stack ns). Qed.

Lemma consume_namespaces_pp fuel line n ns line' ns' :
  consume_namespaces fuel line n ns = Ok (line', ns') → pp_stack ns' = pp_stack ns.
Proof.
  revert line ns. induction fuel as [|fuel IH]; intros line ns H; [done|].
  cbn [consume_namespaces] in H. destruct (re_match namespace_decl line) as [mo|].
  - destruct (negb _); by apply IH in H.
  - by injection H as <- <-.
Qed.

Lemma consume_class_pp line cl n ns line' ns' :
  consume_class line cl n ns = Ok (line', ns') → pp_stack ns' = pp_stack ns.
Proof.
  unfold consume_class. destruct (re_match class_decl line) as [mo|];
    [destruct (match stack ns with [] => true | _ => _ end)|]; intros H; inv_res;
    by simplify_eq.
Qed.

Lemma check_begin_pp cl n ns ns' : check_begin cl n ns = Ok ns' → pp_stack ns' = pp_stack ns.
Proof.
  unfold check_begin. destruct (stack ns) as [|b s]; [|destruct (negb _)]; intros H; inv_res;
    by simplify_eq.
Qed.

Lemma update_access_pp error filename line n ns w ns' w' :
  update_access error filename line n ns w = (Ok ns', w') → pp_stack ns' = pp_stack ns.
Proof.
  unfold update_access. destruct (stack ns) as [|b s]; [by intros [= <- _]|].
  destruct (kind b) as [|c|c]; try (by intros [= <- _]).
  destruct (re_match access_decl line) as [mo|]; [|by intros [= <- _]].
  intros (? & ? & _ & [= <- _])%M_bind_Ok. done.
Qed.

Lemma Update_pp error filename cl n ns w ns' w' :
  Update error filename cl n ns w = (Ok ns', w') →
  ∃ line, py_nth (elided cl) n = Ok line ∧
          pp_stack ns' = pp_stack (UpdatePreprocessor line ns).
Proof.
  unfold Update. intros (line & w1 & [Hl ->]%lift_Ok & H)%M_bind_Ok. exists line. split; [done|].
  cbv zeta in H. apply M_bind_Ok in H as ([l1 ns1] & w2 & [H1 ->]%lift_Ok & H).
  apply M_bind_Ok in H as ([l2 ns2] & w3 & [H2 ->]%lift_Ok & H).
  apply M_bind_Ok in H as (ns3 & w4 & [H3 ->]%lift_Ok & H).
  apply M_bind_Ok in H as (ns4 & w5 & H4 & H).
  apply M_bind_Ok in H as (s & w6 & _ & [= <- _]). cbn [set_stack pp_stack].
  apply consume_namespaces_pp in H1. apply consume_class_pp in H2. apply check_begin_pp in H3.
  apply update_access_pp in H4. rewrite H4, H3, H2, H1. apply update_parens_pp.
Qed.

(** [Update] on [n] lines in turn, from line [linenum] on. *)
Fixpoint Updates (error : handler) (filename : str) (cl : cleansed_lines) (linenum : Z)
    (n : nat) (ns : nesting_state) : M nesting_state :=
  match n with
  | 0 => mret ns
  | S n => ns ← Update error filename cl linenum ns;
           Updates error filename cl (linenum + 1) n ns
  end.

(** Runs over the given lines, as the preprocessor's stack sees them: whatever
    else a line does, it changes no more than the stack of blocks. *)
Inductive pp_run : list str → nesting_state → nesting_state → Prop :=
| pp_done ns : pp_run [] ns ns
| pp_line line ls ns ns1 ns2 :
    pp_stack ns1 = pp_stack (UpdatePreprocessor line ns) → pp_run ls ns1 ns2 →
    pp_run (line :: ls) ns ns2.

Lemma pp_run_app l1 l2 ns ns' : pp_run (l1 ++ l2) ns ns' →
  ∃ ns1, pp_run l1 ns ns1 ∧ pp_run l2 ns1 ns'.
Proof.
  revert ns. induction l1 as [|line l1 IH]; intros ns H; simpl in H.
  - eexists. split; [constructor|done].
  - inversion H; subst. edestruct IH as (ns1' & ? & ?); [done|]. exists ns1'.
    split; [by econstructor|done].
Qed.

Lemma Updates_pp error filename cl lines rest n ns w ns' w' :
  drop n (elided cl) = lines ++ rest →
  Updates error filename cl (Z.of_nat n) (length lines) ns w = (Ok ns', w') →
  pp_run lines ns ns'.
Proof.
  revert n ns w. induction lines as [|line lines IH]; intros n ns w Hl H; simpl in H.
  - injection H as <- _. constructor.
  - apply M_bind_Ok in H as (ns1 & w1 & H1 & H2).
    apply Update_pp in H1 as (line' & Hline & H1).
    assert (Hn : elided cl !! n = Some line)
      by (rewrite <- (Nat.add_0_r n), <- lookup_drop, Hl; done).
    rewrite py_nth_nat, Hn in Hline. injection Hline as <-.
    econstructor; [done|]. apply (IH (S n) _ w1).
    + rewrite <- Nat.add_1_r, <- drop_drop, Hl. done.
    + by replace (Z.of_nat (S n)) with (Z.of_nat n + 1)%Z by lia.
Qed.

(** What the directives do. *)
Lemma UpdatePreprocessor_if line ns : directive_of line = DIf →
  UpdatePreprocessor line ns =
    NestingState (stack ns) (PreprocessorInfo (stack ns) [] false :: pp_stack ns).
Proof. unfold directive_of, UpdatePreprocessor. by repeat case_match. Qed.

Lemma UpdatePreprocessor_else line ns top below : directive_of line = DElse →
  pp_stack ns = top :: below →
  UpdatePreprocessor line ns =
    NestingState (stack_before_if top)
      ((if seen_else top then top
        else PreprocessorInfo (stack_before_if top) (stack ns) true) :: below).
Proof.
  unfold directive_of, UpdatePreprocessor. intros H ->. destruct (is_pp_if line); [done|].
  destruct (is_pp_else line); [|by destruct (is_pp_endif line)].
  by destruct top as [s e []].
Qed.

Lemma UpdatePreprocessor_endif line ns top below : directive_of line = DEndif →
  pp_stack ns = top :: below →
  UpdatePreprocessor line ns =
    NestingState (if seen_else top then stack_before_else top else stack ns) below.
Proof.
  unfold directive_of, UpdatePreprocessor. intros H ->. destruct (is_pp_if line); [done|].
  destruct (is_pp_else line); [done|]. by destruct (is_pp_endif line).
Qed.

Lemma UpdatePreprocessor_none line ns : directive_of line = DNone →
  UpdatePreprocessor line ns = ns.
Proof. unfold directive_of, UpdatePreprocessor. by repeat case_match. Qed.

(** Balanced lines leave the preprocessor's stack as it was; the branches after
    the first one record in its top entry the blocks where the first ended. *)
Lemma pp_run_structure :
  (∀ ls, balanced ls → ∀ ns ns', pp_run ls ns ns' → pp_stack ns' = pp_stack ns) ∧
  (∀ ls, branches ls → ∀ ns ns' top below, pp_run ls ns ns' → pp_stack ns = top :: below →
     pp_stack ns' = top :: below ∧ (ls = [] ∧ ns' = ns ∨ seen_else top = true) ∨
     pp_stack ns' = PreprocessorInfo (stack_before_if top) (stack ns) true :: below ∧
     seen_else top = false).
Proof.
  apply balanced_branches_ind.
  - intros ns ns' H. by inversion H.
  - intros line ls Hd _ IH ns ns' H. inversion H as [|? ? ? ns1 ? H1 H2]; subst.
    rewrite UpdatePreprocessor_none in H1 by done. rewrite <- H1. by apply IH.
  - intros i body alts e ls Hi _ IHb _ IHa He _ IHl ns ns' H.
    inversion H as [|? ? ? ns1 ? H1 H2]; subst.
    apply pp_run_app in H2 as (ns2 & H2 & (ns3 & H3 & H4)%pp_run_app).
    inversion H4 as [|? ? ? ns4 ? H5 H6]; subst.
    rewrite UpdatePreprocessor_if in H1 by done. apply IHb in H2. rewrite H1 in H2.
    apply IHl in H6. rewrite H6, H5. destruct (IHa _ _ _ _ H3 H2) as [[E _]|[E _]];
      by rewrite (UpdatePreprocessor_endif _ _ _ _ He E).
  - intros ns ns' top below H E. inversion H; subst. auto.
  - intros line body alts Hd _ IHb _ IHa ns ns' top below H E.
    inversion H as [|? ? ? ns1 ? H1 H2]; subst.
    apply pp_run_app in H2 as (ns2 & H2 & H3).
    rewrite (UpdatePreprocessor_else _ _ _ _ Hd E) in H1. apply IHb in H2. rewrite H1 in H2.
    destruct (seen_else top) eqn:Es; destruct (IHa _ _ _ _ H3 H2) as [[E' Hs]|[E' Hs]];
      simpl in *; try congruence; auto.
Qed.

(** C4: whatever the lines of an `#if` conditional do to the stack of open
    blocks, the code sees the file as if only the first branch were there: at
    each `#else` or `#elif` the stack is again the one before the `#if`, and at
    the `#endif` it is the one the first branch ended with, while the stack of
    conditionals is as before the `#if`.  The branches may hold complete
    conditionals of their own. *)
Theorem conditional_keeps_first_branch error filename cl lead i body alts e rest
    ns w ns1 w1 ns2 w2 :
  elided cl = lead ++ (i :: body) ++ alts ++ e :: rest →
  directive_of i = DIf → balanced body → branches alts →
  Updates error filename cl (Z.of_nat (length lead)) (S (length body)) ns w = (Ok ns1, w1) →
  Updates error filename cl (Z.of_nat (length lead + S (length body))) (length alts) ns1 w1
    = (Ok ns2, w2) →
  (directive_of e = DElse → stack (UpdatePreprocessor e ns2) = stack ns) ∧
  (directive_of e = DEndif → UpdatePreprocessor e ns2 = NestingState (stack ns1) (pp_stack ns)).
Proof.
  intros Hl Hi Hb Ha H1 H2.
  eapply (Updates_pp _ _ _ (i :: body)) in H1; [|by rewrite Hl, drop_app_length].
  eapply (Updates_pp _ _ _ alts) in H2;
    [|by rewrite <- drop_drop, Hl, drop_app_length, (drop_app_length (i :: body))].
  inversion H1 as [|? ? ? ns3 ? H3 H4]; subst.
  rewrite UpdatePreprocessor_if in H3 by done.
  apply (proj1 pp_run_structure _ Hb) in H4. rewrite H3 in H4. cbn [pp_stack] in H4.
  destruct (proj2 pp_run_structure _ Ha _ _ _ _ H2 H4) as [[E [[_ ->]|?]]|[E _]]; [|done|];
    (split; intros He;
     [by rewrite (UpdatePreprocessor_else _ _ _ _ He E)
     |by rewrite (UpdatePreprocessor_endif _ _ _ _ He E)]).
Qed.

Definition silent : handler := λ _ _ _ _ _, skip.

Definition conditional_demo : cleansed_lines :=
  let ls := [u "#ifdef A"; u "class Foo : public Bar {"; u "#else"; u "class Foo {";
             u "# if B"; u "namespace x {"; u "# endif"; u "#endif"] in
  CleansedLines ls ls ls 8 ls.

(** The runs over the `#if` branch and over the `#else` branch. *)
Definition demo_first : nesting_state :=
  match Updates silent (u "f.h") conditional_demo 0 2 init_nesting_state init_world with
  | (Ok ns, _) => ns | _ => init_nesting_state end.
Definition demo_second : nesting_state :=
  match Updates silent (u "f.h") conditional_demo 2 5 demo_first init_world with
  | (Ok ns, _) => ns | _ => init_nesting_state end.

Lemma conditional_keeps_first_branch_witness :
  length (stack demo_first) = 1 ∧ length (stack demo_second) = 2 ∧
  (directive_of (u "#endif") = DElse →
     stack (UpdatePreprocessor (u "#endif") demo_second) = []) ∧
  (directive_of (u "#endif") = DEndif →
     UpdatePreprocessor (u "#endif") demo_second = NestingState (stack demo_first) []).
Proof.
  split; [vm_compute; reflexivity|]. split; [vm_compute; reflexivity|].
  apply (conditional_keeps_first_branch silent (u "f.h") conditional_demo []
    (u "#ifdef A") [u "class Foo : public Bar {"]
    [u "#else"; u "class Foo {"; u "# if B"; u "namespace x {"; u "# endif"] (u "#endif") []
    init_nesting_state init_world demo_first init_world demo_second init_world).
  - reflexivity.
  - vm_compute. reflexivity.
  - apply bal_line; [vm_compute; reflexivity|constructor].
  - apply (br_else (u "#else") [u "class Foo {"; u "# if B"; u "namespace x {"; u "# endif"] []);
      [vm_compute; reflexivity| |constructor].
    apply bal_line; [vm_compute; reflexivity|].
    apply (bal_if (u "# if B") [u "namespace x {"] [] (u "# endif") []);
      [vm_compute; reflexivity| |constructor|vm_compute; reflexivity|constructor].
    apply bal_line; [vm_compute; reflexivity|constructor].
  - vm_compute. reflexivity.
  - vm_compute. reflexivity.
Defined.
(** ** [Update] always returns *)

Lemma end_namespace_pattern_compiles name :
  is_ok (or_raise ReError (re_compile (end_namespace_pattern name))).
Proof.
  apply is_ok_or_raise.
  unfold end_namespace_pattern.
  pose (items :=
    rev (items_of (re_body (rx "};*\s*(//|/\*).*\bnamespace\s")))).
  apply (re_compile_around _ _ _ 20 0 4
           (Rep true 1 None (hd Eps items) :: tail items) 2); [| |done|vm_compute; lia..].
  - intros fuel rest Hr.
    transitivity (parse_seq false (S fuel) items (Pst (ch "+" :: rest) 2 false)).
    + vm_compute. reflexivity.
    + apply parse_repetition; [done| |reflexivity]. rewrite !elem_of_cons. auto.
  - intros fuel acc'. do 3 eexists. reflexivity.
Qed.

Lemma namespace_decl_shrinks : shrinks 2 namespace_decl = true.
Proof. vm_compute. reflexivity. Qed.

Lemma brace_or_semicolon_shrinks : shrinks 2 brace_or_semicolon = true.
Proof. vm_compute. reflexivity. Qed.

Lemma consume_namespaces_returns fuel line n ns : length line < fuel →
  ∃ line' ns', consume_namespaces fuel line n ns = Ok (line', ns').
Proof.
  revert line ns. induction fuel as [|fuel IH]; intros line ns Hf; [lia|].
  cbn [consume_namespaces]. destruct (re_match namespace_decl line) as [mo|] eqn:E.
  - apply (group_shrinks 2) in E; [|exact namespace_decl_shrinks].
    destruct (negb _); apply IH; [|lia]. unfold py_from. rewrite length_drop. lia.
  - by exists line, ns.
Qed.

Section Update_returns.
Context (error : handler) (filename : str) (cl : cleansed_lines).
Context (Inv : world → Prop) `{!Returning Inv error}.
Context (linenum : Z) (line raw : str).
Context (Hline : py_nth (elided cl) linenum = Ok line).
Context (Hraw : py_nth (raw_lines cl) linenum = Ok raw).

Lemma CheckEnd_returns b : returns Inv (CheckEnd b error filename cl linenum).
Proof.
  pose proof end_namespace_pattern_compiles. assert (is_ok (py_nth (elided cl) linenum)) by (by exists line).
  assert (is_ok (py_nth (raw_lines cl) linenum)) by (by exists raw).
  unfold CheckEnd, class_CheckEnd, namespace_CheckEnd. return_.
Qed.

Lemma step_token_returns token text s :
  returns Inv (step_token error filename cl linenum token text s).
Proof. unfold step_token. pose proof CheckEnd_returns. return_. Qed.

Lemma consume_braces_returns fuel text s : length text < fuel →
  returns Inv (consume_braces error filename cl linenum fuel text s).
Proof.
  revert text s. induction fuel as [|fuel IH]; intros text s Hf; [lia|]. cbn [consume_braces].
  destruct (re_match brace_or_semicolon text) as [mo|] eqn:E; [|apply returns_ret].
  apply returns_bind; [apply step_token_returns|]. intros s'. apply IH.
  apply (group_shrinks 2) in E; [lia|exact brace_or_semicolon_shrinks].
Qed.

Lemma consume_class_returns text ns : ∃ text' ns',
  consume_class text cl linenum ns = Ok (text', ns').
Proof.
  unfold consume_class, _ClassInfo. rewrite Hraw.
  destruct (re_match class_decl text); [destruct (match stack ns with [] => true | _ => _ end)|];
    [destruct (str_eqb _ _)| |]; simpl; eauto.
Qed.

Lemma check_begin_returns ns : ∃ ns', check_begin cl linenum ns = Ok ns'.
Proof.
  unfold check_begin, CheckBegin. rewrite Hline. destruct (stack ns) as [|b s]; [eauto|].
  destruct (negb _); [|eauto]. destruct (kind b); simpl; eauto.
Qed.

Lemma update_access_returns text ns :
  returns Inv (update_access error filename text linenum ns).
Proof. unfold update_access. return_. Qed.

Lemma Update_returns_at ns : returns Inv (Update error filename cl linenum ns).
Proof.
  unfold Update. rewrite Hline. apply returns_bind_lift; [by exists line|]. intros ? [= <-].
  cbv zeta.
  destruct (consume_namespaces_returns (S (length line)) line linenum
    (update_parens line (UpdatePreprocessor line ns))) as (l1 & ns1 & E1); [lia|].
  rewrite E1. apply returns_bind_lift; [by eexists|]. intros ? [= <-].
  destruct (consume_class_returns l1 ns1) as (l2 & ns2 & E2).
  rewrite E2. apply returns_bind_lift; [by eexists|]. intros ? [= <-].
  destruct (check_begin_returns ns2) as (ns3 & E3).
  rewrite E3. apply returns_bind_lift; [by eexists|]. intros ? [= <-].
  apply returns_bind; [apply update_access_returns|]. intros ns4.
  apply returns_bind; [apply consume_braces_returns; lia|]. intros s. apply returns_ret.
Qed.
End Update_returns.

(** C7: `Update` returns on every line of the file, whatever it holds: its two
    loops, which eat namespace declarations and then braces and semicolons off
    the front of the line, both end; every index it uses is in range; and the
    pattern built from a namespace's name compiles whatever the name is.  The
    error handler is only asked to return. *)
Theorem Update_returns error filename cl linenum ns w :
  always_returns error →
  (0 <= linenum < Z.of_nat (length (elided cl)))%Z →
  length (raw_lines cl) = length (elided cl) →
  ∃ ns' w', Update error filename cl linenum ns w = (Ok ns', w').
Proof.
  intros Herr Hn Hl.
  destruct (py_nth_Ok (elided cl) linenum) as (line & Hline & _); [lia|].
  destruct (py_nth_Ok (raw_lines cl) linenum) as (raw & Hraw & _); [lia|].
  pose proof (always_returning error Herr) as Hret.
  destruct (wp_no_exn _ _ _ (Update_returns_at error filename cl (λ _, True) linenum line raw
    Hline Hraw ns w I)) as (ns' & w' & ? & _). by exists ns', w'.
Qed.

Lemma Update_returns_witness : ∃ ns' w',
  Update silent (u "f.h") conditional_demo 1 init_nesting_state init_world = (Ok ns', w').
Proof.
  apply (Update_returns silent); [|vm_compute; split; [discriminate|reflexivity]|reflexivity].
  intros f n c k m w. by exists w.
Defined.
