(* ===== verification/Spacing.v ===== *)
(** * Spacing checks

    [CheckSpacingForFunctionCall], [CheckSpacing] and [CheckSectionSpacing] of
    cpplint.py.  [CheckSpacing] is one long function there; here each of its
    passages is a definition and [CheckSpacing] runs them in order. *)
From S2P Require Import Prelude PyStr Regex RegexParse PyRe World LintState.
From S2P Require Import Cleanse Expr FileInfo LineChecks Nesting.

(** The text inside the parentheses of the first control structure found. *)
Fixpoint first_inside (patterns : list compiled) (line : str) : str :=
  match patterns with
  | [] => line
  | p :: patterns =>
      match re_search p line with
      | Some mo => group_str mo 1
      | None => first_inside patterns line
      end
  end.

Definition control_patterns : list compiled :=
  [rx "\bif\s*\((.*)\)\s*{"; rx "\bfor\s*\((.*)\)\s*{";
   rx "\bwhile\s*\((.*)\)\s*[{;]"; rx "\bswitch\s*\((.*)\)\s*{"].

Definition CheckSpacingForFunctionCall (error : handler) (filename line : str) (linenum : Z)
    : M unit :=
  let fncall := first_inside control_patterns line in
  let parens confidence msg := error filename linenum (u "whitespace/parens") confidence msg in
  when (  (** Ignore control structures. *)
        negb (found (rx "\b(if|for|while|switch|return|new|delete|catch|sizeof)\b") fncall) &&
          (** Ignore pointers/references to functions. *)
        negb (found (rx " \([^)]+\)\([^)]*(\)|,$)") fncall) &&
          (** Ignore pointers/references to arrays. *)
        negb (found (rx " \([^)]+\)\[[^\]]+\]") fncall)) (
    (if found (rx "\w\s*\(\s(?!\s*\\$)") fncall
     then parens 4%Z (u "Extra space after ( in function call")
     else when (found (rx "\(\s+(?!(\s*\\)|\()") fncall) (parens 2%Z (u "Extra space after ("))) ;;
    when (found (rx "\w\s+\(") fncall &&
          negb (found (rx "#\s*define|typedef") fncall) &&
          negb (found (rx "\w\s+\((\w+::)*\*\w+\)\(") fncall))
      (parens 4%Z (u "Extra space before ( in function call")) ;;
    when (found (rx "[^)]\s+\)\s*[^{\s]") fncall) (
      if found (rx "^\s+\)") fncall
      then parens 2%Z (u "Closing ) should be moved to the previous line")
      else parens 2%Z (u "Extra space before )"))).

(** ** Blank lines at the ends of blocks *)

Fixpoint skip_matching (c : compiled) (rest : list str) : list str :=
  match rest with
  | [] => []
  | l :: rest' => if matches c l then skip_matching c rest' else rest
  end.

(** Does the line before a blank one end the parameters or the initializers of
    a function header? *)
Definition header_exception (prev_line : str) (before : list str) : bool :=
  if matches (rx " {6}\w") prev_line then
    match skip_matching (rx " {6}\w") before with
    | l :: _ => str_eqb (take 5 l) (u "    :")
    | [] => false
    end
  else matches (rx " {4}\w[^\(]*\)\s*(const\s*)?(\{\s*$|:)") prev_line
       || matches (rx " {4}:") prev_line.

Definition check_blank_line (error : handler) (filename : str) (cl : cleansed_lines)
    (linenum : Z) (ns : nesting_state) (line : str) : M unit :=
  when (IsBlankLine line && negb (InNamespaceBody ns)) (
    prev_line ← lift (py_nth (elided cl) (linenum - 1));
    let prevbrace := rfind prev_line (u "{") in
    when (negb (prevbrace =? -1)%Z && (find (py_from prev_line prevbrace) (u "}") =? -1)%Z)
      (when (negb (header_exception prev_line
                     (rev (take (Z.to_nat (linenum - 1)) (elided cl)))))
         (error filename linenum (u "whitespace/blank_line") 2%Z
            (u "Redundant blank line at the start of a code block should be deleted."))) ;;
    when (linenum + 1 <? NumLines cl)%Z (
      next_line ← lift (py_nth (lines_without_raw_strings cl) (linenum + 1));
      when (negb (str_eqb next_line []) && matches (rx "\s*}") next_line &&
            (find next_line (u "} else ") =? -1)%Z)
        (error filename linenum (u "whitespace/blank_line") 3%Z
           (u "Redundant blank line at the end of a code block should be deleted."))) ;;
    match re_match (rx "\s*(public|protected|private):") prev_line with
    | Some matched =>
        error filename linenum (u "whitespace/blank_line") 3%Z
          (u "Do not leave a blank line after `" ++ group_str matched 1 ++ u ":`")
    | None => skip
    end).

(** ** Comments too near the text *)

(** [commentpos >= n and line[commentpos-n] not in string.whitespace]. *)
Definition text_before (line : str) (commentpos n : Z) : res bool :=
  if (n <=? commentpos)%Z
  then c ← py_nth line (commentpos - n); mret (negb (is_space c)) else mret false.

Definition check_comment_spacing (error : handler) (filename : str) (linenum : Z) (line : str)
    : M unit :=
  let commentpos := find line (u "//") in
  when (negb (commentpos =? -1)%Z) (
    (** Check if the // may be in quotes.  If so, ignore it *)
    when ((count_to line (u "`") commentpos - count_to line (u "\`") commentpos) mod 2 =? 0)%Z (
      (** Allow one space for new scopes, two spaces otherwise *)
      near1 ← lift (text_before line commentpos 1);
      near2 ← lift (text_before line commentpos 2);
      when (negb (matches (rx "^\s*{ //") line) && (near1 || near2))
        (error filename linenum (u "whitespace/comments") 2%Z
           (u "At least two spaces is best between code and comments")) ;;
      (** There should always be a space between the // and the comment *)
      let commentend := (commentpos + 2)%Z in
      when (commentend <? Z.of_nat (length line))%Z (
        c ← lift (py_nth line commentend);
        let rest := py_from line commentend in
        when (negb (c =? ch " ")%N &&
              negb (found (rx "[=/-]{4,}\s*$") rest || found (rx "^/$") rest ||
                    found (rx "^!< ") rest || found (rx "^/< ") rest || found (rx "^/+ ") rest))
          (error filename linenum (u "whitespace/comments") 4%Z
             (u "Should have a space between // and comment"))) ;;
      CheckComment error (py_from line commentpos) filename linenum)).

(** ** Operators *)

Definition hide_operator_methods (line : str) : str :=
  re_sub (rx "operator(==|!=|<|<<|<=|>=|>>|>)\(") (u "operator\(") line.

Definition isdigit `{Env} (s : str) : bool :=
  match s with [] => false | _ => forallb uni_isdigit s end.

Definition check_angle_spacing (error : handler) (filename : str) (cl : cleansed_lines)
    (linenum : Z) (line : str) : M unit :=
  (** Avoid false positives on -> *)
  let reduced_line := replace line (u "->") [] in
  match re_search (rx "[^\s<]<([^\s=<].*)") reduced_line with
  | Some mo =>
      closed ← lift (FindNextMatchingAngleBracket cl linenum (group_str mo 1));
      when (negb closed)
        (error filename linenum (u "whitespace/operators") 3%Z (u "Missing spaces around <"))
  | None => skip
  end ;;
  match re_search (rx "^(.*[^\s>])>[^\s=>]") reduced_line with
  | Some mo =>
      opened ← lift (FindPreviousMatchingAngleBracket cl linenum (group_str mo 1));
      when (negb opened)
        (error filename linenum (u "whitespace/operators") 3%Z (u "Missing spaces around >"))
  | None => skip
  end.

Definition check_operator_spacing `{Env} (error : handler) (filename : str)
    (cl : cleansed_lines) (linenum : Z) (line : str) : M unit :=
  let operators confidence msg :=
    error filename linenum (u "whitespace/operators") confidence msg in
  when (found (rx "[\w.]=[\w.]") line && negb (found (rx "\b(if|while) ") line))
    (operators 4%Z (u "Missing spaces around =")) ;;
  (** You should always have whitespace around binary operators. *)
  match re_search (rx "[^<>=!\s](==|!=|<=|>=)[^<>=!\s]") line with
  | Some mo => operators 3%Z (u "Missing spaces around " ++ group_str mo 1)
  | None => skip
  end ;;
  (** We allow no-spaces around << when used like this: 10<<20, but not
      otherwise. Also ignore using ns::operator<<; *)
  let shift := re_search (rx "(operator|\S)(?:L|UL|ULL|l|ul|ull)?<<(\S)") line in
  let bad_shift :=
    match shift with
    | Some mo =>
        negb (isdigit (group_str mo 1) && isdigit (group_str mo 2)) &&
        negb (str_eqb (group_str mo 1) (u "operator") && str_eqb (group_str mo 2) (u ";"))
    | None => false
    end in
  (if bad_shift then operators 3%Z (u "Missing spaces around <<")
   else when (negb (matches (rx "#.*include") line))
          (check_angle_spacing error filename cl linenum line)) ;;
  when (found (rx ">>[a-zA-Z_]") line) (operators 3%Z (u "Missing spaces around >>")) ;;
  (** There shouldn't be space around unary operators *)
  match re_search (rx "(!\s|~\s|[\s]--[\s;]|[\s]\+\+[\s;])") line with
  | Some mo => operators 4%Z (u "Extra space for operator " ++ group_str mo 1)
  | None => skip
  end.

(** ** Parentheses, commas and semicolons *)

Definition check_paren_spacing (error : handler) (filename : str) (linenum : Z) (line : str)
    : M unit :=
  let parens msg := error filename linenum (u "whitespace/parens") 5%Z msg in
  match re_search (rx " (if\(|for\(|while\(|switch\()") line with
  | Some mo => parens (u "Missing space before ( in " ++ group_str mo 1)
  | None => skip
  end ;;
  (** For if/for/while/switch, the left and right parens should be consistent
      about how many spaces are inside the parens. *)
  match re_search (rx "\b(if|for|while|switch)\s*\(([ ]*)(.).*[^ ]+([ ]*)\)\s*{\s*$") line with
  | Some mo =>
      let l2 := length (group_str mo 2) in
      let l4 := length (group_str mo 4) in
      when (negb (l2 =? l4)%nat)
        (when (negb (str_eqb (group_str mo 3) (u ";") && (l2 =? 1 + l4)%nat ||
                     (l2 =? 0)%nat && found (rx "\bfor\s*\(.*; \)") line))
           (parens (u "Mismatching spaces inside () in " ++ group_str mo 1))) ;;
      when (negb (l2 <=? 1)%nat)
        (parens (u "Should have zero or one spaces inside ( and ) in " ++ group_str mo 1))
  | None => skip
  end.

Definition check_comma_semicolon (error : handler) (filename : str) (cl : cleansed_lines)
    (linenum : Z) (line : str) : M unit :=
  when (found (rx ",[^,\s]") line) (
    raw ← lift (py_nth (lines_without_raw_strings cl) linenum);
    when (found (rx ",[^,\s]") raw)
      (error filename linenum (u "whitespace/comma") 3%Z (u "Missing space after ,"))) ;;
  when (found (rx ";[^\s};\\)/]") line)
    (error filename linenum (u "whitespace/semicolon") 3%Z (u "Missing space after ;")).

(** ** Braces *)

(** What follows the closing brace: the rest of its line and the next two. *)
Definition trailing_text (cl : cleansed_lines) (w : where_) : res str :=
  let '(endline, endlinenum, endpos) := w in
  foldl_res (λ text offset, l ← py_nth (elided cl) offset; mret (text ++ l))
    (if (-1 <? endpos)%Z then py_from endline endpos else [])
    (zrange (endlinenum + 1) (Z.min (endlinenum + 3) (NumLines cl - 1))).

Definition check_brace_spacing (error : handler) (filename : str) (cl : cleansed_lines)
    (linenum : Z) (line : str) : M unit :=
  let braces msg := error filename linenum (u "whitespace/braces") 5%Z msg in
  match re_match (rx "^(.*[^ ({]){") line with
  | Some mo =>
      w ← lift (CloseExpression cl linenum (Z.of_nat (length (group_str mo 1))));
      trailing ← lift (trailing_text cl w);
      when (negb (matches (rx "^[\s}]*[{.;,)<\]]") trailing))
        (braces (u "Missing space before {"))
  | None => skip
  end ;;
  when (found (rx "}else") line) (braces (u "Missing space before else")) ;;
  when (found (rx "\w\s+\[") line && negb (found (rx "delete\s+\[") line))
    (braces (u "Extra space before [")).

(** ** Semicolons at the end, range-based for *)

Definition check_final_semicolon (error : handler) (filename : str) (linenum : Z) (line : str)
    : M unit :=
  let semicolon msg := error filename linenum (u "whitespace/semicolon") 5%Z msg in
  (if found (rx ":\s*;\s*$") line
   then semicolon (u "Semicolon defining empty statement. Use {} instead.")
   else if found (rx "^\s*;\s*$") line
   then semicolon (u "Line contains only semicolon. If this should be an empty statement, use {} instead.")
   else when (found (rx "\s+;\s*$") line && negb (found (rx "\bfor\b") line))
     (semicolon (u "Extra space before last semicolon. If this should be an empty statement, use {} instead."))) ;;
  when (found (rx "for *\(.*[^:]:[^: ]") line || found (rx "for *\(.*[^: ]:[^:]") line)
    (error filename linenum (u "whitespace/forcolon") 2%Z
       (u "Missing space around colon in range-based for loop")).

Definition CheckSpacing `{Env} (error : handler) (filename : str) (cl : cleansed_lines)
    (linenum : Z) (ns : nesting_state) : M unit :=
  line ← lift (py_nth (lines_without_raw_strings cl) linenum);
  check_blank_line error filename cl linenum ns line ;;
  check_comment_spacing error filename linenum line ;;
  line ← lift (py_nth (elided cl) linenum);
  let line := hide_operator_methods line in
  check_operator_spacing error filename cl linenum line ;;
  check_paren_spacing error filename linenum line ;;
  check_comma_semicolon error filename cl linenum line ;;
  CheckSpacingForFunctionCall error filename line linenum ;;
  check_brace_spacing error filename cl linenum line ;;
  check_final_semicolon error filename linenum line.

(** ** Sections of a class *)

(** The first line from [i] on that ends with an opening brace. *)
Fixpoint end_of_class_head (rest : list str) (i : Z) : option Z :=
  match rest with
  | [] => None
  | l :: rest => if found (rx "\{\s*$") l then Some i else end_of_class_head rest (i + 1)
  end.

Definition CheckSectionSpacing (error : handler) (filename : str) (cl : cleansed_lines)
    (c : class_info) (linenum : Z) : M unit :=
  (** Skip checks if the class is small, or on the first line. *)
  if (last_line c - c_starting_linenum c <=? 24)%Z || (linenum <=? c_starting_linenum c)%Z
  then skip
  else
    line ← lift (py_nth (lines cl) linenum);
    match re_match (rx "\s*(public|protected|private):") line with
    | None => skip
    | Some matched =>
        prev_line ← lift (py_nth (lines cl) (linenum - 1));
        when (negb (IsBlankLine prev_line) &&
              negb (found (rx "\b(class|struct)\b") prev_line) &&
              negb (found (rx "\\$") prev_line)) (
          (** Try a bit harder to find the beginning of the class. *)
          let start := c_starting_linenum c in
          let head := take (Z.to_nat (linenum - start)) (drop (Z.to_nat start) (lines cl)) in
          let end_class_head := default start (end_of_class_head head start) in
          when (end_class_head <? linenum - 1)%Z
            (error filename linenum (u "whitespace/blank_line") 3%Z
               (u "`" ++ group_str matched 1 ++ u ":` should be preceded by a blank line")))
    end.
