(* ===== verification/Braces.v ===== *)
(** * Braces and empty bodies

    [CheckBraces] and [CheckEmptyBlockBody] of cpplint.py, the former passage
    by passage. *)
From S2P Require Import Prelude PyStr Regex RegexParse PyRe World LintState.
From S2P Require Import Cleanse Expr LineChecks.

Definition check_lone_brace (error : handler) (filename : str) (cl : cleansed_lines)
    (linenum : Z) (line : str) : M unit :=
  when (matches (rx "\s*{\s*$") line) (
    let prevline := (GetPreviousNonBlankLine cl linenum).1 in
    when (negb (found (rx "[,;:}{(]\s*$") prevline) && negb (matches (rx "\s*#") prevline))
      (error filename linenum (u "whitespace/braces") 4%Z
         (u "{ should almost always be at the end of the previous line"))).

(** An else clause should be on the same line as the preceding closing brace. *)
Definition check_else_line (error : handler) (filename : str) (cl : cleansed_lines)
    (linenum : Z) (line : str) : M unit :=
  when (matches (rx "\s*else\s*") line) (
    let prevline := (GetPreviousNonBlankLine cl linenum).1 in
    when (matches (rx "\s*}\s*$") prevline)
      (error filename linenum (u "whitespace/newline") 4%Z
         (u "An else should appear on the same line as the preceding }"))).

(** If braces come on one side of an else, they should be on both. *)
Definition check_else_braces (error : handler) (filename : str) (cl : cleansed_lines)
    (linenum : Z) (line : str) : M unit :=
  let report := error filename linenum (u "readability/braces") 5%Z
    (u "If an else has a brace on one side, it should have it on both") in
  when (found (rx "}\s*else[^{]*$") line || matches (rx "[^}]*else\s*{") line) (
    if found (rx "}\s*else if([^{]*)$") line then       (* could be multi-line if *)
      (** find the ( after the if *)
      let pos := find_from line (u "(") (find line (u "else if")) in
      when (0 <? pos)%Z (
        '(endline, _, endpos) ← lift (CloseExpression cl linenum pos);
        when (find (py_from endline endpos) (u "{") =? -1)%Z report)
    else report).

Definition check_else_clause (error : handler) (filename : str) (linenum : Z) (line : str)
    : M unit :=
  (** An else should never have the else clause on the same line *)
  when (found (rx "\belse [^\s{]") line && negb (found (rx "\belse if\b") line))
    (error filename linenum (u "whitespace/newline") 4%Z
       (u "Else clause should never be on same line as else (use 2 lines)")) ;;
  (** In the same way, a do/while should never be on one line *)
  when (matches (rx "\s*do [^\s{]") line)
    (error filename linenum (u "whitespace/newline") 4%Z
       (u "do/while clauses should not be on a single line")).

(** ** A block followed by a semicolon *)

Definition safe_macros : list str :=
  [u "TEST"; u "TEST_F"; u "MATCHER"; u "MATCHER_P"; u "TYPED_TEST";
   u "EXCLUSIVE_LOCKS_REQUIRED"; u "SHARED_LOCKS_REQUIRED"; u "LOCKS_EXCLUDED";
   u "INTERFACE_DEF"].

(** Is the parenthesis before the brace a macro's or an initializer's? *)
Definition spared_prefix (line_prefix : str) : bool :=
  match re_search (rx "\b([A-Z_]+)\s*$") line_prefix with
  | Some macro => negb (str_in (group_str macro 1) safe_macros)
  | None => false
  end || found (rx "\s+=\s*$") line_prefix.

(** The six cases of a block that needs no semicolon; the text before its
    opening brace. *)
Definition eligible_block (cl : cleansed_lines) (linenum : Z) (line : str)
    : res (option str) :=
  match re_match (rx "^(.*\)\s*)\{") line with
  | Some mo =>
      (** Matched closing parenthesis (case 1). *)
      let before := group_str mo 1 in
      '(pline, _, ppos) ← ReverseCloseExpression cl linenum (rfind before (u ")"));
      if (-1 <? ppos)%Z && spared_prefix (py_slice pline 0 ppos) then mret None
      else mret (Some before)
  | None =>
      (** Try matching cases 2-3. *)
      match re_match (rx "^(.*(?:else|\)\s*const)\s*)\{") line with
      | Some mo => mret (Some (group_str mo 1))
      | None =>
          (** Try matching cases 4-6. *)
          let prevline := (GetPreviousNonBlankLine cl linenum).1 in
          if negb (str_eqb prevline []) && found (rx "[;{}]\s*$") prevline
          then mret ((λ mo, group_str mo 1) <$> re_match (rx "^(\s*)\{") line)
          else mret None
      end
  end.

Definition check_block_semicolon (error : handler) (filename : str) (cl : cleansed_lines)
    (linenum : Z) (line : str) : M unit :=
  eligible ← lift (eligible_block cl linenum line);
  match eligible with
  | None => skip
  | Some before =>
      (** Check matching closing brace *)
      '(endline, endlinenum, endpos) ←
        lift (CloseExpression cl linenum (Z.of_nat (length before)));
      when ((-1 <? endpos)%Z && matches (rx "^\s*;") (py_from endline endpos))
        (error filename endlinenum (u "readability/braces") 4%Z
           (u "You don't need a ; after a }"))
  end.

Definition CheckBraces (error : handler) (filename : str) (cl : cleansed_lines)
    (linenum : Z) : M unit :=
  line ← lift (py_nth (elided cl) linenum);
  check_lone_brace error filename cl linenum line ;;
  check_else_line error filename cl linenum line ;;
  check_else_braces error filename cl linenum line ;;
  check_else_clause error filename linenum line ;;
  check_block_semicolon error filename cl linenum line.

(** ** Empty bodies *)

Definition CheckEmptyBlockBody (error : handler) (filename : str) (cl : cleansed_lines)
    (linenum : Z) : M unit :=
  line ← lift (py_nth (elided cl) linenum);
  match re_match (rx "\s*(for|while|if)\s*\(") line with
  | None => skip
  | Some matched =>
      (** Find the end of the conditional expression *)
      '(end_line, end_linenum, end_pos) ← lift (CloseExpression cl linenum (find line (u "(")));
      when ((0 <=? end_pos)%Z && matches (rx ";") (py_from end_line end_pos)) (
        if str_eqb (group_str matched 1) (u "if")
        then error filename end_linenum (u "whitespace/empty_conditional_body") 5%Z
               (u "Empty conditional bodies should use {}")
        else error filename end_linenum (u "whitespace/empty_loop_body") 5%Z
               (u "Empty loop bodies should use {} or continue"))
  end.
