(* ===== verification/CheckMacros.v ===== *)
(** * CHECK macros and alternative tokens

    [CheckCheck] with its table of replacement macros, and [CheckAltTokens]; the
    suggested macro tests the same condition, and [CheckCheck] always returns. *)
From S2P Require Import Prelude PyStr Regex RegexParse PyRe World LintState.
From S2P Require Import Cleanse Expr.

(** Assertion macros; the _M versions come first for substring matching. *)
Definition _CHECK_MACROS : list str :=
  [u "DCHECK"; u "CHECK"; u "EXPECT_TRUE_M"; u "EXPECT_TRUE"; u "ASSERT_TRUE_M";
   u "ASSERT_TRUE"; u "EXPECT_FALSE_M"; u "EXPECT_FALSE"; u "ASSERT_FALSE_M";
   u "ASSERT_FALSE"].

Definition op_replacements : list (str * str) :=
  [(u "==", u "EQ"); (u "!=", u "NE"); (u ">=", u "GE"); (u ">", u "GT");
   (u "<=", u "LE"); (u "<", u "LT")].
Definition op_inv_replacements : list (str * str) :=
  [(u "==", u "NE"); (u "!=", u "EQ"); (u ">=", u "LT"); (u ">", u "LE");
   (u "<=", u "GT"); (u "<", u "GE")].

Definition assoc {A} (l : list (str * A)) (k : str) : res A :=
  match List.find (λ p, str_eqb p.1 k) l with
  | Some (_, v) => Ok v
  | None => Raise KeyError
  end.

(** The table a macro's operators are looked up in, and the text around the
    suffix: [_CHECK_REPLACEMENT]. *)
Definition _CHECK_REPLACEMENT : list (str * (list (str * str) * str * str)) :=
  [(u "DCHECK", (op_replacements, u "DCHECK_", []));
   (u "CHECK", (op_replacements, u "CHECK_", []));
   (u "EXPECT_TRUE", (op_replacements, u "EXPECT_", []));
   (u "ASSERT_TRUE", (op_replacements, u "ASSERT_", []));
   (u "EXPECT_TRUE_M", (op_replacements, u "EXPECT_", u "_M"));
   (u "ASSERT_TRUE_M", (op_replacements, u "ASSERT_", u "_M"));
   (u "EXPECT_FALSE", (op_inv_replacements, u "EXPECT_", []));
   (u "ASSERT_FALSE", (op_inv_replacements, u "ASSERT_", []));
   (u "EXPECT_FALSE_M", (op_inv_replacements, u "EXPECT_", u "_M"));
   (u "ASSERT_FALSE_M", (op_inv_replacements, u "ASSERT_", u "_M"))].

(** [_CHECK_REPLACEMENT[macro][operator]]. *)
Definition check_replacement (macro operator : str) : res str :=
  '(table, before, after) ← assoc _CHECK_REPLACEMENT macro;
  suffix ← assoc table operator;
  mret (before ++ suffix ++ after).

(** ** Finding the macro *)

(** The pattern of a use of [check_macro] with its opening parenthesis. *)
Definition macro_pattern (check_macro : str) : str :=
  u "^(.*\b" ++ check_macro ++ u "\s*)\(".

(** The first macro of the list that the line uses, with the position of its
    parenthesis.  A macro found as a substring without matching the pattern is
    remembered, but it leaves [start_pos] at -1. *)
Fixpoint find_macro (macros : list str) (line : str) : res (option (str * Z)) :=
  match macros with
  | [] => mret None
  | macro :: macros =>
      if contains line macro then
        c ← or_raise ReError (re_compile (macro_pattern macro));
        match re_match c line with
        | Some matched => mret (Some (macro, Z.of_nat (length (group_str matched 1))))
        | None => find_macro macros line
        end
      else find_macro macros line
  end.

(** ** Parsing the expression *)

Inductive parsed := Bail | Parsed (lhs : str) (operator : option str) (rhs : str).

(** The [while expression] loop; each round drops a part of the expression. *)
Fixpoint parse_check (fuel : nat) (lhs expression : str) : res parsed :=
  match fuel with
  | 0 => Raise OutOfFuel
  | S fuel =>
      match expression with
      | [] => mret (Parsed lhs None [])
      | _ =>
          match re_match (rx "^\s*(<<|<<=|>>|>>=|->\*|->|&&|\|\||==|!=|>=|>|<=|<|\()(.*)$")
                  expression with
          | Some matched =>
              let token := group_str matched 1 in
              if str_eqb token (u "(") then
                (** Parenthesized operand *)
                let expression := group_str matched 2 in
                let '(e, _) := FindEndOfExpressionInLine expression 0 1 (ch "(") (ch ")") in
                if (e <? 0)%Z then mret Bail                    (* Unmatched parenthesis *)
                else parse_check fuel (lhs ++ u "(" ++ py_to expression e)
                       (py_from expression e)
              else if str_in token [u "&&"; u "||"] then mret Bail
              else if str_in token [u "<<"; u "<<="; u ">>"; u ">>="; u "->*"; u "->"] then
                (** Non-relational operator *)
                parse_check fuel (lhs ++ token) (group_str matched 2)
              else mret (Parsed lhs (Some token) (group_str matched 2))
          | None =>
              (** Unparenthesized operand. *)
              match re_match (rx "^([^-=!<>()&|]+)(.*)$") expression with
              | Some matched => parse_check fuel (lhs ++ group_str matched 1) (group_str matched 2)
              | None =>
                  match re_match (rx "^(\s*\S)(.*)$") expression with
                  | Some matched =>
                      parse_check fuel (lhs ++ group_str matched 1) (group_str matched 2)
                  | None => mret (Parsed lhs None [])
                  end
              end
          end
      end
  end.

(** Decimal and hexadecimal integers, strings, characters. *)
Definition match_constant : compiled :=
  rx "^([-+]?(\d+|0[xX][0-9a-fA-F]+)[lLuU]{0,3}|`.*`|\'.*\')$".

(** The text between the macro's parentheses. *)
Definition check_expression (cl : cleansed_lines) (line : str) (linenum start_pos : Z)
    (closing : where_) : res str :=
  let '(last_line, end_line, end_pos) := closing in
  if (linenum =? end_line)%Z then mret (py_slice line (start_pos + 1) (end_pos - 1))
  else
    expression ← foldl_res (λ text i, l ← py_nth (elided cl) i; mret (text ++ l))
      (py_from line (start_pos + 1)) (zrange (linenum + 1) end_line);
    mret (expression ++ py_to last_line (end_pos - 1)).

Definition CheckCheck (error : handler) (filename : str) (cl : cleansed_lines)
    (linenum : Z) : M unit :=
  line ← lift (py_nth (elided cl) linenum);
  macro ← lift (find_macro _CHECK_MACROS line);
  match macro with
  | None => skip
  | Some (check_macro, start_pos) =>
      closing ← lift (CloseExpression cl linenum start_pos);
      if (closing.2 <? 0)%Z then skip else
      expression ← lift (check_expression cl line linenum start_pos closing);
      parsed ← lift (parse_check (S (length expression)) [] expression);
      match parsed with
      | Parsed (_ :: _ as lhs) (Some operator) (_ :: _ as rhs) =>
          (** Check that rhs do not contain logical operators. *)
          if contains rhs (u "&&") || contains rhs (u "||") then skip
          else
            (** At least one of the operands must be a constant literal. *)
            when (matches match_constant (strip lhs) || matches match_constant (strip rhs)) (
              replacement ← lift (check_replacement check_macro operator);
              error filename linenum (u "readability/check") 2%Z
                (u "Consider using " ++ replacement ++ u " instead of " ++ check_macro
                 ++ u "(a " ++ operator ++ u " b)"))
      | _ => skip
      end
  end.

(** ** Alternative tokens *)

Definition _ALT_TOKEN_REPLACEMENT : list (str * str) :=
  [(u "and", u "&&"); (u "bitor", u "|"); (u "or", u "||"); (u "xor", u "^");
   (u "compl", u "~"); (u "bitand", u "&"); (u "and_eq", u "&="); (u "or_eq", u "|=");
   (u "xor_eq", u "^="); (u "not", u "!"); (u "not_eq", u "!=")].

(** The keys stand in the pattern in the order the dictionary iterates them;
    what follows the group makes the order immaterial to the match. *)
Definition _ALT_TOKEN_REPLACEMENT_PATTERN : compiled :=
  rx "[ =()](and|bitor|or|xor|compl|bitand|and_eq|or_eq|xor_eq|not|not_eq)(?=[ (]|$)".

Definition CheckAltTokens (error : handler) (filename : str) (cl : cleansed_lines)
    (linenum : Z) : M unit :=
  line ← lift (py_nth (elided cl) linenum);
  (** Avoid preprocessor lines, and multi-line comments *)
  if matches (rx "^\s*#") line then skip
  else if (0 <=? find line (u "/*"))%Z || (0 <=? find line (u "*/"))%Z then skip
  else for_each (re_finditer _ALT_TOKEN_REPLACEMENT_PATTERN line) (λ mo,
    token ← lift (assoc _ALT_TOKEN_REPLACEMENT (group_str mo 1));
    error filename linenum (u "readability/alt_tokens") 2%Z
      (u "Use operator " ++ token ++ u " instead of " ++ group_str mo 1)).

(** ** [CheckCheck] always returns *)

Definition relational_operators : list str := [u "=="; u "!="; u ">="; u ">"; u "<="; u "<"].

Definition find_operator : compiled :=
  rx "^\s*(<<|<<=|>>|>>=|->\*|->|&&|\|\||==|!=|>=|>|<=|<|\()(.*)$".

Lemma parse_check_returns fuel lhs expression : length expression < fuel →
  ∃ p, parse_check fuel lhs expression = Ok p ∧
       ∀ l operator r, p = Parsed l (Some operator) r → operator ∈ relational_operators.
Proof.
  revert lhs expression. induction fuel as [|fuel IH]; intros lhs expression Hf; [lia|].
  cbn [parse_check]. destruct expression as [|c e0] eqn:Ee; [by eexists|]. rewrite <- Ee in *.
  clear c e0 Ee. fold find_operator.
  destruct (re_match find_operator expression) as [mo|] eqn:E.
  - assert (Hs : length (group_str mo 2) < length expression) by exact (group_shrinks 2 find_operator _ _ eq_refl E).
    assert (Ht : group_str mo 1 ∈ [u "<<"; u "<<="; u ">>"; u ">>="; u "->*"; u "->"; u "&&";
        u "||"; u "=="; u "!="; u ">="; u ">"; u "<="; u "<"; u "("])
      by (eapply (group_spelled 1); [|exact E|reflexivity..]; lia).
    destruct (str_eqb _ (u "(")) eqn:Eo.
    + destruct (FindEndOfExpressionInLine _ _ _ _ _) as [e d]. destruct (e <? 0)%Z.
      * by eexists.
      * apply IH. unfold py_from. rewrite length_drop. lia.
    + destruct (str_in _ _) eqn:E1; [by eexists|].
      destruct (str_in (group_str mo 1) [u "<<"; _; _; _; _; _]) eqn:E2; [apply IH; lia|].
      eexists. split; [reflexivity|]. intros l operator r [= _ <- _].
      unfold relational_operators. rewrite !elem_of_cons in Ht. rewrite !elem_of_cons.
      repeat (destruct Ht as [Ht|Ht];
        [rewrite Ht in Eo, E1, E2; first [discriminate|rewrite Ht; auto 10]|]).
      by apply not_elem_of_nil in Ht.
  - destruct (re_match (rx "^([^-=!<>()&|]+)(.*)$") expression) as [mo|] eqn:E1.
    + apply IH. apply (group_shrinks 2) in E1; [lia|reflexivity].
    + destruct (re_match (rx "^(\s*\S)(.*)$") expression) as [mo|] eqn:E2; [|by eexists].
      apply IH. apply (group_shrinks 2) in E2; [lia|reflexivity].
Qed.

(** The use of a macro that [find_macro] reports: its parenthesis is there. *)
Lemma parenthesis_at c r line mo : re_body c = Seq Bol (Seq (Grp 1 r) (Chars (CLit (ch "(")))) →
  f_icase (re_flags c) = false → re_match c line = Some mo →
  line !! length (group_str mo 1) = Some (ch "(").
Proof.
  intros Hb Hi (st & Hd & ->)%match_at_den. rewrite Hb in Hd. cbn [den] in Hd.
  destruct Hd as (st1 & [_ ->] & st2 & (st3 & Hr & ->) & d & t & Hs & Ht & ->).
  cbn [cs_test] in Ht. rewrite Hi in Ht. apply N.eqb_eq in Ht as ->. cbn [suf] in Hs.
  apply den_ext in Hr. pose proof (ext_whole _ _ Hr) as Hw. rewrite st_at_whole in Hw.
  unfold group_str, group. cbn [mo_caps mo_string caps cap_get Nat.eqb]. simpl.
  unfold span. rewrite Nat.sub_0_r, drop_0.
  assert (Hp : pos st3 = length (rev (pre st3))) by (by rewrite length_rev).
  unfold whole in Hw. rewrite <- Hw, Hs, Hp, take_app_length. by apply list_lookup_middle.
Qed.

Lemma find_macro_returns line : ∃ r, find_macro _CHECK_MACROS line = Ok r ∧
  ∀ macro start_pos, r = Some (macro, start_pos) →
    macro ∈ _CHECK_MACROS ∧ ∃ k : nat, start_pos = Z.of_nat k ∧ line !! k = Some (ch "(").
Proof.
  assert (Hc : Forall (λ macro, ∃ c r, re_compile (macro_pattern macro) = Some c ∧
      re_body c = Seq Bol (Seq (Grp 1 r) (Chars (CLit (ch "(")))) ∧
      f_icase (re_flags c) = false) _CHECK_MACROS)
    by (unfold _CHECK_MACROS; repeat (constructor; [do 2 eexists; vm_compute; auto|]); constructor).
  induction Hc as [|macro macros (c & r & Ec & Hb & Hi) _ IH]; [by eexists|].
  cbn [find_macro]. destruct IH as (res & Er & Hr).
  assert (Hlater : ∃ r0, find_macro macros line = Ok r0 ∧ ∀ m n, r0 = Some (m, n) →
      m ∈ macro :: macros ∧ ∃ k : nat, n = Z.of_nat k ∧ line !! k = Some (ch "(")).
  { exists res. split; [done|]. intros m n H. destruct (Hr m n H) as [? ?].
    split; [by right|done]. }
  destruct (contains line macro); [|done]. rewrite Ec. simpl.
  destruct (re_match c line) as [mo|] eqn:E; [|done].
  eexists. split; [reflexivity|]. intros m n [= <- <-]. split; [by left|].
  exists (length (group_str mo 1)). split; [done|]. by eapply parenthesis_at.
Qed.

Lemma check_expression_returns cl line linenum start_pos l' n' e' :
  (0 <= linenum)%Z → (linenum <= n' < Z.of_nat (length (elided cl)))%Z →
  is_ok (check_expression cl line linenum start_pos (l', n', e')).
Proof.
  intros H0 Hn. unfold check_expression. destruct (linenum =? n')%Z; [by eexists|].
  assert (H : ∀ l text, (∀ i, i ∈ l → (0 <= i < Z.of_nat (length (elided cl)))%Z) →
    is_ok (foldl_res (λ text i, l ← py_nth (elided cl) i; mret (text ++ l)) text l)).
  { induction l as [|i l IH]; intros text Hi; [by eexists|]. cbn [foldl_res].
    destruct (py_nth_Ok (elided cl) i) as (x & -> & _); [apply Hi; by left|].
    apply IH. intros j Hj. apply Hi. by right. }
  destruct (H (zrange (linenum + 1) n') (py_from line (start_pos + 1))) as [t ->].
  - intros i Hi%elem_of_zrange. lia.
  - by eexists.
Qed.

(** ** The suggested macro *)

(** What an operator, and a suffix, say of two integers. *)
Definition operator_holds (operator : str) (a b : Z) : bool :=
  if str_eqb operator (u "==") then (a =? b)%Z
  else if str_eqb operator (u "!=") then negb (a =? b)%Z
  else if str_eqb operator (u ">=") then (b <=? a)%Z
  else if str_eqb operator (u ">") then (b <? a)%Z
  else if str_eqb operator (u "<=") then (a <=? b)%Z
  else (a <? b)%Z.

Definition suffix_holds (suffix : str) (a b : Z) : bool :=
  if str_eqb suffix (u "EQ") then (a =? b)%Z
  else if str_eqb suffix (u "NE") then negb (a =? b)%Z
  else if str_eqb suffix (u "GE") then (b <=? a)%Z
  else if str_eqb suffix (u "GT") then (b <? a)%Z
  else if str_eqb suffix (u "LE") then (a <=? b)%Z
  else (a <? b)%Z.

(** The text before the suffix: the macro's family. *)
Definition family (macro : str) : str :=
  if contains macro (u "DCHECK") then u "DCHECK_"
  else if contains macro (u "CHECK") then u "CHECK_"
  else if contains macro (u "EXPECT") then u "EXPECT_" else u "ASSERT_".

Lemma check_replacement_total macro operator :
  macro ∈ _CHECK_MACROS → operator ∈ relational_operators →
  ∃ r, check_replacement macro operator = Ok r.
Proof.
  intros Hm Ho. unfold _CHECK_MACROS, relational_operators in *.
  rewrite !elem_of_cons in Hm. rewrite !elem_of_cons in Ho.
  repeat (destruct Hm as [->|Hm];
    [repeat (destruct Ho as [->|Ho]; [by eexists|]); by apply not_elem_of_nil in Ho|]).
  by apply not_elem_of_nil in Hm.
Qed.

(** One entry of the table: the suffix is the one the table gives. *)
Ltac suggestion :=
  match goal with
  | |- context [check_replacement ?macro ?operator] =>
      let t := constr:(if contains macro (u "_FALSE") then op_inv_replacements
                       else op_replacements) in
      let r := eval vm_compute in (assoc t operator) in
      match r with Ok ?suffix => exists suffix end
  end;
  split; [refine (bool_decide_eq_true_1 _ _); vm_compute; reflexivity|];
  split; [vm_compute; reflexivity|];
  intros a b; cbv -[Z.eqb Z.leb Z.ltb negb]; bool_cases; simpl; lia.

(** C11: whatever check macro a line uses with whatever comparison, the macro
    that is suggested for it exists in the table (no KeyError), belongs to the
    same family, keeps the `_M` of a macro with a message, and tests the same
    condition: the comparison itself, or its negation for the `_FALSE` macros. *)
Theorem suggested_macro_is_equivalent macro operator :
  macro ∈ _CHECK_MACROS → operator ∈ relational_operators →
  ∃ suffix, suffix ∈ [u "EQ"; u "NE"; u "GE"; u "GT"; u "LE"; u "LT"] ∧
    check_replacement macro operator =
      Ok (family macro ++ suffix ++ (if endswith macro (u "_M") then u "_M" else [])) ∧
    ∀ a b, suffix_holds suffix a b =
      (if contains macro (u "_FALSE") then negb (operator_holds operator a b)
       else operator_holds operator a b).
Proof.
  intros Hm Ho. unfold _CHECK_MACROS, relational_operators in *.
  rewrite !elem_of_cons in Hm. rewrite !elem_of_cons in Ho.
  repeat (destruct Hm as [->|Hm];
    [repeat (destruct Ho as [->|Ho]; [suggestion|]); by apply not_elem_of_nil in Ho|]).
  by apply not_elem_of_nil in Hm.
Qed.

Lemma suggested_macro_is_equivalent_witness :
  ∃ suffix, suffix ∈ [u "EQ"; u "NE"; u "GE"; u "GT"; u "LE"; u "LT"] ∧
    check_replacement (u "EXPECT_FALSE_M") (u "<=") = Ok (u "EXPECT_" ++ suffix ++ u "_M") ∧
    ∀ a b, suffix_holds suffix a b = negb (a <=? b)%Z.
Proof.
  apply (suggested_macro_is_equivalent (u "EXPECT_FALSE_M") (u "<="));
    unfold _CHECK_MACROS, relational_operators; rewrite !elem_of_cons; auto 20.
Defined.

Lemma CheckCheck_returns_at {Inv error} `{!Returning Inv error} filename cl linenum :
  (0 <= linenum < Z.of_nat (length (elided cl)))%Z →
  returns Inv (CheckCheck error filename cl linenum).
Proof.
  intros Hn. destruct (py_nth_Ok (elided cl) linenum) as (line & Hline & _); [lia|].
  unfold CheckCheck. rewrite Hline. apply returns_bind_lift; [by eexists|]. intros ? [= <-].
  destruct (find_macro_returns line) as ([[macro pos]|] & Em & Hm);
    rewrite Em; (apply returns_bind_lift; [by eexists|]); intros ? [= <-]; [|return_].
  destruct (Hm _ _ eq_refl) as (Hmacro & k & -> & Hk).
  destruct (CloseExpression_returns _ _ _ _ _ Hline (proj1 Hn) Hk) as (l' & n' & e' & Ec & He & _).
  rewrite Ec. apply returns_bind_lift; [by eexists|]. intros ? [= <-]. cbn [snd].
  destruct (Z.ltb_spec e' 0) as [|He']; [return_|].
  destruct (check_expression_returns cl line linenum (Z.of_nat k) l' n' e') as [expression Ee];
    [lia|by apply He|].
  rewrite Ee. apply returns_bind_lift; [by eexists|]. intros ? [= <-].
  destruct (parse_check_returns (S (length expression)) [] expression) as (p & Ep & Hp); [lia|].
  rewrite Ep. apply returns_bind_lift; [by eexists|]. intros ? [= <-].
  destruct p as [|[|c lhs] [operator|] [|d rhs]]; return_.
  apply returns_bind_lift; [|return_].
  destruct (check_replacement_total macro operator) as [r ->];
    [done|by eapply Hp|by eexists].
Qed.

(** C14: `CheckCheck` returns on every line of the file: the loop that reads the
    macro's argument piece by piece ends, the position of the parenthesis and
    the lines it reads up to the closing one exist, the macros' patterns
    compile, and the replacement it looks up is in the table.  The error handler
    is only asked to return. *)
Theorem CheckCheck_returns error filename cl linenum w :
  always_returns error →
  (0 <= linenum < Z.of_nat (length (elided cl)))%Z →
  ∃ w', CheckCheck error filename cl linenum w = (Ok tt, w').
Proof.
  intros Herr Hn. pose proof (always_returning error Herr).
  destruct (wp_no_exn _ _ _ (CheckCheck_returns_at (Inv := λ _, True) filename cl linenum Hn w I))
    as ([] & w' & ? & _). by exists w'.
Qed.

Definition check_demo : cleansed_lines :=
  let ls := [u "  CHECK(f(x,"; u "          y) <= 42);"] in CleansedLines ls ls ls 2 ls.

Lemma CheckCheck_returns_witness : ∃ w',
  CheckCheck (λ _ _ _ _ m, stderr_write m) (u "a.cc") check_demo 0 init_world = (Ok tt, w').
Proof.
  apply (CheckCheck_returns (λ _ _ _ _ m, stderr_write m)); [|split; reflexivity].
  intros f n c k m w. by exists (add_stderr m w).
Defined.
