(* ===== verification/Style.v ===== *)
(** * [CheckStyle]: the style rules of one line *)
From S2P Require Import Prelude PyStr Regex RegexParse PyRe World LintState.
From S2P Require Import Cleanse FileInfo FileChecks LineChecks Nesting Spacing Braces CheckMacros.

(** [while initial_spaces < len(line) and line[initial_spaces] == ' ']. *)
Fixpoint initial_spaces (line : str) : Z :=
  match line with
  | c :: line => if (c =? ch " ")%N then (initial_spaces line + 1)%Z else 0%Z
  | [] => 0%Z
  end.

Definition ends_in_whitespace (line : str) : bool := head_is is_uspace (rev line).

(** Tabs, trailing blanks and odd indentation. *)
Definition check_indent (error : handler) (filename : str) (linenum : Z)
    (line cleansed_line : str) : M unit :=
  when (negb (find line [c_tab] =? -1)%Z)
    (error filename linenum (u "whitespace/tab") 1%Z (u "Tab found; better to use spaces")) ;;
  let n := initial_spaces line in
  if ends_in_whitespace line then
    error filename linenum (u "whitespace/end_of_line") 4%Z
      (u "Line ends in whitespace.  Consider deleting these extra spaces.")
  else when (((n =? 1) || (n =? 3))%Z && negb (matches (rx "\s*\w+\s*:\s*$") cleansed_line))
    (error filename linenum (u "whitespace/indent") 3%Z
       (u "Weird number of spaces at line-start.  Are you using a 2-space indent?")).

(** [int(_line_length * 1.25)]. *)
Definition extended_length (line_length : Z) : Z := Z.quot (line_length * 5) 4.

Section style.
Context `{Env}.

(** Check if the line is a header guard. *)
Definition is_header_guard (filename file_extension line : str) : M bool :=
  if str_eqb file_extension (u "h") then
    cppvar ← GetHeaderGuardCPPVariable filename;
    mret (startswith line (u "#ifndef " ++ cppvar) || startswith line (u "#define " ++ cppvar)
          || startswith line (u "#endif  // " ++ cppvar))
  else mret false.

Definition check_line_length (error : handler) (filename : str) (linenum : Z)
    (file_extension line : str) : M unit :=
  guard ← is_header_guard filename file_extension line;
  when (negb (startswith line (u "#include")) && negb guard &&
        negb (matches (rx "^\s*//.*http(s?)://\S*$") line) &&
        negb (matches (rx "^// \$Id:.*#[0-9]+ \$$") line)) (
    let line_width := GetLineWidth line in
    _line_length ← gets w_line_length;
    let extended := extended_length _line_length in
    if (extended <? line_width)%Z then
      error filename linenum (u "whitespace/line_length") 4%Z
        (u "Lines should very rarely be longer than " ++ fmt_d extended ++ u " characters")
    else when (_line_length <? line_width)%Z
      (error filename linenum (u "whitespace/line_length") 2%Z
         (u "Lines should be <= " ++ fmt_d _line_length ++ u " characters long"))).

(** More than one command on the same line. *)
Definition many_commands (cl : cleansed_lines) (linenum : Z) (cleansed_line : str) : bool :=
  let previous := (GetPreviousNonBlankLine cl linenum).1 in
  (1 <? count cleansed_line (u ";"))%Z &&
  (** for loops are allowed two ;'s (and may run over two lines). *)
  negb (contains cleansed_line (u "for")) &&
  (negb (contains previous (u "for")) || contains previous (u ";")) &&
  (** It's ok to have many commands in a switch case that fits in 1 line *)
  negb ((contains cleansed_line (u "case ") || contains cleansed_line (u "default:")) &&
        contains cleansed_line (u "break;")).

Definition CheckStyle (error : handler) (filename : str) (cl : cleansed_lines)
    (linenum : Z) (file_extension : str) (ns : nesting_state) : M unit :=
  line ← lift (py_nth (lines_without_raw_strings cl) linenum);
  cleansed_line ← lift (py_nth (elided cl) linenum);
  check_indent error filename linenum line cleansed_line ;;
  check_line_length error filename linenum file_extension line ;;
  when (many_commands cl linenum cleansed_line)
    (error filename linenum (u "whitespace/newline") 0%Z
       (u "More than one command on the same line")) ;;
  (** Some more style checks *)
  CheckBraces error filename cl linenum ;;
  CheckEmptyBlockBody error filename cl linenum ;;
  CheckAccess error filename cl linenum ns ;;
  CheckSpacing error filename cl linenum ns ;;
  CheckCheck error filename cl linenum ;;
  CheckAltTokens error filename cl linenum ;;
  match InnermostClass ns with
  | Some (_, c) => CheckSectionSpacing error filename cl c linenum
  | None => skip
  end.
End style.
