(* ===== verification/Includes.v ===== *)
(** * #include lines

    [_ClassifyInclude] and [CheckIncludeLine] of cpplint.py. *)
From S2P Require Import Prelude PyStr Regex RegexParse PyRe World LintState.
From S2P Require Import Cleanse FileInfo IncludeState.

(** C++ headers. *)
Definition _CPP_HEADERS : list str :=
  [u "algobase.h"; u "algo.h"; u "alloc.h"; u "builtinbuf.h"; u "bvector.h"; u "complex.h";
   u "defalloc.h"; u "deque.h"; u "editbuf.h"; u "fstream.h"; u "function.h"; u "hash_map";
   u "hash_map.h"; u "hash_set"; u "hash_set.h"; u "hashtable.h"; u "heap.h";
   u "indstream.h"; u "iomanip.h"; u "iostream.h"; u "istream.h"; u "iterator.h";
   u "list.h"; u "map.h"; u "multimap.h"; u "multiset.h"; u "ostream.h"; u "pair.h";
   u "parsestream.h"; u "pfstream.h"; u "procbuf.h"; u "pthread_alloc";
   u "pthread_alloc.h"; u "rope"; u "rope.h"; u "ropeimpl.h"; u "set.h"; u "slist";
   u "slist.h"; u "stack.h"; u "stdiostream.h"; u "stl_alloc.h"; u "stl_relops.h";
   u "streambuf.h"; u "stream.h"; u "strfile.h"; u "strstream.h"; u "tempbuf.h";
   u "tree.h"; u "type_traits.h"; u "vector.h"; u "algorithm"; u "array"; u "atomic";
   u "bitset"; u "chrono"; u "codecvt"; u "complex"; u "condition_variable"; u "deque";
   u "exception"; u "forward_list"; u "fstream"; u "functional"; u "future";
   u "initializer_list"; u "iomanip"; u "ios"; u "iosfwd"; u "iostream"; u "istream";
   u "iterator"; u "limits"; u "list"; u "locale"; u "map"; u "memory"; u "mutex"; u "new";
   u "numeric"; u "ostream"; u "queue"; u "random"; u "ratio"; u "regex"; u "set";
   u "sstream"; u "stack"; u "stdexcept"; u "streambuf"; u "string"; u "strstream";
   u "system_error"; u "thread"; u "tuple"; u "typeindex"; u "typeinfo"; u "type_traits";
   u "unordered_map"; u "unordered_set"; u "utility"; u "valarray"; u "vector";
   u "cassert"; u "ccomplex"; u "cctype"; u "cerrno"; u "cfenv"; u "cfloat"; u "cinttypes";
   u "ciso646"; u "climits"; u "clocale"; u "cmath"; u "csetjmp"; u "csignal";
   u "cstdalign"; u "cstdarg"; u "cstdbool"; u "cstddef"; u "cstdint"; u "cstdio";
   u "cstdlib"; u "cstring"; u "ctgmath"; u "ctime"; u "cuchar"; u "cwchar"; u "cwctype"].

Definition _RE_PATTERN_INCLUDE_NEW_STYLE : compiled := rx "#include +`[^/]+\.h`".
Definition _RE_FIRST_COMPONENT : compiled := rx "^[^-_.]+".

(** Do two base names share their first component? *)
Definition same_first_component (target_base include_base : str) : bool :=
  match re_match _RE_FIRST_COMPONENT target_base, re_match _RE_FIRST_COMPONENT include_base with
  | Some t, Some i => str_eqb (group0 t) (group0 i)
  | _, _ => false
  end.

Section includes.
Context `{Env}.

Definition _ClassifyInclude (fileinfo : file_info) (include : str) (is_system : bool)
    : res header_type :=
  let is_cpp_h := str_in include _CPP_HEADERS in
  if is_system then mret (if is_cpp_h then _CPP_SYS_HEADER else _C_SYS_HEADER)
  else
    (** If the target file and the include we're checking share a basename
        when we drop common extensions, and the include lives in . , then
        it's likely to be owned by the target file. *)
    name ← RepositoryName fileinfo;
    let '(target_dir, target_base) := path_split (_DropCommonSuffixes name) in
    let '(include_dir, include_base) := path_split (_DropCommonSuffixes include) in
    if str_eqb target_base include_base &&
       (str_eqb include_dir target_dir ||
        str_eqb include_dir (normpath (target_dir ++ u "/../public")))
    then mret _LIKELY_MY_HEADER
    else if same_first_component target_base include_base then mret _POSSIBLE_MY_HEADER
    else mret _OTHER_HEADER.

(** A header met for the first time: its place in the order. *)
Definition check_new_include (error : handler) (filename : str) (cl : cleansed_lines)
    (linenum : Z) (include : str) (is_system : bool) (inc : include_state)
    : M include_state :=
  let fileinfo := FileInfo filename in
  let inc := IncludeState (<[include := AtLine linenum]> (includes inc)) (_section inc)
               (_last_header inc) in
  type ← lift (_ClassifyInclude fileinfo include is_system);
  '(error_message, inc) ← lift (CheckNextIncludeOrder inc type);
  when (negb (str_eqb error_message [])) (
    base ← lift (BaseName fileinfo);
    error filename linenum (u "build/include_order") 4%Z
      (error_message ++ u ". Should be: " ++ base ++ u ".h, c system, c++ system, other.")) ;;
  let canonical_include := CanonicalizeAlphabeticalOrder uni_lower include in
  ordered ← lift (IsInAlphabeticalOrder inc cl linenum canonical_include);
  when (negb ordered)
    (error filename linenum (u "build/include_alpha") 4%Z
       (u "Include `" ++ include ++ u "` not in alphabetical order")) ;;
  mret (SetLastHeader canonical_include inc).

Definition CheckIncludeLine (error : handler) (filename : str) (cl : cleansed_lines)
    (linenum : Z) (inc : include_state) : M include_state :=
  line ← lift (py_nth (lines cl) linenum);
  (** "include" should use the new style "foo/bar.h" instead of just "bar.h" *)
  when (found _RE_PATTERN_INCLUDE_NEW_STYLE line)
    (error filename linenum (u "build/include") 4%Z
       (u "Include the directory when naming .h files")) ;;
  (** we shouldn't include a file more than once. *)
  inc ← match re_search _RE_PATTERN_INCLUDE line with
    | Some mo =>
        let include := group_str mo 2 in
        let is_system := str_eqb (group_str mo 1) (u "<") in
        match includes inc !! include with
        | Some at_ =>
            error filename linenum (u "build/include") 4%Z
              (u "`" ++ include ++ u "` already included at " ++ filename ++ u ":"
               ++ fmt_include_at at_) ;;
            mret inc
        | None => check_new_include error filename cl linenum include is_system inc
        end
    | None => mret inc
    end;
  (** Look for any of the stream classes that are part of standard C++. *)
  match re_match _RE_PATTERN_INCLUDE line with
  | Some mo =>
      when (matches (rx "(f|ind|io|i|o|parse|pf|stdio|str|)?stream$") (group_str mo 2) &&
            negb (_IsTestFilename filename))
        (error filename linenum (u "readability/streams") 3%Z
           (u "Streams are highly discouraged."))
  | None => skip
  end ;;
  mret inc.
End includes.
