(* ===== verification/Language.v ===== *)
(** * C++ language rules

    [CheckLanguage], [CheckCStyleCast], [CheckForNonConstReference] and
    [CheckForNonStandardConstructs] of cpplint.py.  [CheckLanguage] is one long
    function there; here each of its passages is a definition. *)
From S2P Require Import Prelude PyStr Regex RegexParse PyRe World LintState.
From S2P Require Import Cleanse Expr FileInfo IncludeState Includes Nesting.

(** ** Casts *)

(** Lines that only look like an old-style cast: gmock methods, callbacks,
    function types. *)
Definition looks_like_gmock (line : str) : bool :=
  matches (rx "^\s*MOCK_(CONST_)?METHOD\d+(_T)?\(") line ||
  found (rx "\bMockCallback<.*>") line || found (rx "\bstd::function<.*>") line.

Definition check_conversion_cast (error : handler) (filename : str) (cl : cleansed_lines)
    (linenum : Z) (line : str) : M unit :=
  match re_search (rx "(\bnew\s+)?\b(int|float|double|bool|char|int32|uint32|int64|uint64)(\([^)].*)") line with
  | None => skip
  | Some mo =>
      let matched_type := group_str mo 2 in
      let matched_funcptr := group_str mo 3 in
      when (match group mo 1 with None => true | Some _ => false end &&
            negb (looks_like_gmock line) &&
            negb (negb (str_eqb matched_funcptr []) &&
                  matches (rx "\((?:[^() ]+::\s*\*\s*)?[^() ]+\)\s*\(") matched_funcptr)) (
        (** Try a bit harder to catch gmock lines: scan back one or two lines. *)
        spared ← (if (linenum <? 2)%Z then mret false else
          l1 ← lift (py_nth (elided cl) (linenum - 1));
          if matches (rx "^\s*MOCK_(?:CONST_)?METHOD\d+(?:_T)?\((?:\S+,)?\s*$") l1
          then mret true
          else l2 ← lift (py_nth (elided cl) (linenum - 2));
               mret (matches (rx "^\s*MOCK_(?:CONST_)?METHOD\d+(?:_T)?\(\s*$") l2));
        when (negb spared)
          (error filename linenum (u "readability/casting") 4%Z
             (u "Using deprecated casting style.  Use static_cast<" ++ matched_type
              ++ u ">(...) instead")))
  end.

(** What follows an unnamed parameter. *)
Definition unnamed_parameter : compiled := rx "^\s*(?:;|const\b|throw\b|=|>|\{|\))".

(** True if an error was emitted. *)
Definition CheckCStyleCast (error : handler) (filename : str) (linenum : Z)
    (line raw_line cast_type : str) (pattern : compiled) : M bool :=
  match re_search pattern line with
  | None => mret false
  | Some mo =>
      let before := py_slice line 0 (group_start mo 1 - 1) in
      (** Exclude lines with sizeof, operator++(int) and operator--(int) *)
      if matches (rx ".*sizeof\s*$") before then mret false
      else if endswith before (u " operator++") || endswith before (u " operator--")
      then mret false
      else
        let remainder := drop (mo_end mo) line in
        if matches unnamed_parameter remainder then
          (** Looks like an unnamed parameter. *)
          if matches (rx "^\s*>") remainder then mret false
          else if match re_match (rx "^\s=\s*(\S+)\s*;") remainder with
                  | Some matched_zero => negb (str_eqb (group_str matched_zero 1) (u "0"))
                  | None => false end then mret false
          else if matches (rx ".*\)\s*$") (take (mo_start mo) line) then mret false
          else if contains raw_line (u "/*") then mret false
          else
            error filename linenum (u "readability/function") 3%Z
              (u "All parameters should be named in a function") ;;
            mret true
        else
          (** At this point, all that should be left is actual casts. *)
          error filename linenum (u "readability/casting") 4%Z
            (u "Using C-style cast.  Use " ++ cast_type ++ u "<" ++ group_str mo 1
             ++ u ">(...) instead") ;;
          mret true
  end.

Definition check_c_style_casts (error : handler) (filename : str) (linenum : Z)
    (line raw_line : str) : M unit :=
  _ ← CheckCStyleCast error filename linenum line raw_line (u "static_cast")
        (rx "\((int|float|double|bool|char|u?int(16|32|64))\)");
  (** A char pointer cast of a string should always be a const_cast. *)
  const ← CheckCStyleCast error filename linenum line raw_line (u "const_cast")
            (rx "\((char\s?\*+\s?)\)\s*`");
  if (const : bool) then skip
  else
    _ ← CheckCStyleCast error filename linenum line raw_line (u "reinterpret_cast")
          (rx "\((\w+\s?\*+\s?)\)");
    skip.

Definition check_address_of_cast (error : handler) (filename : str) (linenum : Z)
    (line : str) : M unit :=
  match re_search (rx "(?:&\(([^)]+)\)[\w(])|(?:&(static|dynamic|down|reinterpret)_cast\b)") line with
  | Some mo =>
      when (negb (bool_decide (group mo 1 = Some (u "*"))))
        (error filename linenum (u "runtime/casting") 4%Z
           (u "Are you taking an address of a cast?  "
            ++ u "This is dangerous: could be a temp var.  "
            ++ u "Take the address before doing the cast, rather than after"))
  | None => skip
  end.

(** ** Strings, initializers, integers *)

Definition check_static_string (error : handler) (filename : str) (linenum : Z)
    (line : str) : M unit :=
  match re_match (rx "((?:|static +)(?:|const +))string +([a-zA-Z0-9_:]+)\b(.*)") line with
  | Some mo =>
      (** Make sure it's not a function, nor something like an operator. *)
      when (negb (found (rx "\boperator\W") line) &&
            negb (matches (rx "\s*(<.*>)?(::[a-zA-Z0-9_]+)?\s*\(([^`]|$)") (group_str mo 3)))
        (error filename linenum (u "runtime/string") 4%Z
           (u "For a static/global string constant, use a C style string instead: "
            ++ u "`" ++ group_str mo 1 ++ u "char " ++ group_str mo 2 ++ u "[]`."))
  | None => skip
  end.

Definition check_member_init (error : handler) (filename : str) (linenum : Z) (line : str)
    : M unit :=
  when (found (rx "\b([A-Za-z0-9_]*_)\(\1\)") line)
    (error filename linenum (u "runtime/init") 4%Z
       (u "You seem to be initializing a member variable with itself.")).

(** The verboten C basic types; "unsigned short port" is allowed. *)
Definition check_basic_types (error : handler) (filename : str) (linenum : Z) (line : str)
    : M unit :=
  if found (rx "\bshort port\b") line then
    when (negb (found (rx "\bunsigned short port\b") line))
      (error filename linenum (u "runtime/int") 4%Z
         (u "Use `unsigned short` for ports, not `short`"))
  else
    match re_search (rx "\b(short|long(?! +double)|long long)\b") line with
    | Some mo =>
        error filename linenum (u "runtime/int") 4%Z
          (u "Use int16/int64/etc, rather than the C type " ++ group_str mo 1)
    | None => skip
    end.

(** ** printf and memset *)

Definition check_c_functions (error : handler) (filename : str) (linenum : Z) (line : str)
    : M unit :=
  let printf confidence msg := error filename linenum (u "runtime/printf") confidence msg in
  (** When snprintf is used, the second argument shouldn't be a literal. *)
  match re_search (rx "snprintf\s*\(([^,]*),\s*([0-9]*)\s*,") line with
  | Some mo =>
      when (negb (str_eqb (group_str mo 2) (u "0")))
        (printf 3%Z (u "If you can, use sizeof(" ++ group_str mo 1 ++ u ") instead of "
                     ++ group_str mo 2 ++ u " as the 2nd arg to snprintf."))
  | None => skip
  end ;;
  (** Check if some verboten C functions are being used. *)
  when (found (rx "\bsprintf\b") line)
    (printf 5%Z (u "Never use sprintf.  Use snprintf instead.")) ;;
  match re_search (rx "\b(strcpy|strcat)\b") line with
  | Some mo => printf 4%Z (u "Almost always, snprintf is better than " ++ group_str mo 1)
  | None => skip
  end.

Definition check_operator_and_braces (error : handler) (filename : str) (linenum : Z)
    (line : str) : M unit :=
  when (found (rx "\boperator\s*&\s*\(\s*\)") line)
    (error filename linenum (u "runtime/operator") 4%Z
       (u "Unary operator& is dangerous.  Do not use it.")) ;;
  (** Check for suspicious usage of "if" like } if (a == b) { *)
  when (found (rx "\}\s*if\s*\(") line)
    (error filename linenum (u "readability/braces") 4%Z
       (u "Did you mean `else if`? If not, start a new line for `if`.")).

(** Potential format string bugs like printf(foo). *)
Definition check_format_string (error : handler) (filename : str) (linenum : Z)
    (line : str) : M unit :=
  printf_args ← lift (_GetTextInside line (rx_m "(?i)\b(string)?printf\s*\("));
  match printf_args with
  | None | Some [] => skip
  | Some args =>
      match re_match (rx "([\w.\->()]+)$") args with
      | Some mo =>
          when (negb (str_eqb (group_str mo 1) (u "__VA_ARGS__"))) (
            f ← lift (or_raise AttributeError
                  (re_search (rx_i "\b((?:string)?printf)\s*\(") line));
            error filename linenum (u "runtime/printf") 4%Z
              (u "Potential format string bug. Do " ++ group_str f 1 ++ u "(`%s`, "
               ++ group_str mo 1 ++ u ") instead."))
      | None => skip
      end
  end.

(** Potential memset bugs like memset(buf, sizeof(buf), 0). *)
Definition check_memset (error : handler) (filename : str) (linenum : Z) (line : str)
    : M unit :=
  match re_search (rx "memset\s*\(([^,]*),\s*([^,]*),\s*0\s*\)") line with
  | Some mo =>
      when (negb (matches (rx "^''|-?[0-9]+|0x[0-9A-Fa-f]$") (group_str mo 2)))
        (error filename linenum (u "runtime/memset") 4%Z
           (u "Did you mean `memset(" ++ group_str mo 1 ++ u ", 0, " ++ group_str mo 2
            ++ u ")`?"))
  | None => skip
  end.

Definition check_using_namespace (error : handler) (filename : str) (linenum : Z)
    (line : str) : M unit :=
  when (found (rx "\busing namespace\b") line)
    (error filename linenum (u "build/namespaces") 5%Z
       (u "Do not use namespace using-directives.  Use using-declarations instead.")).

(** ** Variable-length arrays *)

(** Is a token of the size a compile time constant, whatever follows it? *)
Definition const_token (tok : str) : bool :=
  matches (rx "\d+") tok || matches (rx "0[xX][0-9a-fA-F]+") tok ||
  matches (rx "k[A-Z0-9]\w*") tok || matches (rx "(.+::)?k[A-Z0-9]\w*") tok ||
  matches (rx "(.+::)?[A-Z][A-Z0-9_]*") tok.

(** The loop over the tokens: [is_const]. *)
Fixpoint tokens_const (skip_next : bool) (tokens : list str) : bool :=
  match tokens with
  | [] => true
  | tok :: tokens =>
      if skip_next then tokens_const false tokens
      else if found (rx "sizeof\(.+\)") tok then tokens_const false tokens
      else if found (rx "arraysize\(\w+\)") tok then tokens_const false tokens
      else
        let tok := rstrip_by (N.eqb (ch ")")) (lstrip_by (N.eqb (ch "(")) tok) in
        match tok with
        | [] => tokens_const false tokens
        | _ =>
            if const_token tok then tokens_const false tokens
            else if startswith tok (u "sizeof") then tokens_const true tokens
            else false
        end
  end.

Definition size_separators : compiled := rx "\s|\+|\-|\*|\/|<<|>>]".

Definition check_arrays (error : handler) (filename : str) (linenum : Z) (line : str)
    : M unit :=
  match re_match (rx "\s*(.+::)?(\w+) [a-z]\w*\[(.+)];") line with
  | Some mo =>
      when (negb (str_eqb (group_str mo 2) (u "return")) &&
            negb (str_eqb (group_str mo 2) (u "delete")) &&
            negb (contains (group_str mo 3) (u "]")))
        (when (negb (tokens_const false (re_split size_separators (group_str mo 3))))
           (error filename linenum (u "runtime/arrays") 1%Z
              (u "Do not use variable-length arrays.  Use an appropriately named "
               ++ u "('k' followed by CamelCase) compile-time constant for the size.")))
  | None => skip
  end.

(** ** Class macros and unnamed namespaces *)

Definition check_disallow_last (error : handler) (filename : str) (cl : cleansed_lines)
    (linenum : Z) (line : str) : M unit :=
  match re_match (rx "\s*(DISALLOW_(EVIL_CONSTRUCTORS|COPY_AND_ASSIGN|IMPLICIT_CONSTRUCTORS))\(.*\);$") line with
  | Some mo =>
      when (linenum + 1 <? NumLines cl)%Z (
        next_line ← lift (py_nth (elided cl) (linenum + 1));
        when (negb (found (rx "^\s*}[\w\*,\s]*;") next_line))
          (error filename linenum (u "readability/constructors") 3%Z
             (group_str mo 1 ++ u " should be the last thing in the class")))
  | None => skip
  end.

Definition check_unnamed_namespace (error : handler) (filename : str) (linenum : Z)
    (file_extension line : str) : M unit :=
  when (str_eqb file_extension (u "h") && found (rx "\bnamespace\s*{") line) (
    last ← lift (py_nth line (-1));
    when (negb (last =? ch "\")%N)
      (error filename linenum (u "build/namespaces") 4%Z
         (u "Do not use unnamed namespaces in header files.  See "
          ++ u "http://google-styleguide.googlecode.com/svn/trunk/cppguide.xml#Namespaces"
          ++ u " for more information."))).

(** ** [CheckLanguage] *)

(** The rules for a line that is not an #include, in the order of the code. *)
Definition check_language_rules (error : handler) (filename : str) (cl : cleansed_lines)
    (linenum : Z) (file_extension line : str) : M unit :=
  check_conversion_cast error filename cl linenum line ;;
  raw_line ← lift (py_nth (raw_lines cl) linenum);
  check_c_style_casts error filename linenum line raw_line ;;
  check_address_of_cast error filename linenum line ;;
  check_static_string error filename linenum line ;;
  check_member_init error filename linenum line ;;
  check_basic_types error filename linenum line ;;
  check_c_functions error filename linenum line ;;
  check_operator_and_braces error filename linenum line ;;
  check_format_string error filename linenum line ;;
  check_memset error filename linenum line ;;
  check_using_namespace error filename linenum line ;;
  check_arrays error filename linenum line ;;
  check_disallow_last error filename cl linenum line ;;
  check_unnamed_namespace error filename linenum file_extension line.

Definition CheckLanguage `{Env} (error : handler) (filename : str) (cl : cleansed_lines)
    (linenum : Z) (file_extension : str) (inc : include_state) : M include_state :=
  line ← lift (py_nth (elided cl) linenum);
  match line with
  | [] => mret inc
  | _ =>
      match re_search _RE_PATTERN_INCLUDE line with
      | Some _ => CheckIncludeLine error filename cl linenum inc
      | None =>
          (** Reset include state across preprocessor directives. *)
          let inc := if matches (rx "^\s*#\s*(?:ifdef|elif|else|endif)\b") line
                     then ResetSection inc else inc in
          check_language_rules error filename cl linenum file_extension line ;;
          mret inc
      end
  end.

(** ** Non-const references *)

Definition _RE_PATTERN_REF_PARAM : compiled :=
  rx "((?:const\s+)?(?:typename\s+|class\s+|struct\s+|union\s+|enum\s+)?(?:\w|\s*<(?:<(?:<[^<>]*>|[^<>])*>|[^<>])*>|::)+(?:\s*(?:\bconst\b|[*]))*\s*&\s*[_a-zA-Z]\w*)\s*(?:=[^,()]+)?[,)]".
Definition _RE_PATTERN_CONST_REF_PARAM : compiled :=
  rx "(?:.*\s*\bconst\s*&\s*[_a-zA-Z]\w*|const\s+(?:const\s+)?(?:typename\s+|class\s+|struct\s+|union\s+|enum\s+)?(?:\w|\s*<(?:<(?:<[^<>]*>|[^<>])*>|[^<>])*>|::)+\s*&\s*[_a-zA-Z]\w*)".

(** The previous line's part of a type that two lines share, if any. *)
Definition split_type_prefix (line previous_line : str) : option match_obj :=
  if matches (rx "\s*::(?:[\w<>]|::)+\s*&\s*\S") line then
    re_search (rx "\b((?:const\s*)?(?:[\w<>]|::)+[\w<>])\s*$") previous_line
  else if matches (rx "\s*[a-zA-Z_]([\w<>]|::)+\s*&\s*\S") line then
    re_search (rx "\b((?:const\s*)?(?:[\w<>]|::)+::)\s*$") previous_line
  else None.

(** The line joined with what precedes it, when a type spans lines. *)
Definition joined_reference_line (cl : cleansed_lines) (linenum : Z) (line : str) : res str :=
  if (1 <? linenum)%Z then
    previous_line ← py_nth (elided cl) (linenum - 1);
    match split_type_prefix line previous_line with
    | Some previous => mret (group_str previous 1 ++ lstrip line)
    | None =>
        (** Check for templated parameter that is split across multiple lines *)
        let endpos := rfind line (u ">") in
        if (-1 <? endpos)%Z then
          '(_, startline, startpos) ← ReverseCloseExpression cl linenum endpos;
          if (-1 <? startpos)%Z && (startline <? linenum)%Z then
            foldl_res (λ text i, l ← py_nth (elided cl) i; mret (text ++ strip l)) []
              (zrange startline (linenum + 1))
          else mret line
        else mret line
    end
  else mret line.

Definition class_or_namespace (b : block) : bool := is_class b || is_namespace b.

(** Are we at a place where a parameter may be declared? *)
Definition declares_params (ns : nesting_state) (line : str) : bool :=
  match stack ns with
  | [] => true
  | b :: below =>
      class_or_namespace b ||
      (matches (rx ".*{\s*$") line &&
       match below with [] => true | b2 :: _ => class_or_namespace b2 end)
  end.

Definition whitelisted_functions : compiled :=
  rx "(?:[sS]wap(?:<\w:+>)?|operator\s*[<>][<>]|static_assert|COMPILE_ASSERT)\s*\(".

(** A whitelisted function on this line, or on the one or two lines before when
    no function name is on it. *)
Definition whitelisted (cl : cleansed_lines) (linenum : Z) (line : str) : res bool :=
  if found whitelisted_functions line then mret true
  else if negb (found (rx "\S+\([^)]*$") line) then
    foldl_res (λ b i,
      if (b : bool) then mret true
      else if (i <? linenum)%Z then
        l ← py_nth (elided cl) (linenum - i - 1); mret (found whitelisted_functions l)
      else mret false) false [0%Z; 1%Z]
  else mret false.

Definition CheckForNonConstReference (error : handler) (filename : str) (cl : cleansed_lines)
    (linenum : Z) (ns : nesting_state) : M unit :=
  line ← lift (py_nth (elided cl) linenum);
  if negb (char_in (ch "&") line) then skip else
  line ← lift (joined_reference_line cl linenum line);
  white ← lift (whitelisted cl linenum line);
  when (declares_params ns line && negb white) (
    let decls := re_sub (rx "{[^}]*}") (u " ") line in       (* exclude function body *)
    for_each (re_findall1 _RE_PATTERN_REF_PARAM decls) (λ parameter,
      when (negb (matches _RE_PATTERN_CONST_REF_PARAM parameter))
        (error filename linenum (u "runtime/references") 2%Z
           (u "Is this a non-const reference? If so, make const or use a pointer: "
            ++ re_sub (rx " *<") (u "<") parameter)))).

(** ** Non-standard constructs *)

(** The patterns that hold the class's name. *)
Definition constructor_pattern (base_classname : str) : str :=
  u "\s+(?:inline\s+)?" ++ re_escape base_classname ++ u "\s*\(([^,()]+)\)".
Definition copy_argument_pattern (base_classname : str) : str :=
  u "(const\s+)?" ++ re_escape base_classname ++ u "(\s+const)?\s*(?:<\w+>\s*)?&".

(** Single-argument constructors that aren't marked explicit. *)
Definition check_explicit (error : handler) (filename : str) (linenum : Z) (line : str)
    (c : class_info) : M unit :=
  let base_classname := List.last (split (c_name c) (u "::")) [] in
  pattern ← lift (or_raise ReError (re_compile (constructor_pattern base_classname)));
  match re_match pattern line with
  | None => skip
  | Some args =>
      when (negb (str_eqb (group_str args 1) (u "void"))) (
        copy ← lift (or_raise ReError (re_compile (copy_argument_pattern base_classname)));
        when (negb (matches copy (strip (group_str args 1))))
          (error filename linenum (u "runtime/explicit") 5%Z
             (u "Single-argument constructors should be marked explicit.")))
  end.

(** The format strings of printf, on the line without comments. *)
Definition check_printf_formats (error : handler) (filename : str) (linenum : Z) (line : str)
    : M unit :=
  when (found (rx "printf\s*\(.*`.*%[-+ ]?\d*q") line)
    (error filename linenum (u "runtime/printf_format") 3%Z
       (u "%q in format strings is deprecated.  Use %ll instead.")) ;;
  when (found (rx "printf\s*\(.*`.*%\d+\$") line)
    (error filename linenum (u "runtime/printf_format") 2%Z
       (u "%N$ formats are unconventional.  Try rewriting to avoid them.")) ;;
  (** Remove escaped backslashes before looking for undefined escapes. *)
  when (found (rx "(`|\').*\\(%|\[|\(|{)") (replace line (u "\\") []))
    (error filename linenum (u "build/printf_format") 3%Z
       (u "%, [, (, and { are undefined character escapes.  Unescape them.")).

Definition check_nonstandard_line (error : handler) (filename : str) (linenum : Z)
    (line : str) : M unit :=
  when (found (rx "\b(const|volatile|void|char|short|int|long|float|double|signed|unsigned|schar|u?int8|u?int16|u?int32|u?int64)\s+(register|static|extern|typedef)\b") line)
    (error filename linenum (u "build/storage_class") 5%Z
       (u "Storage class (static, extern, typedef, etc) should be first.")) ;;
  when (matches (rx "\s*#\s*endif\s*[^/\s]+") line)
    (error filename linenum (u "build/endif_comment") 5%Z
       (u "Uncommented text after #endif is non-standard.  Use a comment.")) ;;
  when (matches (rx "\s*class\s+(\w+\s*::\s*)+\w+\s*;") line)
    (error filename linenum (u "build/forward_decl") 5%Z
       (u "Inner-style forward declarations are invalid.  Remove this line.")) ;;
  when (found (rx "(\w+|[+-]?\d+(\.\d*)?)\s*(<|>)\?=?\s*(\w+|[+-]?\d+)(\.\d*)?") line)
    (error filename linenum (u "build/deprecated") 3%Z
       (u ">? and <? (max and min) operators are non-standard and deprecated.")) ;;
  when (found (rx "^\s*const\s*string\s*&\s*\w+\s*;") line)
    (error filename linenum (u "runtime/member_string_references") 2%Z
       (u "const string& members are dangerous. It is much better to use "
        ++ u "alternatives, such as pointers or simple constants.")).

Definition CheckForNonStandardConstructs (error : handler) (filename : str)
    (cl : cleansed_lines) (linenum : Z) (ns : nesting_state) : M unit :=
  line ← lift (py_nth (lines cl) linenum);
  check_printf_formats error filename linenum line ;;
  line ← lift (py_nth (elided cl) linenum);
  check_nonstandard_line error filename linenum line ;;
  (** Everything else operates on class declarations. *)
  match InnermostClass ns with
  | Some (b, c) =>
      if seen_open_brace b then check_explicit error filename linenum line c else skip
  | None => skip
  end.
