(* ===== verification/WhatYouUse.v ===== *)
(** * Include what you use

    The tables of STL names, [UpdateIncludeState] and
    [CheckForIncludeWhatYouUse] of cpplint.py; included headers suffice. *)
From S2P Require Import Prelude PyStr Regex RegexParse PyRe World LintState.
From S2P Require Import Cleanse FileInfo IncludeState.

Definition _HEADERS_CONTAINING_TEMPLATES : list (str * list str) :=
  [(u "<deque>", [u "deque"]);
   (u "<functional>",
      [u "unary_function"; u "binary_function"; u "plus"; u "minus"; u "multiplies";
       u "divides"; u "modulus"; u "negate"; u "equal_to"; u "not_equal_to"; u "greater";
       u "less"; u "greater_equal"; u "less_equal"; u "logical_and"; u "logical_or";
       u "logical_not"; u "unary_negate"; u "not1"; u "binary_negate"; u "not2";
       u "bind1st"; u "bind2nd"; u "pointer_to_unary_function";
       u "pointer_to_binary_function"; u "ptr_fun"; u "mem_fun_t"; u "mem_fun";
       u "mem_fun1_t"; u "mem_fun1_ref_t"; u "mem_fun_ref_t"; u "const_mem_fun_t";
       u "const_mem_fun1_t"; u "const_mem_fun_ref_t"; u "const_mem_fun1_ref_t";
       u "mem_fun_ref"]);
   (u "<limits>", [u "numeric_limits"]);
   (u "<list>", [u "list"]);
   (u "<map>", [u "map"; u "multimap"]);
   (u "<memory>", [u "allocator"]);
   (u "<queue>", [u "queue"; u "priority_queue"]);
   (u "<set>", [u "set"; u "multiset"]);
   (u "<stack>", [u "stack"]);
   (u "<string>", [u "char_traits"; u "basic_string"]);
   (u "<utility>", [u "pair"]);
   (u "<vector>", [u "vector"]);
   (** gcc extensions. *)
   (u "<hash_map>", [u "hash_map"; u "hash_multimap"]);
   (u "<hash_set>", [u "hash_set"; u "hash_multiset"]);
   (u "<slist>", [u "slist"])].

Definition _RE_PATTERN_STRING : compiled := rx "\bstring\b".

Definition algorithm_templates : list str :=
  [u "copy"; u "max"; u "min"; u "min_element"; u "sort"; u "swap"; u "transform"].

(** Match max<type>(..., ...), max(..., ...), but not foo->max, foo.max or
    type::max(). *)
Definition algorithm_pattern (template : str) : option compiled :=
  re_compile (u "[^>.]\b" ++ template ++ u "(<.*?>)?\([^\)]").
Definition template_pattern (template : str) : option compiled :=
  re_compile (u "(\<|\b)" ++ template ++ u "\s*\<").

(** (pattern, template, header), in the order of the source; a pattern that did
    not compile would be an error here. *)
Definition _re_pattern_algorithm_header : list (compiled * str * str) :=
  ltac:(compile_rx
    (mapM (λ t, (λ c, (c, t, u "<algorithm>")) <$> algorithm_pattern t)
       algorithm_templates)).
Definition _re_pattern_templates : list (compiled * str * str) :=
  ltac:(compile_rx
    (mapM (λ '(header, t), (λ c, (c, t ++ u "<>", header)) <$> template_pattern t)
       (_HEADERS_CONTAINING_TEMPLATES ≫= λ '(header, templates), pair header <$> templates))).

(** ** What a file requires *)

(** A map of header name to line number and the template entity. *)
Definition require_matches (linenum : Z) (line : str) (patterns : list (compiled * str * str))
    (required : gmap str (Z * str)) : gmap str (Z * str) :=
  fold_left (λ required '(pattern, template, header),
    if found pattern line then <[header := (linenum, template)]> required else required)
    patterns required.

Definition require_line (required : gmap str (Z * str)) (x : Z * str) : gmap str (Z * str) :=
  let '(linenum, line) := x in
  if match line with [] => true | c :: _ => (c =? ch "#")%N end then required
  else
    (** String is special -- it is a non-templatized type in STL. *)
    let required :=
      match re_search _RE_PATTERN_STRING line with
      | Some matched =>
          (** Don't warn about strings in non-STL namespaces *)
          let prefix := take (mo_start matched) line in
          if endswith prefix (u "std::") || negb (endswith prefix (u "::"))
          then <[u "<string>" := (linenum, u "string")]> required else required
      | None => required
      end in
    let required := require_matches linenum line _re_pattern_algorithm_header required in
    (** The following test is just a speed up, no semantics are changed. *)
    if negb (char_in (ch "<") line) then required
    else require_matches linenum line _re_pattern_templates required.

Definition required_headers (cl : cleansed_lines) : gmap str (Z * str) :=
  fold_left require_line (enumerate (elided cl)) ∅.

(** ** The headers of a file *)

(** The lines of a file as [codecs] iterates them, each with its line end. *)
Definition is_line_end (c : N) : bool :=
  in_range 10 13 c || in_range 28 30 c || existsb (N.eqb c) [133; 8232; 8233]%N.

Fixpoint lines_keepends (acc s : str) : list str :=
  match s with
  | [] => match acc with [] => [] | _ => [rev acc] end
  | c :: t =>
      if is_line_end c then
        match t with
        | d :: t' => if ((c =? c_cr) && (d =? c_nl))%N then rev (d :: c :: acc) :: lines_keepends [] t'
                     else rev (c :: acc) :: lines_keepends [] t
        | [] => [rev (c :: acc)]
        end
      else lines_keepends (c :: acc) t
  end.

Definition add_header_line (filename : str) (st : Z * gmap str include_at) (line : str)
    : Z * gmap str include_at :=
  let '(linenum, state) := st in
  let linenum := (linenum + 1)%Z in
  match re_search _RE_PATTERN_INCLUDE (CleanseComments line) with
  | Some mo =>
      let include := group_str mo 2 in
      let state := match state !! include with
        | Some _ => state
        | None => <[include := AtText (filename ++ u ":" ++ fmt_d linenum)]> state
        end in
      (linenum, state)
  | None => (linenum, state)
  end.

Section what_you_use.
Context `{Env}.

(** The new includes, and True if the header could be read. *)
Definition UpdateIncludeState (filename : str) (state : gmap str include_at)
    : bool * gmap str include_at :=
  match read_file filename with
  | None => (false, state)
  | Some text =>
      (true, (fold_left (add_header_line filename) (lines_keepends [] text) (0%Z, state)).2)
  end.

Definition visit_header (abs_filename : str) (st : bool * gmap str include_at)
    (header : str) : bool * gmap str include_at :=
  let '(header_found, state) := st in
  let '(same_module, common_path) := FilesBelongToSameModule abs_filename header in
  let fullpath := common_path ++ header in
  if same_module then
    let '(ok, state) := UpdateIncludeState fullpath state in
    (header_found || ok, state)
  else (header_found, state).

Definition is_bracket (c : N) : bool := char_in c (u "<>`").

Definition CheckForIncludeWhatYouUse (error : handler) (filename : str)
    (cl : cleansed_lines) (inc : include_state) : M unit :=
  let required := required_headers cl in
  (** Use the absolute path so that matching works properly; restore the name
      Emacs's flymake changed. *)
  let abs_filename := re_sub (rx "_flymake\.cc$") (u ".cc") (FullName (FileInfo filename)) in
  (** include_state is copied, and iterated over a copy of its keys. *)
  let '(header_found, state) :=
    fold_left (visit_header abs_filename) (fst <$> dict_items (includes inc))
      (false, includes inc) in
  (** If we can't find the header file for a .cc, give up. *)
  if endswith filename (u ".cc") && negb header_found then skip
  else
    for_each (dict_items required) (λ '(header, (linenum, template)),
      when (bool_decide (state !! strip_by is_bracket header = None))
        (error filename linenum (u "build/include_what_you_use") 4%Z
           (u "Add #include " ++ header ++ u " for " ++ template))).
End what_you_use.

(** ** Headers are only ever added *)

(** The headers of [s1] are all in [s2], where [s1] has them. *)
Definition kept (s1 s2 : gmap str include_at) : Prop :=
  ∀ (header : str) (x : include_at), s1 !! header = Some x → s2 !! header = Some x.

#[export] Instance kept_refl : Reflexive kept.
Proof. by intros s header x. Qed.
#[export] Instance kept_trans : Transitive kept.
Proof. intros s1 s2 s3 H1 H2 header x H. by apply H2, H1. Qed.

Lemma add_header_line_keeps filename st line : kept st.2 (add_header_line filename st line).2.
Proof.
  destruct st as [linenum state]. unfold add_header_line.
  destruct (re_search _ _) as [mo|]; [|done]. simpl. intros header x H.
  destruct (state !! group_str mo 2) eqn:E; [done|].
  destruct (decide (header = group_str mo 2)) as [->|]; [congruence|].
  by rewrite lookup_insert_ne.
Qed.

Lemma fold_left_keeps {A B} (f : A → B → A) (g : A → gmap str include_at) l a :
  (∀ a b, kept (g a) (g (f a b))) → kept (g a) (g (fold_left f l a)).
Proof.
  intros Hf. revert a. induction l as [|b l IH]; intros a; [done|]. simpl.
  etransitivity; [apply Hf|apply IH].
Qed.

Section included.
Context `{EnvLaws}.

Lemma UpdateIncludeState_keeps filename state :
  kept state (UpdateIncludeState filename state).2.
Proof.
  unfold UpdateIncludeState. destruct (read_file filename) as [text|]; [|done]. cbn [snd].
  apply (fold_left_keeps (add_header_line filename) snd _ (0%Z, state)).
  intros st line. apply add_header_line_keeps.
Qed.

Lemma visit_header_keeps abs_filename st header :
  kept st.2 (visit_header abs_filename st header).2.
Proof.
  destruct st as [found state]. unfold visit_header.
  destruct (FilesBelongToSameModule abs_filename header) as [[] common]; [|done].
  pose proof (UpdateIncludeState_keeps (common ++ header) state) as Hk.
  by destruct (UpdateIncludeState (common ++ header) state).
Qed.

(** C19: a file that includes, itself, every header its text requires is never
    told to include one, whatever its own headers are: reading them only adds to
    the headers it has. *)
Theorem included_headers_suffice error filename cl inc w :
  (∀ (header : str) (x : Z * str), required_headers cl !! header = Some x →
     is_Some (includes inc !! strip_by is_bracket header)) →
  CheckForIncludeWhatYouUse error filename cl inc w = (Ok tt, w).
Proof.
  intros Hinc. unfold CheckForIncludeWhatYouUse. set (abs := re_sub _ _ _).
  pose proof (fold_left_keeps (visit_header abs) snd (fst <$> dict_items (includes inc))
    (false, includes inc) (visit_header_keeps abs)) as Hk.
  destruct (fold_left (visit_header abs) _ _) as [found state]. cbn [snd] in Hk.
  destruct (endswith filename (u ".cc") && negb found); [done|].
  assert (Hreq : ∀ p, p ∈ dict_items (required_headers cl) →
      is_Some (state !! strip_by is_bracket p.1)).
  { intros [header x] Hp. rewrite dict_items_perm, elem_of_map_to_list in Hp.
    destruct (Hinc _ _ Hp) as [y Hy]. exists y. by apply Hk. }
  induction (dict_items (required_headers cl)) as [|[header [linenum template]] l IH]; [done|].
  cbn [for_each]. destruct (Hreq (header, (linenum, template))) as [y Hy]; [by left|].
  cbn [fst] in Hy. rewrite Hy. cbn [bool_decide when]. rewrite bool_decide_eq_false_2 by done.
  apply IH. intros p Hp. apply Hreq. by right.
Qed.
End included.

Definition use_demo : cleansed_lines :=
  let ls := [u "vector<int> v;"; u "std::string s = max(a, b);"] in CleansedLines ls ls ls 2 ls.
Definition use_includes : include_state :=
  IncludeState (list_to_map ((λ h, (h, AtLine 1)) <$> [u "vector"; u "string"; u "algorithm"]))
    (_section init_include_state) (_last_header init_include_state).

Lemma included_headers_suffice_witness :
  CheckForIncludeWhatYouUse (H := small_env (u "/w") [] []) (λ _ _ _ _ m, stderr_write m)
    (u "a.h") use_demo use_includes init_world = (Ok tt, init_world).
Proof.
  apply (included_headers_suffice (H := small_env (u "/w") [] [])).
  intros header x Hx. apply elem_of_map_to_list in Hx. revert header x Hx.
  assert (Hall : Forall (λ p, is_Some (includes use_includes !! strip_by is_bracket p.1))
    (map_to_list (required_headers use_demo)))
    by (refine (bool_decide_eq_true_1 _ _); vm_compute; reflexivity).
  intros header x Hx. by apply (proj1 (Forall_forall _ _) Hall (header, x)).
Defined.
