(* ===== verification/Driver.v ===== *)
(** * The driver: lines, files, the command line

    [ProcessLine], [ProcessFileData], [ProcessFile], [ParseArguments] and
    [main] of cpplint.py; the files a run leaves alone, and a verbosity that is
    no number. *)
From S2P Require Import Prelude PyStr Regex RegexParse PyRe World LintState.
From S2P Require Import Cleanse FileInfo IncludeState FunctionState FileChecks LineChecks.
From S2P Require Import Nesting Style Includes Language WhatYouUse.

Definition _USAGE : str := u "
Syntax: cpplint.py [--verbose=#] [--output=vs7] [--filter=-x,+y,...]
                   [--counting=total|toplevel|detailed] [--root=subdir]
                   [--linelength=digits]
        <file> [file] ...

  The style guidelines this tries to follow are those in
    http://google-styleguide.googlecode.com/svn/trunk/cppguide.xml

  Every problem is given a confidence score from 1-5, with 5 meaning we are
  certain of the problem, and 1 meaning it could be a legitimate construct.
  This will miss some errors, and is not a substitute for a code review.

  To suppress false-positive errors of a certain category, add a
  'NOLINT(category)' comment to the line.  NOLINT or NOLINT(*)
  suppresses errors of all categories on that line.

  The files passed in will be linted; at least one file must be provided.
  Default linted extensions are .cc, .cpp, .cu, .cuh and .h.  Change the
  extensions with the --extensions flag.

  Flags:

    output=vs7
      By default, the output is formatted to ease emacs parsing.  Visual Studio
      compatible output (vs7) may also be used.  Other formats are unsupported.

    verbose=#
      Specify a number 0-5 to restrict errors to certain verbosity levels.

    filter=-x,+y,...
      Specify a comma-separated list of category-filters to apply: only
      error messages whose category names pass the filters will be printed.
      (Category names are printed with the message and look like
      `[whitespace/indent]`.)  Filters are evaluated left to right.
      `-FOO` and `FOO` means `do not print categories that start with FOO`.
      `+FOO` means `do print categories that start with FOO`.

      Examples: --filter=-whitespace,+whitespace/braces
                --filter=whitespace,runtime/printf,+runtime/printf_format
                --filter=-,+build/include_what_you_use

      To see a list of all the categories used in cpplint, pass no arg:
         --filter=

    counting=total|toplevel|detailed
      The total number of errors found is always printed. If
      'toplevel' is provided, then the count of errors in each of
      the top-level categories like 'build' and 'whitespace' will
      also be printed. If 'detailed' is provided, then a count
      is provided for each category like 'build/class'.

    root=subdir
      The root directory used for deriving header guard CPP variable.
      By default, the header guard CPP variable is calculated as the relative
      path to the directory that contains .git, .hg, or .svn.  When this flag
      is specified, the relative path is calculated from the specified
      directory. If the specified directory does not exist, this flag is
      ignored.

      Examples:
        Assuing that src/.git exists, the header guard CPP variables for
        src/chrome/browser/ui/browser.h are:

        No flag => CHROME_BROWSER_UI_BROWSER_H_
        --root=chrome => BROWSER_UI_BROWSER_H_
        --root=chrome/browser => UI_BROWSER_H_

    linelength=digits
      This is the allowed line length for the project. The default value is
      80 characters.

      Examples:
        --linelength=120

    extensions=extension,extension,...
      The allowed file extensions that cpplint will check

      Examples:
        --extensions=hpp,cpp
".

(** ** One line *)

(** The three states a file is checked with. *)
Record file_state := FileState {
  fs_include : include_state;
  fs_function : function_state;
  fs_nesting : nesting_state;
}.

(** An additional check run on each source line. *)
Definition extra_check : Type := str → cleansed_lines → Z → handler → M unit.

Definition in_asm_block (ns : nesting_state) : bool :=
  match stack ns with
  | b :: _ => negb (bool_decide (inline_asm b = _NO_ASM))
  | [] => false
  end.

Section driver.
Context `{Env}.

Definition ProcessLine (filename file_extension : str) (cl : cleansed_lines) (line : Z)
    (st : file_state) (error : handler) (extra_check_functions : list extra_check)
    : M file_state :=
  raw_line ← lift (py_nth (raw_lines cl) line);
  ParseNolintSuppressions error filename raw_line line ;;
  ns ← Update error filename cl line (fs_nesting st);
  if in_asm_block ns then mret (FileState (fs_include st) (fs_function st) ns)
  else
    function_state ← CheckForFunctionLengths error filename cl line (fs_function st);
    CheckForMultilineCommentsAndStrings error filename cl line ;;
    CheckStyle error filename cl line file_extension ns ;;
    include_state ← CheckLanguage error filename cl line file_extension (fs_include st);
    CheckForNonConstReference error filename cl line ns ;;
    CheckForNonStandardConstructs error filename cl line ns ;;
    CheckVlogArguments error filename cl line ;;
    CheckPosixThreading error filename cl line ;;
    CheckInvalidIncrement error filename cl line ;;
    CheckMakePairUsesDeduction error filename cl line ;;
    for_each extra_check_functions (λ check_fn, check_fn filename cl line error) ;;
    mret (FileState include_state function_state ns).

(** ** One file *)

(** The lines of a file between the two markers. *)
Definition with_markers (lines : list str) : list str :=
  [u "// marker so line numbers and indices both start at 1"] ++ lines
  ++ [u "// marker so line numbers end in a known way"].

Definition init_file_state : file_state :=
  FileState init_include_state init_function_state init_nesting_state.

Definition ProcessFileData (filename file_extension : str) (lines : list str)
    (error : handler) (extra_check_functions : list extra_check) : M unit :=
  let lines := with_markers lines in
  ResetNolintSuppressions ;;
  CheckForCopyright error filename lines ;;
  when (str_eqb file_extension (u "h")) (CheckForHeaderGuard error filename lines) ;;
  lines ← RemoveMultiLineComments error filename lines;
  cl ← lift (cleanse lines);
  st ← for_fold (zrange 0 (NumLines cl)) init_file_state (λ st line,
         ProcessLine filename file_extension cl line st error extra_check_functions);
  CheckCompletedBlocks error filename (fs_nesting st) ;;
  CheckForIncludeWhatYouUse error filename cl (fs_include st) ;;
  (** We check here rather than inside ProcessLine so that we see raw lines
      rather than "cleaned" lines. *)
  CheckForBadCharacters error filename lines ;;
  CheckForNewlineAtEOF error filename lines.

(** Remove trailing '\r'; was one found? *)
Definition strip_carriage_returns (lines : list str) : list str * bool :=
  ((λ l, rstrip_by (N.eqb c_cr) l) <$> lines,
   existsb (λ l, endswith l [c_cr]) lines).

(** Note, if no dot is found, this will give the entire filename as the ext. *)
Definition extension_of (filename : str) : str := py_from filename (rfind filename (u ".") + 1).

Definition ProcessFile (filename : str) (vlevel : Z) (extra_check_functions : list extra_check)
    : M unit :=
  _ ← _SetVerboseLevel vlevel;
  let text := if str_eqb filename (u "-") then Some read_stdin else read_file filename in
  match text with
  | None =>
      stderr_write (u "Skipping input '" ++ filename ++ u "': Can't open for reading" ++ nl)
  | Some text =>
      let '(lines, carriage_return_found) := strip_carriage_returns (split text nl) in
      let file_extension := extension_of filename in
      valid ← gets w_valid_extensions;
      (if negb (str_eqb filename (u "-")) && bool_decide (file_extension ∉ valid)
       then stderr_write (u "Ignoring " ++ filename ++ u "; not a valid file name ("
                          ++ join (u ", ") (set_items valid) ++ u ")" ++ nl)
       else
         ProcessFileData filename file_extension lines Error extra_check_functions ;;
         when (carriage_return_found && negb linesep_is_crlf)
           (** Use 0 for linenum since outputting only one error for
               potentially several lines. *)
           (Error filename 0%Z (u "whitespace/newline") 1%Z
              (u "One or more unexpected \r (^M) found;better to use only a \n"))) ;;
      stderr_write (u "Done processing " ++ filename ++ nl)
  end.

(** ** The command line *)

(** Prints a brief usage string and exits, optionally with an error message. *)
Definition PrintUsage {A} (message : option str) : M A :=
  stderr_write _USAGE ;;
  match message with
  | Some (_ :: _ as message) =>
      raise (SystemExit 1 (Some (nl ++ u "FATAL ERROR: " ++ message)))
  | _ => raise (SystemExit 1 None)
  end.

Definition PrintCategories {A} : M A :=
  stderr_write (mjoin ((λ cat, u "  " ++ cat ++ nl) <$> _ERROR_CATEGORIES)) ;;
  raise (SystemExit 0 None).

(** [getopt.getopt(args, '', long_options)]: the options with their values and
    the remaining arguments; [None] is a [GetoptError]. *)
Definition long_options : list str :=
  [u "help"; u "output="; u "verbose="; u "counting="; u "filter="; u "root=";
   u "linelength="; u "extensions="].

Definition long_has_args (opt : str) : option (bool * str) :=
  match List.filter (λ o, startswith o opt) long_options with
  | [] => None
  | possibilities =>
      if str_in opt possibilities then Some (false, opt)
      else if str_in (opt ++ u "=") possibilities then Some (true, opt)
      else match possibilities with
           | [unique] => if endswith unique (u "=")
                         then Some (true, py_to unique (-1)) else Some (false, unique)
           | _ => None
           end
  end.

Fixpoint getopt (args : list str) (pending : option str) : option (list (str * str) * list str) :=
  match args with
  | [] => match pending with Some _ => None | None => Some ([], []) end
  | arg :: rest =>
      match pending with
      | Some opt => '(opts, files) ← getopt rest None; Some ((u "--" ++ opt, arg) :: opts, files)
      | None =>
          if negb (startswith arg (u "-")) || str_eqb arg (u "-") then Some ([], args)
          else if str_eqb arg (u "--") then Some ([], rest)
          else if startswith arg (u "--") then
            let body := drop 2 arg in
            let '(opt, optarg) := match find_at (u "=") body with
              | Some i => (take i body, Some (drop (S i) body))
              | None => (body, None) end in
            '(has_arg, opt) ← long_has_args opt;
            match has_arg, optarg with
            | true, None => getopt rest (Some opt)
            | true, Some v | false, None as v =>
                '(opts, files) ← getopt rest None;
                Some ((u "--" ++ opt, default [] optarg) :: opts, files)
            | false, Some _ => None
            end
          else None
      end
  end.
End driver.

(** [int(s)]. *)
Definition digits_value (s : str) : option Z :=
  match s with
  | [] => None
  | _ => if forallb is_digit s
         then Some (fold_left (λ n c, 10 * n + Z.of_N (c - 48))%Z s 0%Z) else None
  end.
Definition py_int (s : str) : res Z :=
  or_raise (ValueError (u "invalid literal for int()"))
    (match bstrip s with
     | c :: t => if (c =? ch "-")%N then Z.opp <$> digits_value t
                 else if (c =? ch "+")%N then digits_value t
                 else digits_value (c :: t)
     | [] => None
     end).

Definition is_value_error (e : exn) : bool :=
  match e with ValueError _ => true | _ => false end.

(** The local variables of [ParseArguments]. *)
Record arguments := Arguments_ {
  a_verbosity : Z; a_output_format : str; a_filters : str; a_counting_style : str;
}.

Definition parse_option (a : arguments) (opt_val : str * str) : M arguments :=
  let '(opt, val) := opt_val in
  if str_eqb opt (u "--help") then PrintUsage None
  else if str_eqb opt (u "--output") then
    if negb (str_in val [u "emacs"; u "vs7"; u "eclipse"])
    then PrintUsage (Some (u "The only allowed output formats are emacs, vs7 and eclipse."))
    else mret (Arguments_ (a_verbosity a) val (a_filters a) (a_counting_style a))
  else if str_eqb opt (u "--verbose") then
    v ← lift (py_int val);
    mret (Arguments_ v (a_output_format a) (a_filters a) (a_counting_style a))
  else if str_eqb opt (u "--filter") then
    match val with
    | [] => PrintCategories
    | _ => mret (Arguments_ (a_verbosity a) (a_output_format a) val (a_counting_style a))
    end
  else if str_eqb opt (u "--counting") then
    if negb (str_in val [u "total"; u "toplevel"; u "detailed"])
    then PrintUsage (Some (u "Valid counting options are total, toplevel, and detailed"))
    else mret (Arguments_ (a_verbosity a) (a_output_format a) (a_filters a) val)
  else if str_eqb opt (u "--root") then
    modify (set_root (Some val)) ;; mret a
  else if str_eqb opt (u "--linelength") then
    try_except (n ← lift (py_int val); modify (set_line_length n)) is_value_error
      (λ _, PrintUsage (Some (u "Line length must be digits."))) ;;
    mret a
  else if str_eqb opt (u "--extensions") then
    modify (set_valid_extensions (list_to_set (split val (u ",")))) ;; mret a
  else mret a.

(** The list of filenames to lint. *)
Definition ParseArguments (args : list str) : M (list str) :=
  match getopt args None with
  | None => PrintUsage (Some (u "Invalid arguments."))
  | Some (opts, filenames) =>
      verbosity ← _VerboseLevel;
      output_format ← _OutputFormat;
      a ← for_fold opts (Arguments_ verbosity output_format [] []) parse_option;
      match filenames with
      | [] => PrintUsage (Some (u "No files were specified."))
      | _ =>
          _SetOutputFormat (a_output_format a) ;;
          _ ← _SetVerboseLevel (a_verbosity a);
          _SetFilters (a_filters a) ;;
          _SetCountingStyle (a_counting_style a) ;;
          mret filenames
      end
  end.

(** [main] ends by raising [SystemExit], with status 1 when an error was
    counted. *)
Definition main `{Env} (argv : list str) : M unit :=
  filenames ← ParseArguments argv;
  ResetErrorCounts ;;
  for_each filenames (λ filename,
    level ← _VerboseLevel;
    ProcessFile filename level []) ;;
  PrintErrorCounts dict_items ;;
  n ← gets (λ w, error_count (cpplint_state w));
  raise (SystemExit (if (0 <? n)%Z then 1%Z else 0%Z) None).

(** ** Files that are not checked *)

(** What [_SetVerboseLevel] leaves. *)
Definition with_verbosity (vlevel : Z) (w : world) : world := (_SetVerboseLevel vlevel w).2.

(** C27: a file that cannot be opened, or whose extension is not among the valid
    ones, is not checked at all: `ProcessFile` returns, having only set the
    verbosity and written to stderr, once that it skips the file, or that it
    ignores it and is done; no error is counted. *)
Theorem ProcessFile_leaves_other_files_alone `{Env} filename vlevel extra w :
  filename ≠ u "-" →
  read_file filename = None ∨ extension_of filename ∉ w_valid_extensions w →
  ∃ messages, ProcessFile filename vlevel extra w =
    (Ok tt, foldl (λ w s, add_stderr s w) (with_verbosity vlevel w) messages) ∧
    match read_file filename with
    | None => messages = [u "Skipping input '" ++ filename ++ u "': Can't open for reading" ++ nl]
    | Some _ => ∃ ignored, messages =
        [u "Ignoring " ++ filename ++ u "; not a valid file name (" ++ ignored ++ u ")" ++ nl;
         u "Done processing " ++ filename ++ nl]
    end.
Proof.
  intros Hne Hf. unfold ProcessFile, mbind, M_bind.
  assert (Hv : ∃ old, _SetVerboseLevel vlevel w = (Ok old, with_verbosity vlevel w) ∧
    w_valid_extensions (with_verbosity vlevel w) = w_valid_extensions w) by by eexists.
  destruct Hv as (old & -> & Hv). destruct (str_eqb filename (u "-")) eqn:Ed; [by apply str_eqb_eq in Ed|].
  destruct (read_file filename) as [text|].
  - destruct Hf as [[=]|Hext]. destruct (strip_carriage_returns _) as [ls cr].
    cbn [gets]. rewrite Hv, bool_decide_eq_true_2 by done. cbn [negb andb].
    eexists. split; [|by eexists]. reflexivity.
  - eexists. split; [|done]. reflexivity.
Qed.

Lemma ProcessFile_leaves_other_files_alone_witness :
  let H := small_env (u "/w") [(u "a.py", u "x")] [] in
  ∃ messages, ProcessFile (H := H) (u "a.py") 3 [] init_world =
    (Ok tt, foldl (λ w s, add_stderr s w) (with_verbosity 3 init_world) messages) ∧
    ∃ ignored, messages =
        [u "Ignoring a.py; not a valid file name (" ++ ignored ++ u ")" ++ nl;
         u "Done processing a.py" ++ nl].
Proof.
  apply (ProcessFile_leaves_other_files_alone (H := small_env (u "/w") [(u "a.py", u "x")] [])
    (u "a.py") 3 [] init_world); [discriminate|].
  right. refine (bool_decide_eq_true_1 _ _). vm_compute. reflexivity.
Defined.

(** ** A verbosity that is not a number *)

(** The value of an option spelled out with its name. *)
Lemma getopt_value `{Env} opt val argv :
  opt ∈ [u "verbose"; u "linelength"] →
  getopt ((u "--" ++ opt ++ u "=" ++ val) :: argv) None =
    '(opts, files) ← getopt argv None; Some ((u "--" ++ opt, val) :: opts, files).
Proof. rewrite !elem_of_cons. by intros [->|[->|[]%not_elem_of_nil]]. Qed.

Lemma parse_verbose_raises a val w :
  py_int val = Raise (ValueError (u "invalid literal for int()")) →
  parse_option a (u "--" ++ u "verbose", val) w =
    (Raise (ValueError (u "invalid literal for int()")), w).
Proof.
  intros H. transitivity ((v ← lift (py_int val);
    mret (Arguments_ v (a_output_format a) (a_filters a) (a_counting_style a))) w);
    [reflexivity|by rewrite H].
Qed.

Lemma parse_linelength_raises a val w :
  py_int val = Raise (ValueError (u "invalid literal for int()")) →
  parse_option a (u "--" ++ u "linelength", val) w =
    PrintUsage (Some (u "Line length must be digits.")) w.
Proof.
  intros H. transitivity ((try_except (n ← lift (py_int val); modify (set_line_length n))
    is_value_error (λ _, PrintUsage (Some (u "Line length must be digits."))) ;; mret a) w);
    [reflexivity|by rewrite H].
Qed.

(** C37: `--verbose=x` is not answered with the usage text: when the value is no
    integer, the ValueError of `int(val)` escapes from `main` before anything
    is printed or checked, while the same value for `--linelength` is caught and
    answered with the usage text. *)
Theorem bad_verbosity_raises `{Env} val argv opts files w :
  py_int val = Raise (ValueError (u "invalid literal for int()")) →
  getopt argv None = Some (opts, files) →
  main ((u "--verbose=" ++ val) :: argv) w =
    (Raise (ValueError (u "invalid literal for int()")), w) ∧
  main ((u "--linelength=" ++ val) :: argv) w =
    PrintUsage (Some (u "Line length must be digits.")) w.
Proof.
  intros Hval Hopts.
  change (u "--verbose=" ++ val) with (u "--" ++ u "verbose" ++ u "=" ++ val).
  change (u "--linelength=" ++ val) with (u "--" ++ u "linelength" ++ u "=" ++ val).
  unfold main, ParseArguments. rewrite !getopt_value, Hopts by (rewrite !elem_of_cons; auto).
  cbn [mbind option_bind]. cbn [for_fold].
  split; unfold mbind, M_bind, _VerboseLevel, _OutputFormat, gets.
  - by rewrite parse_verbose_raises.
  - by rewrite parse_linelength_raises.
Qed.

Lemma bad_verbosity_raises_witness :
  main (H := small_env (u "/w") [] []) [u "--verbose=x"; u "a.cc"] init_world =
    (Raise (ValueError (u "invalid literal for int()")), init_world) ∧
  main (H := small_env (u "/w") [] []) [u "--linelength=x"; u "a.cc"] init_world =
    PrintUsage (Some (u "Line length must be digits.")) init_world.
Proof.
  apply (bad_verbosity_raises (H := small_env (u "/w") [] []) (u "x") [u "a.cc"] [] [u "a.cc"]);
    reflexivity.
Defined.
