(* ===== verification/CommandLine.v ===== *)
(** * The command line read back

    What [ParseArguments] makes of a command line in which every option is
    spelled out: the settings it stands for.  [py_int] reads the numbers that
    ['%d'] prints. *)
From S2P Require Import Prelude PyStr World LintState FileInfo Driver.

(** ** Numbers *)

Lemma u_digit d s : (d < 10)%N → u (String (pretty_N_char d) s) = (48 + d)%N :: u s.
Proof.
  intros Hd.
  assert (d = 0 ∨ d = 1 ∨ d = 2 ∨ d = 3 ∨ d = 4 ∨ d = 5 ∨ d = 6 ∨ d = 7 ∨ d = 8 ∨ d = 9)%N
    as Hcases by lia.
  by repeat destruct Hcases as [->|Hcases]; try subst d.
Qed.

Lemma is_digit_spec c : is_digit c = true ↔ (48 <= c <= 57)%N.
Proof. unfold is_digit, in_range. by rewrite andb_true_iff, !N.leb_le. Qed.

Lemma pretty_go_digits x s : ∃ ds, u (pretty_N_go x s) = ds ++ u s ∧
  forallb is_digit ds = true ∧
  fold_left (λ n c, 10 * n + Z.of_N (c - 48))%Z ds 0%Z = Z.of_N x ∧ ((0 < x)%N → ds ≠ []).
Proof.
  revert s. induction (N.lt_wf_0 x) as [x _ IH]; intros s.
  destruct (decide (0 < x)%N) as [Hx|Hx].
  - rewrite pretty_N_go_step by done.
    destruct (IH (x / 10)%N (N.div_lt x 10 Hx eq_refl) (String (pretty_N_char (x mod 10)) s))
      as (ds & E & Hd & Hv & _).
    assert (Hm : (x mod 10 < 10)%N) by (by apply N.mod_lt).
    rewrite u_digit in E by done. exists (ds ++ [(48 + x mod 10)%N]).
    split; [by rewrite E, <- app_assoc|]. split.
    { rewrite forallb_app, Hd. cbn [forallb]. rewrite (proj2 (is_digit_spec _)). 1: done. revert Hm. generalize (x mod 10)%N. lia. }
    split; [|intros _ Hn; by destruct ds]. rewrite fold_left_app, Hv. cbn [fold_left].
    pose proof (N.div_mod x 10 ltac:(done)) as Hx10. revert Hx10 Hm. clear.
    generalize (x mod 10)%N (x / 10)%N. lia.
  - assert (x = 0%N) as -> by lia. exists []. split; [by rewrite pretty_N_go_0|]. done.
Qed.

Lemma digits_value_pretty (x : N) : ∃ c ds, u (pretty x) = c :: ds ∧
  forallb is_digit (c :: ds) = true ∧ digits_value (c :: ds) = Some (Z.of_N x).
Proof.
  unfold pretty, pretty_N. destruct (decide (x = 0)%N) as [->|Hx].
  { by exists 48%N, []. }
  destruct (pretty_go_digits x "") as (ds & E & Hd & Hv & Hne). rewrite E, app_nil_r.
  destruct ds as [|c ds]; [by destruct (Hne ltac:(lia))|]. exists c, ds.
  split; [done|]. split; [exact Hd|]. unfold digits_value. by rewrite Hd, Hv.
Qed.

Lemma digit_not_space c : is_digit c = true → is_space c = false.
Proof.
  intros H%is_digit_spec. unfold is_space, in_range. apply not_true_iff_false. intros Hs. cbn [existsb] in Hs.
  rewrite ?orb_true_iff, ?andb_true_iff, ?N.leb_le, ?N.eqb_eq in Hs. lia.
Qed.

Lemma drop_while_none f s : forallb (λ c, negb (f c)) s = true → drop_while f s = s.
Proof. destruct s as [|c s]; [done|]. simpl. by destruct (f c). Qed.

Lemma strip_by_none f s : forallb (λ c, negb (f c)) s = true → strip_by f s = s.
Proof.
  intros H. unfold strip_by, lstrip_by, rstrip_by.
  rewrite !drop_while_none; [by rewrite rev_involutive|done|].
  rewrite drop_while_none by done. apply forallb_forall. intros c Hc%in_rev.
  by apply (proj1 (forallb_forall _ s) H).
Qed.

Lemma digits_stripped ds : forallb is_digit ds = true → forallb (λ c, negb (is_space c)) ds = true.
Proof.
  intros H. apply forallb_forall. intros c Hc.
  by rewrite (digit_not_space c (proj1 (forallb_forall _ ds) H c Hc)).
Qed.

(** Reading what was printed. *)
Lemma py_int_fmt_d z : py_int (fmt_d z) = Ok z.
Proof.
  unfold py_int, fmt_d, bstrip. destruct z as [|p|p]; [done|..].
  - change (pretty (Z.pos p)) with (pretty (N.pos p)).
    destruct (digits_value_pretty (N.pos p)) as (c & ds & -> & Hd & Hv).
    rewrite strip_by_none by by apply digits_stripped. rewrite Hv.
    cbn [forallb] in Hd. apply andb_true_iff in Hd as [Hd%is_digit_spec _].
    destruct (N.eqb_spec c (ch "-")) as [->|_]; [by destruct Hd as [[] _]|].
    destruct (N.eqb_spec c (ch "+")) as [->|_]; [by destruct Hd as [[] _]|]. done.
  - change (u (pretty (Z.neg p))) with (ch "-" :: u (pretty (N.pos p))).
    destruct (digits_value_pretty (N.pos p)) as (c & ds & -> & Hd & Hv).
    rewrite strip_by_none by exact (digits_stripped (c :: ds) Hd).
    cbn [fmap option_fmap]. by rewrite Hv.
Qed.

(** ** A command line that spells out every option *)

Record settings := Settings {
  s_verbose : Z; s_output : str; s_filter : str; s_counting : str;
  s_root : str; s_linelength : Z; s_extensions : list str;
}.

Definition flag (opt val : str) : str := u "--" ++ opt ++ u "=" ++ val.
Definition command_line (s : settings) : list str :=
  [flag (u "verbose") (fmt_d (s_verbose s)); flag (u "output") (s_output s);
   flag (u "filter") (s_filter s); flag (u "counting") (s_counting s);
   flag (u "root") (s_root s); flag (u "linelength") (fmt_d (s_linelength s));
   flag (u "extensions") (join (u ",") (s_extensions s))].

Definition valid_settings (s : settings) : Prop :=
  s_output s ∈ [u "emacs"; u "vs7"; u "eclipse"] ∧
  s_counting s ∈ [u "total"; u "toplevel"; u "detailed"] ∧
  s_filter s ≠ [] ∧ Forall (λ f, has_sign f = true) (flag_filters (s_filter s)) ∧
  s_extensions s ≠ [] ∧ Forall (λ e, ch "," ∉ e) (s_extensions s).

(** The program's globals under these settings. *)
Definition with_settings (s : settings) (w : world) : world :=
  World (error_suppressions w)
    (LintState (s_verbose s) (error_count (cpplint_state w))
       (_DEFAULT_FILTERS ++ flag_filters (s_filter s)) (s_counting s)
       (errors_by_category (cpplint_state w)) (s_output s))
    (Some (s_root s)) (s_linelength s) (list_to_set (s_extensions s)) (stderr w).

(** The first file is not taken for an option. *)
Definition is_file (f : str) : bool := negb (startswith f (u "-")) || str_eqb f (u "-").

Lemma getopt_option opt val argv :
  opt ∈ [u "verbose"; u "output"; u "filter"; u "counting"; u "root"; u "linelength"; u "extensions"] →
  getopt (flag opt val :: argv) None =
    '(opts, files) ← getopt argv None; Some ((u "--" ++ opt, val) :: opts, files).
Proof. rewrite !elem_of_cons. by intros [->|[->|[->|[->|[->|[->|[->|[]%not_elem_of_nil]]]]]]]. Qed.

Lemma getopt_files f files : is_file f = true → getopt (f :: files) None = Some ([], f :: files).
Proof. intros H. cbn [getopt]. unfold is_file in H. by rewrite H. Qed.

Definition options (s : settings) : list (str * str) :=
  [(u "--verbose", fmt_d (s_verbose s)); (u "--output", s_output s); (u "--filter", s_filter s);
   (u "--counting", s_counting s); (u "--root", s_root s);
   (u "--linelength", fmt_d (s_linelength s));
   (u "--extensions", join (u ",") (s_extensions s))].

Lemma getopt_command_line s f files : is_file f = true →
  getopt (command_line s ++ f :: files) None = Some (options s, f :: files).
Proof.
  intros Hf. unfold command_line. cbn [app].
  rewrite !getopt_option, getopt_files by (exact Hf || (rewrite !elem_of_cons; tauto)). done.
Qed.

(** Each option's effect. *)
Section options.
Context (a : arguments) (w : world).

Lemma parse_verbose v : parse_option a (u "--verbose", fmt_d v) w =
  (Ok (Arguments_ v (a_output_format a) (a_filters a) (a_counting_style a)), w).
Proof.
  transitivity ((v ← lift (py_int (fmt_d v));
    mret (Arguments_ v (a_output_format a) (a_filters a) (a_counting_style a))) w);
    [reflexivity|by rewrite py_int_fmt_d].
Qed.

Lemma parse_output out : out ∈ [u "emacs"; u "vs7"; u "eclipse"] →
  parse_option a (u "--output", out) w =
    (Ok (Arguments_ (a_verbosity a) out (a_filters a) (a_counting_style a)), w).
Proof. rewrite !elem_of_cons. by intros [->|[->|[->|[]%not_elem_of_nil]]]. Qed.

Lemma parse_filter fl : fl ≠ [] → parse_option a (u "--filter", fl) w =
  (Ok (Arguments_ (a_verbosity a) (a_output_format a) fl (a_counting_style a)), w).
Proof. by destruct fl. Qed.

Lemma parse_counting c : c ∈ [u "total"; u "toplevel"; u "detailed"] →
  parse_option a (u "--counting", c) w =
    (Ok (Arguments_ (a_verbosity a) (a_output_format a) (a_filters a) c), w).
Proof. rewrite !elem_of_cons. by intros [->|[->|[->|[]%not_elem_of_nil]]]. Qed.

Lemma parse_root r : parse_option a (u "--root", r) w = (Ok a, set_root (Some r) w).
Proof. reflexivity. Qed.

Lemma parse_linelength n :
  parse_option a (u "--linelength", fmt_d n) w = (Ok a, set_line_length n w).
Proof.
  transitivity ((try_except (n ← lift (py_int (fmt_d n)); modify (set_line_length n))
    is_value_error (λ _, PrintUsage (Some (u "Line length must be digits."))) ;; mret a) w);
    [reflexivity|by rewrite py_int_fmt_d].
Qed.

Lemma parse_extensions es : parse_option a (u "--extensions", es) w =
  (Ok a, set_valid_extensions (list_to_set (split es (u ","))) w).
Proof. reflexivity. Qed.
End options.

Lemma parse_options s a w : valid_settings s →
  for_fold (options s) a parse_option w =
    (Ok (Arguments_ (s_verbose s) (s_output s) (s_filter s) (s_counting s)),
     set_valid_extensions (list_to_set (split (join (u ",") (s_extensions s)) (u ",")))
       (set_line_length (s_linelength s) (set_root (Some (s_root s)) w))).
Proof.
  intros (Ho & Hc & Hf & _). unfold options. cbn [for_fold].
  unfold mbind, M_bind. rewrite parse_verbose, parse_output by done. rewrite parse_filter by done.
  by rewrite parse_counting, parse_root, parse_linelength, parse_extensions by done.
Qed.

(** Splitting at a character undoes joining with it. *)
Lemma split_go_piece c p acc s : c ∉ p →
  split_go [c] 0 acc (p ++ s) = split_go [c] 0 (rev p ++ acc) s.
Proof.
  revert acc. induction p as [|x p IH]; intros acc Hc; [done|].
  apply not_elem_of_cons in Hc as [Hx Hc]. cbn [app split_go starts_with].
  destruct (N.eqb_spec c x); [done|]. cbn [andb]. rewrite IH by done.
  simpl. by rewrite <- app_assoc.
Qed.

Lemma split_join c l : l ≠ [] → Forall (λ p, c ∉ p) l → split (join [c] l) [c] = l.
Proof.
  intros Hl Hf. unfold split. induction Hf as [|p l Hp Hf IH]; [done|].
  destruct l as [|q l].
  - change (join [c] [p]) with p. rewrite <- (app_nil_r p) at 1. rewrite split_go_piece by done.
    simpl. by rewrite app_nil_r, rev_involutive.
  - rewrite join_cons, split_go_piece by done. cbn [app split_go starts_with length Nat.sub].
    rewrite N.eqb_refl. cbn [andb]. by rewrite IH, app_nil_r, rev_involutive.
Qed.


