(* ===== verification/Reports.v ===== *)
(** * What the checks report, and what a run of the program does

    Every check keeps any invariant its error handler keeps, because it reports
    only under known categories and with confidences between 0 and 5: one lemma
    for each check, found by [preserve] through the hint database [preserves].
    With [Error] as the handler this gives what a whole run writes, counts and
    exits with. *)
From S2P Require Import Prelude PyStr Regex RegexParse PyRe World LintState.
From S2P Require Import Cleanse Expr FileInfo IncludeState FunctionState FileChecks.
From S2P Require Import LineChecks Nesting Spacing Braces CheckMacros Style Includes.
From S2P Require Import Language WhatYouUse Driver.

Lemma known_category category :
  str_in category _ERROR_CATEGORIES = true → category ∈ _ERROR_CATEGORIES.
Proof. apply bool_decide_eq_true. Qed.

Lemma VerboseLevel_ok Inv : preserves Inv _VerboseLevel.
Proof. apply preserves_gets. Qed.
#[export] Hint Resolve VerboseLevel_ok : preserves.

(** ** [Cleanse] *)
Lemma remove_comments_loop_ok {Inv error filename} `{!Reporter Inv error filename} fuel lines lineix :
  preserves Inv (remove_comments_loop error filename fuel lines lineix).
Proof.
  revert lines lineix. induction fuel as [|fuel IH]; intros lines lineix; cbn [remove_comments_loop];
    preserve; apply IH.
Qed.
#[export] Hint Resolve remove_comments_loop_ok : preserves.

Lemma RemoveMultiLineComments_ok {Inv error filename} `{!Reporter Inv error filename} lines :
  preserves Inv (RemoveMultiLineComments error filename lines).
Proof. unfold RemoveMultiLineComments. preserve. Qed.
#[export] Hint Resolve RemoveMultiLineComments_ok : preserves.


(** ** [FunctionState] *)
Lemma error_level_range n level : error_level n = Ok level → (0 <= level <= 5)%Z.
Proof.
  unfold error_level. destruct (n <=? 0)%Z; [done|]. intros [= <-].
  pose proof (Z.log2_nonneg n). lia.
Qed.

Lemma Check_ok {Inv error filename} `{!Reporter Inv error filename} fs linenum :
  preserves Inv (Check fs error filename linenum).
Proof.
  unfold Check. preserve. apply report_ok; [by apply known_category|].
  by eapply error_level_range.
Qed.
#[export] Hint Resolve Check_ok : preserves.


(** ** [FileChecks] *)
Lemma CheckForCopyright_ok {Inv error filename} `{!Reporter Inv error filename} lines :
  preserves Inv (CheckForCopyright error filename lines).
Proof. unfold CheckForCopyright. preserve. Qed.
#[export] Hint Resolve CheckForCopyright_ok : preserves.

Lemma GetHeaderGuardCPPVariable_ok `{Env} {Inv} filename :
  preserves Inv (GetHeaderGuardCPPVariable filename).
Proof. unfold GetHeaderGuardCPPVariable. preserve. Qed.
#[export] Hint Resolve GetHeaderGuardCPPVariable_ok : preserves.

Lemma CheckForHeaderGuard_ok `{Env} {Inv error filename} `{!Reporter Inv error filename} lines :
  preserves Inv (CheckForHeaderGuard error filename lines).
Proof.
  unfold CheckForHeaderGuard. preserve;
    (apply report_ok; [by apply known_category|case_match; lia]).
Qed.
#[export] Hint Resolve CheckForHeaderGuard_ok : preserves.

Lemma CheckForBadCharacters_ok {Inv error filename} `{!Reporter Inv error filename} lines :
  preserves Inv (CheckForBadCharacters error filename lines).
Proof. unfold CheckForBadCharacters. preserve. Qed.
#[export] Hint Resolve CheckForBadCharacters_ok : preserves.

Lemma CheckForNewlineAtEOF_ok {Inv error filename} `{!Reporter Inv error filename} lines :
  preserves Inv (CheckForNewlineAtEOF error filename lines).
Proof. unfold CheckForNewlineAtEOF. preserve. Qed.
#[export] Hint Resolve CheckForNewlineAtEOF_ok : preserves.


(** ** [LineChecks] *)
Lemma CheckForMultilineCommentsAndStrings_ok {Inv error filename} `{!Reporter Inv error filename} cl linenum :
  preserves Inv (CheckForMultilineCommentsAndStrings error filename cl linenum).
Proof. unfold CheckForMultilineCommentsAndStrings. preserve. Qed.
#[export] Hint Resolve CheckForMultilineCommentsAndStrings_ok : preserves.

Lemma CheckPosixThreading_ok `{Env} {Inv error filename} `{!Reporter Inv error filename} cl linenum :
  preserves Inv (CheckPosixThreading error filename cl linenum).
Proof. unfold CheckPosixThreading. preserve. Qed.
#[export] Hint Resolve CheckPosixThreading_ok : preserves.

Lemma CheckVlogArguments_ok {Inv error filename} `{!Reporter Inv error filename} cl linenum :
  preserves Inv (CheckVlogArguments error filename cl linenum).
Proof. unfold CheckVlogArguments. preserve. Qed.
#[export] Hint Resolve CheckVlogArguments_ok : preserves.

Lemma CheckInvalidIncrement_ok {Inv error filename} `{!Reporter Inv error filename} cl linenum :
  preserves Inv (CheckInvalidIncrement error filename cl linenum).
Proof. unfold CheckInvalidIncrement. preserve. Qed.
#[export] Hint Resolve CheckInvalidIncrement_ok : preserves.

Lemma CheckForFunctionLengths_ok {Inv error filename} `{!Reporter Inv error filename} cl linenum fs :
  preserves Inv (CheckForFunctionLengths error filename cl linenum fs).
Proof. unfold CheckForFunctionLengths. preserve. Qed.
#[export] Hint Resolve CheckForFunctionLengths_ok : preserves.

Lemma CheckComment_ok {Inv error filename} `{!Reporter Inv error filename} comment linenum :
  preserves Inv (CheckComment error comment filename linenum).
Proof. unfold CheckComment. preserve. Qed.
#[export] Hint Resolve CheckComment_ok : preserves.

Lemma CheckMakePairUsesDeduction_ok {Inv error filename} `{!Reporter Inv error filename} cl linenum :
  preserves Inv (CheckMakePairUsesDeduction error filename cl linenum).
Proof. unfold CheckMakePairUsesDeduction. preserve. Qed.
#[export] Hint Resolve CheckMakePairUsesDeduction_ok : preserves.


(** ** [Nesting] *)
Lemma class_CheckEnd_ok {Inv error filename} `{!Reporter Inv error filename} c cl linenum :
  preserves Inv (class_CheckEnd c error filename cl linenum).
Proof. unfold class_CheckEnd. preserve. Qed.
#[export] Hint Resolve class_CheckEnd_ok : preserves.

Lemma namespace_CheckEnd_ok {Inv error filename} `{!Reporter Inv error filename} n cl linenum :
  preserves Inv (namespace_CheckEnd n error filename cl linenum).
Proof. unfold namespace_CheckEnd. preserve. Qed.
#[export] Hint Resolve namespace_CheckEnd_ok : preserves.

Lemma CheckEnd_ok {Inv error filename} `{!Reporter Inv error filename} b cl linenum :
  preserves Inv (CheckEnd b error filename cl linenum).
Proof. unfold CheckEnd. preserve. Qed.
#[export] Hint Resolve CheckEnd_ok : preserves.

Lemma update_access_ok {Inv error filename} `{!Reporter Inv error filename} line linenum ns :
  preserves Inv (update_access error filename line linenum ns).
Proof. unfold update_access. preserve. Qed.
#[export] Hint Resolve update_access_ok : preserves.

Lemma step_token_ok {Inv error filename} `{!Reporter Inv error filename} cl linenum token line s :
  preserves Inv (step_token error filename cl linenum token line s).
Proof. unfold step_token. preserve. Qed.
#[export] Hint Resolve step_token_ok : preserves.

Lemma consume_braces_ok {Inv error filename} `{!Reporter Inv error filename} cl linenum fuel line s :
  preserves Inv (consume_braces error filename cl linenum fuel line s).
Proof.
  revert line s. induction fuel as [|fuel IH]; intros line s; cbn [consume_braces];
    preserve; apply IH.
Qed.
#[export] Hint Resolve consume_braces_ok : preserves.

Lemma Update_ok {Inv error filename} `{!Reporter Inv error filename} cl linenum ns :
  preserves Inv (Update error filename cl linenum ns).
Proof. unfold Update. preserve. Qed.
#[export] Hint Resolve Update_ok : preserves.

Lemma CheckCompletedBlocks_ok {Inv error filename} `{!Reporter Inv error filename} ns :
  preserves Inv (CheckCompletedBlocks error filename ns).
Proof. unfold CheckCompletedBlocks. preserve. Qed.
#[export] Hint Resolve CheckCompletedBlocks_ok : preserves.

Lemma CheckAccess_ok {Inv error filename} `{!Reporter Inv error filename} cl linenum ns :
  preserves Inv (CheckAccess error filename cl linenum ns).
Proof. unfold CheckAccess. preserve. Qed.
#[export] Hint Resolve CheckAccess_ok : preserves.


(** ** [Spacing] *)
Lemma CheckSpacingForFunctionCall_ok {Inv error filename} `{!Reporter Inv error filename} line linenum :
  preserves Inv (CheckSpacingForFunctionCall error filename line linenum).
Proof. unfold CheckSpacingForFunctionCall. preserve. Qed.
#[export] Hint Resolve CheckSpacingForFunctionCall_ok : preserves.

Lemma check_blank_line_ok {Inv error filename} `{!Reporter Inv error filename} cl linenum ns line :
  preserves Inv (check_blank_line error filename cl linenum ns line).
Proof. unfold check_blank_line. preserve. Qed.
#[export] Hint Resolve check_blank_line_ok : preserves.

Lemma check_comment_spacing_ok {Inv error filename} `{!Reporter Inv error filename} linenum line :
  preserves Inv (check_comment_spacing error filename linenum line).
Proof. unfold check_comment_spacing. preserve. Qed.
#[export] Hint Resolve check_comment_spacing_ok : preserves.

Lemma check_angle_spacing_ok {Inv error filename} `{!Reporter Inv error filename} cl linenum line :
  preserves Inv (check_angle_spacing error filename cl linenum line).
Proof. unfold check_angle_spacing. preserve. Qed.
#[export] Hint Resolve check_angle_spacing_ok : preserves.

Lemma check_operator_spacing_ok `{Env} {Inv error filename} `{!Reporter Inv error filename} cl linenum line :
  preserves Inv (check_operator_spacing error filename cl linenum line).
Proof. unfold check_operator_spacing. preserve. Qed.
#[export] Hint Resolve check_operator_spacing_ok : preserves.

Lemma check_paren_spacing_ok {Inv error filename} `{!Reporter Inv error filename} linenum line :
  preserves Inv (check_paren_spacing error filename linenum line).
Proof. unfold check_paren_spacing. preserve. Qed.
#[export] Hint Resolve check_paren_spacing_ok : preserves.

Lemma check_comma_semicolon_ok {Inv error filename} `{!Reporter Inv error filename} cl linenum line :
  preserves Inv (check_comma_semicolon error filename cl linenum line).
Proof. unfold check_comma_semicolon. preserve. Qed.
#[export] Hint Resolve check_comma_semicolon_ok : preserves.

Lemma check_brace_spacing_ok {Inv error filename} `{!Reporter Inv error filename} cl linenum line :
  preserves Inv (check_brace_spacing error filename cl linenum line).
Proof. unfold check_brace_spacing. preserve. Qed.
#[export] Hint Resolve check_brace_spacing_ok : preserves.

Lemma check_final_semicolon_ok {Inv error filename} `{!Reporter Inv error filename} linenum line :
  preserves Inv (check_final_semicolon error filename linenum line).
Proof. unfold check_final_semicolon. preserve. Qed.
#[export] Hint Resolve check_final_semicolon_ok : preserves.

Lemma CheckSpacing_ok `{Env} {Inv error filename} `{!Reporter Inv error filename} cl linenum ns :
  preserves Inv (CheckSpacing error filename cl linenum ns).
Proof. unfold CheckSpacing. preserve. Qed.
#[export] Hint Resolve CheckSpacing_ok : preserves.

Lemma CheckSectionSpacing_ok {Inv error filename} `{!Reporter Inv error filename} cl c linenum :
  preserves Inv (CheckSectionSpacing error filename cl c linenum).
Proof. unfold CheckSectionSpacing. preserve. Qed.
#[export] Hint Resolve CheckSectionSpacing_ok : preserves.


(** ** [Braces] *)
Lemma check_lone_brace_ok {Inv error filename} `{!Reporter Inv error filename} cl linenum line :
  preserves Inv (check_lone_brace error filename cl linenum line).
Proof. unfold check_lone_brace. preserve. Qed.
#[export] Hint Resolve check_lone_brace_ok : preserves.

Lemma check_else_line_ok {Inv error filename} `{!Reporter Inv error filename} cl linenum line :
  preserves Inv (check_else_line error filename cl linenum line).
Proof. unfold check_else_line. preserve. Qed.
#[export] Hint Resolve check_else_line_ok : preserves.

Lemma check_else_braces_ok {Inv error filename} `{!Reporter Inv error filename} cl linenum line :
  preserves Inv (check_else_braces error filename cl linenum line).
Proof. unfold check_else_braces. preserve. Qed.
#[export] Hint Resolve check_else_braces_ok : preserves.

Lemma check_else_clause_ok {Inv error filename} `{!Reporter Inv error filename} linenum line :
  preserves Inv (check_else_clause error filename linenum line).
Proof. unfold check_else_clause. preserve. Qed.
#[export] Hint Resolve check_else_clause_ok : preserves.

Lemma check_block_semicolon_ok {Inv error filename} `{!Reporter Inv error filename} cl linenum line :
  preserves Inv (check_block_semicolon error filename cl linenum line).
Proof. unfold check_block_semicolon. preserve. Qed.
#[export] Hint Resolve check_block_semicolon_ok : preserves.

Lemma CheckBraces_ok {Inv error filename} `{!Reporter Inv error filename} cl linenum :
  preserves Inv (CheckBraces error filename cl linenum).
Proof. unfold CheckBraces. preserve. Qed.
#[export] Hint Resolve CheckBraces_ok : preserves.

Lemma CheckEmptyBlockBody_ok {Inv error filename} `{!Reporter Inv error filename} cl linenum :
  preserves Inv (CheckEmptyBlockBody error filename cl linenum).
Proof. unfold CheckEmptyBlockBody. preserve. Qed.
#[export] Hint Resolve CheckEmptyBlockBody_ok : preserves.


(** ** [CheckMacros] *)
Lemma CheckCheck_ok {Inv error filename} `{!Reporter Inv error filename} cl linenum :
  preserves Inv (CheckCheck error filename cl linenum).
Proof. unfold CheckCheck. preserve. Qed.
#[export] Hint Resolve CheckCheck_ok : preserves.

Lemma CheckAltTokens_ok {Inv error filename} `{!Reporter Inv error filename} cl linenum :
  preserves Inv (CheckAltTokens error filename cl linenum).
Proof. unfold CheckAltTokens. preserve. Qed.
#[export] Hint Resolve CheckAltTokens_ok : preserves.


(** ** [Style] *)
Lemma check_indent_ok {Inv error filename} `{!Reporter Inv error filename} linenum line cleansed_line :
  preserves Inv (check_indent error filename linenum line cleansed_line).
Proof. unfold check_indent. preserve. Qed.
#[export] Hint Resolve check_indent_ok : preserves.

Lemma is_header_guard_ok `{Env} {Inv} filename file_extension line :
  preserves Inv (is_header_guard filename file_extension line).
Proof. unfold is_header_guard. preserve. Qed.
#[export] Hint Resolve is_header_guard_ok : preserves.

Lemma check_line_length_ok `{Env} {Inv error filename} `{!Reporter Inv error filename} linenum file_extension line :
  preserves Inv (check_line_length error filename linenum file_extension line).
Proof. unfold check_line_length. preserve. Qed.
#[export] Hint Resolve check_line_length_ok : preserves.

Lemma CheckStyle_ok `{Env} {Inv error filename} `{!Reporter Inv error filename} cl linenum file_extension ns :
  preserves Inv (CheckStyle error filename cl linenum file_extension ns).
Proof. unfold CheckStyle. preserve. Qed.
#[export] Hint Resolve CheckStyle_ok : preserves.


(** ** [Includes] *)
Lemma check_new_include_ok `{Env} {Inv error filename} `{!Reporter Inv error filename} cl linenum include is_system inc :
  preserves Inv (check_new_include error filename cl linenum include is_system inc).
Proof. unfold check_new_include. preserve. Qed.
#[export] Hint Resolve check_new_include_ok : preserves.

Lemma CheckIncludeLine_ok `{Env} {Inv error filename} `{!Reporter Inv error filename} cl linenum inc :
  preserves Inv (CheckIncludeLine error filename cl linenum inc).
Proof. unfold CheckIncludeLine. preserve. Qed.
#[export] Hint Resolve CheckIncludeLine_ok : preserves.


(** ** [Language] *)
Lemma check_conversion_cast_ok {Inv error filename} `{!Reporter Inv error filename} cl linenum line :
  preserves Inv (check_conversion_cast error filename cl linenum line).
Proof. unfold check_conversion_cast. preserve. Qed.
#[export] Hint Resolve check_conversion_cast_ok : preserves.

Lemma CheckCStyleCast_ok {Inv error filename} `{!Reporter Inv error filename} linenum line raw_line cast_type pattern :
  preserves Inv (CheckCStyleCast error filename linenum line raw_line cast_type pattern).
Proof. unfold CheckCStyleCast. preserve. Qed.
#[export] Hint Resolve CheckCStyleCast_ok : preserves.

Lemma check_c_style_casts_ok {Inv error filename} `{!Reporter Inv error filename} linenum line raw_line :
  preserves Inv (check_c_style_casts error filename linenum line raw_line).
Proof. unfold check_c_style_casts. preserve. Qed.
#[export] Hint Resolve check_c_style_casts_ok : preserves.

Lemma check_address_of_cast_ok {Inv error filename} `{!Reporter Inv error filename} linenum line :
  preserves Inv (check_address_of_cast error filename linenum line).
Proof. unfold check_address_of_cast. preserve. Qed.
#[export] Hint Resolve check_address_of_cast_ok : preserves.

Lemma check_static_string_ok {Inv error filename} `{!Reporter Inv error filename} linenum line :
  preserves Inv (check_static_string error filename linenum line).
Proof. unfold check_static_string. preserve. Qed.
#[export] Hint Resolve check_static_string_ok : preserves.

Lemma check_member_init_ok {Inv error filename} `{!Reporter Inv error filename} linenum line :
  preserves Inv (check_member_init error filename linenum line).
Proof. unfold check_member_init. preserve. Qed.
#[export] Hint Resolve check_member_init_ok : preserves.

Lemma check_basic_types_ok {Inv error filename} `{!Reporter Inv error filename} linenum line :
  preserves Inv (check_basic_types error filename linenum line).
Proof. unfold check_basic_types. preserve. Qed.
#[export] Hint Resolve check_basic_types_ok : preserves.

Lemma check_c_functions_ok {Inv error filename} `{!Reporter Inv error filename} linenum line :
  preserves Inv (check_c_functions error filename linenum line).
Proof. unfold check_c_functions. preserve. Qed.
#[export] Hint Resolve check_c_functions_ok : preserves.

Lemma check_operator_and_braces_ok {Inv error filename} `{!Reporter Inv error filename} linenum line :
  preserves Inv (check_operator_and_braces error filename linenum line).
Proof. unfold check_operator_and_braces. preserve. Qed.
#[export] Hint Resolve check_operator_and_braces_ok : preserves.

Lemma check_format_string_ok {Inv error filename} `{!Reporter Inv error filename} linenum line :
  preserves Inv (check_format_string error filename linenum line).
Proof. unfold check_format_string. preserve. Qed.
#[export] Hint Resolve check_format_string_ok : preserves.

Lemma check_memset_ok {Inv error filename} `{!Reporter Inv error filename} linenum line :
  preserves Inv (check_memset error filename linenum line).
Proof. unfold check_memset. preserve. Qed.
#[export] Hint Resolve check_memset_ok : preserves.

Lemma check_using_namespace_ok {Inv error filename} `{!Reporter Inv error filename} linenum line :
  preserves Inv (check_using_namespace error filename linenum line).
Proof. unfold check_using_namespace. preserve. Qed.
#[export] Hint Resolve check_using_namespace_ok : preserves.

Lemma check_arrays_ok {Inv error filename} `{!Reporter Inv error filename} linenum line :
  preserves Inv (check_arrays error filename linenum line).
Proof. unfold check_arrays. preserve. Qed.
#[export] Hint Resolve check_arrays_ok : preserves.

Lemma check_disallow_last_ok {Inv error filename} `{!Reporter Inv error filename} cl linenum line :
  preserves Inv (check_disallow_last error filename cl linenum line).
Proof. unfold check_disallow_last. preserve. Qed.
#[export] Hint Resolve check_disallow_last_ok : preserves.

Lemma check_unnamed_namespace_ok {Inv error filename} `{!Reporter Inv error filename} linenum file_extension line :
  preserves Inv (check_unnamed_namespace error filename linenum file_extension line).
Proof. unfold check_unnamed_namespace. preserve. Qed.
#[export] Hint Resolve check_unnamed_namespace_ok : preserves.

Lemma check_language_rules_ok {Inv error filename} `{!Reporter Inv error filename} cl linenum file_extension line :
  preserves Inv (check_language_rules error filename cl linenum file_extension line).
Proof. unfold check_language_rules. preserve. Qed.
#[export] Hint Resolve check_language_rules_ok : preserves.

Lemma CheckLanguage_ok `{Env} {Inv error filename} `{!Reporter Inv error filename} cl linenum file_extension inc :
  preserves Inv (CheckLanguage error filename cl linenum file_extension inc).
Proof. unfold CheckLanguage. preserve. Qed.
#[export] Hint Resolve CheckLanguage_ok : preserves.

Lemma CheckForNonConstReference_ok {Inv error filename} `{!Reporter Inv error filename} cl linenum ns :
  preserves Inv (CheckForNonConstReference error filename cl linenum ns).
Proof. unfold CheckForNonConstReference. preserve. Qed.
#[export] Hint Resolve CheckForNonConstReference_ok : preserves.

Lemma check_explicit_ok {Inv error filename} `{!Reporter Inv error filename} linenum line c :
  preserves Inv (check_explicit error filename linenum line c).
Proof. unfold check_explicit. preserve. Qed.
#[export] Hint Resolve check_explicit_ok : preserves.

Lemma check_printf_formats_ok {Inv error filename} `{!Reporter Inv error filename} linenum line :
  preserves Inv (check_printf_formats error filename linenum line).
Proof. unfold check_printf_formats. preserve. Qed.
#[export] Hint Resolve check_printf_formats_ok : preserves.

Lemma check_nonstandard_line_ok {Inv error filename} `{!Reporter Inv error filename} linenum line :
  preserves Inv (check_nonstandard_line error filename linenum line).
Proof. unfold check_nonstandard_line. preserve. Qed.
#[export] Hint Resolve check_nonstandard_line_ok : preserves.

Lemma CheckForNonStandardConstructs_ok {Inv error filename} `{!Reporter Inv error filename} cl linenum ns :
  preserves Inv (CheckForNonStandardConstructs error filename cl linenum ns).
Proof. unfold CheckForNonStandardConstructs. preserve. Qed.
#[export] Hint Resolve CheckForNonStandardConstructs_ok : preserves.


(** ** [WhatYouUse] *)
Lemma CheckForIncludeWhatYouUse_ok `{Env} {Inv error filename} `{!Reporter Inv error filename} cl inc :
  preserves Inv (CheckForIncludeWhatYouUse error filename cl inc).
Proof. unfold CheckForIncludeWhatYouUse. preserve. Qed.
#[export] Hint Resolve CheckForIncludeWhatYouUse_ok : preserves.


(** ** The driver *)

Section driver.
Context `{Env}.

Lemma ProcessLine_ok {Inv error filename} `{!Reporter Inv error filename} file_extension cl line st extra :
  (∀ f, f ∈ extra → preserves Inv (f filename cl line error)) →
  preserves Inv (ProcessLine filename file_extension cl line st error extra).
Proof. intros Hextra. unfold ProcessLine. preserve. Qed.

Lemma ProcessFileData_ok {Inv error filename} `{!Reporter Inv error filename} file_extension lines extra :
  (∀ f cl line, f ∈ extra → preserves Inv (f filename cl line error)) →
  preserves Inv (ProcessFileData filename file_extension lines error extra).
Proof.
  intros Hextra. unfold ProcessFileData. preserve.
  - apply preserves_modify. apply reset_ok.
  - apply ProcessLine_ok. intros f Hf. by apply Hextra.
Qed.
End driver.

(** ** What a run writes *)

(** A report as [Error] receives it, and the lines a run can write: a report,
    what [ProcessFile] says of a file, and the summary of [PrintErrorCounts]. *)
Record report := Report {
  r_filename : str; r_linenum : Z; r_category : str; r_confidence : Z; r_message : str;
}.
Inductive output :=
  | Reported (r : report)
  | Skipping (filename : str)
  | Ignoring (filename : str) (extensions : list str)
  | Done (filename : str)
  | CategoryTotal (category : str) (n : Z)
  | Total (n : Z).

Definition show_output (format : str) (o : output) : str :=
  match o with
  | Reported r => format_error format (r_filename r) (r_linenum r) (r_category r)
                    (r_confidence r) (r_message r)
  | Skipping f => u "Skipping input '" ++ f ++ u "': Can't open for reading" ++ nl
  | Ignoring f es => u "Ignoring " ++ f ++ u "; not a valid file name ("
                       ++ join (u ", ") es ++ u ")" ++ nl
  | Done f => u "Done processing " ++ f ++ nl
  | CategoryTotal c n => u "Category '" ++ c ++ u "' errors found: " ++ fmt_d n ++ nl
  | Total n => u "Total errors found: " ++ fmt_d n ++ nl
  end.
Definition reports (outs : list output) : list report :=
  omap (λ o, match o with Reported r => Some r | _ => None end) outs.

Lemma reports_app outs outs' : reports (outs ++ outs') = reports outs ++ reports outs'.
Proof. apply omap_app. Qed.

Lemma reports_reported rs : reports (Reported <$> rs) = rs.
Proof. induction rs as [|r rs IH]; [done|]. unfold reports. simpl. f_equal. exact IH. Qed.

(** A report that may be printed under the settings of [w]. *)
Definition allowed (w : world) (r : report) : Prop :=
  r_category r ∈ _ERROR_CATEGORIES ∧ (0 <= r_confidence r <= 5)%Z ∧
  (verbose_level (cpplint_state w) <= r_confidence r)%Z ∧
  ¬ rejected (r_category r) (filters (cpplint_state w)).

Definition text_of `{Env} (filename : str) : option str :=
  if str_eqb filename (u "-") then Some read_stdin else read_file filename.

(** What a run writes for one file: a file that cannot be opened is skipped; one
    whose extension is not among the valid ones is ignored; any other is checked,
    which writes reports on that file, all of them allowed. *)
Inductive file_trace `{Env} (w : world) (filename : str) : list output → Prop :=
  | trace_skipped : text_of filename = None → file_trace w filename [Skipping filename]
  | trace_ignored text : text_of filename = Some text → filename ≠ u "-" →
      extension_of filename ∉ w_valid_extensions w →
      file_trace w filename
        [Ignoring filename (set_items (w_valid_extensions w)); Done filename]
  | trace_checked text rs : text_of filename = Some text →
      filename = u "-" ∨ extension_of filename ∈ w_valid_extensions w →
      Forall (λ r, r_filename r = filename ∧ allowed w r) rs →
      file_trace w filename ((Reported <$> rs) ++ [Done filename]).

(** ** From one state to a later one *)

(** The counts after the reports [rs]. *)
Definition count_reports (rs : list report) (s : lint_state) : lint_state :=
  foldl (λ s r, count_error (r_category r) s) s rs.

Definition same_settings (s0 s : lint_state) : Prop :=
  verbose_level s = verbose_level s0 ∧ filters s = filters s0 ∧
  counting s = counting s0 ∧ output_format s = output_format s0.

Lemma count_error_settings category s :
  error_count (count_error category s) = (error_count s + 1)%Z ∧
  same_settings s (count_error category s).
Proof. unfold same_settings, count_error. by destruct (str_in (counting s) _). Qed.

Lemma count_reports_settings rs s :
  error_count (count_reports rs s) = (error_count s + Z.of_nat (length rs))%Z ∧
  same_settings s (count_reports rs s).
Proof.
  revert s. induction rs as [|r rs IH]; intros s; simpl; [split; [lia|done]|].
  destruct (IH (count_error (r_category r) s)) as (En & E1 & E2 & E3 & E4).
  destruct (count_error_settings (r_category r) s) as (Fn & F1 & F2 & F3 & F4). unfold count_reports in *.
  split; [rewrite En, Fn; lia|]. by unfold same_settings; rewrite E1, E2, E3, E4.
Qed.

(** From [w] to [w'] exactly [outs] was written, and its reports counted; only
    the suppressions may have changed besides. *)
Definition wrote (w : world) (outs : list output) (w' : world) : Prop :=
  cpplint_state w' = count_reports (reports outs) (cpplint_state w) ∧
  stderr w' = stderr w ++ (show_output (output_format (cpplint_state w)) <$> outs) ∧
  w_root w' = w_root w ∧ w_line_length w' = w_line_length w ∧
  w_valid_extensions w' = w_valid_extensions w.

Lemma wrote_nothing w : wrote w [] w.
Proof. unfold wrote. simpl. by rewrite app_nil_r. Qed.

Lemma wrote_settings w outs w' :
  wrote w outs w' → same_settings (cpplint_state w) (cpplint_state w').
Proof. intros (-> & _). apply count_reports_settings. Qed.

Lemma wrote_app w outs w' outs' w'' :
  wrote w outs w' → wrote w' outs' w'' → wrote w (outs ++ outs') w''.
Proof.
  intros H1 H2. destruct (wrote_settings _ _ _ H1) as (_ & _ & _ & Ef).
  destruct H1 as (E & O & R), H2 as (E' & O' & R'). unfold wrote.
  rewrite reports_app, fmap_app. split_and!.
  - unfold count_reports in *. by rewrite foldl_app, <- E.
  - by rewrite O', O, Ef, app_assoc.
  - destruct R, R'. congruence.
  - destruct R as (_ & ? & _), R' as (_ & ? & _). congruence.
  - destruct R as (_ & _ & ?), R' as (_ & _ & ?). congruence.
Qed.

(** A line that is not a report. *)
Lemma wrote_line w o : (∀ r, o ≠ Reported r) →
  wrote w [o] (add_stderr (show_output (output_format (cpplint_state w)) o) w).
Proof. intros Ho. unfold wrote. by destruct o as [r| | | | |]; [by destruct (Ho r)|..]. Qed.

Lemma wrote_report w filename linenum category confidence message :
  wrote w [Reported (Report filename linenum category confidence message)]
    (add_stderr (format_error (output_format (cpplint_state w)) filename linenum category
       confidence message) (upd_state (count_error category) w)).
Proof. done. Qed.

Lemma same_settings_allowed w w' r :
  same_settings (cpplint_state w) (cpplint_state w') → allowed w' r → allowed w r.
Proof. intros (E1 & E2 & _). unfold allowed. by rewrite E1, E2. Qed.

Lemma wrote_signed w outs w' : signed_filters w → wrote w outs w' → signed_filters w'.
Proof.
  intros Hs (_ & Hf & _)%wrote_settings. unfold signed_filters in *. by rewrite Hf.
Qed.

Lemma settings_trace `{Env} w w' filename outs :
  same_settings (cpplint_state w) (cpplint_state w') →
  w_valid_extensions w' = w_valid_extensions w →
  file_trace w' filename outs → file_trace w filename outs.
Proof.
  intros Hset Ee [Ht|text Ht Hn Hv|text rs Ht Hv Hr]; rewrite ?Ee in *.
  - by constructor.
  - by eapply trace_ignored.
  - eapply trace_checked; [done..|]. eapply Forall_impl; [exact Hr|].
    intros r [Hf Ha]. split; [done|]. by eapply same_settings_allowed.
Qed.

(** ** One file *)

(** Since [w0], allowed reports on one file were written and nothing else. *)
Definition checked (w0 : world) (filename : str) (w : world) : Prop :=
  ∃ rs, Forall (λ r, r_filename r = filename ∧ allowed w0 r) rs ∧
    wrote w0 (Reported <$> rs) w.

Lemma Error_checked w0 filename linenum category confidence message :
  signed_filters w0 → category ∈ _ERROR_CATEGORIES → (0 <= confidence <= 5)%Z →
  preserves (checked w0 filename) (Error filename linenum category confidence message).
Proof.
  intros Hs Hc Hb w (rs & Hrs & Hw).
  destruct (Error_run filename linenum category confidence message w
              (wrote_signed _ _ _ Hs Hw)) as (b & Hp & Hr).
  unfold wp. rewrite Hr. destruct b; [|by exists rs].
  destruct (wrote_settings _ _ _ Hw) as (Ev & Ef & _).
  exists (rs ++ [Report filename linenum category confidence message]). split.
  - apply Forall_app. split; [done|]. constructor; [|constructor].
    apply proj1 in Hp. destruct (Hp eq_refl) as (_ & Hl & Hf).
    unfold allowed. simpl. by rewrite <- Ev, <- Ef.
  - rewrite fmap_app. eapply wrote_app; [exact Hw|apply wrote_report].
Qed.

#[export] Instance Error_reports w0 filename : signed_filters w0 →
  Reporter (checked w0 filename) Error filename.
Proof.
  intros Hs. split; [intros; by apply Error_checked|done|done].
Qed.

(** What a state invariant says of a run that returns. *)
Lemma preserves_wp {A} (Inv : world → Prop) (c : M A) w :
  preserves Inv c → Inv w → wp c (λ _, Inv) (λ _ _, True) w.
Proof.
  intros Hc Hw. specialize (Hc w Hw). unfold wp in *. by destruct (c w) as [[a|e] w'].
Qed.

Lemma with_own_verbosity w : with_verbosity (verbose_level (cpplint_state w)) w = w.
Proof. by destruct w as [? []]. Qed.

Section run.
Context `{Env}.

Lemma lint_file_checked w filename file_extension lines cr :
  signed_filters w →
  preserves (checked w filename) (ProcessFileData filename file_extension lines Error [] ;;
    when cr (Error filename 0%Z (u "whitespace/newline") 1%Z
      (u "One or more unexpected \r (^M) found;better to use only a \n"))).
Proof.
  intros Hs. pose proof (Error_reports w filename Hs). apply preserves_bind.
  - apply ProcessFileData_ok. intros f cl line Hf. by apply not_elem_of_nil in Hf.
  - intros _. apply preserves_when. intros _. apply report_known; vm_compute; reflexivity.
Qed.

Lemma write_line w o : (∀ r, o ≠ Reported r) →
  (∀ format, show_output format o = show_output [] o) →
  wp (stderr_write (show_output [] o)) (λ _, wrote w [o]) (λ _ _, True) w.
Proof. intros Ho Hf. apply wp_modify. rewrite <- (Hf (output_format (cpplint_state w))). by apply wrote_line. Qed.

Lemma ProcessFile_trace w filename :
  signed_filters w →
  wp (ProcessFile filename (verbose_level (cpplint_state w)) [])
    (λ _ w', ∃ outs, file_trace w filename outs ∧ wrote w outs w') (λ _ _, True) w.
Proof.
  intros Hs. unfold ProcessFile. apply wp_bind. unfold wp at 1.
  change (_SetVerboseLevel _ w) with
    (@Ok Z (verbose_level (cpplint_state w)), with_verbosity (verbose_level (cpplint_state w)) w).
  rewrite with_own_verbosity. cbv beta iota zeta. fold (text_of filename).
  destruct (text_of filename) as [text|] eqn:Ht.
  - destruct (strip_carriage_returns _) as [lines cr]. apply wp_bind, wp_gets.
    destruct (negb _ && _) eqn:Ev; apply wp_bind.
    + apply andb_true_iff in Ev as [Ed%negb_true_iff Ev%bool_decide_eq_true].
      eapply wp_mono; [by apply (write_line _ (Ignoring filename (set_items _)))|].
      intros [] w1 H1. eapply wp_mono; [by apply (write_line _ (Done filename))|].
      intros [] w2 H2. exists [Ignoring filename (set_items (w_valid_extensions w)); Done filename].
      split; [|exact (wrote_app _ _ _ _ _ H1 H2)].
      eapply trace_ignored; [done| |done]. intros ->. by vm_compute in Ed.
    + eapply wp_mono; [apply (preserves_wp _ _ _ (lint_file_checked w filename _ _ _ Hs));
        exists []; split; [constructor|apply wrote_nothing]|].
      intros [] w1 (rs & Hrs & H1). eapply wp_mono; [by apply (write_line _ (Done filename))|].
      intros [] w2 H2. eexists. split; [|exact (wrote_app _ _ _ _ _ H1 H2)].
      eapply trace_checked; [done| |done].
      apply andb_false_iff in Ev as [Ed%negb_false_iff|Ev%bool_decide_eq_false].
      * left. by apply str_eqb_eq in Ed.
      * right. by apply dec_stable.
  - eapply wp_mono; [by apply (write_line _ (Skipping filename))|].
    intros [] w' Hw'. exists [Skipping filename]. by split; [constructor|].
Qed.
End run.

(** ** The whole program *)

(** The loop over the files of [main]. *)
Definition process_files `{Env} (filenames : list str) : M unit :=
  for_each filenames (λ filename, level ← _VerboseLevel; ProcessFile filename level []).

(** The lines [PrintErrorCounts] writes in the state [s]. *)
Definition summary `{Env} (s : lint_state) : list output :=
  ((λ '(category, n), CategoryTotal category n) <$> dict_items (errors_by_category s))
  ++ [Total (error_count s)].

Section main.
Context `{Env}.

Lemma process_files_trace w filenames :
  signed_filters w →
  wp (process_files filenames)
    (λ _ w', ∃ traces, Forall2 (file_trace w) filenames traces ∧ wrote w (mjoin traces) w')
    (λ _ _, True) w.
Proof.
  revert w. induction filenames as [|f fs IH]; intros w Hs.
  - exists []. split; [constructor|apply wrote_nothing].
  - apply wp_bind, wp_bind, wp_gets. eapply wp_mono; [by apply ProcessFile_trace|].
    intros [] w1 (outs & Hf & H1). eapply wp_mono; [by eapply IH, wrote_signed|].
    intros [] w2 (traces & Hfs & H2). exists (outs :: traces). split.
    + constructor; [done|]. eapply Forall2_impl; [exact Hfs|].
      intros f' outs'. apply settings_trace; [exact (wrote_settings _ _ _ H1)|apply (proj2 (proj2 (proj2 (proj2 H1))))].
    + by eapply wrote_app.
Qed.

Lemma PrintErrorCounts_run w :
  ∃ w', PrintErrorCounts dict_items w = (Ok tt, w') ∧ wrote w (summary (cpplint_state w)) w'.
Proof.
  enough (wp (PrintErrorCounts dict_items) (λ _, wrote w (summary (cpplint_state w))) no_exn w)
    as (a & w' & Hr & Hw)%wp_no_exn by (exists w'; by destruct a).
  unfold PrintErrorCounts, summary. apply wp_bind, wp_gets, wp_bind.
  set (s := cpplint_state w).
  enough (Hl : ∀ l w0 outs, wrote w outs w0 →
    wp (for_each l (λ '(category, n), stderr_write
      (u "Category '" ++ category ++ u "' errors found: " ++ fmt_d n ++ nl)))
    (λ _, wrote w (outs ++ ((λ '(category, n), CategoryTotal category n) <$> l))) no_exn w0).
  { eapply wp_mono; [apply (Hl _ w []), wrote_nothing|]. intros [] w1 H1. apply wp_modify.
    eapply wrote_app; [exact H1|]. exact (wrote_line w1 (Total (error_count s)) (λ r, ltac:(done))). }
  clear s. induction l as [|[c n] l IH]; intros w0 outs Hw; [by rewrite app_nil_r|].
  apply wp_bind, wp_modify. rewrite fmap_cons, cons_middle, app_assoc. apply IH.
  eapply wrote_app; [exact Hw|]. exact (wrote_line w0 (CategoryTotal c n) (λ r, ltac:(done))).
Qed.

Lemma SetFilters_signed fl w w' : SetFilters fl w = (Ok tt, w') → signed_filters w'.
Proof.
  rewrite SetFilters_run. destruct (List.find _ _) eqn:E; [discriminate|].
  apply (find_unsigned_None (_DEFAULT_FILTERS ++ flag_filters fl)) in E. intros [= <-]. exact E.
Qed.

Lemma ParseArguments_signed args w filenames w' :
  ParseArguments args w = (Ok filenames, w') → signed_filters w'.
Proof.
  unfold ParseArguments. destruct (getopt args None) as [[opts files]|]; [|discriminate].
  unfold mbind, M_bind. cbn [_VerboseLevel _OutputFormat gets].
  destruct (for_fold opts _ _ w) as [[a|e] w1]; [|discriminate].
  destruct files as [|f files]; [discriminate|].
  unfold _SetOutputFormat, SetOutputFormat, _SetVerboseLevel, SetVerboseLevel, modify, gets, mbind,
    M_bind, mret, M_ret. cbv beta iota zeta.
  destruct (_SetFilters _ _) as [[[]|e] w2] eqn:E; [|discriminate].
  apply SetFilters_signed in E. intros [= _ <-]. exact E.
Qed.

(** [main] after the command line: the files, the summary, the exit status. *)
Lemma main_run argv w filenames w1 w2 :
  ParseArguments argv w = (Ok filenames, w1) →
  process_files filenames (ResetErrorCounts w1).2 = (Ok tt, w2) →
  ∃ w3, main argv w =
      (Raise (SystemExit (if (0 <? error_count (cpplint_state w3))%Z then 1 else 0) None), w3) ∧
    wrote w2 (summary (cpplint_state w2)) w3.
Proof.
  intros Hp Hf. destruct (PrintErrorCounts_run w2) as (w3 & Hr & Hw).
  exists w3. split; [|exact Hw]. unfold main, mbind, M_bind. rewrite Hp.
  destruct (ResetErrorCounts w1) as [[[]|e] w1'] eqn:E1; [|by vm_compute in E1].
  change (for_each filenames _ w1') with (process_files filenames w1').
  simpl in Hf. by rewrite Hf, Hr.
Qed.

Lemma reports_summary s : reports (summary s) = [].
Proof.
  unfold summary. rewrite reports_app, app_nil_r.
  induction (dict_items (errors_by_category s)) as [|[c n] l IH]; [done|exact IH].
Qed.

(** C1: the command line having been accepted and every file processed, what the
    run wrote is exactly the traces of the files, in order, and a summary. A
    file that cannot be opened is skipped, one with another extension ignored;
    for any other file the run wrote reports on that file, each with a known
    category, a confidence between 0 and 5 that reaches the verbosity, and a
    category the filters let through, and then that it is done. The summary
    gives the errors of each counted category and, last, their total, which is
    the number of reports written; the exit status is 1 if there is at least one
    report and 0 if there is none. *)
Theorem main_exit_status argv w filenames w1 w2 :
  ParseArguments argv w = (Ok filenames, w1) →
  process_files filenames (ResetErrorCounts w1).2 = (Ok tt, w2) →
  ∃ traces,
    Forall2 (file_trace w1) filenames traces ∧
    let rs := reports (mjoin traces) in
    let s := count_reports rs (with_counts 0 ∅ (cpplint_state w1)) in
    let n := Z.of_nat (length rs) in
    (main argv w).1 = Raise (SystemExit (if (0 <? n)%Z then 1 else 0) None) ∧
    stderr (main argv w).2 =
      stderr w1 ++ (show_output (output_format (cpplint_state w1)) <$>
        mjoin traces
        ++ ((λ '(category, k), CategoryTotal category k) <$> dict_items (errors_by_category s))
        ++ [Total n]).
Proof.
  intros Hp Hf. destruct (main_run _ _ _ _ _ Hp Hf) as (w3 & -> & Hsum).
  set (w1' := (ResetErrorCounts w1).2) in *.
  pose proof (process_files_trace w1' filenames (ParseArguments_signed _ _ _ _ Hp)) as Ht.
  unfold wp in Ht. rewrite Hf in Ht. destruct Ht as (traces & Ht & Hw). exists traces.
  pose proof (wrote_app _ _ _ _ _ Hw Hsum) as (E & Ho & _).
  rewrite reports_app, reports_summary, app_nil_r in E. destruct Hw as (E2 & _).
  split; [eapply Forall2_impl; [exact Ht|]; intros f outs; by apply settings_trace|]. cbv zeta.
  destruct (count_reports_settings (reports (mjoin traces)) (cpplint_state w1')) as (En & _).
  change (error_count (cpplint_state w1')) with 0%Z in En. rewrite Z.add_0_l in En.
  split; [cbn [fst]; by rewrite E, En|]. cbn [snd].
  rewrite Ho. unfold summary. by rewrite E2, En.
Qed.
End main.

(** A run on one small file: no copyright, a C type, an unknown NOLINT. *)
Definition demo_env : Env :=
  small_env (u "/w") [(u "a.cc", u "long x;  // NOLINT(foo)" ++ nl)] [].

Lemma main_exit_status_witness :
  let argv := [u "--verbose=3"; u "--counting=toplevel"; u "a.cc"; u "b.cc"] in
  let w1 := (ParseArguments argv init_world).2 in
  ∃ traces,
    Forall2 (file_trace (H := demo_env) w1) [u "a.cc"; u "b.cc"] traces ∧
    let rs := reports (mjoin traces) in
    let s := count_reports rs (with_counts 0 ∅ (cpplint_state w1)) in
    let n := Z.of_nat (length rs) in
    (main (H := demo_env) argv init_world).1 =
      Raise (SystemExit (if (0 <? n)%Z then 1 else 0) None) ∧
    stderr (main (H := demo_env) argv init_world).2 =
      stderr w1 ++ (show_output (output_format (cpplint_state w1)) <$>
        mjoin traces
        ++ ((λ '(category, k), CategoryTotal category k) <$>
              dict_items (Env := demo_env) (errors_by_category s))
        ++ [Total n]).
Proof.
  eapply (main_exit_status (H := demo_env)); [vm_compute; reflexivity|].
  vm_compute; reflexivity.
Defined.

(** What that run prints. *)
Definition demo_output : list str :=
  [u "a.cc:0:  No copyright message found.  You should have a line: `Copyright [year] <Copyright Owner>`  [legal/copyright] [5]" ++ nl;
   u "a.cc:1:  Unknown NOLINT error category: foo  [readability/nolint] [5]" ++ nl;
   u "a.cc:1:  Use int16/int64/etc, rather than the C type long  [runtime/int] [4]" ++ nl;
   u "Done processing a.cc" ++ nl;
   u "Skipping input 'b.cc': Can't open for reading" ++ nl;
   u "Category 'readability' errors found: 1" ++ nl;
   u "Category 'legal' errors found: 1" ++ nl;
   u "Category 'runtime' errors found: 1" ++ nl;
   u "Total errors found: 3" ++ nl].

Example demo_run :
  bool_decide (stderr (main (H := demo_env)
      [u "--verbose=3"; u "--counting=toplevel"; u "a.cc"; u "b.cc"] init_world).2
    = demo_output) = true.
Proof. vm_compute. reflexivity. Qed.
