(* ===== verification/Returns.v ===== *)
(** * No check fails

    Every check returns, on every line of every file: no index is out of range,
    no loop runs for ever, no pattern built at run time is malformed, no table
    lacks an entry.  One lemma for each check, found by [return_] through the
    hint database [returns], against any handler that returns ([Returning]);
    then [ProcessLine], [ProcessFileData], and with [Error] as the handler
    [ProcessFile] and [main]. *)
From S2P Require Import Prelude PyStr Regex RegexParse PyRe World LintState Cleanse Expr.
From S2P Require Import FileInfo IncludeState FunctionState FileChecks LineChecks Nesting.
From S2P Require Import Spacing Braces CheckMacros Style Includes Language WhatYouUse Driver Reports.

(** ** Indices *)

(** Python accepts the indices from [-len] to [len - 1]. *)
Lemma py_nth_is_ok {A} (l : list A) i :
  (- Z.of_nat (length l) <= i < Z.of_nat (length l))%Z → is_ok (py_nth l i).
Proof.
  intros Hi. unfold py_nth.
  set (j := if (i <? 0)%Z then (i + Z.of_nat (length l))%Z else i).
  assert (Hj : (0 <= j < Z.of_nat (length l))%Z)
    by (unfold j; destruct (Z.ltb_spec i 0); lia).
  destruct (Z.ltb_spec j 0); [lia|]. apply is_ok_or_raise, lookup_lt_is_Some_2. lia.
Qed.

Lemma foldl_lines_is_ok (ls : list str) (f : str → str) l text :
  (∀ i, i ∈ l → (- Z.of_nat (length ls) <= i < Z.of_nat (length ls))%Z) →
  is_ok (foldl_res (λ text i, x ← py_nth ls i; mret (text ++ f x)) text l).
Proof.
  revert text. induction l as [|i l IH]; intros text Hi; [by eexists|]. cbn [foldl_res].
  destruct (py_nth_is_ok ls i) as [x ->]; [apply Hi; by left|].
  apply IH. intros j Hj. apply Hi. by right.
Qed.

Lemma pos_or_m1_range (o : option nat) (n : Z) :
  (∀ i, o = Some i → (Z.of_nat i < n)%Z) → (0 <= n)%Z → (-1 <= pos_or_m1 o < n)%Z.
Proof. intros H Hn. destruct o as [i|]; simpl; [specialize (H i eq_refl)|]; lia. Qed.

Lemma find_range s sub : sub ≠ [] →
  (find s sub = -1 ∨ 0 <= find s sub ∧ find s sub + Z.of_nat (length sub) <= Z.of_nat (length s))%Z.
Proof.
  intros Hs. unfold find. destruct (find_at sub s) as [i|] eqn:E; simpl; [right|by left].
  apply find_at_bound in E. lia.
Qed.

(** ** The checks of a line *)

Section line.
Context {Inv : world → Prop} {error : handler} `{!Returning Inv error}.
Context (filename : str) (cl : cleansed_lines) (linenum : Z).
Context (Hcl : cleansed_ok cl) (Hn : (0 <= linenum < NumLines cl)%Z).

(** Every view of the file has the line, and the one before. *)
Lemma view_ok (view : list str) i : length view = length (raw_lines cl) →
  (- NumLines cl <= i < NumLines cl)%Z → is_ok (py_nth view i).
Proof. destruct Hcl as (_ & _ & _ & Hl). intros E Hi. apply py_nth_is_ok. lia. Qed.

Lemma elided_ok i : (- NumLines cl <= i < NumLines cl)%Z → is_ok (py_nth (elided cl) i).
Proof. apply view_ok, Hcl. Qed.
Lemma lines_ok i : (- NumLines cl <= i < NumLines cl)%Z → is_ok (py_nth (lines cl) i).
Proof. apply view_ok, Hcl. Qed.
Lemma without_ok i : (- NumLines cl <= i < NumLines cl)%Z →
  is_ok (py_nth (lines_without_raw_strings cl) i).
Proof. apply view_ok, Hcl. Qed.
Lemma raw_ok i : (- NumLines cl <= i < NumLines cl)%Z → is_ok (py_nth (raw_lines cl) i).
Proof. by apply view_ok. Qed.

#[local] Hint Extern 2 (is_ok (py_nth (elided cl) _)) => apply elided_ok; lia : returns.
#[local] Hint Extern 2 (is_ok (py_nth (lines cl) _)) => apply lines_ok; lia : returns.
#[local] Hint Extern 2 (is_ok (py_nth (lines_without_raw_strings cl) _)) =>
  apply without_ok; lia : returns.
#[local] Hint Extern 2 (is_ok (py_nth (raw_lines cl) _)) => apply raw_ok; lia : returns.

(** [LineChecks] *)
Lemma Multiline_returns : returns Inv (CheckForMultilineCommentsAndStrings error filename cl linenum).
Proof. unfold CheckForMultilineCommentsAndStrings. return_. Qed.
Lemma Vlog_returns : returns Inv (CheckVlogArguments error filename cl linenum).
Proof. unfold CheckVlogArguments. return_. Qed.
Lemma Increment_returns : returns Inv (CheckInvalidIncrement error filename cl linenum).
Proof. unfold CheckInvalidIncrement. return_. Qed.
Lemma MakePair_returns : returns Inv (CheckMakePairUsesDeduction error filename cl linenum).
Proof. unfold CheckMakePairUsesDeduction. return_. Qed.
Lemma Comment_returns comment : returns Inv (CheckComment error comment filename linenum).
Proof. unfold CheckComment. return_. Qed.
#[local] Hint Resolve Comment_returns : returns.

Lemma PosixThreading_returns `{Env} : returns Inv (CheckPosixThreading error filename cl linenum).
Proof.
  unfold CheckPosixThreading. apply returns_bind_lift; [auto with returns|]. intros line _.
  apply returns_for_each. intros [single multi] Hin. cbv zeta.
  assert (Hs : Forall (λ p, p.1 ≠ []) threading_list)
    by (refine (bool_decide_eq_true_1 _ _); vm_compute; reflexivity).
  rewrite Forall_forall in Hs. specialize (Hs _ Hin). cbn [fst] in Hs.
  pose proof (find_range line single Hs).
  destruct (Z.ltb_spec (find line single) 0); [return_|].
  destruct (Z.eqb_spec (find line single) 0); [return_|].
  apply returns_bind; [|intros ?; return_].
  apply returns_bind_lift; [apply py_nth_is_ok; lia|intros ? ?; return_].
Qed.

(** [Spacing] *)
Lemma FunctionCall_returns line : returns Inv (CheckSpacingForFunctionCall error filename line linenum).
Proof. unfold CheckSpacingForFunctionCall. return_. Qed.

Lemma blank_line_returns ns line : returns Inv (check_blank_line error filename cl linenum ns line).
Proof.
  unfold check_blank_line. return_.
Qed.

Lemma text_before_ok line n : (1 <= n)%Z → is_ok (text_before line (find line (u "//")) n).
Proof.
  intros H. unfold text_before. destruct (find_range line (u "//")) as [E|E]; [done| |].
  - rewrite E. destruct (Z.leb_spec n (-1)); [lia|by eexists].
  - destruct (Z.leb_spec n (find line (u "//"))); [|by eexists].
    destruct (py_nth_is_ok line (find line (u "//") - n)) as [c ->]; [lia|]. by eexists.
Qed.
#[local] Hint Extern 2 (is_ok (text_before _ _ _)) => apply text_before_ok; lia : returns.

Lemma comment_spacing_returns line : returns Inv (check_comment_spacing error filename linenum line).
Proof.
  unfold check_comment_spacing. cbv zeta. apply returns_when. intros Hf.
  destruct (find_range line (u "//")) as [E|E]; [done|rewrite E in Hf; done|].
  return_. apply returns_bind_lift; [apply py_nth_is_ok; lia|intros ? _; return_].
Qed.

Lemma Next_angle_ok text : is_ok (FindNextMatchingAngleBracket cl linenum text).
Proof. apply next_angle_go_total; [by exists []|unfold angle_fuel; lia]. Qed.
Lemma Previous_angle_ok text : is_ok (FindPreviousMatchingAngleBracket cl linenum text).
Proof. apply previous_angle_go_total; [by exists []|unfold angle_fuel; lia]. Qed.
#[local] Hint Resolve Next_angle_ok Previous_angle_ok : returns.

Lemma angle_spacing_returns line : returns Inv (check_angle_spacing error filename cl linenum line).
Proof. unfold check_angle_spacing. return_. Qed.
#[local] Hint Resolve angle_spacing_returns : returns.

Lemma operator_spacing_returns `{Env} line :
  returns Inv (check_operator_spacing error filename cl linenum line).
Proof. unfold check_operator_spacing. return_. Qed.

Lemma paren_spacing_returns line : returns Inv (check_paren_spacing error filename linenum line).
Proof. unfold check_paren_spacing. return_. Qed.

Lemma comma_semicolon_returns line :
  returns Inv (check_comma_semicolon error filename cl linenum line).
Proof. unfold check_comma_semicolon. return_. Qed.

Lemma final_semicolon_returns line :
  returns Inv (check_final_semicolon error filename linenum line).
Proof. unfold check_final_semicolon. return_. Qed.

#[local] Hint Resolve FunctionCall_returns blank_line_returns comment_spacing_returns
  operator_spacing_returns paren_spacing_returns comma_semicolon_returns
  final_semicolon_returns : returns.

(** The prefix a pattern like "^(...){" finds ends inside the line. *)
Lemma prefix_in_line c r R text mo : re_body c = Seq Bol (Seq (Grp 1 r) R) →
  begins 1 R = None → 1 ≤ least R → re_match c text = Some mo →
  length (group_str mo 1) < length text.
Proof. intros Hb Hg HR Hm. destruct (group1_prefix c r R text mo Hb Hg Hm). lia. Qed.

Ltac prefix_of E :=
  eapply prefix_in_line; [..|exact E]; [reflexivity|reflexivity|vm_compute; lia].

Lemma hide_operator_methods_length line : length (hide_operator_methods line) ≤ length line.
Proof. apply re_sub_length; vm_compute; lia. Qed.

(** A position on the line is a good start for both bracket searches. *)
Lemma Close_ok line k : py_nth (elided cl) linenum = Ok line → k < length line →
  ∃ l' n' e', CloseExpression cl linenum (Z.of_nat k) = Ok (l', n', e') ∧
    ((0 <= e')%Z → (linenum <= n' < NumLines cl)%Z) ∧ ((e' < 0)%Z → n' = NumLines cl).
Proof.
  intros Hl Hk. apply lookup_lt_is_Some_2 in Hk as [c Hc].
  destruct Hcl as (E & _ & _ & N).
  destruct (CloseExpression_returns cl linenum line k c Hl (proj1 Hn) Hc) as (l' & n' & e' & H1 & H2 & H3).
  exists l', n', e'. split; [done|]. split; [|done]. rewrite N, <- E. exact H2.
Qed.

Lemma ReverseClose_ok line k : py_nth (elided cl) linenum = Ok line → k < length line →
  ∃ l' n' e', ReverseCloseExpression cl linenum (Z.of_nat k) = Ok (l', n', e') ∧
    ((-1 < e')%Z → (0 <= n' <= linenum)%Z).
Proof.
  intros Hl Hk. apply lookup_lt_is_Some_2 in Hk as [c Hc].
  exact (ReverseCloseExpression_returns cl linenum line k c Hl (proj1 Hn) Hc).
Qed.

Lemma ReverseClose_at line i : py_nth (elided cl) linenum = Ok line →
  (- Z.of_nat (length line) <= i < Z.of_nat (length line))%Z →
  is_ok (ReverseCloseExpression cl linenum i).
Proof.
  intros Hl Hi. unfold ReverseCloseExpression. rewrite Hl. cbn [mbind res_bind].
  destruct (py_nth_is_ok line i Hi) as [c ->]. cbn [mbind res_bind].
  destruct (opening_of c); [|by eexists].
  destruct (FindStartOfExpressionInLine _ _ _ _ _). destruct (_ <? _)%Z; by eexists.
Qed.

(** The same, from the index a search gave. *)
Lemma Close_at line i : py_nth (elided cl) linenum = Ok line →
  (0 <= i < Z.of_nat (length line))%Z → is_ok (CloseExpression cl linenum i).
Proof.
  intros Hl Hi. destruct (Close_ok line (Z.to_nat i) Hl) as (l' & n' & e' & H & _); [lia|].
  rewrite Z2Nat.id in H by lia. by exists (l', n', e').
Qed.

Lemma trailing_text_ok l' n' e' : ((0 <= e')%Z → (linenum <= n' < NumLines cl)%Z) →
  ((e' < 0)%Z → n' = NumLines cl) → is_ok (trailing_text cl (l', n', e')).
Proof.
  intros H1 H2. unfold trailing_text. apply (foldl_lines_is_ok _ (λ x, x)).
  destruct Hcl as (E & _ & _ & N). rewrite E.
  intros i Hi%elem_of_zrange. destruct (Z.ltb_spec e' 0) as [He|He].
  - rewrite (H2 He) in Hi. lia.
  - specialize (H1 He). lia.
Qed.

Lemma brace_spacing_returns line : py_nth (elided cl) linenum = Ok line →
  returns Inv (check_brace_spacing error filename cl linenum (hide_operator_methods line)).
Proof.
  intros Hl. unfold check_brace_spacing. cbv zeta.
  apply returns_bind; [|intros _; return_].
  destruct (re_match _ (hide_operator_methods line)) as [mo|] eqn:E; [|return_].
  assert (Hp : length (group_str mo 1) < length (hide_operator_methods line))
    by (prefix_of E).
  pose proof (hide_operator_methods_length line).
  destruct (Close_ok line (length (group_str mo 1)) Hl) as (l' & n' & e' & Ec & H1 & H2); [lia|].
  rewrite Ec. apply returns_bind_lift; [auto with returns|]. intros ? [= <-].
  apply returns_bind_lift; [by apply trailing_text_ok|]. intros ? _. return_.
Qed.

Lemma Spacing_returns `{Env} ns : returns Inv (CheckSpacing error filename cl linenum ns).
Proof.
  unfold CheckSpacing. apply returns_bind_lift; [auto with returns|]. intros line _.
  do 2 (apply returns_bind; [auto with returns|intros _]).
  apply returns_bind_lift; [auto with returns|]. intros cleansed Hl. cbv zeta.
  do 4 (apply returns_bind; [auto with returns|intros _]).
  apply returns_bind; [by apply brace_spacing_returns|]. intros _. auto with returns.
Qed.

Lemma SectionSpacing_returns c : returns Inv (CheckSectionSpacing error filename cl c linenum).
Proof. unfold CheckSectionSpacing. return_. Qed.

(** [Braces] *)
Lemma lone_brace_returns line : returns Inv (check_lone_brace error filename cl linenum line).
Proof. unfold check_lone_brace. return_. Qed.
Lemma else_line_returns line : returns Inv (check_else_line error filename cl linenum line).
Proof. unfold check_else_line. return_. Qed.
Lemma else_clause_returns line : returns Inv (check_else_clause error filename linenum line).
Proof. unfold check_else_clause. return_. Qed.
#[local] Hint Resolve lone_brace_returns else_line_returns else_clause_returns : returns.

Lemma find_from_range s sub start : sub ≠ [] →
  (find_from s sub start < Z.of_nat (length s))%Z ∨ (find_from s sub start <= 0)%Z.
Proof.
  intros Hs. unfold find_from. set (j := if (start <? 0)%Z then _ else _). clearbody j.
  destruct (Z.ltb_spec (Z.of_nat (length s)) j); [by right; lia|].
  destruct (find_at sub (drop (Z.to_nat j) s)) as [i|] eqn:E; simpl; [left|right; lia].
  apply find_at_bound in E. rewrite length_drop in E. destruct sub; [done|]. simpl in E. lia.
Qed.

Lemma else_braces_returns line : py_nth (elided cl) linenum = Ok line →
  returns Inv (check_else_braces error filename cl linenum line).
Proof.
  intros Hl. unfold check_else_braces. cbv zeta. apply returns_when. intros _.
  destruct (found _ _); [|return_]. apply returns_when. intros Hpos%Z.ltb_lt.
  apply returns_bind_lift; [|return_].
  - apply (Close_at line); [done|]. destruct (find_from_range line (u "(") (find line (u "else if")));
      [done|lia|lia].
  - intros [[l' n'] e'] _. return_.
Qed.

Lemma rfind_char_range c s : (-1 <= rfind s [c] < Z.of_nat (length s))%Z ∨ rfind s [c] = (-1)%Z.
Proof.
  unfold rfind. destruct (rfind_at [c] s) as [i|] eqn:E; simpl; [left|by right].
  apply rfind_char_Some in E as (x & y & -> & <- & _). rewrite length_app. simpl. lia.
Qed.

Lemma eligible_block_ok line : py_nth (elided cl) linenum = Ok line →
  ∃ o, eligible_block cl linenum line = Ok o ∧
    ∀ before, o = Some before → length before < length line.
Proof.
  intros Hl. unfold eligible_block.
  destruct (re_match (rx "^(.*\)\s*)\{") line) as [mo|] eqn:E1.
  - assert (Hp : length (group_str mo 1) < length line) by (prefix_of E1).
    cbv zeta. set (before := group_str mo 1) in *.
    destruct (ReverseClose_at line (rfind before (u ")")) Hl) as [[[l' n'] e'] ->].
    { pose proof (rfind_char_range (ch ")") before).
      change (u ")") with [ch ")"]. lia. }
    cbn [mbind res_bind]. destruct (_ && _); eexists; (split; [reflexivity|]); [done|].
    by intros ? [= <-].
  - destruct (re_match (rx "^(.*(?:else|\)\s*const)\s*)\{") line) as [mo|] eqn:E2.
    + eexists. split; [reflexivity|]. intros before [= <-]. prefix_of E2.
    + cbv zeta. destruct (_ && _); [|by eexists]. eexists. split; [reflexivity|].
      intros before H. apply fmap_Some in H as (mo & E3 & ->). prefix_of E3.
Qed.

Lemma block_semicolon_returns line : py_nth (elided cl) linenum = Ok line →
  returns Inv (check_block_semicolon error filename cl linenum line).
Proof.
  intros Hl. unfold check_block_semicolon.
  destruct (eligible_block_ok line Hl) as (o & -> & Ho).
  apply returns_bind_lift; [auto with returns|]. intros ? [= <-].
  destruct o as [before|]; [|return_].
  apply returns_bind_lift; [|intros [[l' n'] e'] _; return_].
  apply (Close_at line); [done|]. specialize (Ho _ eq_refl). lia.
Qed.

Lemma Braces_returns : returns Inv (CheckBraces error filename cl linenum).
Proof.
  unfold CheckBraces. apply returns_bind_lift; [auto with returns|]. intros line Hl.
  do 2 (apply returns_bind; [auto with returns|intros _]).
  apply returns_bind; [by apply else_braces_returns|intros _].
  apply returns_bind; [auto with returns|intros _]. by apply block_semicolon_returns.
Qed.

Lemma EmptyBlockBody_returns : returns Inv (CheckEmptyBlockBody error filename cl linenum).
Proof.
  unfold CheckEmptyBlockBody. apply returns_bind_lift; [auto with returns|]. intros line Hl.
  destruct (re_match _ line) as [mo|] eqn:E; [|return_].
  assert (Hc : ch "(" ∈ line).
  { eapply re_match_has; [..|by eexists; exact E]; reflexivity. }
  apply returns_bind_lift; [|intros [[l' n'] e'] _; return_].
  apply (Close_at line); [done|]. destruct (find_range line (u "(")) as [F|F]; [done| |simpl length in F; lia].
  exfalso. assert (H0 : (0 <= find line (u "("))%Z); [|lia].
  apply find_nonneg, contains_spec. apply list_elem_of_split in Hc as (x & y & ->). by exists x, y.
Qed.

(** [CheckMacros], [Nesting] *)
Lemma Check_returns : returns Inv (CheckCheck error filename cl linenum).
Proof. apply CheckCheck_returns_at. destruct Hcl as (E & _ & _ & N). lia. Qed.

Lemma AltTokens_returns : returns Inv (CheckAltTokens error filename cl linenum).
Proof.
  unfold CheckAltTokens. apply returns_bind_lift; [auto with returns|]. intros line _.
  destruct (matches _ line); [return_|]. destruct (_ || _); [return_|].
  apply returns_for_each. intros mo Hmo.
  apply re_finditer_match_at in Hmo as [Hs Hm].
  apply returns_bind_lift; [|return_].
  assert (Hg : group_str mo 1 ∈ fst <$> _ALT_TOKEN_REPLACEMENT).
  { eapply (group_spelled 1 _ [u "and"; u "bitor"; u "or"; u "xor"; u "compl"; u "bitand";
      u "and_eq"; u "or_eq"; u "xor_eq"; u "not"; u "not_eq"]) in Hm; [|done|reflexivity..].
    exact Hm. }
  apply list_elem_of_fmap in Hg as ([k v] & -> & Hin). unfold assoc.
  destruct (List.find _ _) as [[k' v']|] eqn:E; [by eexists|].
  apply List.find_none with (x := (k, v)) in E; [|by apply list_elem_of_In].
  simpl in E. by rewrite (proj2 (str_eqb_eq k k)) in E.
Qed.

Lemma Access_returns ns : returns Inv (CheckAccess error filename cl linenum ns).
Proof. unfold CheckAccess. return_. Qed.

(** ** Names of files *)

Section environment.
Context `{HE : Env}.
Context (no_svn_root : ∀ r, dirname r = r → has_entry r (u ".svn") = false).

Lemma RepositoryName_ok fi : is_ok (RepositoryName fi).
Proof.
  unfold RepositoryName. set (fullname := FullName fi).
  destruct (path_exists fullname); [|by eexists].
  pose proof (dirname_le fullname). pose proof (dirname_le (dirname fullname)).
  destruct (has_entry (dirname fullname) (u ".svn")) eqn:Hsvn.
  - destruct (svn_root_total (S (length fullname)) (dirname fullname) no_svn_root) as (r & -> & _);
      [lia|done|]. by eexists.
  - destruct (vcs_root_total (S (length fullname)) (dirname fullname)) as (r & -> & _); [lia|].
    cbn [mbind res_bind]. destruct (has_vcs r); by eexists.
Qed.

Lemma BaseName_ok fi : is_ok (BaseName fi).
Proof.
  unfold BaseName, Split. destruct (RepositoryName_ok fi) as [name ->]. cbn [mbind res_bind].
  destruct (path_split name) as [project rest]. destruct (path_splitext rest). by eexists.
Qed.

(** The --root flag, which the code puts into a pattern, is one. *)
Definition root_ok (root : option str) : Prop :=
  match root with
  | None | Some [] => True
  | Some root => is_Some (re_compile (u "^" ++ root ++ slash))
  end.

Context (Hroot : ∀ w, Inv w → root_ok (w_root w)).

Lemma strip_root_ok root path : root_ok root → is_ok (strip_root root path).
Proof.
  unfold strip_root. destruct root as [[|c root]|]; [by eexists| |by eexists].
  intros [p Hp]. unfold root_ok. rewrite Hp. by eexists.
Qed.

Lemma HeaderGuardCPPVariable_returns file : returns Inv (GetHeaderGuardCPPVariable file).
Proof.
  unfold GetHeaderGuardCPPVariable. cbv zeta.
  apply returns_bind_lift; [apply RepositoryName_ok|]. intros path _.
  apply returns_bind_gets. intros w Hw.
  apply returns_bind_lift; [by apply strip_root_ok, Hroot|]. intros ? _. return_.
Qed.
#[local] Hint Resolve HeaderGuardCPPVariable_returns RepositoryName_ok BaseName_ok : returns.

(** [Style] *)
Lemma indent_returns line cleansed : returns Inv (check_indent error filename linenum line cleansed).
Proof. unfold check_indent. return_. Qed.

Lemma line_length_returns ext line :
  returns Inv (check_line_length error filename linenum ext line).
Proof.
  unfold check_line_length, is_header_guard. apply returns_bind; [return_|]. intros guard. return_.
Qed.

#[local] Hint Resolve indent_returns line_length_returns Braces_returns EmptyBlockBody_returns
  Access_returns Spacing_returns Check_returns AltTokens_returns SectionSpacing_returns : returns.

Lemma Style_returns ext ns : returns Inv (CheckStyle error filename cl linenum ext ns).
Proof. unfold CheckStyle. return_. Qed.

(** [Includes] *)
Lemma ClassifyInclude_ok fi include is_system : is_ok (_ClassifyInclude fi include is_system).
Proof.
  unfold _ClassifyInclude. cbv zeta. destruct is_system; [by eexists|].
  destruct (RepositoryName_ok fi) as [name ->]. cbn [mbind res_bind].
  repeat case_match; by eexists.
Qed.
#[local] Hint Resolve ClassifyInclude_ok : returns.

Lemma IsInAlphabeticalOrder_ok inc header : is_ok (IsInAlphabeticalOrder inc cl linenum header).
Proof.
  unfold IsInAlphabeticalOrder. destruct (str_ltb _ _); [|by eexists].
  destruct (elided_ok (linenum - 1)) as [l ->]; [lia|]. by eexists.
Qed.

(** The section stays one of the five. *)
Definition include_ok (inc : include_state) : Prop := section_ok (_section inc).

Lemma new_include_yields include is_system inc : include_ok inc →
  yields Inv include_ok (check_new_include error filename cl linenum include is_system inc).
Proof.
  intros Hinc. unfold check_new_include. cbv zeta.
  apply yields_bind_lift; [auto with returns|]. intros type _.
  destruct (CheckNextIncludeOrder_run (IncludeState (<[include := AtLine linenum]> (includes inc))
    (_section inc) (_last_header inc)) type Hinc) as (message & inc' & E & Hs & _).
  rewrite E. apply yields_bind_lift; [by eexists|]. intros ? [= <-].
  apply yields_after; [return_|]. intros _.
  apply yields_bind_lift; [apply IsInAlphabeticalOrder_ok|]. intros ordered _.
  apply yields_after; [return_|]. intros _. by apply yields_ret.
Qed.

Lemma IncludeLine_yields inc : include_ok inc →
  yields Inv include_ok (CheckIncludeLine error filename cl linenum inc).
Proof.
  intros Hinc. unfold CheckIncludeLine.
  apply yields_bind_lift; [auto with returns|]. intros line _.
  apply yields_after; [return_|]. intros _. apply (yields_bind Inv include_ok).
  - destruct (re_search _ line) as [mo|]; [|by apply yields_ret]. cbv zeta.
    destruct (includes inc !! _); [|by apply new_include_yields].
    apply yields_after; [return_|]. intros _. by apply yields_ret.
  - intros inc' Hinc'. apply yields_after; [return_|]. intros _. by apply yields_ret.
Qed.

(** [LineChecks]: function lengths *)
Lemma word_not_space c : is_word c = true → is_uspace c = false.
Proof.
  intros Hc. apply not_true_iff_false. intros Hs.
  unfold is_word, is_alnum, is_alpha, is_digit, is_upper, is_lower, in_range in Hc.
  unfold is_uspace, is_space, in_range in Hs. cbn [existsb] in Hs.
  rewrite !orb_true_iff, !andb_true_iff, ?N.leb_le, ?N.eqb_eq in *. lia.
Qed.

Lemma words_go_nonempty acc s : acc ≠ [] → words_go acc s ≠ [].
Proof.
  revert acc. induction s as [|c s IH]; intros acc Ha; simpl; [by destruct acc|].
  destruct (is_uspace c); [by destruct acc|]. by apply IH.
Qed.

Definition function_head : compiled := rx "(\w(\w|::|\*|\&|\s)*)\(".

(** A leading group begins with the character its pattern begins with. *)
Lemma group_begins p cs R cs' s mo :
  re_body p = Seq (Grp 1 (Seq (Chars cs) R)) (Chars cs') → re_match p s = Some mo →
  ∃ c t, group_str mo 1 = c :: t ∧ cs_test (re_flags p) cs c = true.
Proof.
  intros Hb (st & Hd & ->)%match_at_den. rewrite Hb in Hd. cbn [den] in Hd.
  destruct Hd as (st1 & (st2 & (st3 & (c & t & Es & Hc & ->) & HR) & ->) & d & t' & _ & _ & ->).
  change (suf (st_at s 0)) with s in *. change (pre (st_at s 0)) with (@nil N) in *.
  apply den_ext, ext_pos_suf in HR as [Hp' _]. assert (Hp : 1 ≤ pos st2) by exact Hp'.
  unfold group_str, group. cbn [mo_caps caps cap_get Nat.eqb].
  simpl. unfold span. rewrite Nat.sub_0_r, drop_0, Es.
  destruct (pos st2) as [|n]; [lia|]. by exists c, (take n t).
Qed.

Lemma function_head_word line mo : re_match function_head line = Some mo →
  ∃ c t, group_str mo 1 = c :: t ∧ is_word c = true.
Proof.
  intros Hm. eapply group_begins in Hm; [|reflexivity]. destruct Hm as (c & t & E & Hc).
  exists c, t. split; [done|]. simpl in Hc. by rewrite orb_false_r in Hc.
Qed.

Lemma starting_func_ok line : is_ok (starting_func line).
Proof.
  unfold starting_func. fold function_head.
  destruct (re_match function_head line) as [mo|] eqn:E; [|by eexists].
  destruct (function_head_word line mo E) as (c & t & -> & Hc).
  assert (Hw : split_ws (c :: t) ≠ []).
  { unfold split_ws. cbn [words_go]. rewrite (word_not_space c Hc). by apply words_go_nonempty. }
  destruct (py_nth_is_ok (split_ws (c :: t)) (-1)) as [name ->]; [|by eexists].
  destruct (split_ws (c :: t)); [done|simpl; lia].
Qed.

Lemma name_before_parenthesis line : ch "(" ∈ line →
  is_Some (re_search (rx "((\w|:)*)\(") line).
Proof.
  intros Hin. refine (bool_decide_eq_true_1 _ _).
  change (found (rx "((\w|:)*)\(") line = true). apply found_den. apply list_elem_of_split in Hin as (a & b & ->).
  exists (length a). eexists. split; [rewrite length_app; simpl; lia|].
  cbn [re_body re_flags den]. eexists. split.
  - eexists. split; [apply rd_stop|reflexivity].
  - exists (ch "("), b. split; [|by split]. cbn [suf st_at]. by rewrite drop_app_length.
Qed.

Lemma find_body_ok line joined rest fs : ch "(" ∈ line → is_ok (find_body line joined rest fs).
Proof.
  intros Hin. revert joined. induction rest as [|l rest IH]; intros joined; [by eexists|].
  cbn [find_body]. cbv zeta. destruct (found _ l); [by eexists|].
  destruct (found _ l); [|apply IH].
  destruct (name_before_parenthesis line Hin) as [mo ->]. by eexists.
Qed.

Context (Hverbose : ∀ w, Inv w → (0 <= verbose_level (cpplint_state w))%Z).

Lemma function_check_returns fs : returns Inv (FunctionState.Check fs error filename linenum).
Proof.
  unfold Check. cbv zeta. unfold _VerboseLevel. apply returns_bind_gets. intros w Hw.
  apply returns_when. intros Hx. unfold exceeds_trigger in Hx. specialize (Hverbose w Hw).
  destruct (Z.ltb_spec (verbose_level (cpplint_state w)) 0); [lia|]. apply Z.ltb_lt in Hx.
  destruct (error_level_bounds _ _ _ (base_trigger_pos fs) Hverbose Hx) as (level & -> & _).
  apply returns_bind_lift; [auto with returns|]. intros ? _. return_.
Qed.
#[local] Hint Resolve function_check_returns : returns.

Lemma FunctionLengths_returns fs :
  returns Inv (CheckForFunctionLengths error filename cl linenum fs).
Proof.
  unfold CheckForFunctionLengths.
  apply returns_bind_lift; [auto with returns|]. intros line _.
  destruct (starting_func_ok line) as [start E]. rewrite E.
  apply returns_bind_lift; [by eexists|]. intros ? [= <-]. destruct start; [|return_].
  apply returns_bind_lift; [|intros [body_found fs'] _; return_].
  apply find_body_ok. unfold starting_func in E. fold function_head in E.
  destruct (re_match function_head line) as [mo|] eqn:Em; [|discriminate E].
  eapply re_match_has; [..|by eexists; exact Em]; reflexivity.
Qed.

(** [Language] *)
Lemma conversion_cast_returns line : returns Inv (check_conversion_cast error filename cl linenum line).
Proof. unfold check_conversion_cast. return_. Qed.

Lemma CStyleCast_returns line raw cast pattern :
  returns Inv (CheckCStyleCast error filename linenum line raw cast pattern).
Proof. unfold CheckCStyleCast. return_. Qed.
#[local] Hint Resolve CStyleCast_returns : returns.

Lemma c_style_casts_returns line raw : returns Inv (check_c_style_casts error filename linenum line raw).
Proof. unfold check_c_style_casts. return_. Qed.
Lemma address_of_cast_returns line : returns Inv (check_address_of_cast error filename linenum line).
Proof. unfold check_address_of_cast. return_. Qed.
Lemma static_string_returns line : returns Inv (check_static_string error filename linenum line).
Proof. unfold check_static_string. return_. Qed.
Lemma member_init_returns line : returns Inv (check_member_init error filename linenum line).
Proof. unfold check_member_init. return_. Qed.
Lemma basic_types_returns line : returns Inv (check_basic_types error filename linenum line).
Proof. unfold check_basic_types. return_. Qed.
Lemma c_functions_returns line : returns Inv (check_c_functions error filename linenum line).
Proof. unfold check_c_functions. cbv zeta. return_. Qed.
Lemma operator_and_braces_returns line :
  returns Inv (check_operator_and_braces error filename linenum line).
Proof. unfold check_operator_and_braces. return_. Qed.
Lemma memset_returns line : returns Inv (check_memset error filename linenum line).
Proof. unfold check_memset. return_. Qed.
Lemma using_namespace_returns line : returns Inv (check_using_namespace error filename linenum line).
Proof. unfold check_using_namespace. return_. Qed.
Lemma arrays_returns line : returns Inv (check_arrays error filename linenum line).
Proof. unfold check_arrays. return_. Qed.
Lemma disallow_last_returns line :
  returns Inv (check_disallow_last error filename cl linenum line).
Proof. unfold check_disallow_last. return_. Qed.

Lemma unnamed_namespace_returns ext line :
  returns Inv (check_unnamed_namespace error filename linenum ext line).
Proof.
  unfold check_unnamed_namespace. apply returns_when. intros [_ Hf]%andb_true_iff.
  apply returns_bind_lift; [|intros ? _; return_]. apply py_nth_is_ok.
  apply bool_decide_eq_true_1 in Hf.
  assert (Hin : ch "{" ∈ line) by (eapply re_search_has; [..|exact Hf]; reflexivity).
  destruct line; [by apply not_elem_of_nil in Hin|simpl; lia].
Qed.

Definition printf_call : compiled := rx_m "(?i)\b(string)?printf\s*\(".
Definition printf_name : compiled := rx_i "\b((?:string)?printf)\s*\(".

(** Where there is a call of printf, there is its name. *)
Lemma printf_call_named line : is_Some (re_search printf_call line) →
  is_Some (re_search printf_name line).
Proof.
  intros [mo Hm]. apply re_search_Some in Hm as (_ & Hb & Hm).
  apply match_at_den in Hm as (st & Hd & _).
  refine (bool_decide_eq_true_1 _ _). change (found printf_name line = true). apply found_den.
  exists (mo_start mo). unfold printf_call in Hd. cbn [re_body re_flags] in Hd.
  destruct Hd as (st0 & [Hw ->] & st1 & Hs & s1 & h1 & s2 & h2 & s3 & h3 & s4 & h4 & s5 & h5
    & s6 & h6 & hU).
  assert (H : den (Flags true true)
    (Seq (Rep true 0 (Some 1) (Grp 1 (re_body (rx "string"))))
       (Seq (re_body (rx "printf")) (re_body (rx "\s*\("))))
    (st_at line (mo_start mo)) st).
  { exists st1. split; [exact Hs|]. exists s6. split; [|exact hU].
    exists s1. split; [exact h1|]. exists s2. split; [exact h2|]. exists s3. split; [exact h3|].
    exists s4. split; [exact h4|]. exists s5. split; [exact h5|exact h6]. }
  unshelve epose proof (den_regroup (Flags true true) (Flags true false) _ _ _ _ _ _ _ H 1 [])
    as [st2 H2]; [reflexivity|reflexivity|].
  exists st2. split; [lia|]. exists (st_at line (mo_start mo)). split; [by split|exact H2].
Qed.

(** The text inside the parentheses of a call: the pattern ends with one. *)
Lemma GetTextInside_printf_ok line : is_ok (_GetTextInside line printf_call).
Proof.
  unfold _GetTextInside. destruct (re_search printf_call line) as [mo|] eqn:E; [|by eexists].
  apply re_search_Some in E as (_ & Hb & Hm). cbv zeta.
  assert (Hl : mo_start mo + 7 ≤ mo_end mo) by (apply match_at_least in Hm; [exact Hm|lia]).
  destruct (Nat.eqb_spec (mo_end mo) 0); [lia|].
  apply match_at_den in Hm as (st & Hd & Hmo).
  destruct (den_ends_with (re_flags printf_call) (re_body printf_call) (CLit (ch "(")) _ _
    eq_refl Hd) as (c & t & Hp & Hc).
  apply den_ext, ext_whole in Hd. rewrite st_at_whole in Hd.
  assert (Hend : mo_end mo = S (length t)) by (rewrite Hmo; unfold pos; simpl; by rewrite Hp).
  assert (Hc' : c = ch "(").
  { cbn [cs_test re_flags printf_call f_icase] in Hc. apply N.eqb_eq in Hc.
    change (to_lower (ch "(")) with 40%N in Hc. unfold to_lower in Hc.
    destruct (is_upper c) eqn:Eu; [|exact Hc]. unfold is_upper, in_range in Eu.
    rewrite andb_true_iff, !N.leb_le in Eu. lia. }
  assert (Hch : py_nth line (Z.of_nat (mo_end mo) - 1) = Ok c).
  { rewrite Hend. replace (Z.of_nat (S (length t)) - 1)%Z with (Z.of_nat (length t)) by lia.
    rewrite py_nth_nat, <- Hd. unfold whole. rewrite Hp. simpl rev. rewrite <- app_assoc.
    rewrite <- (length_rev t). simpl app. by rewrite list_lookup_middle. }
  rewrite Hch. cbn [mbind res_bind]. rewrite Hc'. by eexists.
Qed.

Lemma format_string_returns line : returns Inv (check_format_string error filename linenum line).
Proof.
  unfold check_format_string. fold printf_call printf_name.
  destruct (GetTextInside_printf_ok line) as [o E]. rewrite E.
  apply returns_bind_lift; [by eexists|]. intros ? [= <-].
  destruct o as [[|c args]|]; [return_| |return_].
  destruct (re_match _ (c :: args)); [|return_]. apply returns_when. intros _.
  apply returns_bind_lift; [|intros ? _; return_]. apply is_ok_or_raise, printf_call_named.
  unfold _GetTextInside in E. destruct (re_search printf_call line); [by eexists|discriminate E].
Qed.
#[local] Hint Resolve conversion_cast_returns c_style_casts_returns address_of_cast_returns
  static_string_returns member_init_returns basic_types_returns c_functions_returns
  operator_and_braces_returns format_string_returns memset_returns using_namespace_returns
  arrays_returns disallow_last_returns unnamed_namespace_returns : returns.

Lemma language_rules_returns ext line :
  returns Inv (check_language_rules error filename cl linenum ext line).
Proof. unfold check_language_rules. return_. Qed.

Lemma Language_yields ext inc : include_ok inc →
  yields Inv include_ok (CheckLanguage error filename cl linenum ext inc).
Proof.
  intros Hinc. unfold CheckLanguage. apply yields_bind_lift; [auto with returns|]. intros line _.
  destruct line as [|c line]; [by apply yields_ret|].
  destruct (re_search _ _); [by apply IncludeLine_yields|]. cbv zeta.
  apply yields_after; [apply language_rules_returns|]. intros _. apply yields_ret.
  by destruct (matches _ _).
Qed.

Lemma joined_reference_line_ok line : py_nth (elided cl) linenum = Ok line →
  is_ok (joined_reference_line cl linenum line).
Proof.
  intros Hl. unfold joined_reference_line. destruct (Z.ltb_spec 1 linenum); [|by eexists].
  destruct (elided_ok (linenum - 1)) as [prev ->]; [lia|]. cbn [mbind res_bind].
  destruct (split_type_prefix line prev); [by eexists|]. cbv zeta.
  destruct (Z.ltb_spec (-1) (rfind line (u ">"))) as [Hp|]; [|by eexists].
  pose proof (rfind_char_range (ch ">") line) as Hr. change [ch ">"] with (u ">") in Hr.
  destruct (ReverseClose_ok line (Z.to_nat (rfind line (u ">"))) Hl) as (l' & n' & e' & E & He); [lia|].
  rewrite Z2Nat.id in E by lia. rewrite E. cbn [mbind res_bind].
  destruct (Z.ltb_spec (-1) e'); [|by eexists].
  destruct (Z.ltb_spec n' linenum); [|by eexists]. cbn [andb].
  apply (foldl_lines_is_ok _ strip). intros i Hi%elem_of_zrange.
  destruct Hcl as (EL & _ & _ & N). specialize (He ltac:(lia)). lia.
Qed.

Lemma whitelisted_ok line : is_ok (whitelisted cl linenum line).
Proof.
  unfold whitelisted. destruct (found _ line); [by eexists|].
  destruct (negb _); [|by eexists]. cbn [foldl_res].
  destruct (Z.ltb_spec 0 linenum); cbn [mbind res_bind mret res_ret].
  - destruct (elided_ok (linenum - 0 - 1)) as [l1 ->]; [lia|].
    cbn [mbind res_bind mret res_ret]. destruct (found _ l1); [by eexists|].
    destruct (Z.ltb_spec 1 linenum); [|by eexists].
    destruct (elided_ok (linenum - 1 - 1)) as [l2 ->]; [lia|]. by eexists.
  - destruct (Z.ltb_spec 1 linenum); [lia|]. by eexists.
Qed.
#[local] Hint Resolve joined_reference_line_ok whitelisted_ok : returns.

Lemma NonConstReference_returns ns :
  returns Inv (CheckForNonConstReference error filename cl linenum ns).
Proof.
  unfold CheckForNonConstReference. apply returns_bind_lift; [auto with returns|]. intros line Hl.
  destruct (negb _); [return_|].
  apply returns_bind_lift; [auto with returns|]. intros joined _. return_.
Qed.

(** Two steps of the parser: an escape, and a group whose inside is known. *)
Lemma parse_spaces f acc rest gid :
  parse_seq false (S f) acc (Pst (u "\s" ++ rest) gid false) =
    parse_seq false f (Chars (CSet false [SClass false CSpace]) :: acc) (Pst rest gid false).
Proof. reflexivity. Qed.

Lemma parse_plain_group f inside r rest acc gid :
  parse_alt false f (Pst (inside ++ u ")" ++ rest) gid false) =
    Some (r, Pst (u ")" ++ rest) gid false) →
  parse_seq false (S f) acc (Pst (u "(?:" ++ inside ++ u ")" ++ rest) gid false) =
    parse_seq false f (r :: acc) (Pst rest gid false).
Proof.
  intros H. transitivity ('(r, p1) ← parse_alt false f (Pst (inside ++ u ")" ++ rest) gid false);
    match p_rest p1 with
    | d :: t1 => if (d =? ch ")")%N then parse_seq false f (r :: acc) (with_rest p1 t1) else None
    | [] => None
    end); [reflexivity|]. by rewrite H.
Qed.

Lemma parse_const_group f r rest :
  parse_alt false f (Pst (u "const\s+" ++ u ")" ++ rest) 2 false) =
    Some (r, Pst (u ")" ++ rest) 2 false) →
  parse_seq false (S f) [] (Pst (u "(const\s+)" ++ rest) 1 false) =
    parse_seq false f [Grp 1 r] (Pst rest 2 false).
Proof.
  intros H. transitivity ('(r, p1) ← parse_alt false f (Pst (u "const\s+" ++ u ")" ++ rest) 2 false);
    match p_rest p1 with
    | d :: t1 => if (d =? ch ")")%N then parse_seq false f [Grp 1 r] (with_rest p1 t1) else None
    | [] => None
    end); [reflexivity|]. by rewrite H.
Qed.

(** The patterns with the class's name compile whatever the name is. *)
Lemma constructor_pattern_ok name : is_ok (or_raise ReError (re_compile (constructor_pattern name))).
Proof.
  apply is_ok_or_raise. unfold constructor_pattern.
  pose (inner := re_body (rx "(?:inline\s+)")).
  apply (re_compile_around _ _ _ 4 12 9
           [Rep true 0 (Some 1) inner; Rep true 1 None (Chars (CSet false [SClass false CSpace]))] 1);
    [| |done|vm_compute; lia..].
  - intros fuel rest Hr. remember (12 + fuel) as f eqn:Hf.
    change (u "\s+(?:inline\s+)?" ++ rest) with
      (u "\s" ++ ch "+" :: u "(?:" ++ u "inline\s+" ++ u ")" ++ ch "?" :: rest).
    change (4 + f) with (S (S (S (S f)))). rewrite parse_spaces.
    rewrite (parse_repetition _ (ch "+") 1 None); [|done|rewrite !elem_of_cons; auto|reflexivity].
    rewrite (parse_plain_group _ _ inner) by (subst f; reflexivity).
    apply parse_repetition; [done| |reflexivity]. rewrite !elem_of_cons. auto.
  - intros fuel acc'. do 3 eexists. reflexivity.
Qed.

Lemma copy_argument_pattern_ok name :
  is_ok (or_raise ReError (re_compile (copy_argument_pattern name))).
Proof.
  apply is_ok_or_raise. unfold copy_argument_pattern.
  pose (inner := re_body (rx "const\s+")).
  apply (re_compile_around _ _ _ 2 12 16 [Rep true 0 (Some 1) (Grp 1 inner)] 2);
    [| |done|vm_compute; lia..].
  - intros fuel rest Hr. remember (12 + fuel) as f eqn:Hf.
    change (u "(const\s+)?" ++ rest) with (u "(const\s+)" ++ ch "?" :: rest).
    change (2 + f) with (S (S f)).
    rewrite (parse_const_group _ inner); [|subst f; reflexivity].
    apply parse_repetition; [done| |reflexivity]. rewrite !elem_of_cons. auto.
  - intros fuel acc'. do 3 eexists. lazy. reflexivity.
Qed.
#[local] Hint Resolve constructor_pattern_ok copy_argument_pattern_ok : returns.

Lemma explicit_returns line c : returns Inv (check_explicit error filename linenum line c).
Proof. unfold check_explicit. return_. Qed.
Lemma printf_formats_returns line : returns Inv (check_printf_formats error filename linenum line).
Proof. unfold check_printf_formats. return_. Qed.
Lemma nonstandard_line_returns line :
  returns Inv (check_nonstandard_line error filename linenum line).
Proof. unfold check_nonstandard_line. return_. Qed.
#[local] Hint Resolve explicit_returns printf_formats_returns nonstandard_line_returns : returns.

Lemma NonStandardConstructs_returns ns :
  returns Inv (CheckForNonStandardConstructs error filename cl linenum ns).
Proof. unfold CheckForNonStandardConstructs. return_. Qed.

(** ** [ProcessLine] *)

Lemma Update_returns' ns : returns Inv (Update error filename cl linenum ns).
Proof.
  destruct (elided_ok linenum) as [line Hl]; [lia|]. destruct (raw_ok linenum) as [raw Hr]; [lia|].
  by apply (Update_returns_at error filename cl Inv linenum line raw).
Qed.

#[local] Hint Resolve Update_returns' FunctionLengths_returns Multiline_returns Style_returns
  NonConstReference_returns NonStandardConstructs_returns Vlog_returns PosixThreading_returns
  Increment_returns MakePair_returns : returns.

Lemma ProcessLine_yields ext st extra :
  (∀ f, f ∈ extra → returns Inv (f filename cl linenum error)) → include_ok (fs_include st) →
  yields Inv (λ st', include_ok (fs_include st')) (ProcessLine filename ext cl linenum st error extra).
Proof.
  intros Hextra Hinc. unfold ProcessLine. apply yields_bind_lift; [auto with returns|]. intros raw _.
  do 2 (apply yields_after; [auto with returns|]; intros ?).
  destruct (in_asm_block _); [by apply yields_ret|].
  do 3 (apply yields_after; [auto with returns|]; intros ?).
  apply (yields_bind Inv include_ok); [by apply Language_yields|]. intros inc Hinc'.
  do 6 (apply yields_after; [auto with returns|]; intros ?).
  apply yields_after; [by apply returns_for_each|]. intros _. by apply yields_ret.
Qed.
End environment.
End line.

(** ** One file *)

(** The lines the header guard's scan remembers are lines of the file. *)
Lemma guard_step_linenums g x n :
  (0 <= g_ifndef_linenum g < n)%Z → (0 <= g_endif_linenum g < n)%Z → (0 <= x.1 < n)%Z →
  (0 <= g_ifndef_linenum (guard_step g x) < n)%Z ∧ (0 <= g_endif_linenum (guard_step g x) < n)%Z.
Proof.
  destruct x as [i l]. unfold guard_step. intros H1 H2 H3. cbn [fst] in H3.
  repeat (case_match; simplify_eq; cbn [g_ifndef_linenum g_endif_linenum]; auto).
Qed.

Lemma scan_guard_linenums lines : lines ≠ [] →
  (0 <= g_ifndef_linenum (scan_guard lines) < Z.of_nat (length lines))%Z ∧
  (0 <= g_endif_linenum (scan_guard lines) < Z.of_nat (length lines))%Z.
Proof.
  intros Hne. unfold scan_guard.
  assert (Hl : Forall (λ x, 0 <= x.1 < Z.of_nat (length lines))%Z (enumerate lines)).
  { apply Forall_forall. intros [i l] [Hi Hl]%elem_of_enumerate.
    apply lookup_lt_Some in Hl. cbn [fst]. lia. }
  assert (H0 : (0 < Z.of_nat (length lines))%Z) by (destruct lines; [done|simpl; lia]).
  assert (Hg : ∀ l g, Forall (λ x, 0 <= x.1 < Z.of_nat (length lines))%Z l →
    (0 <= g_ifndef_linenum g < Z.of_nat (length lines))%Z →
    (0 <= g_endif_linenum g < Z.of_nat (length lines))%Z →
    (0 <= g_ifndef_linenum (fold_left guard_step l g) < Z.of_nat (length lines))%Z ∧
    (0 <= g_endif_linenum (fold_left guard_step l g) < Z.of_nat (length lines))%Z).
  { induction l as [|x l IH]; intros g Hf H1 H2; [done|]. apply Forall_cons in Hf as [Hx Hf].
    destruct (guard_step_linenums g x _ H1 H2 Hx). by apply IH. }
  apply Hg; [done|simpl; lia..].
Qed.

Section file.
Context `{HE : Env} {Inv : world → Prop} {error : handler} `{!Returning Inv error}.
Context (filename : str).
Context (no_svn_root : ∀ r, dirname r = r → has_entry r (u ".svn") = false).
Context (Hroot : ∀ w, Inv w → root_ok (w_root w)).
Context (Hverbose : ∀ w, Inv w → (0 <= verbose_level (cpplint_state w))%Z).

Lemma Copyright_returns lines : returns Inv (CheckForCopyright error filename lines).
Proof. unfold CheckForCopyright. return_. Qed.

Lemma HeaderGuard_returns lines : lines ≠ [] → returns Inv (CheckForHeaderGuard error filename lines).
Proof.
  intros [H1 H2]%scan_guard_linenums. unfold CheckForHeaderGuard.
  pose proof (HeaderGuardCPPVariable_returns no_svn_root Hroot).
  assert (is_ok (py_nth lines (g_ifndef_linenum (scan_guard lines)))) by (apply py_nth_is_ok; lia).
  assert (is_ok (py_nth lines (g_endif_linenum (scan_guard lines)))) by (apply py_nth_is_ok; lia).
  return_.
Qed.

Lemma remove_comments_yields lines :
  yields Inv (λ lines', length lines' = length lines) (RemoveMultiLineComments error filename lines).
Proof.
  unfold RemoveMultiLineComments.
  destruct (remove_loop_run error filename (S (length lines)) lines 0) as (lines' & [Hl _] & Hres);
    [lia|lia|intros k l Hk; lia|].
  destruct Hres as [[_ ->]|(n & l & _ & _ & _ & ->)]; [by apply yields_ret|].
  apply yields_after; [apply error_returns|]. intros _. by apply yields_ret.
Qed.

Lemma CompletedBlocks_returns ns : returns Inv (CheckCompletedBlocks error filename ns).
Proof. unfold CheckCompletedBlocks. return_. Qed.

Lemma IncludeWhatYouUse_returns cl inc : returns Inv (CheckForIncludeWhatYouUse error filename cl inc).
Proof. unfold CheckForIncludeWhatYouUse. return_. Qed.

Lemma BadCharacters_returns lines : returns Inv (CheckForBadCharacters error filename lines).
Proof. unfold CheckForBadCharacters. return_. Qed.

Lemma NewlineAtEOF_returns lines : returns Inv (CheckForNewlineAtEOF error filename lines).
Proof.
  unfold CheckForNewlineAtEOF. cbv zeta. apply returns_bind; [|intros ?; return_].
  destruct (Z.ltb_spec (Z.of_nat (length lines)) 3); [return_|].
  apply returns_bind_lift; [apply py_nth_is_ok; lia|]. intros ? _. return_.
Qed.

#[local] Hint Resolve Copyright_returns CompletedBlocks_returns IncludeWhatYouUse_returns
  BadCharacters_returns NewlineAtEOF_returns : returns.

Lemma ProcessFileData_ends ext lines extra :
  (∀ f cl n, f ∈ extra → returns Inv (f filename cl n error)) →
  returns Inv (ProcessFileData filename ext lines error extra).
Proof.
  intros Hextra. unfold ProcessFileData. cbv zeta.
  apply returns_bind; [apply returns_modify, reset_keeps|]. intros _.
  apply returns_bind; [auto with returns|]. intros _.
  apply returns_bind; [apply returns_when; intros _; by apply HeaderGuard_returns|]. intros _.
  eapply returns_bind_yields; [apply remove_comments_yields|]. intros ls _.
  destruct (cleanse_run ls) as (cl & E & _ & Hcl). rewrite E.
  apply returns_bind_lift; [by eexists|]. intros ? [= <-].
  apply (returns_bind_yields Inv (λ st, include_ok (fs_include st))).
  - apply yields_for_fold; [by vm_compute|]. intros st n Hn%elem_of_zrange Hst.
    by apply ProcessLine_yields; try done; intros f; apply Hextra.
  - intros st _. return_.
Qed.
End file.

(** C3: `ProcessFileData` returns on every file, whatever its lines hold: no
    check of a line or of the whole file uses an index out of range, loops for
    ever, compiles a malformed pattern or misses a table entry. The error
    handler must return and keep some invariant that implies a verbosity of 0 or
    more and a root flag which, put into a pattern, compiles; no root directory
    of the file system may hold a ".svn". *)
Theorem ProcessFileData_returns `{Env} Inv error filename ext lines w :
  Returning Inv error →
  (∀ w, Inv w → (0 <= verbose_level (cpplint_state w))%Z ∧ root_ok (w_root w)) →
  (∀ r, dirname r = r → has_entry r (u ".svn") = false) →
  Inv w → ∃ w', ProcessFileData filename ext lines error [] w = (Ok tt, w') ∧ Inv w'.
Proof.
  intros Hret Hinv Hsvn Hw.
  destruct (wp_no_exn _ _ _ (ProcessFileData_ends filename Hsvn (λ w Hw, proj2 (Hinv w Hw))
    (λ w Hw, proj1 (Hinv w Hw)) ext lines [] (λ f cl n Hf, False_ind _ (not_elem_of_nil f Hf)) w Hw))
    as ([] & w' & E & Hw'). by exists w'.
Qed.

(** ** The whole program *)

(** Settings a run needs: accepted filters, a verbosity of 0 or more, a root flag
    that is a pattern. *)
Definition sane (w : world) : Prop :=
  signed_filters w ∧ (0 <= verbose_level (cpplint_state w))%Z ∧ root_ok (w_root w).

#[export] Instance Error_returning : Returning sane Error.
Proof.
  split; [|done..]. intros f n c k m w Hw.
  destruct (Error_run f n c k m w (proj1 Hw)) as (b & _ & Hr). unfold wp. rewrite Hr.
  destruct b; [|done]. destruct Hw as (Hs & Hv & Hroot).
  destruct (count_error_settings c (cpplint_state w)) as (_ & E1 & E2 & _).
  unfold sane, signed_filters in *. simpl. by rewrite E1, E2.
Qed.

Section program.
Context `{Env}.
Context (no_svn_root : ∀ r, dirname r = r → has_entry r (u ".svn") = false).

Lemma write_returns s : returns sane (stderr_write s).
Proof. by apply returns_modify. Qed.
#[local] Hint Resolve write_returns : returns.

Lemma ProcessFile_ends filename vlevel : (0 <= vlevel)%Z →
  returns sane (ProcessFile filename vlevel []).
Proof.
  intros Hv. unfold ProcessFile. apply returns_bind.
  { unfold _SetVerboseLevel, SetVerboseLevel. apply returns_bind; [return_|]. intros old.
    apply returns_bind; [|intros _; return_]. apply returns_modify. intros w (Hs & _ & Hr).
    by split_and!. }
  intros _. cbv zeta. destruct (if str_eqb filename (u "-") then _ else _) as [text|]; [|return_].
  destruct (strip_carriage_returns _) as [ls cr]. apply returns_bind; [return_|]. intros valid.
  apply returns_bind; [|intros _; return_]. destruct (_ && _); [return_|].
  apply returns_bind.
  - apply ProcessFileData_ends; [done|by intros w (_ & _ & ?)|by intros w (_ & ? & _)|].
    intros f cl n Hf. by apply not_elem_of_nil in Hf.
  - intros _. apply returns_when. intros _. apply error_returns.
Qed.

Lemma process_files_ends filenames : returns sane (process_files filenames).
Proof.
  apply returns_for_each. intros f _. unfold _VerboseLevel. apply returns_bind_gets.
  intros w (_ & Hv & _). by apply ProcessFile_ends.
Qed.
End program.


(** ** Instances *)

Lemma demo_no_svn r : dirname r = r → has_entry (H := demo_env) r (u ".svn") = false.
Proof. apply (no_svn_at_roots (u "/w")). apply Forall_forall. repeat constructor. Qed.

Definition untidy_file : list str :=
  [u "R`("; u "{ ( < [ \"; u "#else"; u "template <"; u "class x { f( , &"; u "/*"].

Lemma ProcessFileData_returns_witness :
  sane init_world ∧
  ∃ w', ProcessFileData (H := demo_env) (u "a.h") (u "h") untidy_file Error [] init_world = (Ok tt, w')
    ∧ sane w'.
Proof.
  assert (Hs : sane init_world).
  { split; [repeat constructor|]. split; [vm_compute; discriminate|exact I]. }
  split; [exact Hs|].
  apply (ProcessFileData_returns (H := demo_env) sane Error (u "a.h") (u "h") untidy_file init_world).
  - exact Error_returning.
  - intros w (_ & Hv & Hr). exact (conj Hv Hr).
  - exact demo_no_svn.
  - exact Hs.
Defined.

